(** * ZKTeco machine proxy: fetch and sync engine

    A shallow embedding of [src/zkteco_machine_proxy.py]: the incremental
    fetch from an attendance terminal into the local SQLite store
    ([_fetch_data_for_machine]) and the propagation of unsynced rows to
    the remote Odoo server ([_sync_to_odoo_thread]).

    The Python code talks to three outside parties: the wall clock
    ([datetime.now()]), the terminal (pyzk) and the remote server
    (XML-RPC).  Their answers are taken from an [environment] of oracles
    indexed by a tick counter which every outside interaction advances, so
    the embedding is a deterministic, executable function of the
    environment and the store. *)

From Stdlib Require Import ZArith Lia Bool List Ascii String DecimalString.
From stdpp Require Import base tactics option list gmap strings.

Local Open Scope Z_scope.

(* ===================================================================== *)
(** ** Python's [datetime] *)
(* ===================================================================== *)

Module datetime.

(** A naive [datetime] object. *)
Record t : Type := mk {
  year : Z; month : Z; day : Z;
  hour : Z; minute : Z; second : Z; microsecond : Z
}.

Definition MINYEAR : Z := 1.
Definition MAXYEAR : Z := 9999.

Definition _is_leap (y : Z) : bool :=
  (y mod 4 =? 0) && (negb (y mod 100 =? 0) || (y mod 400 =? 0)).

Definition _days_before_year (y : Z) : Z :=
  let y := y - 1 in y * 365 + y / 4 - y / 100 + y / 400.

Definition _DAYS_IN_MONTH (m : Z) : Z :=
  match m with
  | 1 => 31 | 2 => 28 | 3 => 31 | 4 => 30 | 5 => 31 | 6 => 30
  | 7 => 31 | 8 => 31 | 9 => 30 | 10 => 31 | 11 => 30 | 12 => 31
  | _ => -1
  end.

Definition _DAYS_BEFORE_MONTH (m : Z) : Z :=
  match m with
  | 1 => 0 | 2 => 31 | 3 => 59 | 4 => 90 | 5 => 120 | 6 => 151
  | 7 => 181 | 8 => 212 | 9 => 243 | 10 => 273 | 11 => 304 | 12 => 334
  | _ => -1
  end.

Definition _days_in_month (y m : Z) : Z :=
  if (m =? 2) && _is_leap y then 29 else _DAYS_IN_MONTH m.

Definition _days_before_month (y m : Z) : Z :=
  _DAYS_BEFORE_MONTH m + (if (2 <? m) && _is_leap y then 1 else 0).

Definition _ymd2ord (y m d : Z) : Z :=
  _days_before_year y + _days_before_month y m + d.

Definition _DI400Y : Z := 146097.
Definition _DI100Y : Z := 36524.
Definition _DI4Y : Z := 1461.
Definition _MAXORDINAL : Z := 3652059.

Definition _ord2ymd (n : Z) : Z * Z * Z :=
  let n := n - 1 in
  let n400 := n / _DI400Y in
  let n := n mod _DI400Y in
  let year := n400 * 400 + 1 in
  let n100 := n / _DI100Y in
  let n := n mod _DI100Y in
  let n4 := n / _DI4Y in
  let n := n mod _DI4Y in
  let n1 := n / 365 in
  let n := n mod 365 in
  let year := year + n100 * 100 + n4 * 4 + n1 in
  if (n1 =? 4) || (n100 =? 4) then (year - 1, 12, 31)
  else
    let leapyear := (n1 =? 3) && (negb (n4 =? 24) || (n100 =? 3)) in
    let month := Z.shiftr (n + 50) 5 in
    let preceding :=
      _DAYS_BEFORE_MONTH month + (if (2 <? month) && leapyear then 1 else 0) in
    if n <? preceding then
      let month := month - 1 in
      let preceding :=
        preceding
        - (_DAYS_IN_MONTH month + (if (month =? 2) && leapyear then 1 else 0)) in
      (year, month, n - preceding + 1)
    else (year, month, n - preceding + 1).

(** The checks of the [datetime] constructor. *)
Definition validb (d : t) : bool :=
  (MINYEAR <=? year d) && (year d <=? MAXYEAR)
  && (1 <=? month d) && (month d <=? 12)
  && (1 <=? day d) && (day d <=? _days_in_month (year d) (month d))
  && (0 <=? hour d) && (hour d <? 24)
  && (0 <=? minute d) && (minute d <? 60)
  && (0 <=? second d) && (second d <? 60)
  && (0 <=? microsecond d) && (microsecond d <? 1000000).

Definition valid (d : t) : Prop := validb d = true.

(** Comparison of naive datetimes: the tuples of fields, lexicographically. *)
Definition lex (c1 c2 : comparison) : comparison :=
  match c1 with Eq => c2 | _ => c1 end.

Definition compare (a b : t) : comparison :=
  lex (year a ?= year b)
  (lex (month a ?= month b)
  (lex (day a ?= day b)
  (lex (hour a ?= hour b)
  (lex (minute a ?= minute b)
  (lex (second a ?= second b)
       (microsecond a ?= microsecond b)))))).

Definition ltb (a b : t) : bool :=
  match compare a b with Lt => true | _ => false end.
Definition leb (a b : t) : bool :=
  match compare a b with Gt => false | _ => true end.

(** [d.replace(hour=0, minute=0, second=0, microsecond=0)] *)
Definition replace_midnight (d : t) : t :=
  mk (year d) (month d) (day d) 0 0 0 0.

(** The value with its microseconds dropped: what a rendering with
    ["%S"] as its finest field keeps of [d]. *)
Definition whole_second (d : t) : t :=
  mk (year d) (month d) (day d) (hour d) (minute d) (second d) 0.

(** *** Arithmetic with [timedelta]

    The deltas of the program are whole numbers of seconds
    ([timedelta(days=n)], UTC offsets), so a [timedelta] is its total
    number of seconds. *)
Definition timedelta : Type := Z.
Definition timedelta_days (n : Z) : timedelta := n * 86400.
Definition timedelta_seconds (n : Z) : timedelta := n.

Definition toordinal (d : t) : Z := _ymd2ord (year d) (month d) (day d).

(** [d + delta]; [None] is [OverflowError]. *)
Definition add (d : t) (delta : timedelta) : option t :=
  let total :=
    toordinal d * 86400 + hour d * 3600 + minute d * 60 + second d + delta in
  let days := total / 86400 in
  let secs := total mod 86400 in
  let h := secs / 3600 in
  let rem := secs mod 3600 in
  if (0 <? days) && (days <=? _MAXORDINAL) then
    let '(y, m, dd) := _ord2ymd days in
    Some (mk y m dd h (rem / 60) (rem mod 60) (microsecond d))
  else None.

Definition sub (d : t) (delta : timedelta) : option t := add d (- delta).

(** *** Formatting and parsing *)

Inductive directive : Type :=
| pY | pm | pd | pH | pM | pS
| Lit (c : ascii).

Fixpoint parse_format (fmt : string) : list directive :=
  match fmt with
  | EmptyString => []
  | String "%" (String c rest) =>
      (match c with
       | "Y" => pY | "m" => pm | "d" => pd
       | "H" => pH | "M" => pM | "S" => pS
       | _ => Lit c
       end)%char :: parse_format rest
  | String c rest => Lit c :: parse_format rest
  end.

(** The character of a decimal digit (["0"] is character 48). *)
Definition digit (n : Z) : ascii :=
  ascii_of_N (Z.to_N (48 + n mod 10)).

Definition pad2 (n : Z) : string :=
  String (digit (n / 10)) (String (digit n) EmptyString).

Definition pad4 (n : Z) : string :=
  String (digit (n / 1000)) (String (digit (n / 100)) (pad2 n)).

Definition render (d : t) (x : directive) : string :=
  match x with
  | pY => pad4 (year d)
  | pm => pad2 (month d)
  | pd => pad2 (day d)
  | pH => pad2 (hour d)
  | pM => pad2 (minute d)
  | pS => pad2 (second d)
  | Lit c => String c EmptyString
  end.

Fixpoint render_all (d : t) (xs : list directive) : string :=
  match xs with
  | [] => EmptyString
  | x :: xs' => render d x +:+ render_all d xs'
  end.

(** [d.strftime(fmt)], every numeric field zero-padded to its width
    ([%Y] on four digits, as the C libraries of Windows and macOS render
    it; glibc leaves a year below 1000 without its leading zeros). *)
Definition strftime (d : t) (fmt : string) : string :=
  render_all d (parse_format fmt).

Definition digit_val (c : ascii) : option Z :=
  let code := Z.of_N (N_of_ascii c) in
  if (48 <=? code) && (code <=? 57) then Some (code - 48) else None.

(** White space as [\s] of [re] sees it, among the characters below 256. *)
Definition is_space (c : ascii) : bool :=
  let code := Z.of_N (N_of_ascii c) in
  ((9 <=? code) && (code <=? 13)) || ((28 <=? code) && (code <=? 32))
  || (code =? 133) || (code =? 160).

(** A character class of the regular expressions of [_strptime]: a digit
    of a range, or a blank. *)
Inductive char_class : Type :=
| D (lo hi : Z)
| Blank.

(** The alternatives that [_strptime.TimeRE] gives a directive, in its
    order: [\d\d\d\d] for [%Y], [1[0-2]|0[1-9]|[1-9]] for [%m],
    [3[0-1]|[1-2]\d|0[1-9]|[1-9]| [1-9]] for [%d], [2[0-3]|[0-1]\d|\d] for
    [%H], [[0-5]\d|\d] for [%M] and [6[0-1]|[0-5]\d|\d] for [%S]. *)
Definition alternatives (x : directive) : list (list char_class) :=
  match x with
  | pY => [[D 0 9; D 0 9; D 0 9; D 0 9]]
  | pm => [[D 1 1; D 0 2]; [D 0 0; D 1 9]; [D 1 9]]
  | pd => [[D 3 3; D 0 1]; [D 1 2; D 0 9]; [D 0 0; D 1 9]; [D 1 9];
           [Blank; D 1 9]]
  | pH => [[D 2 2; D 0 3]; [D 0 1; D 0 9]; [D 0 9]]
  | pM => [[D 0 5; D 0 9]; [D 0 9]]
  | pS => [[D 6 6; D 0 1]; [D 0 5; D 0 9]; [D 0 9]]
  | Lit _ => []
  end.

(** One alternative matched at the front of the input: the number read
    so far with the digits it matches, and what is left. *)
Fixpoint match_alternative (a : list char_class) (val : Z) (s : string)
    : option (Z * string) :=
  match a with
  | [] => Some (val, s)
  | c :: a' =>
      match s with
      | String ch r =>
          match c with
          | D lo hi =>
              match digit_val ch with
              | Some v =>
                  if (lo <=? v) && (v <=? hi)
                  then match_alternative a' (10 * val + v) r
                  else None
              | None => None
              end
          | Blank =>
              if Ascii.eqb ch " " then match_alternative a' val r else None
          end
      | EmptyString => None
      end
  end.

(** What is left of the input after each non-empty run of white space at
    its front, the longest run first ([\s+] is greedy). *)
Fixpoint after_spaces (s : string) : list string :=
  match s with
  | String c r => if is_space c then after_spaces r ++ [r] else []
  | EmptyString => []
  end.

Definition set_field (x : directive) (v : Z) (acc : t) : t :=
  match x with
  | pY => mk v (month acc) (day acc) (hour acc) (minute acc) (second acc)
             (microsecond acc)
  | pm => mk (year acc) v (day acc) (hour acc) (minute acc) (second acc)
             (microsecond acc)
  | pd => mk (year acc) (month acc) v (hour acc) (minute acc) (second acc)
             (microsecond acc)
  | pH => mk (year acc) (month acc) (day acc) v (minute acc) (second acc)
             (microsecond acc)
  | pM => mk (year acc) (month acc) (day acc) (hour acc) v (second acc)
             (microsecond acc)
  | pS => mk (year acc) (month acc) (day acc) (hour acc) (minute acc) v
             (microsecond acc)
  | Lit _ => acc
  end.

(** The ways one element of the format matches at the front of the
    input, in the order the regular expression tries them.  White space
    of the format stands for [\s+]; another character stands for itself
    (a letter would match without regard to case: the formats of the
    program have none). *)
Definition candidates (x : directive) (acc : t) (s : string)
    : list (t * string) :=
  match x with
  | Lit c =>
      if is_space c then map (pair acc) (after_spaces s)
      else match s with
           | String c' r => if Ascii.eqb c c' then [(acc, r)] else []
           | EmptyString => []
           end
  | _ =>
      flat_map (fun a =>
                  match match_alternative a 0 s with
                  | Some (v, r) => [(set_field x v acc, r)]
                  | None => []
                  end) (alternatives x)
  end.

Fixpoint first_success {A B} (f : A -> option B) (l : list A) : option B :=
  match l with
  | [] => None
  | a :: l' =>
      match f a with
      | Some b => Some b
      | None => first_success f l'
      end
  end.

(** The match of the whole format at the front of the input, found by
    backtracking as [re.match] finds it: the fields read, and the input
    left over. *)
Fixpoint match_format (xs : list directive) (acc : t) (s : string)
    : option (t * string) :=
  match xs with
  | [] => Some (acc, s)
  | x :: xs' =>
      first_success (fun c => match_format xs' (fst c) (snd c))
                    (candidates x acc s)
  end.

(** A run of white space of the format is one [\s+]. *)
Fixpoint collapse_spaces (xs : list directive) : list directive :=
  match xs with
  | Lit a :: ((Lit b :: _) as rest) =>
      if is_space a && is_space b then collapse_spaces rest
      else Lit a :: collapse_spaces rest
  | x :: rest => x :: collapse_spaces rest
  | [] => []
  end.

(** [datetime.strptime(s, fmt)]; [None] is [ValueError]: the input does
    not match the format, or something of it is left over, or the fields
    read are not those of a date and a time.  Fields absent from the
    format default to 1900-01-01 00:00:00.  As in Python, a field need
    not have its leading zero and the white space between two fields may
    be any non-empty run. *)
Definition strptime (s fmt : string) : option t :=
  match match_format (collapse_spaces (parse_format fmt))
                     (mk 1900 1 1 0 0 0 0) s with
  | Some (d, EmptyString) => if validb d then Some d else None
  | _ => None
  end.

End datetime.

(** The one timestamp format of the store and of the remote payloads. *)
Definition TS_FORMAT : string := "%Y-%m-%d %H:%M:%S".
(** The format of the timestamp inside [att_id]. *)
Definition ID_FORMAT : string := "%Y%m%d%H%M%S".

(* ===================================================================== *)
(** ** Exceptions and fallible results *)
(* ===================================================================== *)

(** The Python exceptions the modelled code can meet. *)
Inductive exn : Type :=
| ValueError              (* strptime on a malformed timestamp *)
| OverflowError           (* date arithmetic out of range *)
| IndexError
| IntegrityError          (* sqlite3: constraint failed *)
| UnknownTimeZoneError    (* pytz.timezone on an unknown name *)
| AmbiguousTimeError      (* pytz localize, is_dst=None *)
| NonExistentTimeError    (* pytz localize, is_dst=None *)
| DeviceError             (* pyzk: connection or read failure *)
| Fault.                  (* xmlrpc: transport or server fault *)

Inductive result (A : Type) : Type :=
| Ok (a : A)
| Raise (e : exn).
Arguments Ok {A} a.
Arguments Raise {A} e.

Definition of_option {A} (e : exn) (o : option A) : result A :=
  match o with Some a => Ok a | None => Raise e end.

Definition rbind {A B} (r : result A) (k : A -> result B) : result B :=
  match r with Ok a => k a | Raise e => Raise e end.

(* ===================================================================== *)
(** ** Python's built-in [int] *)
(* ===================================================================== *)

Module builtins.

(** The white space [int] strips from both ends of a text, among the
    characters below 256: the blanks of the C locale, NEL and the
    no-break space. *)
Definition is_space (c : ascii) : bool :=
  let code := Z.of_N (N_of_ascii c) in
  ((9 <=? code) && (code <=? 13)) || (code =? 32) || (code =? 133)
  || (code =? 160).

Fixpoint lstrip (s : string) : string :=
  match s with
  | String c r => if is_space c then lstrip r else s
  | EmptyString => EmptyString
  end.

Fixpoint rstrip (s : string) : string :=
  match s with
  | String c r =>
      match rstrip r with
      | EmptyString => if is_space c then EmptyString
                       else String c EmptyString
      | r' => String c r'
      end
  | EmptyString => EmptyString
  end.

(** The digits of a decimal literal, single underscores allowed between
    two digits: the value read and the number of digits. *)
Fixpoint digits (s : string) (after_digit : bool) (val count : Z)
    : option (Z * Z) :=
  match s with
  | EmptyString => if after_digit then Some (val, count) else None
  | String c r =>
      match datetime.digit_val c with
      | Some v => digits r true (10 * val + v) (count + 1)
      | None =>
          if Ascii.eqb c "_" && after_digit then digits r false val count
          else None
      end
  end.

(** [sys.get_int_max_str_digits()], as Python sets it from 3.11 on. *)
Definition int_max_str_digits : Z := 4300.

(** [int(s)] for a text [s]: white space around an optional sign and a
    decimal literal; anything else is a [ValueError], as is a literal of
    more than [int_max_str_digits] digits. *)
Definition int (s : string) : result Z :=
  let body := rstrip (lstrip s) in
  let '(negative, literal) :=
    match body with
    | String "-" r => (true, r)
    | String "+" r => (false, r)
    | _ => (false, body)
    end in
  match digits literal false 0 0 with
  | Some (v, n) =>
      if n <=? int_max_str_digits
      then Ok (if negative then - v else v)
      else Raise ValueError
  | None => Raise ValueError
  end.

End builtins.

(* ===================================================================== *)
(** ** The [pytz] calls of the sync pass

    [pytz.timezone(name)], [tz.localize(naive, is_dst=None)] and
    [aware.astimezone(pytz.utc)], after the library's [tzinfo.py].  A zone
    is either of fixed offset or a table of UTC transition instants with
    the offset that applies from each instant on. *)
(* ===================================================================== *)

Module pytz.

Record ttinfo : Type := mk_ttinfo {
  utcoffset : datetime.timedelta;
  dst : datetime.timedelta;
  tzname : string
}.

Inductive tzinfo : Type :=
| StaticTzInfo (info : ttinfo)
| DstTzInfo (_utc_transition_times : list datetime.t)
            (_transition_info : list ttinfo).

(** An aware datetime: the wall-clock fields and the offset attached. *)
Definition aware : Type := (datetime.t * ttinfo)%type.

(** [bisect.bisect_right] on the (sorted) table of transitions: the
    number of leading entries that are [<= x]. *)
Fixpoint bisect_right (a : list datetime.t) (x : datetime.t) : nat :=
  match a with
  | [] => O
  | t :: a' => if datetime.leb t x then S (bisect_right a' x) else O
  end.

(** [self._transition_info[max(0, bisect_right(times, x) - 1)]] *)
Definition info_at (times : list datetime.t) (infos : list ttinfo)
    (x : datetime.t) : result ttinfo :=
  of_option IndexError (nth_error infos (Nat.pred (bisect_right times x))).

Definition fromutc (tz : tzinfo) (u : datetime.t) : result aware :=
  match tz with
  | StaticTzInfo i =>
      rbind (of_option OverflowError (datetime.add u (utcoffset i)))
            (fun d => Ok (d, i))
  | DstTzInfo times infos =>
      rbind (info_at times infos u) (fun inf =>
      rbind (of_option OverflowError (datetime.add u (utcoffset inf)))
            (fun d => Ok (d, inf)))
  end.

Definition normalize (tz : tzinfo) (a : aware) : result aware :=
  rbind (of_option OverflowError (datetime.sub (fst a) (utcoffset (snd a))))
        (fromutc tz).

Definition dt_eqb (a b : datetime.t) : bool :=
  match datetime.compare a b with Eq => true | _ => false end.

(** One pass of the loop [for delta in [timedelta(days=-1), timedelta(days=1)]]
    of [DstTzInfo.localize]: the candidate found by looking at the offset
    in force one day before or after, if it reads back as [dt]. *)
Definition candidate (times : list datetime.t) (infos : list ttinfo)
    (dt : datetime.t) (delta : datetime.timedelta) : result (option aware) :=
  rbind (of_option OverflowError (datetime.add dt delta)) (fun loc_dt =>
  rbind (info_at times infos loc_dt) (fun inf =>
  rbind (normalize (DstTzInfo times infos) (dt, inf)) (fun loc_dt' =>
  Ok (if dt_eqb (fst loc_dt') dt then Some loc_dt' else None)))).

(** The set [possible_loc_dt]: two aware datetimes with the same wall
    clock are equal exactly when their offsets are. *)
Definition possible_loc_dt (c1 c2 : option aware) : list aware :=
  match c1, c2 with
  | None, None => []
  | Some a, None => [a]
  | None, Some b => [b]
  | Some a, Some b =>
      if utcoffset (snd a) =? utcoffset (snd b) then [a] else [a; b]
  end.

(** [tz.localize(dt, is_dst=None)] *)
Definition localize (tz : tzinfo) (dt : datetime.t) : result aware :=
  match tz with
  | StaticTzInfo i => Ok (dt, i)
  | DstTzInfo times infos =>
      rbind (candidate times infos dt (datetime.timedelta_days (-1))) (fun c1 =>
      rbind (candidate times infos dt (datetime.timedelta_days 1)) (fun c2 =>
      match possible_loc_dt c1 c2 with
      | [a] => Ok a
      | [] => Raise NonExistentTimeError
      | _ => Raise AmbiguousTimeError
      end))
  end.

(** [a.astimezone(pytz.utc)], as the naive UTC fields. *)
Definition astimezone_utc (a : aware) : result datetime.t :=
  of_option OverflowError (datetime.sub (fst a) (utcoffset (snd a))).

End pytz.

(* ===================================================================== *)
(** ** The SQLite store ([init_db]) *)
(* ===================================================================== *)

(** A row of [zkteco_machines].  The connection parameters (ip, port,
    password) only travel to the terminal; here the terminal is found by
    the machine id. *)
Record machine_row : Type := mk_machine {
  m_id : Z;
  m_name : string;
  m_odoo_machine_id : option Z;
  m_machine_timezone : option string
}.

(** The [conn_dict] a fetch is started with: the columns of the machine
    it reads.  The port is the text the operator typed. *)
Record conn_dict : Type := mk_conn_dict {
  cd_name : string;
  cd_ip : string;
  cd_port : string;
  cd_password : option string
}.

(** A row of [users]; [UNIQUE(connection_id, user_id)]. *)
Record user_row : Type := mk_user {
  u_id : Z;
  u_connection_id : Z;
  u_uid : Z;
  u_user_id : string;
  u_name : string;
  u_synched_time : option string
}.

(** A row of [attendance]; [UNIQUE(connection_id, user_id, timestamp)]. *)
Record att_row : Type := mk_att {
  a_id : Z;
  a_connection_id : Z;
  a_user_id : string;
  a_att_id : string;
  a_timestamp : string;
  a_synched_time : option string
}.

(** The texts of the audit log, one constructor per message of the code. *)
Inductive message : Type :=
| MsgFetchStart (name : string)
| MsgLastRecord (last_timestamp : datetime.t)
| MsgNoPrevious (days_back : Z)
| MsgConnecting
| MsgSyncUsers
| MsgUsersSynchronized (user_count : Z)
| MsgDownloading
| MsgFetchComplete (att_count : Z)
| MsgFetchFailed (e : exn)
| MsgSyncStart
| MsgNotConfigured
| MsgAuthFailed
| MsgAuthOk
| MsgNoNewUsers
| MsgFoundUsers (total : Z)
| MsgSkipUser (user_id : string)
| MsgUsersSoFar (synced total : Z)
| MsgUserCreateFailed (user_id : string) (e : exn)
| MsgUsersDone (synced : Z)
| MsgNoNewAttendance
| MsgFoundAttendance (total : Z)
| MsgSkipAttendance (user_id : string)
| MsgTimezoneFailed (tz : string) (e : exn)
| MsgAttendanceSoFar (synced total : Z)
| MsgBatchFailed (e : exn)
| MsgFinalBatchFailed (e : exn)
| MsgAttendanceDone (synced : Z)
| MsgSyncFinished
| MsgSyncFailed (e : exn).

(** A row of [logs]. *)
Record log_row : Type := mk_log {
  l_connection_id : option Z;
  l_timestamp : string;
  l_operation : string;
  l_message : message
}.

(** The conflict clause of an [INSERT]. *)
Inductive on_conflict : Type := ABORT | IGNORE | REPLACE.

Definition same_user_key (conn : Z) (user_id : string) (r : user_row) : bool :=
  (u_connection_id r =? conn) && String.eqb (u_user_id r) user_id.

Definition same_att_key (conn : Z) (user_id ts : string) (r : att_row) : bool :=
  (a_connection_id r =? conn) && String.eqb (a_user_id r) user_id
  && String.eqb (a_timestamp r) ts.

(** The comparison of two TEXT values: byte-wise, as Python compares
    [str] and SQLite compares TEXT under the BINARY collation. *)
Definition str_ltb (a b : string) : bool := String.ltb a b.

Definition str_max (a b : string) : string := if str_ltb a b then b else a.

(** The aggregate [MAX] over TEXT values; [None] is NULL. *)
Definition sql_max (xs : list string) : option string :=
  match xs with
  | [] => None
  | x :: xs' => Some (fold_left str_max xs' x)
  end.

(** Python truthiness of an id ([None] and [0] are false). *)
Definition truthy_id (o : option Z) : bool :=
  match o with Some z => negb (z =? 0) | None => false end.

(** Python truthiness of a string or [None]. *)
Definition truthy_str (o : option string) : bool :=
  match o with Some s => negb (String.eqb s EmptyString) | None => false end.

(* ===================================================================== *)
(** ** The outside world *)
(* ===================================================================== *)

Record zk_user : Type := mk_zk_user {
  zu_uid : Z;
  zu_user_id : string;
  zu_name : string
}.

Record zk_attendance : Type := mk_zk_att {
  za_user_id : string;
  za_timestamp : datetime.t
}.

(** What a terminal does when connected to: how far the session gets
    and what it delivers. *)
Inductive device_response : Type :=
| ConnectFails
| GetUsersFails
| GetAttendanceFails (users : list zk_user)
| Delivers (users : list zk_user) (attendance : list zk_attendance).

Record user_payload : Type := mk_user_payload {
  up_uid : Z;
  up_user_id : string;
  up_name : string;
  up_machine_id : Z
}.

Record att_payload : Type := mk_att_payload {
  ap_user_id : string;
  ap_timestamp : string;
  ap_machine_id : Z;
  ap_att_id : string
}.

(** The calls made to the remote server, with their outcome. *)
Inductive rpc_event : Type :=
| RpcAuthenticate
| RpcCreateUser (p : user_payload) (ok : bool)
| RpcSearchRead (user_id : string) (machine_id : Z) (ok : bool)
| RpcCreateAttendance (batch : list att_payload) (ok : bool).

(** The oracles.  The first argument of each is the tick at which the
    call is made. *)
Record environment : Type := mk_env {
  (** [datetime.now()] *)
  clock : nat -> datetime.t;
  (** the terminal of a machine *)
  device : nat -> Z -> device_response;
  (** [common.authenticate(db, username, password, {})]: the uid, or a
      false value *)
  authenticate : nat -> result (option Z);
  (** [create] on [azk.machine.proxy.users]; [false] is a fault *)
  create_user : nat -> user_payload -> bool;
  (** [search_read] on [azk.machine.proxy.attendance] with the domain
      [user_id = u, machine_id = m], fields [timestamp], order
      [timestamp desc], limit 1: the [timestamp] value of each record
      returned ([None] for a false value) *)
  search_read : nat -> string -> Z -> result (list (option string));
  (** [create] on [azk.machine.proxy.attendance]; [false] is a fault *)
  create_attendance : nat -> list att_payload -> bool;
  (** [pytz.timezone(name)]; [None] is [UnknownTimeZoneError] *)
  timezone : string -> option pytz.tzinfo;
  (** [zk.disconnect()] on the terminal of a machine; [false] is an
      exception of pyzk *)
  disconnect : nat -> Z -> bool
}.

(** The state the program reads and writes: the tables, the in-memory
    settings of the application, and the trace of remote calls. *)
Record world : Type := mk_world {
  tick : nat;
  machines : list machine_row;
  users : list user_row;
  users_seq : Z;
  attendance : list att_row;
  attendance_seq : Z;
  logs : list log_row;
  settings : gmap string Z;
  odoo_details : gmap string string;
  rpc : list rpc_event
}.

Definition set_tick (f : nat -> nat) (w : world) : world :=
  mk_world (f (tick w)) (machines w) (users w) (users_seq w) (attendance w)
           (attendance_seq w) (logs w) (settings w) (odoo_details w) (rpc w).

Definition set_users (us : list user_row) (seq : Z) (w : world) : world :=
  mk_world (tick w) (machines w) us seq (attendance w)
           (attendance_seq w) (logs w) (settings w) (odoo_details w) (rpc w).

Definition set_attendance (rows : list att_row) (seq : Z) (w : world) : world :=
  mk_world (tick w) (machines w) (users w) (users_seq w) rows
           seq (logs w) (settings w) (odoo_details w) (rpc w).

Definition set_logs (ls : list log_row) (w : world) : world :=
  mk_world (tick w) (machines w) (users w) (users_seq w) (attendance w)
           (attendance_seq w) ls (settings w) (odoo_details w) (rpc w).

Definition set_rpc (r : list rpc_event) (w : world) : world :=
  mk_world (tick w) (machines w) (users w) (users_seq w) (attendance w)
           (attendance_seq w) (logs w) (settings w) (odoo_details w) r.

(* ===================================================================== *)
(** ** State and exceptions *)
(* ===================================================================== *)

Definition M (A : Type) : Type := world -> world * result A.

Definition ret {A} (a : A) : M A := fun w => (w, Ok a).

Definition raise {A} (e : exn) : M A := fun w => (w, Raise e).

Definition bind {A B} (m : M A) (k : A -> M B) : M B :=
  fun w =>
    match m w with
    | (w', Ok a) => k a w'
    | (w', Raise e) => (w', Raise e)
    end.

(** [try: body except Exception as e: handler(e)]; the effects of the
    body up to the exception stay. *)
Definition try_except {A} (body : M A) (handler : exn -> M A) : M A :=
  fun w =>
    match body w with
    | (w', Raise e) => handler e w'
    | r => r
    end.

Definition lift {A} (r : result A) : M A := fun w => (w, r).

Definition get {A} (f : world -> A) : M A := fun w => (w, Ok (f w)).

Definition modify (f : world -> world) : M unit := fun w => (f w, Ok tt).

Declare Scope proxy_scope.
Delimit Scope proxy_scope with proxy.
Notation "x <- c1 ;; c2" := (bind c1 (fun x => c2))
  (at level 100, c1 at next level, right associativity) : proxy_scope.
Notation "c1 ;;; c2" := (bind c1 (fun _ => c2))
  (at level 100, right associativity) : proxy_scope.
Local Open Scope proxy_scope.

(** [for x in xs: s = body(x, s)]; an exception leaves the loop. *)
Fixpoint for_each {A S} (xs : list A) (body : A -> S -> M S) (s : S) : M S :=
  match xs with
  | [] => ret s
  | x :: xs' => s' <- body x s ;; for_each xs' body s'
  end.

(** One interaction with the outside: the tick it happens at. *)
Definition next_tick : M nat :=
  fun w => (set_tick S w, Ok (tick w)).

(* ===================================================================== *)
(** ** The program *)
(* ===================================================================== *)

(** What one fetch did: the locals [date_from], [now] and
    [new_attendance_records], and the counts shown to the operator; or
    the exception caught by the handler of the fetch. *)
Inductive fetch_report : Type :=
| FetchDone (date_from now : datetime.t)
            (new_attendance_records : list zk_attendance)
            (user_count att_count : Z)
| FetchFailed (date_from : datetime.t) (e : exn).

(** A row of the join of [attendance] with [zkteco_machines]. *)
Record att_join : Type := mk_att_join {
  aj_row : att_row;
  aj_odoo_machine_id : option Z;
  aj_machine_timezone : option string
}.

Record user_join : Type := mk_user_join {
  uj_row : user_row;
  uj_odoo_machine_id : option Z
}.

(** The locals of the attendance loop of the sync pass. *)
Record sync_state : Type := mk_sync_state {
  payload_batch : list att_payload;
  record_id_batch : list Z;
  synced_count : Z;
  last_user_attendance : gmap string (option string)
}.

Definition len {A} (l : list A) : Z := Z.of_nat (List.length l).

Definition str_of_Z (z : Z) : string :=
  DecimalString.NilEmpty.string_of_int (Z.to_int z).

Section Program.

Variable E : environment.

Definition datetime_now : M datetime.t :=
  t <- next_tick ;; ret (clock E t).

Definition log_operation (operation : string) (msg : message)
    (conn_id : option Z) : M unit :=
  now <- datetime_now ;;
  modify (fun w =>
    set_logs (logs w ++ [mk_log conn_id (datetime.strftime now TS_FORMAT)
                                operation msg]) w).

(** *** The statements run through [db_execute] *)

(** [SELECT MAX(timestamp) as last_ts FROM attendance WHERE connection_id = ?] *)
Definition select_max_timestamp (conn_id : Z) : M (option string) :=
  get (fun w =>
    sql_max (map a_timestamp
      (List.filter (fun r => a_connection_id r =? conn_id) (attendance w)))).

(** [(SELECT synched_time FROM users WHERE connection_id=? AND user_id=?)] *)
Definition select_user_synched_time (conn_id : Z) (user_id : string)
    (us : list user_row) : option string :=
  match List.find (same_user_key conn_id user_id) us with
  | Some r => u_synched_time r
  | None => None
  end.

(** [INSERT <mode> INTO users (connection_id, uid, user_id, name,
    synched_time) VALUES (?, ?, ?, ?, synched)] under
    [UNIQUE(connection_id, user_id)] and an AUTOINCREMENT id.  The id is
    drawn before the key is checked: a statement that is ignored has
    used it up, one that is aborted is rolled back. *)
Definition insert_user (mode : on_conflict) (conn_id uid : Z)
    (user_id name : string) (synched : option string) : M unit :=
  fun w =>
    let id := users_seq w + 1 in
    let row := mk_user id conn_id uid user_id name synched in
    if existsb (same_user_key conn_id user_id) (users w) then
      match mode with
      | ABORT => (w, Raise IntegrityError)
      | IGNORE => (set_users (users w) id w, Ok tt)
      | REPLACE =>
          (set_users
             (List.filter (fun r => negb (same_user_key conn_id user_id r))
                          (users w) ++ [row]) id w, Ok tt)
      end
    else (set_users (users w ++ [row]) id w, Ok tt).

(** [INSERT <mode> INTO attendance (connection_id, user_id, att_id,
    timestamp) VALUES (?, ?, ?, ?)] under
    [UNIQUE(connection_id, user_id, timestamp)] and an AUTOINCREMENT id,
    drawn as for [users]: an ignored row leaves a gap in the ids. *)
Definition insert_attendance (mode : on_conflict) (conn_id : Z)
    (user_id att_id ts : string) : M unit :=
  fun w =>
    let id := attendance_seq w + 1 in
    let row := mk_att id conn_id user_id att_id ts None in
    if existsb (same_att_key conn_id user_id ts) (attendance w) then
      match mode with
      | ABORT => (w, Raise IntegrityError)
      | IGNORE => (set_attendance (attendance w) id w, Ok tt)
      | REPLACE =>
          (set_attendance
             (List.filter (fun r => negb (same_att_key conn_id user_id ts r))
                          (attendance w) ++ [row]) id w, Ok tt)
      end
    else (set_attendance (attendance w ++ [row]) id w, Ok tt).

Definition mark_att (now_str : string) (ids : list Z) (r : att_row) : att_row :=
  if existsb (Z.eqb (a_id r)) ids
  then mk_att (a_id r) (a_connection_id r) (a_user_id r) (a_att_id r)
              (a_timestamp r) (Some now_str)
  else r.

(** [UPDATE attendance SET synched_time = ? WHERE id IN (...)] *)
Definition update_attendance_synched (now_str : string) (ids : list Z) : M unit :=
  modify (fun w =>
    set_attendance (map (mark_att now_str ids) (attendance w))
                   (attendance_seq w) w).

Definition mark_user (now_str : string) (id : Z) (r : user_row) : user_row :=
  if u_id r =? id
  then mk_user (u_id r) (u_connection_id r) (u_uid r) (u_user_id r)
               (u_name r) (Some now_str)
  else r.

(** [UPDATE users SET synched_time = ? WHERE id = ?] *)
Definition update_user_synched (now_str : string) (id : Z) : M unit :=
  modify (fun w =>
    set_users (map (mark_user now_str id) (users w)) (users_seq w) w).

Definition machines_of (conn_id : Z) (w : world) : list machine_row :=
  List.filter (fun m => m_id m =? conn_id) (machines w).

(** [SELECT u.*, m.odoo_machine_id FROM users u JOIN zkteco_machines m
    ON u.connection_id = m.id WHERE u.synched_time IS NULL].  The rows
    come in table order; SQL itself promises no order. *)
Definition select_unsynced_users : M (list user_join) :=
  get (fun w =>
    flat_map (fun u =>
      match u_synched_time u with
      | Some _ => []
      | None => map (fun m => mk_user_join u (m_odoo_machine_id m))
                    (machines_of (u_connection_id u) w)
      end) (users w)).

(** [SELECT a.*, m.odoo_machine_id, m.machine_timezone FROM attendance a
    JOIN zkteco_machines m ON a.connection_id = m.id
    WHERE a.synched_time IS NULL] *)
Definition select_unsynced_attendance : M (list att_join) :=
  get (fun w =>
    flat_map (fun a =>
      match a_synched_time a with
      | Some _ => []
      | None => map (fun m => mk_att_join a (m_odoo_machine_id m)
                                          (m_machine_timezone m))
                    (machines_of (a_connection_id a) w)
      end) (attendance w)).

(** *** The terminal (pyzk) *)

Definition zk_connect (conn_id : Z) : M device_response :=
  t <- next_tick ;;
  match device E t conn_id with
  | ConnectFails => raise DeviceError
  | r => ret r
  end.

Definition get_users (conn : device_response) : M (list zk_user) :=
  _ <- next_tick ;;
  match conn with
  | GetAttendanceFails us | Delivers us _ => ret us
  | _ => raise DeviceError
  end.

Definition get_attendance (conn : device_response) : M (list zk_attendance) :=
  _ <- next_tick ;;
  match conn with
  | Delivers _ atts => ret atts
  | _ => raise DeviceError
  end.

(** [zk.disconnect()] *)
Definition zk_disconnect (conn_id : Z) : M unit :=
  t <- next_tick ;;
  if disconnect E t conn_id then ret tt else raise DeviceError.

(** *** Fetch *)

Definition user_query (conn_id : Z) (user : zk_user) : M unit :=
  synched <- get (fun w =>
    select_user_synched_time conn_id (zu_user_id user) (users w)) ;;
  insert_user REPLACE conn_id (zu_uid user) (zu_user_id user) (zu_name user)
              synched.

Definition att_query (conn_id : Z) (att : zk_attendance) : M unit :=
  let att_id :=
    str_of_Z conn_id +:+ "-" +:+ za_user_id att +:+ "-"
    +:+ datetime.strftime (za_timestamp att) ID_FORMAT in
  let timestamp_str := datetime.strftime (za_timestamp att) TS_FORMAT in
  insert_attendance IGNORE conn_id (za_user_id att) att_id timestamp_str.

(** [att.timestamp > date_from and att.timestamp <= now] *)
Definition is_new (date_from now : datetime.t) (att : zk_attendance) : bool :=
  datetime.ltb date_from (za_timestamp att)
  && datetime.leb (za_timestamp att) now.

Definition lookback_date_from (conn_id : Z) : M datetime.t :=
  days_back <- get (fun w => default 31 (settings w !! "days_back"%string)) ;;
  now <- datetime_now ;;
  d <- lift (of_option OverflowError
               (datetime.sub now (datetime.timedelta_days days_back))) ;;
  log_operation "Fetch Data" (MsgNoPrevious days_back) (Some conn_id) ;;;
  ret d.

Definition fetch_date_from (conn_id : Z) : M datetime.t :=
  last_ts <- select_max_timestamp conn_id ;;
  date_from <-
    (if truthy_str last_ts then
       last_timestamp <-
         lift (of_option ValueError
                 (datetime.strptime (default EmptyString last_ts) TS_FORMAT)) ;;
       log_operation "Fetch Data" (MsgLastRecord last_timestamp)
                     (Some conn_id) ;;;
       ret last_timestamp
     else lookback_date_from conn_id) ;;
  (* always pull one full day *)
  ret (datetime.replace_midnight date_from).

(** [except Exception as e:] of the fetch *)
Definition fetch_failed (conn_id : Z) (date_from : datetime.t) (e : exn)
    : M fetch_report :=
  log_operation "Error" (MsgFetchFailed e) (Some conn_id) ;;;
  ret (FetchFailed date_from e).

(** [try: body finally: cleanup]: the cleanup runs on every path, and an
    exception of its own replaces the outcome of the body. *)
Definition try_finally {A} (body : M A) (cleanup : M unit) : M A :=
  fun w =>
    let '(w1, r) := body w in
    match cleanup w1 with
    | (w2, Ok _) => (w2, r)
    | (w2, Raise e) => (w2, Raise e)
    end.

(** The statement [try: ... except Exception as e: ... finally: if zk
    and zk.is_connect: zk.disconnect()] is written in two steps, since
    [zk.is_connect] holds exactly from the return of [zk.connect()] on.
    Up to the connection a failure is handled and there is nothing to
    disconnect ([zk] is [None] when [int] refuses the port, and not
    connected when [connect] fails).  From the connection on, the session
    is closed on every path, after the handler when the body fails; an
    exception of [zk.disconnect()] is handled by nothing and leaves the
    fetch. *)
Definition _fetch_data_for_machine (conn_id : Z) (conn_dict : conn_dict)
    : M fetch_report :=
  log_operation "Fetch Data" (MsgFetchStart (cd_name conn_dict))
                (Some conn_id) ;;;
  date_from <- fetch_date_from conn_id ;;
  session <-
    try_except
      ((* zk = ZK(ip, port=int(conn_dict['port']), password=..., timeout=15) *)
       _ <- lift (builtins.int (cd_port conn_dict)) ;;
       log_operation "Fetch Data" MsgConnecting (Some conn_id) ;;;
       conn <- zk_connect conn_id ;;
       ret (inl conn))
      (fun e => report <- fetch_failed conn_id date_from e ;; ret (inr report)) ;;
  match session with
  | inr report => ret report
  | inl conn =>
      try_finally
        (try_except
           (log_operation "Fetch Data" MsgSyncUsers (Some conn_id) ;;;
            users <- get_users conn ;;
            user_count <-
              for_each users
                (fun user n => user_query conn_id user ;;; ret (n + 1)) 0 ;;
            log_operation "Fetch Data" (MsgUsersSynchronized user_count)
                          (Some conn_id) ;;;
            log_operation "Fetch Data" MsgDownloading (Some conn_id) ;;;
            all_device_attendance <- get_attendance conn ;;
            now <- datetime_now ;;
            let new_attendance_records :=
              List.filter (is_new date_from now) all_device_attendance in
            att_count <-
              for_each new_attendance_records
                (fun att n => att_query conn_id att ;;; ret (n + 1)) 0 ;;
            log_operation "Success" (MsgFetchComplete att_count)
                          (Some conn_id) ;;;
            ret (FetchDone date_from now new_attendance_records
                           user_count att_count))
           (fetch_failed conn_id date_from))
        (zk_disconnect conn_id)
  end.

(** *** Sync *)

Definition record_rpc (ev : rpc_event) : M unit :=
  modify (fun w => set_rpc (rpc w ++ [ev]) w).

(** [models.execute_kw(..., 'azk.machine.proxy.users', 'create', [p])] *)
Definition rpc_create_user (p : user_payload) : M unit :=
  t <- next_tick ;;
  let ok := create_user E t p in
  record_rpc (RpcCreateUser p ok) ;;;
  if ok then ret tt else raise Fault.

(** [models.execute_kw(..., 'azk.machine.proxy.attendance', 'search_read',
    [[('user_id', '=', u), ('machine_id', '=', m)]],
    {'fields': ['timestamp'], 'order': 'timestamp desc', 'limit': 1})] *)
Definition rpc_search_read (user_id : string) (machine_id : Z)
    : M (list (option string)) :=
  t <- next_tick ;;
  match search_read E t user_id machine_id with
  | Ok records =>
      record_rpc (RpcSearchRead user_id machine_id true) ;;; ret records
  | Raise e =>
      record_rpc (RpcSearchRead user_id machine_id false) ;;; raise e
  end.

(** [models.execute_kw(..., 'azk.machine.proxy.attendance', 'create',
    [payload_batch])] *)
Definition rpc_create_attendance (batch : list att_payload) : M unit :=
  t <- next_tick ;;
  let ok := create_attendance E t batch in
  record_rpc (RpcCreateAttendance batch ok) ;;;
  if ok then ret tt else raise Fault.

Definition sync_one_user (total_users : Z) (user : user_join)
    (synced_count : Z) : M Z :=
  if negb (truthy_id (uj_odoo_machine_id user)) then
    log_operation "Odoo Sync" (MsgSkipUser (u_user_id (uj_row user)))
                  (Some (u_connection_id (uj_row user))) ;;;
    ret synced_count
  else
    let user_payload :=
      mk_user_payload (u_uid (uj_row user)) (u_user_id (uj_row user))
                      (u_name (uj_row user))
                      (default 0 (uj_odoo_machine_id user)) in
    try_except
      (rpc_create_user user_payload ;;;
       now <- datetime_now ;;
       update_user_synched (datetime.strftime now TS_FORMAT)
                           (u_id (uj_row user)) ;;;
       let synced_count := synced_count + 1 in
       (if synced_count mod 50 =? 0
        then log_operation "Odoo Sync"
               (MsgUsersSoFar synced_count total_users) None
        else ret tt) ;;;
       ret synced_count)
      (fun e =>
         log_operation "Error"
           (MsgUserCreateFailed (u_user_id (uj_row user)) e)
           (Some (u_connection_id (uj_row user))) ;;;
         ret synced_count).

Definition sync_users : M unit :=
  unsynced_users <- select_unsynced_users ;;
  match unsynced_users with
  | [] => log_operation "Odoo Sync" MsgNoNewUsers None
  | _ =>
      let total_users := len unsynced_users in
      log_operation "Odoo Sync" (MsgFoundUsers total_users) None ;;;
      synced_count <-
        for_each unsynced_users (sync_one_user total_users) 0 ;;
      log_operation "Odoo Sync" (MsgUsersDone synced_count) None
  end.

(** The conversion of a stored naive timestamp to UTC: the body of the
    [try] around the pytz calls. *)
Definition to_utc_string (tzname ts : string) : result string :=
  rbind (of_option UnknownTimeZoneError (timezone E tzname)) (fun local_tz =>
  rbind (of_option ValueError (datetime.strptime ts TS_FORMAT)) (fun naive_timestamp =>
  rbind (pytz.localize local_tz naive_timestamp) (fun local_dt =>
  rbind (pytz.astimezone_utc local_dt) (fun utc_dt =>
  Ok (datetime.strftime utc_dt TS_FORMAT))))).

Definition timestamp_to_send (att : att_join) : M string :=
  let ts := a_timestamp (aj_row att) in
  if truthy_str (aj_machine_timezone att) then
    let tz := default EmptyString (aj_machine_timezone att) in
    try_except
      (lift (to_utc_string tz ts))
      (fun e =>
         log_operation "Error" (MsgTimezoneFailed tz e)
                       (Some (a_connection_id (aj_row att))) ;;;
         ret ts)
  else ret ts.

(** The lazy filling of the cache [last_user_attendance]. *)
Definition remember_last (att : att_join)
    (cache : gmap string (option string)) : M (gmap string (option string)) :=
  let user_id := a_user_id (aj_row att) in
  match cache !! user_id with
  | Some _ => ret cache
  | None =>
      records <-
        rpc_search_read user_id (default 0 (aj_odoo_machine_id att)) ;;
      match records with
      | r :: _ => ret (<[user_id := r]> cache)
      | [] => ret (<[user_id := None]> cache)
      end
  end.

(** [not last or last < timestamp_to_send] *)
Definition not_yet_remote (last : option string) (ts : string) : bool :=
  negb (truthy_str last) || str_ltb (default EmptyString last) ts.

(** The loop body up to [record_id_batch.append(att['id'])]. *)
Definition accumulate (att : att_join) (st : sync_state) : M sync_state :=
  ts <- timestamp_to_send att ;;
  cache <- remember_last att (last_user_attendance st) ;;
  let last := default None (cache !! a_user_id (aj_row att)) in
  let payload :=
    mk_att_payload (a_user_id (aj_row att)) ts
                   (default 0 (aj_odoo_machine_id att))
                   (a_att_id (aj_row att)) in
  ret (mk_sync_state
         (if not_yet_remote last ts
          then payload_batch st ++ [payload] else payload_batch st)
         (record_id_batch st ++ [a_id (aj_row att)])
         (synced_count st)
         cache).

(** The body of the [try] of a batch: the create call when there is a
    payload, then the one watermark update.  Returns [now_str]. *)
Definition send_batch (st : sync_state) : M string :=
  (match payload_batch st with
   | [] => ret tt
   | _ => rpc_create_attendance (payload_batch st)
   end) ;;;
  now <- datetime_now ;;
  let now_str := datetime.strftime now TS_FORMAT in
  update_attendance_synched now_str (record_id_batch st) ;;;
  ret now_str.

(** [if len(record_id_batch) >= batch_size: try: ... except ...] *)
Definition flush_batch (total_att : Z) (st : sync_state) : M sync_state :=
  try_except
    (send_batch st ;;;
     let synced_count := synced_count st + len (payload_batch st) in
     log_operation "Odoo Sync" (MsgAttendanceSoFar synced_count total_att)
                   None ;;;
     ret (mk_sync_state [] [] synced_count (last_user_attendance st)))
    (fun e =>
       log_operation "Error" (MsgBatchFailed e) None ;;;
       ret st).

(** [if record_id_batch: try: ... except ...] after the loop. *)
Definition flush_final (st : sync_state) : M sync_state :=
  match record_id_batch st with
  | [] => ret st
  | _ =>
      try_except
        (send_batch st ;;;
         ret (mk_sync_state (payload_batch st) (record_id_batch st)
                (synced_count st + len (payload_batch st))
                (last_user_attendance st)))
        (fun e =>
           log_operation "Error" (MsgFinalBatchFailed e) None ;;;
           ret st)
  end.

(** The body of [for att in unsynced_attendance]. *)
Definition sync_one_attendance (batch_size total_att : Z) (att : att_join)
    (st : sync_state) : M sync_state :=
  if negb (truthy_id (aj_odoo_machine_id att)) then
    log_operation "Odoo Sync" (MsgSkipAttendance (a_user_id (aj_row att)))
                  (Some (a_connection_id (aj_row att))) ;;;
    ret st
  else
    st' <- accumulate att st ;;
    if batch_size <=? len (record_id_batch st')
    then flush_batch total_att st'
    else ret st'.

Definition empty_sync_state : sync_state := mk_sync_state [] [] 0 ∅.

(** The loop over the selected rows and the last batch. *)
Definition sync_rows (batch_size : Z) (unsynced_attendance : list att_join)
    : M sync_state :=
  let total_att := len unsynced_attendance in
  st <- for_each unsynced_attendance
          (sync_one_attendance batch_size total_att) empty_sync_state ;;
  flush_final st.

Definition sync_attendance (batch_size : Z) : M unit :=
  unsynced_attendance <- select_unsynced_attendance ;;
  match unsynced_attendance with
  | [] => log_operation "Odoo Sync" MsgNoNewAttendance None
  | _ =>
      log_operation "Odoo Sync" (MsgFoundAttendance (len unsynced_attendance))
                    None ;;;
      st <- sync_rows batch_size unsynced_attendance ;;
      log_operation "Odoo Sync" (MsgAttendanceDone (synced_count st)) None
  end.

Definition configured (details : gmap string string) : bool :=
  forallb (fun k => truthy_str (details !! k))
          ["url"; "db"; "username"; "password"]%string.

Definition rpc_authenticate : M (option Z) :=
  t <- next_tick ;;
  record_rpc RpcAuthenticate ;;;
  lift (authenticate E t).

(** The body of the outer [try] of [_sync_to_odoo_thread]. *)
Definition sync_pass : M unit :=
  uid <- rpc_authenticate ;;
  if negb (truthy_id uid) then
    log_operation "Error" MsgAuthFailed None
  else
    log_operation "Odoo Sync" MsgAuthOk None ;;;
    batch_size <- get (fun w =>
      default 1000 (settings w !! "batch_size"%string)) ;;
    sync_users ;;;
    sync_attendance batch_size ;;;
    log_operation "Success" MsgSyncFinished None.

Definition _sync_to_odoo_thread : M unit :=
  log_operation "Odoo Sync" MsgSyncStart None ;;;
  details <- get odoo_details ;;
  if negb (configured details) then
    log_operation "Error" MsgNotConfigured None
  else
    try_except sync_pass
      (fun e => log_operation "Error" (MsgSyncFailed e) None).

End Program.

(* ===================================================================== *)
(** ** Vocabulary of the statements *)
(* ===================================================================== *)

(** The world after one line of the audit log. *)
Definition logged (E : environment) (operation : string) (msg : message)
    (conn_id : option Z) (w : world) : world :=
  set_logs (logs w ++ [mk_log conn_id
              (datetime.strftime (clock E (tick w)) TS_FORMAT) operation msg])
           (set_tick S w).

(** The timestamp [timestamp_to_send] computes for a row. *)
Definition computed_timestamp (E : environment) (att : att_join) : string :=
  let ts := a_timestamp (aj_row att) in
  if truthy_str (aj_machine_timezone att) then
    match to_utc_string E (default EmptyString (aj_machine_timezone att)) ts with
    | Ok s => s
    | Raise _ => ts
    end
  else ts.

(** The payload built for a row. *)
Definition payload_of (E : environment) (att : att_join) : att_payload :=
  mk_att_payload (a_user_id (aj_row att)) (computed_timestamp E att)
                 (default 0 (aj_odoo_machine_id att)) (a_att_id (aj_row att)).

(** A remote-latest timestamp is cached and [ts] is not strictly greater. *)
Definition already_remote (last : option string) (ts : string) : bool :=
  match last with
  | Some l => negb (String.eqb l EmptyString) && negb (str_ltb l ts)
  | None => false
  end.

(** Every row whose id is in [ids] carries the watermark [now_str]. *)
Definition synced_with (now_str : string) (ids : list Z)
    (rows : list att_row) : Prop :=
  forall r, In r rows -> In (a_id r) ids -> a_synched_time r = Some now_str.

(** The create calls of a trace, in order, with their outcome. *)
Definition create_calls (trace : list rpc_event)
    : list (list att_payload * bool) :=
  flat_map (fun ev =>
    match ev with
    | RpcCreateAttendance b ok => [(b, ok)]
    | _ => []
    end) trace.

(** Some payload of a failed create call is carried again by a later
    create call of the same trace. *)
Definition resent_in_same_pass (trace : list rpc_event) : Prop :=
  exists pre b1 mid b2 ok post p,
    create_calls trace = pre ++ (b1, false) :: mid ++ (b2, ok) :: post
    /\ In p b1 /\ In p b2.

(** The row with this [att_id] is carried by some create call. *)
Definition sent_in_pass (att_id : string) (trace : list rpc_event) : Prop :=
  exists b ok p,
    In (b, ok) (create_calls trace) /\ In p b /\ ap_att_id p = att_id.

(** The remote read for this user and machine was made. *)
Definition looked_up (user_id : string) (machine_id : Z)
    (trace : list rpc_event) : Prop :=
  exists ok, In (RpcSearchRead user_id machine_id ok) trace.

Definition linked (att : att_join) : Prop :=
  truthy_id (aj_odoo_machine_id att) = true.

(** *** Worlds along the sync pass *)

Definition after_create (st : sync_state) (ok : bool) (w : world) : world :=
  set_rpc (rpc w ++ [RpcCreateAttendance (payload_batch st) ok]) (set_tick S w).

Definition after_mark (E : environment) (st : sync_state) (w : world) : world :=
  set_attendance
    (map (mark_att (datetime.strftime (clock E (tick w)) TS_FORMAT)
                   (record_id_batch st)) (attendance w))
    (attendance_seq w) (set_tick S w).

Definition after_timestamp (E : environment) (att : att_join) (w : world)
    : world :=
  if truthy_str (aj_machine_timezone att) then
    match to_utc_string E (default EmptyString (aj_machine_timezone att))
                        (a_timestamp (aj_row att)) with
    | Ok _ => w
    | Raise e =>
        logged E "Error"
          (MsgTimezoneFailed (default EmptyString (aj_machine_timezone att)) e)
          (Some (a_connection_id (aj_row att))) w
    end
  else w.

Definition hd_timestamp (records : list (option string)) : option string :=
  match records with r :: _ => r | [] => None end.

Definition after_search (user_id : string) (machine_id : Z) (ok : bool)
    (w : world) : world :=
  set_rpc (rpc w ++ [RpcSearchRead user_id machine_id ok]) (set_tick S w).

(** The state [accumulate] leaves, given the cache after the lookup. *)
Definition accumulated (E : environment) (att : att_join) (st : sync_state)
    (cache : gmap string (option string)) : sync_state :=
  mk_sync_state
    (if already_remote (default None (cache !! a_user_id (aj_row att)))
                       (computed_timestamp E att)
     then payload_batch st else payload_batch st ++ [payload_of E att])
    (record_id_batch st ++ [a_id (aj_row att)])
    (synced_count st) cache.

(** *** The calendar *)

Module calendar.
Import datetime.

Definition month_day (leap : bool) (n : Z) : Z * Z :=
  let month := Z.shiftr (n + 50) 5 in
  let preceding :=
    _DAYS_BEFORE_MONTH month + (if (2 <? month) && leap then 1 else 0) in
  if n <? preceding then
    let month := month - 1 in
    let preceding :=
      preceding
      - (_DAYS_IN_MONTH month + (if (month =? 2) && leap then 1 else 0)) in
    (month, n - preceding + 1)
  else (month, n - preceding + 1).

Definition month_day_okb (leap : bool) (n : Z) : bool :=
  let '(m, d) := month_day leap n in
  (1 <=? m) && (m <=? 12) && (1 <=? d)
  && (d <=? _DAYS_IN_MONTH m + (if (m =? 2) && leap then 1 else 0))
  && (_DAYS_BEFORE_MONTH m + (if (2 <? m) && leap then 1 else 0) + d =? n + 1).

(** The date triples in calendar order. *)
Definition date_lt (a b : Z * Z * Z) : Prop :=
  let '(y, m, d) := a in
  let '(y', m', d') := b in
  y < y' \/ (y = y' /\ (m < m' \/ (m = m' /\ d < d'))).

Definition valid_date (a : Z * Z * Z) : Prop :=
  let '(y, m, d) := a in
  1 <= y <= 9999 /\ 1 <= m <= 12 /\ 1 <= d <= _days_in_month y m.

Definition ord (a : Z * Z * Z) : Z := let '(y, m, d) := a in _ymd2ord y m d.

Definition date_of (d : t) : Z * Z * Z := (year d, month d, day d).

Definition seconds (d : t) : Z :=
  toordinal d * 86400 + hour d * 3600 + minute d * 60 + second d.

End calendar.

(** *** Tables *)

(** The unique key of an attendance row. *)
Definition att_key (r : att_row) : Z * string * string :=
  (a_connection_id r, a_user_id r, a_timestamp r).

(** The key under which a device event of a machine is stored. *)
Definition event_key (conn_id : Z) (a : zk_attendance) : Z * string * string :=
  (conn_id, za_user_id a, datetime.strftime (za_timestamp a) TS_FORMAT).

Definition event_att_id (conn_id : Z) (a : zk_attendance) : string :=
  str_of_Z conn_id +:+ "-" +:+ za_user_id a +:+ "-"
  +:+ datetime.strftime (za_timestamp a) ID_FORMAT.

(** The attendance table (rows and AUTOINCREMENT counter) after
    [att_query] for one event: the counter advances whether the row is
    inserted or ignored. *)
Definition insert_row (conn_id : Z) (tbl : list att_row * Z)
    (a : zk_attendance) : list att_row * Z :=
  if existsb (same_att_key conn_id (za_user_id a)
                (datetime.strftime (za_timestamp a) TS_FORMAT)) (fst tbl)
  then (fst tbl, snd tbl + 1)
  else (fst tbl ++ [mk_att (snd tbl + 1) conn_id (za_user_id a)
                           (event_att_id conn_id a)
                           (datetime.strftime (za_timestamp a) TS_FORMAT) None],
        snd tbl + 1).

(** The users table after [user_query] for one device user. *)
Definition upsert_row (conn_id : Z) (tbl : list user_row * Z) (u : zk_user)
    : list user_row * Z :=
  let row := mk_user (snd tbl + 1) conn_id (zu_uid u) (zu_user_id u) (zu_name u)
               (select_user_synched_time conn_id (zu_user_id u) (fst tbl)) in
  if existsb (same_user_key conn_id (zu_user_id u)) (fst tbl)
  then (List.filter (fun r => negb (same_user_key conn_id (zu_user_id u) r))
                    (fst tbl) ++ [row], snd tbl + 1)
  else (fst tbl ++ [row], snd tbl + 1).

(** The timestamps stored for a machine. *)
Definition stored_timestamps (conn_id : Z) (rows : list att_row) : list string :=
  map a_timestamp (List.filter (fun r => a_connection_id r =? conn_id) rows).

(** Every step of [m], whatever its outcome, relates the world before to
    the world after by [R]. *)
Definition preserves {A} (R : world -> world -> Prop) (m : M A) : Prop :=
  forall w, R w (fst (m w)).

(** The later of two datetimes, to the second. *)
Definition dt_max (a b : datetime.t) : datetime.t :=
  if datetime.ltb (datetime.whole_second a) (datetime.whole_second b)
  then b else a.

(** The world in which a successful fetch closes its session, given the
    world [w] in which its [try] is entered. *)
Definition fetched (E : environment) (conn : Z) (date_from : datetime.t)
    (us : list zk_user) (atts : list zk_attendance) (w : world) : world :=
  let now := clock E (tick w + 7)%nat in
  let new := List.filter (is_new date_from now) atts in
  let w1 := logged E "Fetch Data" MsgSyncUsers (Some conn)
              (set_tick S (logged E "Fetch Data" MsgConnecting (Some conn) w)) in
  let w2 := set_tick S w1 in
  let ut := fold_left (upsert_row conn) us (users w2, users_seq w2) in
  let w3 := set_users (fst ut) (snd ut) w2 in
  let w4 := logged E "Fetch Data" MsgDownloading (Some conn)
              (logged E "Fetch Data" (MsgUsersSynchronized (0 + len us))
                      (Some conn) w3) in
  let w5 := set_tick S (set_tick S w4) in
  let at' := fold_left (insert_row conn) new (attendance w5, attendance_seq w5) in
  let w6 := set_attendance (fst at') (snd at') w5 in
  logged E "Success" (MsgFetchComplete (0 + len new)) (Some conn) w6.


(** What a fetch returns once its session is closed at tick [t]: its
    report, or the exception of [zk.disconnect()]. *)
Definition closing (E : environment) (conn : Z) (t : nat)
    (report : fetch_report) : result fetch_report :=
  if disconnect E t conn then Ok report else Raise DeviceError.

(** The key of a user row: [UNIQUE(connection_id, user_id)]. *)
Definition user_key (r : user_row) : Z * string :=
  (u_connection_id r, u_user_id r).

(** The row [r'] is the row [r] re-read: same key, same watermark. *)
Definition same_watermark (r r' : user_row) : Prop :=
  user_key r' = user_key r /\ u_synched_time r' = u_synched_time r.

(** The users of [w'] are those of [w] and users that were not stored:
    every row of [w] is in [w'] up to its id, uid and name, with its
    watermark, and a row of [w'] that matches no row of [w] has none. *)
Definition keeps_watermarks (w w' : world) : Prop :=
  NoDup (map user_key (users w)) ->
  NoDup (map user_key (users w'))
  /\ (forall r, In r (users w) ->
       exists r', In r' (users w') /\ same_watermark r r')
  /\ (forall r', In r' (users w') ->
       (exists r, In r (users w) /\ same_watermark r r')
       \/ ((forall r, In r (users w) -> user_key r <> user_key r')
           /\ u_synched_time r' = None)).


(** The rows a fetch may add: of this machine, unsynced, keyed by one of
    the events. *)
Definition added_from (conn : Z) (evs : list zk_attendance) (r : att_row) : Prop :=
  a_connection_id r = conn /\ a_synched_time r = None
  /\ exists a, In a evs /\ att_key r = event_key conn a.


(** The attendance rows keep unique keys. *)
Definition unique_keys (w w' : world) : Prop :=
  NoDup (map att_key (attendance w)) -> NoDup (map att_key (attendance w')).


(** Every timestamp of the list is the rendering of a valid datetime. *)
Definition well_formed (xs : list string) : Prop :=
  forall s, In s xs ->
    exists d, datetime.valid d /\ s = datetime.strftime d TS_FORMAT.


Definition days_back_of (w : world) : Z :=
  default 31 (settings w !! "days_back"%string).

(** What [date_from] is for a fetch entered in world [w]: the midnight of
    the latest stored timestamp of the machine, or of the lookback. *)
Definition watermark_of (E : environment) (conn : Z) (w : world)
    (df : datetime.t) : Prop :=
  (exists dm,
     datetime.valid dm
     /\ In (datetime.strftime dm TS_FORMAT)
           (stored_timestamps conn (attendance w))
     /\ (forall d, datetime.valid d ->
           In (datetime.strftime d TS_FORMAT)
              (stored_timestamps conn (attendance w)) ->
           calendar.seconds d <= calendar.seconds dm)
     /\ df = datetime.replace_midnight dm)
  \/ (stored_timestamps conn (attendance w) = []
      /\ exists base,
           datetime.sub (clock E (S (tick w)))
             (datetime.timedelta_days (days_back_of w)) = Some base
           /\ df = datetime.replace_midnight base).


(** Fetches of several machines, one after the other. *)
Definition fetch_all (E : environment) (ms : list (Z * conn_dict))
    (w : world) : world :=
  fold_left (fun w m => fst (_fetch_data_for_machine E (fst m) (snd m) w)) ms w.


(* ===================================================================== *)
(** ** Concrete runs *)
(* ===================================================================== *)

(** A clock that advances one second per interaction (and stops at
    10:59:59, to stay within the hour). *)
Definition second_clock (n : nat) : datetime.t :=
  let k := Z.min (Z.of_nat n) 3599 in
  datetime.mk 2024 1 10 10 (k / 60) (k mod 60) 0.

(** The terminal at the gate, as the operator entered it. *)
Definition gate : conn_dict := mk_conn_dict "Gate" "192.168.1.201" "4370" None.

Definition odoo_configured : gmap string string :=
  list_to_map [("url", "http://odoo"); ("db", "hr"); ("username", "proxy");
               ("password", "secret")]%string.

(** A server that faults on every create call made before tick 9 and
    holds no attendance yet. *)
Definition retry_env : environment :=
  mk_env second_clock (fun _ _ => ConnectFails) (fun _ => Ok (Some 2))
         (fun _ _ => true) (fun _ _ _ => Ok [])
         (fun t _ => Nat.ltb 8 t) (fun _ => None)
         (fun _ _ => true).

(** Two unsynced rows of one linked machine, batches of one row. *)
Definition retry_world : world :=
  mk_world 0 [mk_machine 1 "Gate" (Some 1) None] [] 0
    [mk_att 1 1 "7" "1-7-20240101080000" "2024-01-01 08:00:00" None;
     mk_att 2 1 "8" "1-8-20240101090000" "2024-01-01 09:00:00" None] 2
    [] (<["batch_size"%string := 1]> ∅) odoo_configured [].

(** A server whose attendance reads for user 7 fault. *)
Definition read_fault_env : environment :=
  mk_env second_clock (fun _ _ => ConnectFails) (fun _ => Ok (Some 2))
         (fun _ _ => true)
         (fun _ u _ => if String.eqb u "7" then Raise Fault else Ok [])
         (fun _ _ => true) (fun _ => None)
         (fun _ _ => true).

Definition read_fault_world : world :=
  mk_world 0 [mk_machine 1 "Gate" (Some 1) None] [] 0
    [mk_att 1 1 "7" "1-7-20240101080000" "2024-01-01 08:00:00" None;
     mk_att 2 1 "8" "1-8-20240101090000" "2024-01-01 09:00:00" None] 2
    [] ∅ odoo_configured [].

(** User 7 is enrolled on two terminals.  The server holds an
    attendance of user 7 on machine 1 and none on machine 2. *)
Definition two_machine_env : environment :=
  mk_env second_clock (fun _ _ => ConnectFails) (fun _ => Ok (Some 2))
         (fun _ _ => true)
         (fun _ u m => if String.eqb u "7" && (m =? 1)
                       then Ok [Some "2024-01-02 00:00:00"%string] else Ok [])
         (fun _ _ => true) (fun _ => None)
         (fun _ _ => true).

Definition two_machine_world : world :=
  mk_world 0
    [mk_machine 1 "Gate" (Some 1) None; mk_machine 2 "Dock" (Some 2) None]
    [] 0
    [mk_att 1 1 "7" "1-7-20240101080000" "2024-01-01 08:00:00" None;
     mk_att 2 2 "7" "2-7-20240101090000" "2024-01-01 09:00:00" None] 2
    [] ∅ odoo_configured [].

(** A terminal whose clock runs ahead of the proxy: it reports one event
    of 10:00:05 and one of 10:00:15 while the proxy, whose clock reads
    10:00:00 when the fetch starts, reads 10:00:10 after the download. *)
Definition skew_events : list zk_attendance :=
  [mk_zk_att "7" (datetime.mk 2024 1 10 10 0 5 0);
   mk_zk_att "7" (datetime.mk 2024 1 10 10 0 15 0)].

Definition skew_env : environment :=
  mk_env second_clock
         (fun _ _ => Delivers [mk_zk_user 1 "7" "Ada"] skew_events)
         (fun _ => Ok (Some 2)) (fun _ _ => true) (fun _ _ _ => Ok [])
         (fun _ _ => true) (fun _ => None)
         (fun _ _ => true).

Definition skew_world : world :=
  mk_world 0 [mk_machine 1 "Gate" (Some 1) None] [] 0 [] 0 [] ∅
           odoo_configured [].


(** The same terminal with its clock behind: every event it reports is
    in the past of the proxy. *)
Definition calm_events : list zk_attendance :=
  [mk_zk_att "7" (datetime.mk 2024 1 10 9 0 5 0);
   mk_zk_att "7" (datetime.mk 2024 1 10 9 30 0 0)].

Definition calm_env : environment :=
  mk_env second_clock
         (fun _ _ => Delivers [mk_zk_user 1 "7" "Ada"] calm_events)
         (fun _ => Ok (Some 2)) (fun _ _ => true) (fun _ _ _ => Ok [])
         (fun _ _ => true) (fun _ => None)
         (fun _ _ => true).

(** An excerpt of the zone America/New_York: the transitions of 2022 to
    2024, as pytz tabulates them (UTC instant, then the offset from it on). *)
Definition EST : pytz.ttinfo := pytz.mk_ttinfo (-18000) 0 "EST".
Definition EDT : pytz.ttinfo := pytz.mk_ttinfo (-14400) 3600 "EDT".
Definition LMT : pytz.ttinfo := pytz.mk_ttinfo (-17760) 0 "LMT".

Definition New_York : pytz.tzinfo :=
  pytz.DstTzInfo
    [datetime.mk 1 1 1 0 0 0 0;
     datetime.mk 2022 11 6 6 0 0 0;
     datetime.mk 2023 3 12 7 0 0 0;
     datetime.mk 2023 11 5 6 0 0 0;
     datetime.mk 2024 3 10 7 0 0 0]
    [LMT; EST; EDT; EST; EDT].

Definition ny_env : environment :=
  mk_env second_clock (fun _ _ => ConnectFails) (fun _ => Ok (Some 2))
         (fun _ _ => true) (fun _ _ _ => Ok []) (fun _ _ => true)
         (fun name => if String.eqb name "America/New_York"
                      then Some New_York else None)
         (fun _ _ => true).

(** A row stamped inside the hour that occurs twice on 5 November 2023. *)
Definition fall_back_row : att_join :=
  mk_att_join
    (mk_att 1 1 "7" "1-7-20231105013000" "2023-11-05 01:30:00" None)
    (Some 1) (Some "America/New_York"%string).

(** A row stamped on a summer noon. *)
Definition summer_row : att_join :=
  mk_att_join
    (mk_att 2 1 "7" "1-7-20230701120000" "2023-07-01 12:00:00" None)
    (Some 1) (Some "America/New_York"%string).

(** The server already holds the attendance of user 7 at 08:00:00 on
    machine 1; the store holds that row and the next second's, unsynced. *)
Definition dedup_env : environment :=
  mk_env second_clock (fun _ _ => ConnectFails) (fun _ => Ok (Some 2))
         (fun _ _ => true)
         (fun _ _ _ => Ok [Some "2024-01-01 08:00:00"%string])
         (fun _ _ => true) (fun _ => None)
         (fun _ _ => true).

Definition dedup_world : world :=
  mk_world 0 [mk_machine 1 "Gate" (Some 1) None] [] 0
    [mk_att 1 1 "7" "1-7-20240101080000" "2024-01-01 08:00:00" None;
     mk_att 2 1 "7" "1-7-20240101080001" "2024-01-01 08:00:01" None] 2
    [] ∅ odoo_configured [].

(** A batch of one row about to be sent. *)
Definition one_row_batch : sync_state :=
  mk_sync_state
    [mk_att_payload "7" "2024-01-01 08:00:00" 1 "1-7-20240101080000"]
    [1] 0 (<["7"%string := None]> ∅).

From Stdlib Require Import DecimalZ Sorted.

(* ===================================================================== *)
(** ** Vocabulary of the frame properties *)
(* ===================================================================== *)

(** A specification of a computation: from a world that satisfies [P],
    a normal return with [a] leaves a world that satisfies [Q a], and an
    exception leaves one that satisfies [X]. *)
Definition hoare {A} (P : world -> Prop) (m : M A)
    (Q : A -> world -> Prop) (X : world -> Prop) : Prop :=
  forall w, P w ->
    match m w with
    | (w', Ok a) => Q a w'
    | (w', Raise _) => X w'
    end.

(** A row with another watermark. *)
Definition att_set_synched (s : option string) (r : att_row) : att_row :=
  mk_att (a_id r) (a_connection_id r) (a_user_id r) (a_att_id r)
         (a_timestamp r) s.

Definition user_set_synched (s : option string) (r : user_row) : user_row :=
  mk_user (u_id r) (u_connection_id r) (u_uid r) (u_user_id r) (u_name r) s.

(** The machine of this id is linked to a remote machine. *)
Definition linked_machine (w : world) (conn_id : Z) : Prop :=
  exists m, In m (machines w) /\ m_id m = conn_id
            /\ truthy_id (m_odoo_machine_id m) = true.

(** What a sync pass entered in [w] may do to an attendance row: nothing,
    or set the watermark of a row that had none and whose machine is
    linked. *)
Definition att_stamped (w : world) (r r' : att_row) : Prop :=
  r' = r
  \/ (a_synched_time r = None /\ linked_machine w (a_connection_id r)
      /\ exists s, r' = att_set_synched (Some s) r).

Definition user_stamped (w : world) (r r' : user_row) : Prop :=
  r' = r
  \/ (u_synched_time r = None /\ linked_machine w (u_connection_id r)
      /\ exists s, r' = user_set_synched (Some s) r).

(** The world [w'] is [w] up to the clock, the log, the trace of remote
    calls and watermarks set by a sync pass. *)
Definition sync_frame (w w' : world) : Prop :=
  machines w' = machines w /\ settings w' = settings w
  /\ odoo_details w' = odoo_details w
  /\ users_seq w' = users_seq w /\ attendance_seq w' = attendance_seq w
  /\ Forall2 (user_stamped w) (users w) (users w')
  /\ Forall2 (att_stamped w) (attendance w) (attendance w').

(** The create calls for users of a trace, with their outcome. *)
Definition user_create_calls (trace : list rpc_event)
    : list (user_payload * bool) :=
  flat_map (fun ev =>
    match ev with
    | RpcCreateUser p ok => [(p, ok)]
    | _ => []
    end) trace.

(** The remote calls of a trace other than the authentication. *)
Definition data_calls (trace : list rpc_event) : list rpc_event :=
  List.filter (fun ev =>
    match ev with RpcAuthenticate => false | _ => true end) trace.

(** A computation that keeps an invariant on every path. *)
Definition keeps {A} (I : world -> Prop) (m : M A) : Prop :=
  hoare I m (fun _ => I) I.

(** The world in which the download of the attendance is attempted. *)
Definition before_download (E : environment) (conn : Z) (us : list zk_user)
    (w1 : world) : world :=
  let w2 := set_tick S
              (logged E "Fetch Data" MsgSyncUsers (Some conn)
                 (set_tick S (logged E "Fetch Data" MsgConnecting (Some conn) w1))) in
  let ut := fold_left (upsert_row conn) us (users w2, users_seq w2) in
  logged E "Fetch Data" MsgDownloading (Some conn)
    (logged E "Fetch Data" (MsgUsersSynchronized (0 + len us)) (Some conn)
       (set_users (fst ut) (snd ut) w2)).


(** The watermark of a fetch entered in [w] can be computed. *)
Definition watermark_computable (E : environment) (conn : Z) (w : world) : Prop :=
  match sql_max (stored_timestamps conn (attendance w)) with
  | Some s =>
      if String.eqb s EmptyString
      then datetime.sub (clock E (S (tick w)))
             (datetime.timedelta_days (days_back_of w)) <> None
      else datetime.strptime s TS_FORMAT <> None
  | None =>
      datetime.sub (clock E (S (tick w)))
        (datetime.timedelta_days (days_back_of w)) <> None
  end.

(** The ids of the table are distinct and below the counter. *)
Definition att_ids_fresh (w : world) : Prop :=
  NoDup (map a_id (attendance w))
  /\ Forall (fun r => a_id r <= attendance_seq w) (attendance w).

(** The rows a sync pass entered in [w] would select. *)
Definition unsynced_users (w : world) : list user_join :=
  match snd (select_unsynced_users w) with Ok l => l | Raise _ => [] end.

Definition unsynced_attendance (w : world) : list att_join :=
  match snd (select_unsynced_attendance w) with Ok l => l | Raise _ => [] end.

(** The payload built for a user. *)
Definition user_payload_of (user : user_join) : user_payload :=
  mk_user_payload (u_uid (uj_row user)) (u_user_id (uj_row user))
                  (u_name (uj_row user)) (default 0 (uj_odoo_machine_id user)).

(** Every record sent by a trace is built from a row the pass entered
    in [w] selects, of a linked machine. *)
Definition sends_selected (E : environment) (w : world) (ev : rpc_event) : Prop :=
  match ev with
  | RpcCreateUser p _ =>
      exists user, In user (unsynced_users w)
                   /\ truthy_id (uj_odoo_machine_id user) = true
                   /\ p = user_payload_of user
  | RpcCreateAttendance b _ =>
      forall p, In p b ->
        exists att, In att (unsynced_attendance w)
                    /\ truthy_id (aj_odoo_machine_id att) = true
                    /\ p = payload_of E att
  | _ => True
  end.

(** The session of a fetch up to the connection. *)
Definition opens (E : environment) (conn : Z) (conn_dict : conn_dict)
    (date_from : datetime.t) : M (device_response + fetch_report) :=
  try_except
    (bind (lift (builtins.int (cd_port conn_dict))) (fun _ =>
     bind (log_operation E "Fetch Data" MsgConnecting (Some conn)) (fun _ =>
     bind (zk_connect E conn) (fun c => ret (inl c)))))
    (fun e => bind (fetch_failed E conn date_from e)
                   (fun report => ret (inr report))).

(** The row that the upsert of [u] stores. *)
Definition upserted (conn : Z) (tbl : list user_row * Z) (u : zk_user)
    : user_row :=
  mk_user (snd tbl + 1) conn (zu_uid u) (zu_user_id u) (zu_name u)
    (select_user_synched_time conn (zu_user_id u) (fst tbl)).

(* ===================================================================== *)
(** ** The application around the engine

    The rest of the class [App]: the retention of the log and of the
    attendance (from the buttons and from the scheduler), the deletion of
    a machine, the link of a machine to its remote record, and the
    scheduler.  A widget read by a method is an argument of it (the value
    of a combobox, the row in focus, the answer to a confirmation
    dialog); what a method shows is its result. *)
(* ===================================================================== *)

Definition set_machines (ms : list machine_row) (w : world) : world :=
  mk_world (tick w) ms (users w) (users_seq w) (attendance w)
           (attendance_seq w) (logs w) (settings w) (odoo_details w) (rpc w).

Module App.

(** The texts of the log that are written outside the fetch and the sync
    pass, one constructor per message of the code. *)
Inductive notice : Type :=
| NoteDeletedAll
| NoteDeletedOld (days : Z) (filter_machine_name : string)
| NoteCleanedLogs (days : Z)
| NoteCleanedAttendance (days : Z)
| NoteSchedulerStarted
| NoteSchedulerStopped
| NoteRunStarting
| NoteRunFinished
| NoteLinkSearching (odoo_machine_name : string)
| NoteLinkNotFound (odoo_machine_name : string)
| NoteLinkMultiple
| NoteLinkOk (machine_id_in_odoo : Z) (machine_timezone : option string)
| NoteLinkFailed (e : exn).

(** A row of [logs] that carries one of these texts. *)
Record notice_row : Type := mk_notice {
  n_connection_id : option Z;
  n_timestamp : string;
  n_operation : string;
  n_message : notice
}.

(** A thread started with [threading.Thread(target=..., daemon=True)]. *)
Inductive thread : Type :=
| FetchThread (conn_id : Z) (name : string)
| SyncThread
| SchedulerThread.

(** What a method that asks the operator did. *)
Inductive dialog : Type :=
| Warned       (* a warning or an information box, nothing done *)
| Declined     (* the operator answered no *)
| Confirmed.   (* the operator answered yes and the statement ran *)

(** The application: the store and the in-memory settings ([world]), the
    rows of [logs] written by the methods below, and the attributes of
    the object. *)
Record app : Type := mk_app {
  store : world;
  notices : list notice_row;
  connections_list : list machine_row;
  scheduler_running : bool;
  scheduler_status_var : string;
  last_run_var : string;
  next_run_var : string;
  threads : list thread
}.

Definition set_store (w : world) (a : app) : app :=
  mk_app w (notices a) (connections_list a) (scheduler_running a)
         (scheduler_status_var a) (last_run_var a) (next_run_var a) (threads a).

Definition set_notices (ns : list notice_row) (a : app) : app :=
  mk_app (store a) ns (connections_list a) (scheduler_running a)
         (scheduler_status_var a) (last_run_var a) (next_run_var a) (threads a).

Definition set_connections_list (ms : list machine_row) (a : app) : app :=
  mk_app (store a) (notices a) ms (scheduler_running a)
         (scheduler_status_var a) (last_run_var a) (next_run_var a) (threads a).

Definition set_scheduler (running : bool) (status : string) (a : app) : app :=
  mk_app (store a) (notices a) (connections_list a) running
         status (last_run_var a) (next_run_var a) (threads a).

Definition set_last_run_var (s : string) (a : app) : app :=
  mk_app (store a) (notices a) (connections_list a) (scheduler_running a)
         (scheduler_status_var a) s (next_run_var a) (threads a).

Definition set_next_run_var (s : string) (a : app) : app :=
  mk_app (store a) (notices a) (connections_list a) (scheduler_running a)
         (scheduler_status_var a) (last_run_var a) s (threads a).

Definition start_thread (t : thread) (a : app) : app :=
  mk_app (store a) (notices a) (connections_list a) (scheduler_running a)
         (scheduler_status_var a) (last_run_var a) (next_run_var a)
         (threads a ++ [t]).

(** *** State and exceptions of the application *)

Definition AM (A : Type) : Type := app -> app * result A.

Definition aret {A} (x : A) : AM A := fun a => (a, Ok x).

Definition abind {A B} (m : AM A) (k : A -> AM B) : AM B :=
  fun a =>
    match m a with
    | (a', Ok x) => k x a'
    | (a', Raise e) => (a', Raise e)
    end.

Definition atry {A} (body : AM A) (handler : exn -> AM A) : AM A :=
  fun a =>
    match body a with
    | (a', Raise e) => handler e a'
    | r => r
    end.

Definition alift {A} (r : result A) : AM A := fun a => (a, r).

Definition aget {A} (f : app -> A) : AM A := fun a => (a, Ok (f a)).

Definition amodify (f : app -> app) : AM unit := fun a => (f a, Ok tt).

(** A computation of the engine, run on the store of the application. *)
Definition in_store {A} (m : M A) : AM A :=
  fun a => let '(w, r) := m (store a) in (set_store w a, r).

Declare Scope app_scope.
Delimit Scope app_scope with app.
Notation "x <- c1 ;; c2" := (abind c1 (fun x => c2))
  (at level 100, c1 at next level, right associativity) : app_scope.
Notation "c1 ;;; c2" := (abind c1 (fun _ => c2))
  (at level 100, right associativity) : app_scope.

Fixpoint afor_each {A} (xs : list A) (body : A -> AM unit) : AM unit :=
  match xs with
  | [] => aret tt
  | x :: xs' => abind (body x) (fun _ => afor_each xs' body)
  end.

(** *** Values bound to a statement *)

Definition pad6 (n : Z) : string :=
  String (datetime.digit (n / 100000))
    (String (datetime.digit (n / 10000)) (datetime.pad4 n)).

(** [d.isoformat(sep)] *)
Definition isoformat (d : datetime.t) (sep : string) : string :=
  datetime.strftime d "%Y-%m-%d" +:+ sep +:+ datetime.strftime d "%H:%M:%S"
  +:+ (if datetime.microsecond d =? 0 then EmptyString
       else "." +:+ pad6 (datetime.microsecond d)).

(** The adapter [sqlite3] applies to a [datetime] bound to a statement. *)
Definition adapt_datetime (d : datetime.t) : string := isoformat d " ".

(** [timedelta(minutes=n)] *)
Definition timedelta_minutes (n : Z) : datetime.timedelta := n * 60.

(** *** The statements run through [db_execute] *)

(** The clause [timestamp < ?], with [AND connection_id = ?] when a
    machine is given, on a row of this timestamp and machine ([None] is
    NULL, which equals no machine). *)
Definition is_old (cutoff : string) (conn_id : option Z)
    (ts : string) (row_conn : option Z) : bool :=
  str_ltb ts cutoff
  && match conn_id with
     | None => true
     | Some c => match row_conn with Some c' => c' =? c | None => false end
     end.

(** [DELETE FROM attendance WHERE timestamp < ?] *)
Definition delete_attendance_where (cutoff : string) (conn_id : option Z)
    : AM unit :=
  in_store (modify (fun w =>
    set_attendance
      (List.filter
         (fun r => negb (is_old cutoff conn_id (a_timestamp r)
                                (Some (a_connection_id r))))
         (attendance w))
      (attendance_seq w) w)).

(** [DELETE FROM logs WHERE timestamp < ?] *)
Definition delete_logs_where (cutoff : string) (conn_id : option Z) : AM unit :=
  (in_store (modify (fun w =>
     set_logs
       (List.filter
          (fun r => negb (is_old cutoff conn_id (l_timestamp r)
                                 (l_connection_id r)))
          (logs w)) w)) ;;;
   amodify (fun a =>
     set_notices
       (List.filter
          (fun r => negb (is_old cutoff conn_id (n_timestamp r)
                                 (n_connection_id r)))
          (notices a)) a))%app.

(** [DELETE FROM attendance] *)
Definition delete_attendance : AM unit :=
  in_store (modify (fun w => set_attendance [] (attendance_seq w) w)).

(** [DELETE FROM logs] *)
Definition delete_logs : AM unit :=
  (in_store (modify (set_logs [])) ;;; amodify (set_notices []))%app.

Definition refers_to (id : Z) (c : option Z) : bool :=
  match c with Some c' => c' =? id | None => false end.

(** [DELETE FROM zkteco_machines WHERE id = ?] with the foreign keys
    enforced: the rows of [users], [attendance] and [logs] that refer to
    a deleted machine go with it ([ON DELETE CASCADE]). *)
Definition delete_machine (id : Z) : AM unit :=
  amodify (fun a =>
    let w := store a in
    if existsb (fun m => m_id m =? id) (machines w) then
      let w1 := set_machines
                  (List.filter (fun m => negb (m_id m =? id)) (machines w)) w in
      let w2 := set_users
                  (List.filter (fun r => negb (u_connection_id r =? id)) (users w1))
                  (users_seq w1) w1 in
      let w3 := set_attendance
                  (List.filter (fun r => negb (a_connection_id r =? id))
                               (attendance w2))
                  (attendance_seq w2) w2 in
      let w4 := set_logs
                  (List.filter (fun r => negb (refers_to id (l_connection_id r)))
                               (logs w3)) w3 in
      set_notices
        (List.filter (fun r => negb (refers_to id (n_connection_id r)))
                     (notices a))
        (set_store w4 a)
    else a).

(** [UPDATE zkteco_machines SET odoo_machine_id = ?, machine_timezone = ?
    WHERE id = ?] *)
Definition update_machine_link (odoo_id : Z) (tz : option string) (id : Z)
    : AM unit :=
  in_store (modify (fun w =>
    set_machines
      (map (fun m => if m_id m =? id
                     then mk_machine (m_id m) (m_name m) (Some odoo_id) tz
                     else m)
           (machines w)) w)).

(** [ORDER BY name]: the rows in the order of their names, rows of equal
    names in table order. *)
Fixpoint insert_by_name (m : machine_row) (l : list machine_row)
    : list machine_row :=
  match l with
  | [] => [m]
  | x :: l' =>
      if str_ltb (m_name m) (m_name x) then m :: l
      else x :: insert_by_name m l'
  end.

Definition order_by_name (l : list machine_row) : list machine_row :=
  fold_left (fun acc m => insert_by_name m acc) l [].

Section Methods.

Variable E : environment.

Local Open Scope app_scope.

Definition log_operation (operation : string) (msg : notice)
    (conn_id : option Z) : AM unit :=
  now <- in_store (datetime_now E) ;;
  amodify (fun a =>
    set_notices (notices a ++ [mk_notice conn_id
                                 (datetime.strftime now TS_FORMAT)
                                 operation msg]) a).

(** *** Loading *)

Definition load_connections_from_db : AM unit :=
  amodify (fun a =>
    set_connections_list (order_by_name (machines (store a))) a).

(** The settings and the connection details are written to their tables
    by the application alone, which reloads them at once: the dicts it
    holds are those tables.  [refresh_all_data] then reloads the machines
    and redraws the tables. *)
Definition refresh_all_data : AM unit := load_connections_from_db.

Definition get_connection_id_from_name (name : string) (a : app) : option Z :=
  if String.eqb name EmptyString then None
  else
    match List.find (fun conn => String.eqb (m_name conn) name)
                    (connections_list a) with
    | Some conn => Some (m_id conn)
    | None => None
    end.

(** *** Cleanup from the buttons *)

Definition delete_all_logs (askyesno : bool) : AM dialog :=
  if askyesno then delete_logs ;;; aret Confirmed else aret Declined.

Definition log_days_map (period : string) : option Z :=
  if String.eqb period "1 Day" then Some 1
  else if String.eqb period "7 Days" then Some 7
  else if String.eqb period "30 Days" then Some 30
  else None.

Definition attendance_days_map (period : string) : option Z :=
  if String.eqb period "30 Days" then Some 30
  else if String.eqb period "60 Days" then Some 60
  else if String.eqb period "90 Days" then Some 90
  else if String.eqb period "180 Days" then Some 180
  else if String.eqb period "365 Days" then Some 365
  else None.

(** The machine the statement is restricted to: none when the filter is
    ["All"], and none when the name is not found. *)
Definition filter_machine (filter_machine_name : string) : AM (option Z) :=
  if String.eqb filter_machine_name "All" then aret None
  else
    conn_id <- aget (get_connection_id_from_name filter_machine_name) ;;
    if truthy_id conn_id then aret conn_id else aret None.

Definition delete_old_logs (period filter_machine_name : string)
    (askyesno : bool) : AM dialog :=
  match log_days_map period with
  | None => aret Warned
  | Some days =>
      now <- in_store (datetime_now E) ;;
      cutoff <- alift (of_option OverflowError
                         (datetime.sub now (datetime.timedelta_days days))) ;;
      conn_id <- filter_machine filter_machine_name ;;
      if askyesno then
        delete_logs_where (adapt_datetime cutoff) conn_id ;;;
        aret Confirmed
      else aret Declined
  end.

Definition delete_all_attendance (askyesno : bool) : AM dialog :=
  if askyesno then
    delete_attendance ;;;
    log_operation "Data Cleanup" NoteDeletedAll None ;;;
    aret Confirmed
  else aret Declined.

Definition delete_old_attendance (period filter_machine_name : string)
    (askyesno : bool) : AM dialog :=
  match attendance_days_map period with
  | None => aret Warned
  | Some days =>
      now <- in_store (datetime_now E) ;;
      cutoff <- alift (of_option OverflowError
                         (datetime.sub now (datetime.timedelta_days days))) ;;
      conn_id <- filter_machine filter_machine_name ;;
      if askyesno then
        delete_attendance_where (adapt_datetime cutoff) conn_id ;;;
        log_operation "Data Cleanup"
          (NoteDeletedOld days filter_machine_name) None ;;;
        aret Confirmed
      else aret Declined
  end.

(** *** Machines *)

Definition delete_connection (selected_iid : option Z) (askyesno : bool)
    : AM dialog :=
  match selected_iid with
  | None => aret Warned
  | Some id =>
      if askyesno then
        delete_machine id ;;;
        refresh_all_data ;;;
        aret Confirmed
      else aret Declined
  end.

(** *** Cleanup from the scheduler *)

Definition _clean_old_logs : AM unit :=
  days <- in_store (get (fun w =>
            default 30 (settings w !! "clean_logs_days"%string))) ;;
  now <- in_store (datetime_now E) ;;
  cutoff_date <- alift (of_option OverflowError
                          (datetime.sub now (datetime.timedelta_days days))) ;;
  let cutoff_date_str := datetime.strftime cutoff_date TS_FORMAT in
  delete_logs_where cutoff_date_str None ;;;
  log_operation "Scheduler" (NoteCleanedLogs days) None.

Definition _clean_old_attendance_from_settings : AM unit :=
  days <- in_store (get (fun w =>
            default 180 (settings w !! "delete_attendance_days"%string))) ;;
  now <- in_store (datetime_now E) ;;
  cutoff_date <- alift (of_option OverflowError
                          (datetime.sub now (datetime.timedelta_days days))) ;;
  let cutoff_date_str := datetime.strftime cutoff_date TS_FORMAT in
  delete_attendance_where cutoff_date_str None ;;;
  log_operation "Scheduler" (NoteCleanedAttendance days) None.

(** *** The scheduler *)

Definition update_scheduler_next_run : AM unit :=
  running <- aget scheduler_running ;;
  if running then
    delay_minutes <- in_store (get (fun w =>
                       default 10 (settings w !! "scheduler_delay"%string))) ;;
    now <- in_store (datetime_now E) ;;
    next_run <- alift (of_option OverflowError
                         (datetime.add now (timedelta_minutes delay_minutes))) ;;
    amodify (set_next_run_var (datetime.strftime next_run TS_FORMAT))
  else amodify (set_next_run_var "N/A").

Definition start_scheduler : AM unit :=
  running <- aget scheduler_running ;;
  if negb running then
    amodify (fun a => start_thread SchedulerThread (set_scheduler true "Running" a)) ;;;
    log_operation "Scheduler" NoteSchedulerStarted None ;;;
    update_scheduler_next_run
  else aret tt.

Definition stop_scheduler : AM unit :=
  running <- aget scheduler_running ;;
  if running then
    amodify (fun a => set_next_run_var "N/A" (set_scheduler false "Stopped" a)) ;;;
    log_operation "Scheduler" NoteSchedulerStopped None
  else aret tt.

(** The threads are started, not joined: what they do is not part of
    the call. *)
Definition _execute_scheduled_run : AM unit :=
  running <- aget scheduler_running ;;
  if negb running then aret tt
  else
    run_start_time <- in_store (datetime_now E) ;;
    amodify (set_last_run_var (datetime.strftime run_start_time TS_FORMAT)) ;;;
    log_operation "Scheduler" NoteRunStarting None ;;;
    all_machines <- aget (fun a => machines (store a)) ;;
    afor_each all_machines
      (fun machine =>
         amodify (start_thread (FetchThread (m_id machine) (m_name machine)))) ;;;
    amodify (start_thread SyncThread) ;;;
    _clean_old_logs ;;;
    _clean_old_attendance_from_settings ;;;
    log_operation "Scheduler" NoteRunFinished None.

End Methods.

(** *** The link of a machine to its remote record *)

(** A record of [azk.machine] as [search_read] returns it with the
    fields [id] and [timezone]; an empty selection field comes as a
    false value, here [None]. *)
Record odoo_machine : Type := mk_odoo_machine {
  om_id : Z;
  om_timezone : option string
}.

Inductive link_result : Type :=
| LinkNoName
| LinkNotConfigured
| LinkAuthFailed
| LinkNotFound
| LinkMultiple
| Linked (machine_id_in_odoo : Z) (machine_timezone : option string)
| LinkFailed (e : exn).

Section Link.

Variable E : environment.
(** [execute_kw(db, uid, password, 'azk.machine', 'search_read',
    [[['name', '=', name]]], {'fields': ['id', 'timezone'], 'limit': 1})]
    made at a tick. *)
Variable search_machine : nat -> string -> result (list odoo_machine).

Local Open Scope app_scope.

Definition rpc_search_machine (name : string) : AM (list odoo_machine) :=
  t <- in_store next_tick ;;
  alift (search_machine t name).

Definition _link_machine_thread (conn_id : Z)
    (odoo_machine_name : option string) : AM link_result :=
  if negb (truthy_str odoo_machine_name) then aret LinkNoName
  else
    let name := default EmptyString odoo_machine_name in
    details <- in_store (get odoo_details) ;;
    if negb (configured details) then aret LinkNotConfigured
    else
      atry
        (uid <- in_store (rpc_authenticate E) ;;
         if negb (truthy_id uid) then aret LinkAuthFailed
         else
           log_operation E "Link to Odoo" (NoteLinkSearching name)
                         (Some conn_id) ;;;
           search_read_result <- rpc_search_machine name ;;
           match search_read_result with
           | [] =>
               log_operation E "Link to Odoo" (NoteLinkNotFound name)
                             (Some conn_id) ;;;
               aret LinkNotFound
           | [odoo_data] =>
               let machine_id_in_odoo := om_id odoo_data in
               let machine_timezone :=
                 if truthy_str (om_timezone odoo_data)
                 then om_timezone odoo_data else None in
               update_machine_link machine_id_in_odoo machine_timezone
                                   conn_id ;;;
               log_operation E "Success"
                 (NoteLinkOk machine_id_in_odoo machine_timezone)
                 (Some conn_id) ;;;
               aret (Linked machine_id_in_odoo machine_timezone)
           | _ =>
               log_operation E "Link to Odoo" NoteLinkMultiple
                             (Some conn_id) ;;;
               aret LinkMultiple
           end)
        (fun e =>
           log_operation E "Error" (NoteLinkFailed e) (Some conn_id) ;;;
           aret (LinkFailed e)).

End Link.

End App.

(** ** Vocabulary of the application's statements *)

(** The application after one line of its log. *)
Definition app_logged (E : environment) (operation : string)
    (msg : App.notice) (conn_id : option Z) (a : App.app) : App.app :=
  App.set_notices
    (App.notices a ++ [App.mk_notice conn_id
        (datetime.strftime (clock E (tick (App.store a))) TS_FORMAT)
        operation msg])
    (App.set_store (set_tick S (App.store a)) a).

(** The rows of a table that a retention with this cut-off keeps. *)
Definition kept_attendance (cutoff : string) (conn_id : option Z)
    (rows : list att_row) : list att_row :=
  List.filter
    (fun r => negb (App.is_old cutoff conn_id (a_timestamp r)
                               (Some (a_connection_id r)))) rows.

Definition kept_logs (cutoff : string) (conn_id : option Z)
    (rows : list log_row) : list log_row :=
  List.filter
    (fun r => negb (App.is_old cutoff conn_id (l_timestamp r)
                               (l_connection_id r))) rows.

Definition kept_notices (cutoff : string) (conn_id : option Z)
    (rows : list App.notice_row) : list App.notice_row :=
  List.filter
    (fun r => negb (App.is_old cutoff conn_id (App.n_timestamp r)
                               (App.n_connection_id r))) rows.

(** The machine a cleanup from the buttons is restricted to. *)
Definition cleanup_scope (filter_machine_name : string) (a : App.app)
    : option Z :=
  if String.eqb filter_machine_name "All" then None
  else if truthy_id (App.get_connection_id_from_name filter_machine_name a)
       then App.get_connection_id_from_name filter_machine_name a
       else None.

(** What the loop over the selected users leaves. *)
Definition user_marked (xs : list user_join) (evs : list rpc_event)
    (r r' : user_row) : Prop :=
  r' = r
  \/ exists s user,
       In user xs /\ truthy_id (uj_odoo_machine_id user) = true
       /\ u_id (uj_row user) = u_id r
       /\ r' = user_set_synched (Some s) r
       /\ In (RpcCreateUser (user_payload_of user) true) evs.

(** The names of a list are in order. *)
Fixpoint names_sorted (l : list machine_row) : Prop :=
  match l with
  | x :: ((y :: _) as l') =>
      str_ltb (m_name y) (m_name x) = false /\ names_sorted l'
  | _ => True
  end.

(** The tables a link leaves alone. *)
Definition link_frame (a a' : App.app) : Prop :=
  users (App.store a') = users (App.store a)
  /\ users_seq (App.store a') = users_seq (App.store a)
  /\ attendance (App.store a') = attendance (App.store a)
  /\ attendance_seq (App.store a') = attendance_seq (App.store a)
  /\ settings (App.store a') = settings (App.store a)
  /\ odoo_details (App.store a') = odoo_details (App.store a)
  /\ logs (App.store a') = logs (App.store a).

(** What the attributes of the application other than the store and the
    log are after a cleanup. *)
Definition same_attributes (a a' : App.app) : Prop :=
  App.connections_list a' = App.connections_list a
  /\ App.scheduler_running a' = App.scheduler_running a
  /\ App.scheduler_status_var a' = App.scheduler_status_var a
  /\ App.last_run_var a' = App.last_run_var a
  /\ App.next_run_var a' = App.next_run_var a
  /\ App.threads a' = App.threads a.

(** A cleanup of the scheduler: its outcome and what it leaves alone. *)
Definition cleanup_frame (a a' : App.app) (r : result unit) : Prop :=
  same_attributes a a'
  /\ (r = Ok tt \/ r = Raise OverflowError)
  /\ machines (App.store a') = machines (App.store a)
  /\ users (App.store a') = users (App.store a)
  /\ (forall x, In x (attendance (App.store a')) ->
                In x (attendance (App.store a)))
  /\ (tick (App.store a) < tick (App.store a'))%nat.

(** The application when the cleanups of a run begin. *)
Definition threads_started (E : environment) (a : App.app) : App.app :=
  let now := datetime.strftime (clock E (tick (App.store a))) TS_FORMAT in
  let a2 := app_logged E "Scheduler" App.NoteRunStarting None
              (App.set_last_run_var now
                 (App.set_store (set_tick S (App.store a)) a)) in
  App.mk_app (App.store a2) (App.notices a2) (App.connections_list a2)
         (App.scheduler_running a2) (App.scheduler_status_var a2)
         (App.last_run_var a2) (App.next_run_var a2)
         (App.threads a2
          ++ map (fun m => App.FetchThread (m_id m) (m_name m))
                 (machines (App.store a))
          ++ [App.SyncThread]).

(** ** Concrete runs of the application *)

(** Two users of a linked terminal, one of them already sent, and one of
    a terminal that is not linked. *)
Definition enrolled_world : world :=
  mk_world 0
    [mk_machine 1 "Gate" (Some 1) None; mk_machine 2 "Dock" None None]
    [mk_user 1 1 1 "7" "Ada" None;
     mk_user 2 1 2 "8" "Bob" (Some "2024-01-01 00:00:00"%string);
     mk_user 3 2 1 "7" "Ada" None] 3
    [] 0 [] ∅ odoo_configured [].

(** The store of an office with two terminals: an attendance of a year
    ago and one of last week on each, and a line of the log of each age. *)
Definition office_world : world :=
  mk_world 0
    [mk_machine 1 "Gate" (Some 1) None; mk_machine 2 "Dock" (Some 2) None]
    [mk_user 1 1 1 "7" "Ada" None; mk_user 2 2 1 "7" "Ada" None] 2
    [mk_att 1 1 "7" "1-7-20230103080000" "2023-01-03 08:00:00" None;
     mk_att 2 1 "7" "1-7-20240103080000" "2024-01-03 08:00:00" None;
     mk_att 3 2 "7" "2-7-20230103090000" "2023-01-03 09:00:00" None;
     mk_att 4 2 "7" "2-7-20240103090000" "2024-01-03 09:00:00" None] 4
    [mk_log (Some 1) "2023-01-03 08:00:01" "Fetch Data" MsgConnecting;
     mk_log (Some 2) "2024-01-10 09:00:00" "Fetch Data" MsgConnecting]
    ∅ odoo_configured [].

Definition office : App.app :=
  App.mk_app office_world
    [App.mk_notice None "2023-01-03 07:00:00" "Scheduler" App.NoteRunStarting;
     App.mk_notice (Some 1) "2024-01-10 09:30:00" "Link to Odoo"
                   App.NoteLinkMultiple]
    [mk_machine 2 "Dock" (Some 2) None; mk_machine 1 "Gate" (Some 1) None]
    true "Running" "N/A" "N/A" [App.SchedulerThread].

(** A server that knows one machine of the name [Main gate]. *)
Definition one_machine_server (t : nat) (name : string)
    : result (list App.odoo_machine) :=
  if String.eqb name "Main gate"
  then Ok [App.mk_odoo_machine 41 (Some "Europe/Paris"%string)]
  else Ok [].

(** A store in which a stored timestamp of machine 1 is not of the
    format of the program. *)
Definition garbled_world : world :=
  mk_world 0 [mk_machine 1 "Gate" (Some 1) None] [] 0
    [mk_att 1 1 "7" "1-7-20240101080000" "2024-01-01T08:00:00" None] 1
    [] ∅ odoo_configured [].

(** A store whose connection details lack the password. *)
Definition unconfigured_world : world :=
  mk_world 0 [mk_machine 1 "Gate" (Some 1) None] [] 0
    [mk_att 1 1 "7" "1-7-20240101080000" "2024-01-01 08:00:00" None] 1
    [] ∅ (delete "password"%string odoo_configured) [].

(** The terminal at the gate with a port that [int] refuses. *)
Definition gate_with_service_name : conn_dict :=
  mk_conn_dict "Gate" "192.168.1.201" "4370/tcp" None.

(** A terminal that delivers its events and then fails to close the
    session. *)
Definition hung_env : environment :=
  mk_env second_clock
         (fun _ _ => Delivers [mk_zk_user 1 "7" "Ada"] calm_events)
         (fun _ => Ok (Some 2)) (fun _ _ => true) (fun _ _ _ => Ok [])
         (fun _ _ => true) (fun _ => None)
         (fun _ _ => false).

(** A store that holds the first event of the calm terminal already. *)
Definition refetch_world : world :=
  mk_world 0 [mk_machine 1 "Gate" (Some 1) None] [] 0
    [mk_att 1 1 "7" "1-7-20240110090005" "2024-01-10 09:00:05" None] 1
    [] ∅ odoo_configured [].

(** The gate in New York with the row of the repeated hour, not sent
    yet, and a server whose latest attendance of user 7 is of 05:00 UTC,
    half an hour before the earlier of the two instants of that row. *)
Definition ny_world : world :=
  mk_world 0
    [mk_machine 1 "Gate" (Some 1) (Some "America/New_York"%string)] [] 0
    [mk_att 1 1 "7" "1-7-20231105013000" "2023-11-05 01:30:00" None] 1
    [] ∅ odoo_configured [].

Definition ny_remote_env : environment :=
  mk_env second_clock (fun _ _ => ConnectFails) (fun _ => Ok (Some 2))
         (fun _ _ => true)
         (fun _ _ _ => Ok [Some "2023-11-05 05:00:00"%string])
         (fun _ _ => true)
         (fun name => if String.eqb name "America/New_York"
                      then Some New_York else None)
         (fun _ _ => true).

(* ===================================================================== *)
(** * Properties *)
(* ===================================================================== *)

(** ** The calendar and the timestamp format *)

Module datetime_facts.
Import datetime calendar.



Lemma forallb_range (P : Z -> bool) (k : nat) :
  forallb (fun i : nat => P (Z.of_nat i)) (seq 0%nat k) = true ->
  forall n, 0 <= n < Z.of_nat k -> P n = true.
Proof.
  intros H n Hn. rewrite forallb_forall in H.
  specialize (H (Z.to_nat n)). rewrite Z2Nat.id in H by lia.
  apply H. apply in_seq. lia.
Qed.

Lemma month_day_ok (leap : bool) n :
  0 <= n < 365 + (if leap then 1 else 0) ->
  month_day_okb leap n = true.
Proof.
  intros Hn. destruct leap.
  - apply (forallb_range (month_day_okb true) 366); [vm_compute; reflexivity | lia].
  - apply (forallb_range (month_day_okb false) 365); [vm_compute; reflexivity | lia].
Qed.

Lemma ord2ymd_eq n :
  _ord2ymd n =
    let n0 := n - 1 in
    let n400 := n0 / 146097 in
    let r := n0 mod 146097 in
    let n100 := r / 36524 in
    let r2 := r mod 36524 in
    let n4 := r2 / 1461 in
    let r3 := r2 mod 1461 in
    let n1 := r3 / 365 in
    let r4 := r3 mod 365 in
    let year := n400 * 400 + 1 + n100 * 100 + n4 * 4 + n1 in
    if (n1 =? 4) || (n100 =? 4) then (year - 1, 12, 31)
    else
      let '(m, d) :=
        month_day ((n1 =? 3) && (negb (n4 =? 24) || (n100 =? 3))) r4 in
      (year, m, d).
Proof.
  unfold _ord2ymd, month_day, _DI400Y, _DI100Y, _DI4Y. cbv zeta.
  destruct (_ || _); [reflexivity|].
  destruct (_ <? _); reflexivity.
Qed.

Lemma is_leap_iff y :
  _is_leap y = true <-> (y mod 4 = 0 /\ (y mod 100 <> 0 \/ y mod 400 = 0)).
Proof.
  unfold _is_leap. rewrite andb_true_iff, orb_true_iff, negb_true_iff.
  rewrite !Z.eqb_eq, Z.eqb_neq. reflexivity.
Qed.

Lemma days_before_year_succ y :
  _days_before_year (y + 1) =
  _days_before_year y + 365 + (if _is_leap y then 1 else 0).
Proof.
  unfold _days_before_year. cbv zeta.
  destruct (_is_leap y) eqn:Hl.
  - apply is_leap_iff in Hl. Z.div_mod_to_equations; lia.
  - assert (~ (y mod 4 = 0 /\ (y mod 100 <> 0 \/ y mod 400 = 0))) as Hn.
    { rewrite <- is_leap_iff. congruence. }
    Z.div_mod_to_equations; lia.
Qed.

Lemma bool_eq_iff (a b : bool) : (a = true <-> b = true) -> a = b.
Proof. destruct a, b; intuition congruence. Qed.

(** The quotients and remainders of [_ord2ymd]. *)
Lemma ord2ymd_digits n0 :
  0 <= n0 ->
  let r := n0 mod 146097 in
  let r2 := r mod 36524 in
  let r3 := r2 mod 1461 in
  n0 = 146097 * (n0 / 146097) + 36524 * (r / 36524) + 1461 * (r2 / 1461)
       + 365 * (r3 / 365) + r3 mod 365
  /\ 0 <= n0 / 146097
  /\ 0 <= r / 36524 <= 4
  /\ 0 <= r2 / 1461 <= 24
  /\ 0 <= r3 / 365 <= 4
  /\ 0 <= r3 mod 365 < 365
  /\ (r / 36524 = 4 -> r2 / 1461 = 0 /\ r3 / 365 = 0 /\ r3 mod 365 = 0)
  /\ (r3 / 365 = 4 -> r3 mod 365 = 0 /\ r2 / 1461 <= 23)
  /\ (r2 / 1461 = 24 -> r3 / 365 <= 3).
Proof.
  intros H. cbv zeta. Z.div_mod_to_equations. lia.
Qed.

Lemma leap_of_digits a b c d :
  0 <= b <= 3 -> 0 <= c <= 24 -> 0 <= d <= 3 ->
  _is_leap (a * 400 + 1 + b * 100 + c * 4 + d)
  = (d =? 3) && (negb (c =? 24) || (b =? 3)).
Proof.
  intros Hb Hc Hd. apply bool_eq_iff. rewrite is_leap_iff.
  rewrite andb_true_iff, orb_true_iff, negb_true_iff, !Z.eqb_eq, Z.eqb_neq.
  Z.div_mod_to_equations. lia.
Qed.

Lemma days_before_year_digits a b c d :
  0 <= b <= 3 -> 0 <= c <= 24 -> 0 <= d <= 3 ->
  _days_before_year (a * 400 + 1 + b * 100 + c * 4 + d)
  = 146097 * a + 36524 * b + 1461 * c + 365 * d.
Proof.
  intros Hb Hc Hd. unfold _days_before_year. cbv zeta.
  Z.div_mod_to_equations. lia.
Qed.

Lemma ord2ymd_ok n :
  1 <= n <= _MAXORDINAL ->
  exists y m d,
    _ord2ymd n = (y, m, d)
    /\ 1 <= y <= 9999 /\ 1 <= m <= 12 /\ 1 <= d <= _days_in_month y m
    /\ _ymd2ord y m d = n.
Proof.
  unfold _MAXORDINAL. intros Hn. rewrite ord2ymd_eq. cbv zeta.
  destruct (ord2ymd_digits (n - 1)) as (Hsum & Ha & Hb & Hc & Hd & Hr & Hb4 & Hd4 & Hc24);
    [lia|].
  set (a := (n - 1) / 146097) in *.
  set (b := (n - 1) mod 146097 / 36524) in *.
  set (c := (n - 1) mod 146097 mod 36524 / 1461) in *.
  set (d := (n - 1) mod 146097 mod 36524 mod 1461 / 365) in *.
  set (r4 := (n - 1) mod 146097 mod 36524 mod 1461 mod 365) in *.
  clearbody a b c d r4.
  destruct ((d =? 4) || (b =? 4)) eqn:Hsp.
  - apply orb_true_iff in Hsp. rewrite !Z.eqb_eq in Hsp.
    exists (a * 400 + 1 + b * 100 + c * 4 + d - 1), 12, 31.
    split; [reflexivity|].
    assert (Hleap : _is_leap (a * 400 + 1 + b * 100 + c * 4 + d - 1) = true).
    { apply is_leap_iff. Z.div_mod_to_equations. lia. }
    split; [lia|]. split; [lia|].
    unfold _days_in_month, _ymd2ord, _days_before_month. rewrite Hleap. simpl.
    split; [lia|].
    unfold _days_before_year. cbv zeta. Z.div_mod_to_equations. lia.
  - apply orb_false_iff in Hsp. rewrite !Z.eqb_neq in Hsp.
    assert (Hb3 : 0 <= b <= 3) by lia.
    assert (Hd3 : 0 <= d <= 3) by lia.
    pose proof (leap_of_digits a b c d Hb3 Hc Hd3) as Hleap.
    pose proof (days_before_year_digits a b c d Hb3 Hc Hd3) as Hdby.
    set (leap := (d =? 3) && (negb (c =? 24) || (b =? 3))) in *.
    pose proof (month_day_ok leap r4) as Hmd.
    unfold month_day_okb in Hmd.
    destruct (month_day leap r4) as [m dd].
    exists (a * 400 + 1 + b * 100 + c * 4 + d), m, dd.
    split; [reflexivity|].
    assert (Hin : 0 <= r4 < 365 + (if leap then 1 else 0)) by (destruct leap; lia).
    specialize (Hmd Hin).
    rewrite !andb_true_iff, !Z.leb_le, Z.eqb_eq in Hmd.
    destruct Hmd as ((((Hm1 & Hm12) & Hd1) & Hdim) & Hord).
    split; [lia|]. split; [lia|].
    unfold _days_in_month, _ymd2ord, _days_before_month. rewrite Hleap, Hdby.
    split; [|lia].
    destruct ((m =? 2) && leap) eqn:Hm2.
    + apply andb_true_iff in Hm2 as [Hm2 _]. apply Z.eqb_eq in Hm2. subst m.
      simpl in Hdim. lia.
    + lia.
Qed.

Ltac month_cases m :=
  let H := fresh "Hmonth" in
  assert (H : m = 1 \/ m = 2 \/ m = 3 \/ m = 4 \/ m = 5 \/ m = 6 \/ m = 7
              \/ m = 8 \/ m = 9 \/ m = 10 \/ m = 11 \/ m = 12) by lia;
  decompose [or] H; clear H; subst m.

Lemma days_before_year_mono y y' :
  y <= y' -> _days_before_year y <= _days_before_year y'.
Proof.
  intros H. unfold _days_before_year. cbv zeta. Z.div_mod_to_equations. lia.
Qed.

Lemma day_of_year_bounds y m d :
  1 <= m <= 12 -> 1 <= d <= _days_in_month y m ->
  1 <= _days_before_month y m + d <= 365 + (if _is_leap y then 1 else 0).
Proof.
  intros Hm Hd. unfold _days_in_month, _days_before_month in *.
  month_cases m; destruct (_is_leap y); simpl in *; lia.
Qed.

Lemma days_before_month_next y m m' :
  1 <= m -> m < m' -> m' <= 12 ->
  _days_before_month y m + _days_in_month y m <= _days_before_month y m'.
Proof.
  intros H1 H2 H3. unfold _days_in_month, _days_before_month.
  month_cases m; month_cases m'; try lia; destruct (_is_leap y); simpl; lia.
Qed.




Lemma ymd2ord_lt a b :
  valid_date a -> valid_date b -> date_lt a b -> ord a < ord b.
Proof.
  destruct a as [[y m] d], b as [[y' m'] d']. simpl.
  intros (Hy & Hm & Hd) (Hy' & Hm' & Hd') Hlt. unfold _ymd2ord.
  pose proof (day_of_year_bounds y m d Hm Hd).
  pose proof (day_of_year_bounds y' m' d' Hm' Hd').
  destruct Hlt as [Hlt | [-> [Hlt | [-> Hlt]]]].
  - pose proof (days_before_year_succ y).
    pose proof (days_before_year_mono (y + 1) y'). lia.
  - pose proof (days_before_month_next y' m m'). lia.
  - lia.
Qed.

Lemma date_trichotomy a b : date_lt a b \/ a = b \/ date_lt b a.
Proof.
  destruct a as [[y m] d], b as [[y' m'] d']. simpl.
  destruct (Z.lt_trichotomy y y') as [?|[->|?]]; [lia| |lia].
  destruct (Z.lt_trichotomy m m') as [?|[->|?]]; [lia| |lia].
  destruct (Z.lt_trichotomy d d') as [?|[->|?]]; [lia| |lia].
  auto.
Qed.

Lemma ymd2ord_inj a b :
  valid_date a -> valid_date b -> ord a = ord b -> a = b.
Proof.
  intros Ha Hb Heq.
  destruct (date_trichotomy a b) as [H|[H|H]]; [|exact H|].
  - pose proof (ymd2ord_lt a b Ha Hb H). lia.
  - pose proof (ymd2ord_lt b a Hb Ha H). lia.
Qed.

Lemma ymd2ord_range a : valid_date a -> 1 <= ord a <= _MAXORDINAL.
Proof.
  destruct a as [[y m] d]. simpl. intros (Hy & Hm & Hd).
  pose proof (day_of_year_bounds y m d Hm Hd).
  pose proof (days_before_year_mono 1 y).
  pose proof (days_before_year_mono (y + 1) 10000).
  pose proof (days_before_year_succ y).
  unfold _ymd2ord, _MAXORDINAL.
  change (_days_before_year 1) with 0 in *.
  change (_days_before_year 10000) with 3652059 in *. lia.
Qed.

Lemma ord2ymd_valid n :
  1 <= n <= _MAXORDINAL -> valid_date (_ord2ymd n) /\ ord (_ord2ymd n) = n.
Proof.
  intros Hn. destruct (ord2ymd_ok n Hn) as (y & m & d & -> & Hy & Hm & Hd & Ho).
  simpl. auto.
Qed.

Lemma ord2ymd_ymd2ord a : valid_date a -> _ord2ymd (ord a) = a.
Proof.
  intros Ha. pose proof (ymd2ord_range a Ha) as Hr.
  destruct (ord2ymd_valid _ Hr) as [Hv Ho].
  now apply ymd2ord_inj.
Qed.

Lemma ord2ymd_mono n n' :
  1 <= n -> n <= n' -> n' <= _MAXORDINAL ->
  _ord2ymd n = _ord2ymd n' \/ date_lt (_ord2ymd n) (_ord2ymd n').
Proof.
  intros H1 H2 H3.
  destruct (ord2ymd_valid n) as [Hv Ho]; [lia|].
  destruct (ord2ymd_valid n') as [Hv' Ho']; [lia|].
  destruct (date_trichotomy (_ord2ymd n) (_ord2ymd n')) as [H|[H|H]]; auto.
  pose proof (ymd2ord_lt _ _ Hv' Hv H). lia.
Qed.

(** ** Datetimes as seconds *)



Lemma valid_iff d :
  valid d <->
  valid_date (date_of d)
  /\ 0 <= hour d < 24 /\ 0 <= minute d < 60 /\ 0 <= second d < 60
  /\ 0 <= microsecond d < 1000000.
Proof.
  unfold valid, validb, date_of, valid_date, MINYEAR, MAXYEAR.
  rewrite !andb_true_iff, !Z.leb_le, !Z.ltb_lt. tauto.
Qed.

Lemma toordinal_ord d : toordinal d = ord (date_of d).
Proof. reflexivity. Qed.

Lemma compare_lex_spec a b :
  compare a b =
    lex (year a ?= year b) (lex (month a ?= month b) (lex (day a ?= day b)
    (lex (hour a ?= hour b) (lex (minute a ?= minute b)
    (lex (second a ?= second b) (microsecond a ?= microsecond b)))))).
Proof. reflexivity. Qed.

Ltac cmp_cases :=
  repeat match goal with
  | |- context [?x ?= ?y] =>
      let H := fresh "Hc" in
      destruct (Z.compare_spec x y) as [H|H|H]; simpl lex
  | H : context [?x ?= ?y] |- _ =>
      let H' := fresh "Hc" in
      destruct (Z.compare_spec x y) as [H'|H'|H']; simpl lex in H
  end.

(** The order of valid datetimes is the order of their (seconds,
    microseconds). *)
Lemma compare_seconds a b :
  valid a -> valid b ->
  compare a b = lex (seconds a ?= seconds b) (microsecond a ?= microsecond b).
Proof.
  intros Ha Hb. apply valid_iff in Ha as (Hda & Hha & Hma & Hsa & Hua).
  apply valid_iff in Hb as (Hdb & Hhb & Hmb & Hsb & Hub).
  unfold seconds. rewrite !toordinal_ord.
  destruct (date_trichotomy (date_of a) (date_of b)) as [H|[H|H]].
  - pose proof (ymd2ord_lt _ _ Hda Hdb H) as Hlt.
    assert (Hs : (ord (date_of a) * 86400 + hour a * 3600 + minute a * 60 + second a
            ?= ord (date_of b) * 86400 + hour b * 3600 + minute b * 60 + second b) = Lt)
      by (apply Z.compare_lt_iff; lia).
    rewrite Hs. simpl. unfold date_of, date_lt in H.
    rewrite compare_lex_spec.
    destruct H as [H|[H1 [H|[H2 H]]]].
    + apply Z.compare_lt_iff in H. now rewrite H.
    + rewrite H1, Z.compare_refl. simpl.
      apply Z.compare_lt_iff in H. now rewrite H.
    + rewrite H1, H2, !Z.compare_refl. simpl.
      apply Z.compare_lt_iff in H. now rewrite H.
  - unfold date_of in H. injection H as Hy Hm Hd.
    rewrite compare_lex_spec.
    unfold date_of. rewrite Hy, Hm, Hd, !Z.compare_refl. cbn [lex].
    cmp_cases; try reflexivity; try lia.
  - pose proof (ymd2ord_lt _ _ Hdb Hda H) as Hlt.
    assert (Hs : (ord (date_of a) * 86400 + hour a * 3600 + minute a * 60 + second a
            ?= ord (date_of b) * 86400 + hour b * 3600 + minute b * 60 + second b) = Gt)
      by (apply Z.compare_gt_iff; lia).
    rewrite Hs. simpl. unfold date_of, date_lt in H.
    rewrite compare_lex_spec.
    destruct H as [H|[H1 [H|[H2 H]]]].
    + apply Z.compare_gt_iff in H. now rewrite H.
    + rewrite <- H1, Z.compare_refl. simpl.
      apply Z.compare_gt_iff in H. now rewrite H.
    + rewrite <- H1, <- H2, !Z.compare_refl. simpl.
      apply Z.compare_gt_iff in H. now rewrite H.
Qed.

Lemma compare_eq a b : compare a b = Eq -> a = b.
Proof.
  rewrite compare_lex_spec. destruct a, b. simpl.
  intros H. cmp_cases; try discriminate. now subst.
Qed.

Lemma compare_refl a : compare a a = Eq.
Proof. rewrite compare_lex_spec. now rewrite !Z.compare_refl. Qed.

Lemma seconds_inj a b :
  valid a -> valid b ->
  seconds a = seconds b -> microsecond a = microsecond b -> a = b.
Proof.
  intros Ha Hb Hs Hu. apply compare_eq.
  rewrite (compare_seconds a b Ha Hb), Hs, Hu, !Z.compare_refl. reflexivity.
Qed.

Lemma leb_seconds a b :
  valid a -> valid b -> leb a b = true -> seconds a <= seconds b.
Proof.
  intros Ha Hb. unfold leb. rewrite (compare_seconds a b Ha Hb).
  destruct (Z.compare_spec (seconds a) (seconds b)); simpl; intros;
    first [lia | discriminate].
Qed.

(** [add] moves the seconds by [delta] and keeps the microseconds. *)
Lemma add_spec d delta r :
  valid d -> add d delta = Some r ->
  valid r /\ seconds r = seconds d + delta /\ microsecond r = microsecond d.
Proof.
  intros Hd. unfold add. fold (seconds d). cbv zeta.
  set (T := seconds d + delta).
  destruct ((0 <? _) && (_ <=? _)) eqn:Hrange; [|discriminate].
  apply andb_true_iff in Hrange as [H0 Hmax].
  apply Z.ltb_lt in H0. apply Z.leb_le in Hmax.
  destruct (ord2ymd_ok (T / 86400)) as
    (y & m & dd & Hord & Hy & Hm & Hdd & Ho); [lia|].
  rewrite Hord. intros [= <-].
  apply valid_iff in Hd as (_ & _ & _ & _ & Hus).
  clearbody T.
  split; [|split; [|reflexivity]].
  - apply valid_iff. cbn [date_of valid_date year month day hour minute second microsecond].
    repeat split; try lia; Z.div_mod_to_equations; lia.
  - unfold seconds, toordinal.
    cbn [year month day hour minute second]. rewrite Ho.
    Z.div_mod_to_equations. lia.
Qed.

Lemma add_total d delta :
  valid d ->
  86400 <= seconds d + delta < (_MAXORDINAL + 1) * 86400 ->
  exists r, add d delta = Some r.
Proof.
  intros Hd Hr. unfold add. fold (seconds d). cbv zeta.
  assert (H : (0 <? (seconds d + delta) / 86400)
              && ((seconds d + delta) / 86400 <=? _MAXORDINAL) = true).
  { apply andb_true_iff. rewrite Z.ltb_lt, Z.leb_le.
    unfold _MAXORDINAL in *. Z.div_mod_to_equations. lia. }
  rewrite H. destruct (_ord2ymd _) as [[y m] dd]. eauto.
Qed.

Lemma seconds_range d :
  valid d -> 86400 <= seconds d < (_MAXORDINAL + 1) * 86400.
Proof.
  intros Hd. apply valid_iff in Hd as (Hdate & Hh & Hm & Hs & _).
  pose proof (ymd2ord_range _ Hdate). unfold seconds. rewrite toordinal_ord.
  lia.
Qed.

(** Adding [delta] and taking it away again is the identity. *)
Lemma add_sub_cancel d delta r :
  valid d -> add d delta = Some r -> add r (- delta) = Some d.
Proof.
  intros Hd Hr. destruct (add_spec d delta r Hd Hr) as (Hv & Hs & Hu).
  pose proof (seconds_range d Hd) as Hrange.
  destruct (add_total r (- delta) Hv) as [d' Hd']; [lia|].
  destruct (add_spec r (- delta) d' Hv Hd') as (Hv' & Hs' & Hu').
  rewrite Hd'. f_equal. apply seconds_inj; auto; lia.
Qed.

(** ** The timestamp format and the order of strings *)

Lemma strftime_ts d :
  strftime d TS_FORMAT =
    String (digit (year d / 1000)) (String (digit (year d / 100))
    (String (digit (year d / 10)) (String (digit (year d))
    (String "-" (String (digit (month d / 10)) (String (digit (month d))
    (String "-" (String (digit (day d / 10)) (String (digit (day d))
    (String " " (String (digit (hour d / 10)) (String (digit (hour d))
    (String ":" (String (digit (minute d / 10)) (String (digit (minute d))
    (String ":" (String (digit (second d / 10)) (String (digit (second d))
    EmptyString)))))))))))))))))).
Proof. reflexivity. Qed.

Lemma str_compare_cons a s b u :
  String.compare (String a s) (String b u)
  = lex (Ascii.compare a b) (String.compare s u).
Proof. simpl. now destruct (Ascii.compare a b). Qed.

Lemma digit_compare a b :
  Ascii.compare (digit a) (digit b) = (a mod 10 ?= b mod 10).
Proof.
  unfold digit.
  pose proof (Z.mod_pos_bound a 10 eq_refl) as Ha.
  pose proof (Z.mod_pos_bound b 10 eq_refl) as Hb.
  set (x := a mod 10) in *. set (y := b mod 10) in *. clearbody x y.
  assert (Hx : x = 0 \/ x = 1 \/ x = 2 \/ x = 3 \/ x = 4 \/ x = 5 \/ x = 6
               \/ x = 7 \/ x = 8 \/ x = 9) by lia.
  assert (Hy : y = 0 \/ y = 1 \/ y = 2 \/ y = 3 \/ y = 4 \/ y = 5 \/ y = 6
               \/ y = 7 \/ y = 8 \/ y = 9) by lia.
  decompose [or] Hx; decompose [or] Hy; subst; reflexivity.
Qed.

Lemma lex_digit q r q' r' (rest : comparison) :
  0 <= r < 10 -> 0 <= r' < 10 ->
  lex (q ?= q') (lex (r ?= r') rest) = lex (10 * q + r ?= 10 * q' + r') rest.
Proof.
  intros Hr Hr'.
  destruct (Z.compare_spec q q') as [H1|H1|H1];
  destruct (Z.compare_spec r r') as [H2|H2|H2];
  destruct (Z.compare_spec (10 * q + r) (10 * q' + r')) as [H3|H3|H3];
  simpl; try reflexivity; exfalso; lia.
Qed.

Lemma split_digit n : n = 10 * (n / 10) + n mod 10.
Proof. apply Z.div_mod. lia. Qed.

Lemma lex_two_digits n m (rest : comparison) :
  0 <= n < 100 -> 0 <= m < 100 ->
  lex ((n / 10) mod 10 ?= (m / 10) mod 10) (lex (n mod 10 ?= m mod 10) rest)
  = lex (n ?= m) rest.
Proof.
  intros Hn Hm.
  rewrite (Z.mod_small (n / 10)), (Z.mod_small (m / 10))
    by (Z.div_mod_to_equations; lia).
  rewrite lex_digit by (apply Z.mod_pos_bound; lia).
  now rewrite <- !split_digit.
Qed.

Lemma lex_four_digits n m (rest : comparison) :
  0 <= n < 10000 -> 0 <= m < 10000 ->
  lex ((n / 1000) mod 10 ?= (m / 1000) mod 10)
    (lex ((n / 100) mod 10 ?= (m / 100) mod 10)
    (lex ((n / 10) mod 10 ?= (m / 10) mod 10)
    (lex (n mod 10 ?= m mod 10) rest)))
  = lex (n ?= m) rest.
Proof.
  intros Hn Hm.
  rewrite (Z.mod_small (n / 1000)), (Z.mod_small (m / 1000))
    by (Z.div_mod_to_equations; lia).
  rewrite lex_digit by (apply Z.mod_pos_bound; lia).
  replace (10 * (n / 1000) + (n / 100) mod 10) with (n / 100)
    by (Z.div_mod_to_equations; lia).
  replace (10 * (m / 1000) + (m / 100) mod 10) with (m / 100)
    by (Z.div_mod_to_equations; lia).
  rewrite lex_digit by (apply Z.mod_pos_bound; lia).
  replace (10 * (n / 100) + (n / 10) mod 10) with (n / 10)
    by (Z.div_mod_to_equations; lia).
  replace (10 * (m / 100) + (m / 10) mod 10) with (m / 10)
    by (Z.div_mod_to_equations; lia).
  rewrite lex_digit by (apply Z.mod_pos_bound; lia).
  now rewrite <- !split_digit.
Qed.

Lemma days_in_month_le y m : 1 <= m <= 12 -> _days_in_month y m <= 31.
Proof.
  intros Hm. unfold _days_in_month. destruct (_ && _); [lia|].
  month_cases m; simpl; lia.
Qed.

Lemma valid_fields d :
  valid d ->
  0 <= year d < 10000 /\ 0 <= month d < 100 /\ 0 <= day d < 100
  /\ 0 <= hour d < 100 /\ 0 <= minute d < 100 /\ 0 <= second d < 100.
Proof.
  intros H. apply valid_iff in H as ((Hy & Hm & Hd) & Hh & Hmi & Hs & _).
  pose proof (days_in_month_le (year d) (month d) Hm). lia.
Qed.

(** The rendering in [TS_FORMAT] orders as the datetimes do, to the second. *)
Lemma strftime_compare a b :
  valid a -> valid b ->
  String.compare (strftime a TS_FORMAT) (strftime b TS_FORMAT)
  = compare (whole_second a) (whole_second b).
Proof.
  intros Ha Hb.
  destruct (valid_fields a Ha) as (Hya & Hma & Hda & Hha & Hmia & Hsa).
  destruct (valid_fields b Hb) as (Hyb & Hmb & Hdb & Hhb & Hmib & Hsb).
  rewrite !strftime_ts, !str_compare_cons, !digit_compare.
  change (Ascii.compare "-" "-") with Eq.
  change (Ascii.compare " " " ") with Eq.
  change (Ascii.compare ":" ":") with Eq.
  change (String.compare EmptyString EmptyString) with Eq.
  cbn [lex].
  rewrite lex_four_digits by assumption.
  rewrite (lex_two_digits (month a) (month b)) by assumption.
  rewrite (lex_two_digits (day a) (day b)) by assumption.
  rewrite (lex_two_digits (hour a) (hour b)) by assumption.
  rewrite (lex_two_digits (minute a) (minute b)) by assumption.
  rewrite (lex_two_digits (second a) (second b)) by assumption.
  rewrite compare_lex_spec. cbn [whole_second year month day hour minute second microsecond].
  rewrite Z.compare_refl.
  reflexivity.
Qed.


(** ** Parsing back what was rendered *)

Lemma digit_val_digit n : digit_val (digit n) = Some (n mod 10).
Proof.
  unfold digit.
  pose proof (Z.mod_pos_bound n 10 eq_refl) as Hn.
  set (x := n mod 10) in *. clearbody x.
  assert (Hx : x = 0 \/ x = 1 \/ x = 2 \/ x = 3 \/ x = 4 \/ x = 5 \/ x = 6
               \/ x = 7 \/ x = 8 \/ x = 9) by lia.
  decompose [or] Hx; subst; reflexivity.
Qed.

Lemma is_space_digit n : is_space (digit n) = false.
Proof.
  unfold digit.
  pose proof (Z.mod_pos_bound n 10 eq_refl) as Hn.
  set (x := n mod 10) in *. clearbody x.
  assert (Hx : x = 0 \/ x = 1 \/ x = 2 \/ x = 3 \/ x = 4 \/ x = 5 \/ x = 6
               \/ x = 7 \/ x = 8 \/ x = 9) by lia.
  decompose [or] Hx; subst; reflexivity.
Qed.

Lemma range_cases n (k : nat) :
  0 <= n < Z.of_nat k -> In n (map Z.of_nat (seq 0%nat k)).
Proof.
  intros Hn. apply in_map_iff. exists (Z.to_nat n).
  split; [lia | apply in_seq; lia].
Qed.

(** The numbers of a range, one by one. *)
Ltac each_of H :=
  cbn in H;
  repeat (destruct H as [H | H]; [subst; try reflexivity; try lia|]);
  try contradiction.

(** The first way the regular expression of a field matches a rendering
    of two digits is the rendering itself. *)
Lemma candidates_month acc n rest :
  1 <= n <= 12 ->
  hd_error (candidates pm acc (String (digit (n / 10)) (String (digit n) rest)))
  = Some (set_field pm n acc, rest).
Proof.
  intros Hn. assert (H : In n (map Z.of_nat (seq 0%nat 13)))
    by (apply range_cases; lia).
  each_of H.
Qed.

Lemma candidates_day acc n rest :
  1 <= n <= 31 ->
  hd_error (candidates pd acc (String (digit (n / 10)) (String (digit n) rest)))
  = Some (set_field pd n acc, rest).
Proof.
  intros Hn. assert (H : In n (map Z.of_nat (seq 0%nat 32)))
    by (apply range_cases; lia).
  each_of H.
Qed.

Lemma candidates_hour acc n rest :
  0 <= n < 24 ->
  hd_error (candidates pH acc (String (digit (n / 10)) (String (digit n) rest)))
  = Some (set_field pH n acc, rest).
Proof.
  intros Hn. assert (H : In n (map Z.of_nat (seq 0%nat 24)))
    by (apply range_cases; lia).
  each_of H.
Qed.

Lemma candidates_minute acc n rest :
  0 <= n < 60 ->
  hd_error (candidates pM acc (String (digit (n / 10)) (String (digit n) rest)))
  = Some (set_field pM n acc, rest).
Proof.
  intros Hn. assert (H : In n (map Z.of_nat (seq 0%nat 60)))
    by (apply range_cases; lia).
  each_of H.
Qed.

Lemma candidates_second acc n rest :
  0 <= n < 60 ->
  hd_error (candidates pS acc (String (digit (n / 10)) (String (digit n) rest)))
  = Some (set_field pS n acc, rest).
Proof.
  intros Hn. assert (H : In n (map Z.of_nat (seq 0%nat 60)))
    by (apply range_cases; lia).
  each_of H.
Qed.

Lemma candidates_year acc n rest :
  0 <= n < 10000 ->
  hd_error (candidates pY acc
              (String (digit (n / 1000)) (String (digit (n / 100))
                 (String (digit (n / 10)) (String (digit n) rest)))))
  = Some (set_field pY n acc, rest).
Proof.
  intros Hn. unfold candidates, alternatives. cbn [flat_map match_alternative].
  rewrite !digit_val_digit. cbn [match_alternative].
  assert (Hr : forall k, (0 <=? k mod 10) && (k mod 10 <=? 9) = true).
  { intros k. pose proof (Z.mod_pos_bound k 10 eq_refl).
    apply andb_true_iff. split; [apply Z.leb_le | apply Z.leb_le]; lia. }
  rewrite !Hr. cbn [hd_error app].
  do 3 f_equal. Z.div_mod_to_equations. lia.
Qed.

Lemma candidates_blank acc k rest :
  hd_error (candidates (Lit " ") acc (String " " (String (digit k) rest)))
  = Some (acc, String (digit k) rest).
Proof.
  unfold candidates. change (is_space " ") with true. cbv iota.
  cbn [after_spaces]. change (is_space " ") with true. cbv iota.
  rewrite is_space_digit. reflexivity.
Qed.

Lemma match_format_step x xs acc s c r :
  hd_error (candidates x acc s) = Some c ->
  match_format xs (fst c) (snd c) = Some r ->
  match_format (x :: xs) acc s = Some r.
Proof.
  intros Hc Hr. cbn [match_format].
  destruct (candidates x acc s) as [|c' l]; [discriminate|].
  injection Hc as ->. cbn [first_success]. now rewrite Hr.
Qed.

Lemma valid_whole_second d : valid d -> valid (whole_second d).
Proof.
  rewrite !valid_iff. unfold date_of. simpl. intuition lia.
Qed.

Lemma valid_midnight d : valid d -> valid (replace_midnight d).
Proof.
  rewrite !valid_iff. unfold date_of. simpl. intuition lia.
Qed.

Lemma strptime_strftime d :
  valid d -> strptime (strftime d TS_FORMAT) TS_FORMAT = Some (whole_second d).
Proof.
  intros Hd. pose proof (valid_whole_second d Hd) as Hw.
  destruct (valid_fields d Hd) as (Hy & _).
  pose proof (proj1 (valid_iff d) Hd) as ((_ & Hm & Hdd) & Hh & Hmi & Hs & _).
  pose proof (days_in_month_le (year d) (month d) Hm) as Hdm.
  unfold strptime. rewrite strftime_ts.
  change (collapse_spaces (parse_format TS_FORMAT)) with
    [pY; Lit "-"; pm; Lit "-"; pd; Lit " "; pH; Lit ":"; pM; Lit ":"; pS]%char.
  erewrite match_format_step;
    [ | apply candidates_year; assumption | cbn [fst snd] ].
  2:{ eapply match_format_step; [reflexivity | cbn [fst snd]].
      eapply match_format_step; [apply candidates_month; lia | cbn [fst snd]].
      eapply match_format_step; [reflexivity | cbn [fst snd]].
      eapply match_format_step; [apply candidates_day; lia | cbn [fst snd]].
      eapply match_format_step; [apply candidates_blank | cbn [fst snd]].
      eapply match_format_step; [apply candidates_hour; lia | cbn [fst snd]].
      eapply match_format_step; [reflexivity | cbn [fst snd]].
      eapply match_format_step; [apply candidates_minute; lia | cbn [fst snd]].
      eapply match_format_step; [reflexivity | cbn [fst snd]].
      eapply match_format_step; [apply candidates_second; lia | cbn [fst snd]].
      reflexivity. }
  cbn [set_field year month day hour minute second microsecond].
  fold (whole_second d). unfold valid in Hw. now rewrite Hw.
Qed.

Lemma strptime_valid s d : strptime s TS_FORMAT = Some d -> valid d.
Proof.
  unfold strptime. destruct (match_format _ _ _) as [[x r]|]; [|discriminate].
  destruct r; [|discriminate].
  destruct (validb x) eqn:Hv; [|discriminate]. now intros [= <-].
Qed.

Lemma strftime_nonempty d : strftime d TS_FORMAT <> EmptyString.
Proof. rewrite strftime_ts. discriminate. Qed.

(** ** Order *)

Lemma seconds_whole_second d : seconds (whole_second d) = seconds d.
Proof. reflexivity. Qed.

Lemma ltb_whole_seconds a b :
  valid a -> valid b ->
  ltb (whole_second a) (whole_second b) = (seconds a <? seconds b).
Proof.
  intros Ha Hb. unfold ltb.
  rewrite compare_seconds by now apply valid_whole_second.
  rewrite !seconds_whole_second. simpl microsecond.
  destruct (Z.compare_spec (seconds a) (seconds b)); simpl;
    symmetry; first [apply Z.ltb_lt | apply Z.ltb_ge]; lia.
Qed.

Lemma str_ltb_strftime a b :
  valid a -> valid b ->
  str_ltb (strftime a TS_FORMAT) (strftime b TS_FORMAT)
  = (seconds a <? seconds b).
Proof.
  intros Ha Hb. unfold str_ltb, String.ltb.
  rewrite strftime_compare by assumption.
  now rewrite <- ltb_whole_seconds.
Qed.

Lemma leb_ltb_trans a b c :
  valid a -> valid b -> valid c ->
  leb a b = true -> ltb b c = true -> ltb a c = true.
Proof.
  intros Ha Hb Hc. unfold leb, ltb.
  rewrite (compare_seconds a b), (compare_seconds b c), (compare_seconds a c)
    by assumption.
  destruct (Z.compare_spec (seconds a) (seconds b));
  destruct (Z.compare_spec (seconds b) (seconds c));
  destruct (Z.compare_spec (seconds a) (seconds c)); simpl;
  destruct (Z.compare_spec (microsecond a) (microsecond b));
  destruct (Z.compare_spec (microsecond b) (microsecond c));
  destruct (Z.compare_spec (microsecond a) (microsecond c));
  simpl; intros; try reflexivity; try discriminate; exfalso; lia.
Qed.

Lemma seconds_split d :
  valid d ->
  seconds d = ord (date_of d) * 86400 + (hour d * 3600 + minute d * 60 + second d)
  /\ 0 <= hour d * 3600 + minute d * 60 + second d < 86400.
Proof.
  intros Hd. apply valid_iff in Hd as (_ & Hh & Hm & Hs & _).
  unfold seconds. rewrite toordinal_ord. lia.
Qed.

(** Truncation to midnight keeps the order. *)
Lemma midnight_mono a b :
  valid a -> valid b -> seconds a <= seconds b ->
  leb (replace_midnight a) (replace_midnight b) = true.
Proof.
  intros Ha Hb Hs.
  destruct (seconds_split a Ha) as [Hsa Hta].
  destruct (seconds_split b Hb) as [Hsb Htb].
  apply valid_iff in Ha as (Hda & _). apply valid_iff in Hb as (Hdb & _).
  unfold leb. rewrite compare_lex_spec. simpl.
  destruct (date_trichotomy (date_of a) (date_of b)) as [H|[H|H]].
  - unfold date_of, date_lt in H.
    destruct H as [H|[H1 [H|[H2 H]]]].
    + apply Z.compare_lt_iff in H. now rewrite H.
    + rewrite H1, Z.compare_refl. simpl.
      apply Z.compare_lt_iff in H. now rewrite H.
    + rewrite H1, H2, !Z.compare_refl. simpl.
      apply Z.compare_lt_iff in H. now rewrite H.
  - unfold date_of in H. injection H as -> -> ->.
    now rewrite !Z.compare_refl.
  - pose proof (ymd2ord_lt _ _ Hdb Hda H). lia.
Qed.

(** A midnight strictly before [x] is at most the midnight of [x]. *)
Lemma ltb_midnight d x :
  ltb (replace_midnight d) x = true ->
  leb (replace_midnight d) (replace_midnight x) = true.
Proof.
  unfold ltb, leb. rewrite !compare_lex_spec. simpl.
  destruct (year d ?= year x); simpl; try discriminate; try reflexivity.
  destruct (month d ?= month x); simpl; try discriminate; try reflexivity.
  destruct (day d ?= day x); simpl; try discriminate; reflexivity.
Qed.

(** ** The lookback *)

Lemma lookback_exists d days_back :
  valid d -> 1901 <= year d -> 0 <= days_back <= 36500 ->
  exists base, sub d (timedelta_days days_back) = Some base.
Proof.
  intros Hd Hy Hdb. unfold sub. apply add_total; [exact Hd|].
  pose proof (seconds_range d Hd) as Hr.
  destruct (seconds_split d Hd) as [Hs Ht].
  pose proof (valid_iff d) as [Hv _]. specialize (Hv Hd) as ((_ & Hm & Hdd) & _).
  pose proof (days_before_year_mono 1901 (year d) Hy) as Hmono.
  change (_days_before_year 1901) with 693960 in Hmono.
  pose proof (day_of_year_bounds (year d) (month d) (day d) Hm Hdd) as Hdoy.
  unfold date_of, ord, _ymd2ord in Hs.
  unfold timedelta_days, _MAXORDINAL in *. lia.
Qed.

Lemma lookback_mono a b days_back ra rb :
  valid a -> valid b -> leb a b = true ->
  sub a (timedelta_days days_back) = Some ra ->
  sub b (timedelta_days days_back) = Some rb ->
  valid ra /\ valid rb
  /\ leb (replace_midnight ra) (replace_midnight rb) = true.
Proof.
  intros Ha Hb Hab Hra Hrb.
  destruct (add_spec _ _ _ Ha Hra) as (Hva & Hsa & _).
  destruct (add_spec _ _ _ Hb Hrb) as (Hvb & Hsb & _).
  split; [exact Hva|]. split; [exact Hvb|].
  apply midnight_mono; try assumption.
  pose proof (leb_seconds a b Ha Hb Hab). lia.
Qed.

End datetime_facts.


(** ** The state monad *)

Lemma bind_ok {A B} (m : M A) (k : A -> M B) w w' a :
  m w = (w', Ok a) -> bind m k w = k a w'.
Proof. intros H. unfold bind. now rewrite H. Qed.

Lemma bind_raise {A B} (m : M A) (k : A -> M B) w w' e :
  m w = (w', Raise e) -> bind m k w = (w', Raise e).
Proof. intros H. unfold bind. now rewrite H. Qed.

Lemma bind_assoc {A B C} (m : M A) (k : A -> M B) (k' : B -> M C) w :
  bind (bind m k) k' w = bind m (fun a => bind (k a) k') w.
Proof. unfold bind. destruct (m w) as [w1 [a|e]]; reflexivity. Qed.

Lemma bind_ret {A} (m : M A) w : bind m ret w = m w.
Proof. unfold bind, ret. destruct (m w) as [w1 [a|e]]; reflexivity. Qed.

Lemma try_ok {A} (m : M A) h w w' a :
  m w = (w', Ok a) -> try_except m h w = (w', Ok a).
Proof. intros H. unfold try_except. now rewrite H. Qed.

Lemma try_raise {A} (m : M A) h w w' e :
  m w = (w', Raise e) -> try_except m h w = h e w'.
Proof. intros H. unfold try_except. now rewrite H. Qed.

Lemma log_operation_eq E op msg c w :
  log_operation E op msg c w = (logged E op msg c w, Ok tt).
Proof. reflexivity. Qed.

Lemma for_each_app {A S} (xs ys : list A) (body : A -> S -> M S) s w w' s' :
  for_each xs body s w = (w', Ok s') ->
  for_each (xs ++ ys) body s w = for_each ys body s' w'.
Proof.
  revert s w. induction xs as [|x xs IH]; intros s w H; simpl in *.
  - unfold ret in H. now inversion H.
  - unfold bind in *. destruct (body x s w) as [w1 [s1|e]]; [|discriminate].
    now apply IH.
Qed.

(** ** The batch *)

Lemma send_batch_fails E st w :
  payload_batch st <> [] ->
  create_attendance E (tick w) (payload_batch st) = false ->
  send_batch E st w =
    (set_rpc (rpc w ++ [RpcCreateAttendance (payload_batch st) false])
             (set_tick S w), Raise Fault).
Proof.
  intros Hne Hf. unfold send_batch.
  destruct (payload_batch st) as [|p ps] eqn:Hp; [congruence|].
  unfold bind, rpc_create_attendance, bind, next_tick, record_rpc, modify.
  simpl. rewrite Hf. reflexivity.
Qed.

Lemma send_batch_succeeds E st w :
  payload_batch st <> [] ->
  create_attendance E (tick w) (payload_batch st) = true ->
  let now_str := datetime.strftime (clock E (S (tick w))) TS_FORMAT in
  send_batch E st w =
    (set_attendance (map (mark_att now_str (record_id_batch st)) (attendance w))
       (attendance_seq w)
       (set_tick S
          (set_rpc (rpc w ++ [RpcCreateAttendance (payload_batch st) true])
                   (set_tick S w))), Ok now_str).
Proof.
  intros Hne Hf now_str. unfold send_batch.
  destruct (payload_batch st) as [|p ps] eqn:Hp; [congruence|].
  unfold bind, rpc_create_attendance, bind, next_tick, record_rpc, modify.
  simpl. rewrite Hf. reflexivity.
Qed.

Lemma send_batch_nothing_to_send E st w :
  payload_batch st = [] ->
  let now_str := datetime.strftime (clock E (tick w)) TS_FORMAT in
  send_batch E st w =
    (set_attendance (map (mark_att now_str (record_id_batch st)) (attendance w))
       (attendance_seq w) (set_tick S w), Ok now_str).
Proof. intros Hp now_str. unfold send_batch. rewrite Hp. reflexivity. Qed.

Lemma mark_att_id now_str ids r : a_id (mark_att now_str ids r) = a_id r.
Proof. unfold mark_att. now destruct (existsb _ _). Qed.

Lemma existsb_eqb_In (x : Z) ids : existsb (Z.eqb x) ids = true <-> In x ids.
Proof.
  rewrite existsb_exists. split.
  - intros (y & Hy & Heq). apply Z.eqb_eq in Heq. now subst.
  - intros H. exists x. split; [easy | apply Z.eqb_refl].
Qed.

Lemma marked_synced_with now_str ids rows :
  synced_with now_str ids (map (mark_att now_str ids) rows).
Proof.
  intros r Hr Hid. apply in_map_iff in Hr as (r0 & <- & _).
  rewrite mark_att_id in Hid. unfold mark_att.
  apply existsb_eqb_In in Hid. now rewrite Hid.
Qed.

Lemma marked_ids now_str ids rows :
  map a_id (map (mark_att now_str ids) rows) = map a_id rows.
Proof.
  rewrite map_map. apply map_ext. intros r. apply mark_att_id.
Qed.



Lemma send_batch_fails' E st w :
  payload_batch st <> [] ->
  create_attendance E (tick w) (payload_batch st) = false ->
  send_batch E st w = (after_create st false w, Raise Fault).
Proof. apply send_batch_fails. Qed.

Lemma send_batch_succeeds' E st w :
  payload_batch st <> [] ->
  create_attendance E (tick w) (payload_batch st) = true ->
  send_batch E st w =
    (after_mark E st (after_create st true w),
     Ok (datetime.strftime (clock E (S (tick w))) TS_FORMAT)).
Proof. apply send_batch_succeeds. Qed.

Lemma flush_batch_fails E total_att st w :
  payload_batch st <> [] ->
  create_attendance E (tick w) (payload_batch st) = false ->
  flush_batch E total_att st w =
    (logged E "Error" (MsgBatchFailed Fault) None (after_create st false w),
     Ok st).
Proof.
  intros Hne Hc. unfold flush_batch, try_except, bind.
  rewrite (send_batch_fails' E st w Hne Hc). reflexivity.
Qed.

Lemma flush_batch_succeeds E total_att st w :
  payload_batch st <> [] ->
  create_attendance E (tick w) (payload_batch st) = true ->
  flush_batch E total_att st w =
    (logged E "Odoo Sync"
       (MsgAttendanceSoFar (synced_count st + len (payload_batch st)) total_att)
       None (after_mark E st (after_create st true w)),
     Ok (mk_sync_state [] [] (synced_count st + len (payload_batch st))
                       (last_user_attendance st))).
Proof.
  intros Hne Hc. unfold flush_batch, try_except, bind.
  rewrite (send_batch_succeeds' E st w Hne Hc). reflexivity.
Qed.

Lemma flush_batch_nothing_to_send E total_att st w :
  payload_batch st = [] ->
  flush_batch E total_att st w =
    (logged E "Odoo Sync" (MsgAttendanceSoFar (synced_count st + 0) total_att)
       None (after_mark E st w),
     Ok (mk_sync_state [] [] (synced_count st + 0) (last_user_attendance st))).
Proof.
  intros Hp. unfold flush_batch, try_except, bind.
  rewrite (send_batch_nothing_to_send E st w Hp). rewrite Hp. reflexivity.
Qed.

Lemma flush_final_fails E st w :
  payload_batch st <> [] -> record_id_batch st <> [] ->
  create_attendance E (tick w) (payload_batch st) = false ->
  flush_final E st w =
    (logged E "Error" (MsgFinalBatchFailed Fault) None
            (after_create st false w), Ok st).
Proof.
  intros Hne Hids Hc. unfold flush_final.
  destruct (record_id_batch st) eqn:Hr; [congruence|].
  unfold try_except, bind.
  rewrite (send_batch_fails' E st w Hne Hc). reflexivity.
Qed.

Lemma flush_final_succeeds E st w :
  payload_batch st <> [] -> record_id_batch st <> [] ->
  create_attendance E (tick w) (payload_batch st) = true ->
  flush_final E st w =
    (after_mark E st (after_create st true w),
     Ok (mk_sync_state (payload_batch st) (record_id_batch st)
           (synced_count st + len (payload_batch st))
           (last_user_attendance st))).
Proof.
  intros Hne Hids Hc. unfold flush_final.
  destruct (record_id_batch st) eqn:Hr; [congruence|].
  unfold try_except, bind.
  rewrite (send_batch_succeeds' E st w Hne Hc). reflexivity.
Qed.

Lemma flush_final_nothing_to_send E st w :
  payload_batch st = [] -> record_id_batch st <> [] ->
  flush_final E st w =
    (after_mark E st w,
     Ok (mk_sync_state [] (record_id_batch st) (synced_count st + 0)
           (last_user_attendance st))).
Proof.
  intros Hp Hids. unfold flush_final.
  destruct (record_id_batch st) eqn:Hr; [congruence|].
  unfold try_except, bind.
  rewrite (send_batch_nothing_to_send E st w Hp). rewrite Hp. reflexivity.
Qed.

(** C2.  For each of the two places where a batch is flushed (inside the
    loop and after it), when the batch carries a payload: if the create
    call faults, the attendance table is left exactly as it was; if it
    succeeds, every row whose id was accumulated in [record_id_batch]
    (dedup-excluded rows included) carries one and the same watermark,
    the rendering of the clock reading taken at the tick right after the
    call, and no row is added or removed. *)
Theorem batch_watermark_follows_create E total_att st w :
  payload_batch st <> [] ->
  let t := tick w in
  let now_str := datetime.strftime (clock E (S t)) TS_FORMAT in
  let w1 := fst (flush_batch E total_att st w) in
  let w2 := fst (flush_final E st w) in
  if create_attendance E t (payload_batch st) then
    synced_with now_str (record_id_batch st) (attendance w1)
    /\ map a_id (attendance w1) = map a_id (attendance w)
    /\ synced_with now_str (record_id_batch st) (attendance w2)
    /\ map a_id (attendance w2) = map a_id (attendance w)
  else
    attendance w1 = attendance w /\ attendance w2 = attendance w.
Proof.
  intros Hne t now_str w1 w2.
  destruct (create_attendance E t (payload_batch st)) eqn:Hc.
  - subst w1 w2. rewrite (flush_batch_succeeds E total_att st w Hne Hc).
    split; [apply marked_synced_with|]. split; [apply marked_ids|].
    destruct (record_id_batch st) as [|i ids] eqn:Hids.
    + unfold flush_final. rewrite Hids. simpl.
      split; [|reflexivity]. intros r _ [].
    + rewrite (flush_final_succeeds E st w Hne ltac:(congruence) Hc).
      simpl. rewrite Hids.
      split; [apply marked_synced_with | apply marked_ids].
  - subst w1 w2. rewrite (flush_batch_fails E total_att st w Hne Hc).
    split; [reflexivity|].
    destruct (record_id_batch st) as [|i ids] eqn:Hids.
    + unfold flush_final. now rewrite Hids.
    + rewrite (flush_final_fails E st w Hne ltac:(congruence) Hc). reflexivity.
Qed.

(** ** One row of the pass *)


Lemma timestamp_to_send_eq E att w :
  timestamp_to_send E att w =
    (after_timestamp E att w, Ok (computed_timestamp E att)).
Proof.
  unfold timestamp_to_send, after_timestamp, computed_timestamp.
  destruct (truthy_str (aj_machine_timezone att)); [|reflexivity].
  unfold try_except, lift.
  now destruct (to_utc_string E _ _).
Qed.

Lemma after_timestamp_frame E att w :
  attendance (after_timestamp E att w) = attendance w
  /\ rpc (after_timestamp E att w) = rpc w
  /\ users (after_timestamp E att w) = users w
  /\ (tick w <= tick (after_timestamp E att w))%nat.
Proof.
  unfold after_timestamp.
  destruct (truthy_str _); [|repeat split; lia].
  destruct (to_utc_string E _ _); simpl; repeat split; lia.
Qed.



Lemma remember_last_cached E att cache w last :
  cache !! a_user_id (aj_row att) = Some last ->
  remember_last E att cache w = (w, Ok cache).
Proof. intros H. unfold remember_last. now rewrite H. Qed.

Lemma remember_last_read E att cache w records :
  cache !! a_user_id (aj_row att) = None ->
  search_read E (tick w) (a_user_id (aj_row att))
              (default 0 (aj_odoo_machine_id att)) = Ok records ->
  remember_last E att cache w =
    (after_search (a_user_id (aj_row att)) (default 0 (aj_odoo_machine_id att))
                  true w,
     Ok (<[a_user_id (aj_row att) := hd_timestamp records]> cache)).
Proof.
  intros Hc Hs. unfold remember_last. rewrite Hc.
  unfold bind, rpc_search_read, bind, next_tick. simpl. rewrite Hs.
  now destruct records.
Qed.

Lemma remember_last_fault E att cache w e :
  cache !! a_user_id (aj_row att) = None ->
  search_read E (tick w) (a_user_id (aj_row att))
              (default 0 (aj_odoo_machine_id att)) = Raise e ->
  remember_last E att cache w =
    (after_search (a_user_id (aj_row att)) (default 0 (aj_odoo_machine_id att))
                  false w, Raise e).
Proof.
  intros Hc Hs. unfold remember_last. rewrite Hc.
  unfold bind, rpc_search_read, bind, next_tick. simpl. now rewrite Hs.
Qed.

Lemma not_yet_remote_already last ts :
  not_yet_remote last ts = negb (already_remote last ts).
Proof.
  unfold not_yet_remote, already_remote, truthy_str.
  destruct last as [l|]; simpl; [|reflexivity].
  destruct (String.eqb l EmptyString); simpl; [reflexivity|].
  now rewrite negb_involutive.
Qed.


Lemma accumulate_cached E att st w last :
  last_user_attendance st !! a_user_id (aj_row att) = Some last ->
  accumulate E att st w =
    (after_timestamp E att w, Ok (accumulated E att st (last_user_attendance st))).
Proof.
  intros Hc. unfold accumulate, bind. rewrite timestamp_to_send_eq.
  rewrite (remember_last_cached E att _ _ last Hc).
  unfold ret, accumulated. rewrite not_yet_remote_already.
  now destruct (already_remote _ _).
Qed.

Lemma accumulate_read E att st w records :
  last_user_attendance st !! a_user_id (aj_row att) = None ->
  search_read E (tick (after_timestamp E att w)) (a_user_id (aj_row att))
              (default 0 (aj_odoo_machine_id att)) = Ok records ->
  accumulate E att st w =
    (after_search (a_user_id (aj_row att)) (default 0 (aj_odoo_machine_id att))
                  true (after_timestamp E att w),
     Ok (accumulated E att st
           (<[a_user_id (aj_row att) := hd_timestamp records]>
              (last_user_attendance st)))).
Proof.
  intros Hc Hs. unfold accumulate, bind. rewrite timestamp_to_send_eq.
  rewrite (remember_last_read E att _ _ records Hc Hs).
  unfold ret, accumulated. rewrite not_yet_remote_already.
  now destruct (already_remote _ _).
Qed.

Lemma accumulate_fault E att st w e :
  last_user_attendance st !! a_user_id (aj_row att) = None ->
  search_read E (tick (after_timestamp E att w)) (a_user_id (aj_row att))
              (default 0 (aj_odoo_machine_id att)) = Raise e ->
  accumulate E att st w =
    (after_search (a_user_id (aj_row att)) (default 0 (aj_odoo_machine_id att))
                  false (after_timestamp E att w), Raise e).
Proof.
  intros Hc Hs. unfold accumulate, bind. rewrite timestamp_to_send_eq.
  now rewrite (remember_last_fault E att _ _ e Hc Hs).
Qed.

Lemma str_compare_refl s : String.compare s s = Eq.
Proof.
  induction s as [|c s IH]; simpl; [reflexivity|].
  unfold Ascii.compare. now rewrite N.compare_refl.
Qed.

Lemma str_ltb_irrefl s : str_ltb s s = false.
Proof. unfold str_ltb, String.ltb. now rewrite str_compare_refl. Qed.

Lemma sync_one_attendance_linked E batch_size total_att att st w :
  linked att ->
  sync_one_attendance E batch_size total_att att st w =
    bind (accumulate E att st)
         (fun st' => if batch_size <=? len (record_id_batch st')
                     then flush_batch E total_att st' else ret st') w.
Proof. intros H. unfold sync_one_attendance. unfold linked in H. now rewrite H. Qed.

(** C1.  One row of a linked machine, when the remote read does not
    fault: the id is appended to [record_id_batch] in every case, and
    the payload is appended to [payload_batch] unless a remote-latest
    timestamp is cached for the user and the computed timestamp is not
    strictly greater than it.  In particular, with the remote holding
    [T] for user [U] and the store holding unsynced rows of [U] at [T]
    and [T1 > T], the one create call of the pass carries only the [T1]
    row and both rows end up synced, for every batch size. *)
Theorem dedup_excludes_but_marks :
  (forall E att st w,
     (forall t, exists records,
        search_read E t (a_user_id (aj_row att))
                    (default 0 (aj_odoo_machine_id att)) = Ok records) ->
     exists w' st' last,
       accumulate E att st w = (w', Ok st')
       /\ last_user_attendance st' !! a_user_id (aj_row att) = Some last
       /\ record_id_batch st' = record_id_batch st ++ [a_id (aj_row att)]
       /\ payload_batch st' =
            if already_remote last (computed_timestamp E att)
            then payload_batch st
            else payload_batch st ++ [payload_of E att])
  /\
  (forall E w batch_size conn U T T1 id1 id2 aid1 aid2 m mid,
     machines_of conn w = [m] ->
     m_odoo_machine_id m = Some mid -> mid <> 0 ->
     m_machine_timezone m = None ->
     attendance w = [mk_att id1 conn U aid1 T None;
                     mk_att id2 conn U aid2 T1 None] ->
     T <> EmptyString -> str_ltb T T1 = true ->
     (forall t, search_read E t U mid = Ok [Some T]) ->
     (forall t b, create_attendance E t b = true) ->
     let w' := fst (sync_attendance E batch_size w) in
     create_calls (rpc w') =
       create_calls (rpc w) ++ [([mk_att_payload U T1 mid aid2], true)]
     /\ map a_id (attendance w') = [id1; id2]
     /\ (forall r, In r (attendance w') -> a_synched_time r <> None)).
Proof.
  split.
  - intros E att st w Hread.
    destruct (last_user_attendance st !! a_user_id (aj_row att)) as [last|] eqn:Hc.
    + exists (after_timestamp E att w),
             (accumulated E att st (last_user_attendance st)), last.
      split; [exact (accumulate_cached E att st w last Hc)|].
      simpl. rewrite Hc. simpl. auto.
    + destruct (Hread (tick (after_timestamp E att w))) as [records Hr].
      eexists _, _, (hd_timestamp records).
      split; [exact (accumulate_read E att st w records Hc Hr)|].
      simpl. rewrite lookup_insert_eq. simpl. auto.
  - intros E w bs conn U T T1 id1 id2 aid1 aid2 m mid
           Hm Hmid Hnz Htz Hatt HT Hlt Hread Hcreate w'.
    set (j1 := mk_att_join (mk_att id1 conn U aid1 T None) (Some mid) None).
    set (j2 := mk_att_join (mk_att id2 conn U aid2 T1 None) (Some mid) None).
    assert (Hsel : select_unsynced_attendance w = (w, Ok [j1; j2])).
    { unfold select_unsynced_attendance, get. rewrite Hatt. simpl.
      rewrite Hm. simpl. rewrite Hmid, Htz. reflexivity. }
    assert (Hl1 : linked j1).
    { unfold linked, j1. simpl. now apply negb_true_iff, Z.eqb_neq. }
    assert (Hl2 : linked j2) by exact Hl1.
    assert (Hneq : String.eqb T EmptyString = false) by now apply String.eqb_neq.
    assert (Hp1 : already_remote (Some T) (computed_timestamp E j1) = true).
    { unfold computed_timestamp, j1. simpl. rewrite Hneq, str_ltb_irrefl.
      reflexivity. }
    assert (Hp2 : already_remote (Some T) (computed_timestamp E j2) = false).
    { unfold computed_timestamp, j2. simpl. rewrite Hneq, Hlt. reflexivity. }
    assert (Hpay2 : payload_of E j2 = mk_att_payload U T1 mid aid2) by reflexivity.
    subst w'. unfold sync_attendance. rewrite (bind_ok _ _ _ _ _ Hsel).
    rewrite (bind_ok _ _ _ _ _ (log_operation_eq _ _ _ _ _)).
    set (w0 := logged E _ _ _ w).
    assert (Hw0 : attendance w0 = attendance w /\ rpc w0 = rpc w) by (split; reflexivity).
    destruct Hw0 as [Ha0 Hr0]. clearbody w0.
    set (total := len [j1; j2]).
    assert (Hacc1 : accumulate E j1 empty_sync_state w0 =
              (after_search U mid true w0,
               Ok (mk_sync_state [] [id1] 0 (<[U := Some T]> ∅)))).
    { erewrite accumulate_read with (records := [Some T]).
      - unfold accumulated. rewrite lookup_insert_eq.
        simpl default. rewrite Hp1. reflexivity.
      - apply lookup_empty.
      - apply Hread. }
    set (w1 := after_search U mid true w0) in *.
    assert (Hw1 : attendance w1 = attendance w
                  /\ rpc w1 = rpc w ++ [RpcSearchRead U mid true]).
    { subst w1. simpl. now rewrite Ha0, Hr0. }
    destruct Hw1 as [Ha1 Hr1]. clearbody w1.
    assert (Hacc2 : forall ids sc w2,
              accumulate E j2 (mk_sync_state [] ids sc (<[U := Some T]> ∅)) w2 =
              (w2, Ok (mk_sync_state [mk_att_payload U T1 mid aid2]
                         (ids ++ [id2]) sc (<[U := Some T]> ∅)))).
    { intros ids sc w2. erewrite accumulate_cached with (last := Some T).
      - unfold accumulated. cbn [last_user_attendance].
        change (a_user_id (aj_row j2)) with U. rewrite lookup_insert_eq.
        simpl default. rewrite Hp2. reflexivity.
      - simpl. apply lookup_insert_eq. }
    assert (Hrun : exists wz stz,
      sync_rows E bs [j1; j2] w0 = (wz, Ok stz)
      /\ create_calls (rpc wz) =
           create_calls (rpc w) ++ [([mk_att_payload U T1 mid aid2], true)]
      /\ map a_id (attendance wz) = [id1; id2]
      /\ (forall r, In r (attendance wz) -> a_synched_time r <> None)).
    { unfold sync_rows. fold total.
      change (for_each [j1; j2] (sync_one_attendance E bs total) empty_sync_state)
        with (bind (sync_one_attendance E bs total j1 empty_sync_state)
                (fun s1 => bind (sync_one_attendance E bs total j2 s1) ret)).
      destruct (bs <=? 1) eqn:Hb1.
      - (* every row is a batch of its own *)
        assert (H1 : sync_one_attendance E bs total j1 empty_sync_state w0 =
                  flush_batch E total (mk_sync_state [] [id1] 0 (<[U := Some T]> ∅)) w1).
        { rewrite (sync_one_attendance_linked _ _ _ _ _ _ Hl1).
          rewrite (bind_ok _ _ _ _ _ Hacc1). cbv beta. cbn [record_id_batch app].
          change (len [id1]) with 1. now rewrite Hb1. }
        rewrite flush_batch_nothing_to_send in H1 by reflexivity.
        simpl synced_count in H1. simpl last_user_attendance in H1.
        set (w2 := logged E _ _ _ _) in H1.
        assert (Hw2 : attendance w2 =
                  map (mark_att (datetime.strftime (clock E (tick w1)) TS_FORMAT) [id1])
                      (attendance w) /\ rpc w2 = rpc w1).
        { subst w2. simpl. now rewrite Ha1. }
        destruct Hw2 as [Ha2 Hr2]. clearbody w2.
        assert (H2 : sync_one_attendance E bs total j2
                       (mk_sync_state [] [] (0 + 0) (<[U := Some T]> ∅)) w2 =
                  flush_batch E total
                    (mk_sync_state [mk_att_payload U T1 mid aid2] [id2] (0 + 0)
                                   (<[U := Some T]> ∅)) w2).
        { rewrite (sync_one_attendance_linked _ _ _ _ _ _ Hl2).
          rewrite (bind_ok _ _ _ _ _ (Hacc2 _ _ _)). cbv beta. cbn [record_id_batch app].
          change (len [id2]) with 1. now rewrite Hb1. }
        rewrite flush_batch_succeeds in H2 by (simpl; first [congruence | apply Hcreate]).
        eexists _, _. split.
        { rewrite bind_assoc, (bind_ok _ _ _ _ _ H1).
          rewrite bind_assoc, (bind_ok _ _ _ _ _ H2). reflexivity. }
        simpl. rewrite Ha2, Hr2, Hr1, Hatt. simpl.
        unfold create_calls. rewrite !flat_map_app. simpl. rewrite app_nil_r.
        split; [reflexivity|].
        unfold mark_att; simpl. rewrite !Z.eqb_refl. simpl.
        destruct (id2 =? id1); simpl; rewrite ?Z.eqb_refl; simpl;
          destruct (id1 =? id2); simpl;
          (split; [reflexivity|]);
          intros r [<- | [<- | []]]; simpl; discriminate.
      - assert (H1 : sync_one_attendance E bs total j1 empty_sync_state w0 =
                  (w1, Ok (mk_sync_state [] [id1] 0 (<[U := Some T]> ∅)))).
        { rewrite (sync_one_attendance_linked _ _ _ _ _ _ Hl1).
          rewrite (bind_ok _ _ _ _ _ Hacc1). cbv beta. cbn [record_id_batch app].
          change (len [id1]) with 1. now rewrite Hb1. }
        destruct (bs <=? 2) eqn:Hb2.
        + assert (H2 : sync_one_attendance E bs total j2
                         (mk_sync_state [] [id1] 0 (<[U := Some T]> ∅)) w1 =
                    flush_batch E total
                      (mk_sync_state [mk_att_payload U T1 mid aid2] [id1; id2] 0
                                     (<[U := Some T]> ∅)) w1).
          { rewrite (sync_one_attendance_linked _ _ _ _ _ _ Hl2).
            rewrite (bind_ok _ _ _ _ _ (Hacc2 _ _ _)). cbv beta. cbn [record_id_batch app].
            change (len [id1; id2]) with 2. now rewrite Hb2. }
          rewrite flush_batch_succeeds in H2 by (simpl; first [congruence | apply Hcreate]).
          eexists _, _. split.
          { rewrite bind_assoc, (bind_ok _ _ _ _ _ H1).
            rewrite bind_assoc, (bind_ok _ _ _ _ _ H2). reflexivity. }
          simpl. rewrite Ha1, Hr1, Hatt. simpl.
          unfold create_calls. rewrite !flat_map_app. simpl. rewrite app_nil_r.
          split; [reflexivity|].
          unfold mark_att; simpl. rewrite !Z.eqb_refl. simpl.
          rewrite orb_true_r.
          split; [reflexivity|].
          intros r [<- | [<- | []]]; simpl; discriminate.
        + assert (H2 : sync_one_attendance E bs total j2
                         (mk_sync_state [] [id1] 0 (<[U := Some T]> ∅)) w1 =
                    (w1, Ok (mk_sync_state [mk_att_payload U T1 mid aid2] [id1; id2] 0
                                     (<[U := Some T]> ∅)))).
          { rewrite (sync_one_attendance_linked _ _ _ _ _ _ Hl2).
            rewrite (bind_ok _ _ _ _ _ (Hacc2 _ _ _)). cbv beta. cbn [record_id_batch app].
            change (len [id1; id2]) with 2. now rewrite Hb2. }
          eexists _, _. split.
          { rewrite bind_assoc, (bind_ok _ _ _ _ _ H1).
            rewrite bind_assoc, (bind_ok _ _ _ _ _ H2).
            unfold bind at 1, ret at 1. cbv beta iota.
            rewrite flush_final_succeeds
              by (simpl; first [congruence | apply Hcreate]).
            reflexivity. }
          simpl. rewrite Ha1, Hr1, Hatt. simpl.
          unfold create_calls. rewrite !flat_map_app. simpl. rewrite app_nil_r.
          split; [reflexivity|].
          unfold mark_att; simpl. rewrite !Z.eqb_refl. simpl.
          rewrite orb_true_r.
          split; [reflexivity|].
          intros r [<- | [<- | []]]; simpl; discriminate. }
    destruct Hrun as (wz & stz & Hrun & Hc & Hids & Hsync).
    rewrite (bind_ok _ _ _ _ _ Hrun). simpl. auto.
Qed.

Lemma accumulate_inv E att st w w' st' :
  accumulate E att st w = (w', Ok st') ->
  exists cache, st' = accumulated E att st cache.
Proof.
  unfold accumulate, bind. rewrite timestamp_to_send_eq.
  destruct (remember_last E att (last_user_attendance st) _) as [w1 [cache|e]];
    [|discriminate].
  unfold ret. intros H. inversion H; subst. exists cache.
  unfold accumulated. rewrite not_yet_remote_already.
  now destruct (already_remote _ _).
Qed.

Lemma create_calls_app t1 t2 :
  create_calls (t1 ++ t2) = create_calls t1 ++ create_calls t2.
Proof. apply flat_map_app. Qed.

(** C5 as stated does not hold: on [retry_world] the first create call
    faults, its payload is carried again by the next create call of the
    same pass, and both rows are synced by the end of that pass. *)
Lemma failed_batch_resent_counterexample :
  let w' := fst (_sync_to_odoo_thread retry_env retry_world) in
  resent_in_same_pass (rpc w')
  /\ forall r, In r (attendance w') -> a_synched_time r <> None.
Proof.
  split.
  - set (p1 := mk_att_payload "7" "2024-01-01 08:00:00" 1 "1-7-20240101080000").
    set (p2 := mk_att_payload "8" "2024-01-01 09:00:00" 1 "1-8-20240101090000").
    exists [], [p1], [], [p1; p2], true, [], p1.
    split; [vm_compute; reflexivity|]. simpl. auto.
  - vm_compute. intros r [<- | [<- | []]]; discriminate.
Qed.

(** C5, amended.  A create call that faults inside the loop is logged and
    changes nothing locally: no watermark is set, and the batch
    ([payload_batch], [record_id_batch]) is kept as it is.  The next
    linked row is appended to that same batch, which is sent again as
    soon as the row is accumulated. *)
Theorem failed_batch_is_kept E batch_size total_att st w :
  payload_batch st <> [] ->
  create_attendance E (tick w) (payload_batch st) = false ->
  let w1 := fst (flush_batch E total_att st w) in
  snd (flush_batch E total_att st w) = Ok st
  /\ attendance w1 = attendance w
  /\ users w1 = users w
  /\ create_calls (rpc w1) = create_calls (rpc w) ++ [(payload_batch st, false)]
  /\ (exists ts, logs w1 = logs w ++ [mk_log None ts "Error" (MsgBatchFailed Fault)])
  /\ forall att w2 w3 st',
       linked att ->
       batch_size <= len (record_id_batch st) ->
       accumulate E att st w2 = (w3, Ok st') ->
       sync_one_attendance E batch_size total_att att st w2
         = flush_batch E total_att st' w3
       /\ (exists tail, payload_batch st' = payload_batch st ++ tail)
       /\ record_id_batch st' = record_id_batch st ++ [a_id (aj_row att)].
Proof.
  intros Hne Hc w1. subst w1.
  rewrite (flush_batch_fails E total_att st w Hne Hc). simpl.
  repeat split; try reflexivity.
  - rewrite create_calls_app. reflexivity.
  - eexists. reflexivity.
  - rewrite (sync_one_attendance_linked _ _ _ _ _ _ H).
    rewrite (bind_ok _ _ _ _ _ H1).
    apply accumulate_inv in H1 as [cache ->]. simpl.
    assert (Hle : (batch_size <=? len (record_id_batch st ++ [a_id (aj_row att)])) = true).
    { apply Z.leb_le. unfold len in *. rewrite length_app. simpl. lia. }
    now rewrite Hle.
  - apply accumulate_inv in H1 as [cache ->]. simpl.
    destruct (already_remote _ _).
    + exists []. now rewrite app_nil_r.
    + eexists. reflexivity.
  - now apply accumulate_inv in H1 as [cache ->].
Qed.

Lemma failed_batch_is_kept_witness :
  let st := mk_sync_state
              [mk_att_payload "7" "2024-01-01 08:00:00" 1 "1-7-20240101080000"]
              [1] 0 (<["7"%string := None]> ∅) in
  let w := set_tick (fun _ => 7%nat) retry_world in
  snd (flush_batch retry_env 2 st w) = Ok st
  /\ attendance (fst (flush_batch retry_env 2 st w)) = attendance w.
Proof.
  intros st w.
  destruct (failed_batch_is_kept retry_env 1 2 st w) as (H1 & H2 & _).
  - discriminate.
  - reflexivity.
  - split; assumption.
Defined.

(** ** A remote read that faults *)

Lemma sync_one_attendance_read_fault E batch_size total_att att st w e :
  linked att ->
  last_user_attendance st !! a_user_id (aj_row att) = None ->
  search_read E (tick (after_timestamp E att w)) (a_user_id (aj_row att))
              (default 0 (aj_odoo_machine_id att)) = Raise e ->
  sync_one_attendance E batch_size total_att att st w =
    (after_search (a_user_id (aj_row att)) (default 0 (aj_odoo_machine_id att))
                  false (after_timestamp E att w), Raise e).
Proof.
  intros Hl Hc Hs. rewrite (sync_one_attendance_linked _ _ _ _ _ _ Hl).
  apply bind_raise. now apply accumulate_fault.
Qed.

(** C6 as stated does not hold: on [read_fault_world] the remote read for
    the first row faults; that row is carried by no create call, the row
    after it is neither looked up nor sent, and the store is unchanged. *)
Lemma read_fault_record_not_sent_counterexample :
  let w' := fst (_sync_to_odoo_thread read_fault_env read_fault_world) in
  ~ sent_in_pass "1-7-20240101080000" (rpc w')
  /\ ~ looked_up "8" 1 (rpc w')
  /\ ~ sent_in_pass "1-8-20240101090000" (rpc w')
  /\ attendance w' = attendance read_fault_world.
Proof.
  assert (Hrpc : rpc (fst (_sync_to_odoo_thread read_fault_env read_fault_world))
                 = [RpcAuthenticate; RpcSearchRead "7" 1 false])
    by (vm_compute; reflexivity).
  cbv zeta. rewrite Hrpc.
  split; [|split; [|split]].
  - intros (b & ok & p & Hin & _). simpl in Hin. exact Hin.
  - intros (ok & [H | [H | []]]); discriminate.
  - intros (b & ok & p & Hin & _). simpl in Hin. exact Hin.
  - vm_compute. reflexivity.
Qed.

(** C6, amended.  A remote read that faults for a row leaves the loop:
    the pass over the rows ends with the exception, no create call
    follows it, the attendance table stays as the rows before it left
    it, and the handler of the outer [try] logs the failure. *)
Theorem read_fault_aborts_pass E batch_size pre att post w w1 st1 e :
  let rows := pre ++ att :: post in
  for_each pre (sync_one_attendance E batch_size (len rows))
           empty_sync_state w = (w1, Ok st1) ->
  linked att ->
  last_user_attendance st1 !! a_user_id (aj_row att) = None ->
  search_read E (tick (after_timestamp E att w1)) (a_user_id (aj_row att))
              (default 0 (aj_odoo_machine_id att)) = Raise e ->
  exists w2,
    sync_rows E batch_size rows w = (w2, Raise e)
    /\ attendance w2 = attendance w1
    /\ create_calls (rpc w2) = create_calls (rpc w1)
    /\ forall k : sync_state -> M unit,
         try_except (bind (sync_rows E batch_size rows) k)
           (fun e => log_operation E "Error" (MsgSyncFailed e) None) w
         = (logged E "Error" (MsgSyncFailed e) None w2, Ok tt).
Proof.
  intros rows Hpre Hl Hc Hs.
  pose proof (sync_one_attendance_read_fault E batch_size (len rows)
                att st1 w1 e Hl Hc Hs) as Hstep.
  set (w2 := after_search _ _ false _) in Hstep.
  assert (Hrun : sync_rows E batch_size rows w = (w2, Raise e)).
  { unfold sync_rows. apply bind_raise. subst rows.
    rewrite (for_each_app _ _ _ _ _ _ _ Hpre). simpl.
    now apply bind_raise. }
  exists w2. split; [exact Hrun|].
  destruct (after_timestamp_frame E att w1) as (Ha & Hr & _ & _).
  split; [exact Ha|]. split.
  - subst w2. simpl. rewrite create_calls_app, Hr. simpl. apply app_nil_r.
  - intros k. unfold try_except, bind. now rewrite Hrun.
Qed.

Lemma read_fault_aborts_pass_witness :
  exists w2,
    sync_rows read_fault_env 1000 (map (fun a => mk_att_join a (Some 1) None)
                                     (attendance read_fault_world))
              read_fault_world = (w2, Raise Fault)
    /\ attendance w2 = attendance read_fault_world.
Proof.
  destruct (read_fault_aborts_pass read_fault_env 1000 []
              (mk_att_join (mk_att 1 1 "7" "1-7-20240101080000"
                                   "2024-01-01 08:00:00" None) (Some 1) None)
              [mk_att_join (mk_att 2 1 "8" "1-8-20240101090000"
                                   "2024-01-01 09:00:00" None) (Some 1) None]
              read_fault_world read_fault_world empty_sync_state Fault)
    as (w2 & H1 & H2 & _).
  - reflexivity.
  - reflexivity.
  - reflexivity.
  - reflexivity.
  - exists w2. split; assumption.
Defined.

(** C9 on [two_machine_world]: user 7 has a row on machine 1 and one on
    machine 2, and the server holds nothing for user 7 on machine 2.
    The only remote read is the one for machine 1; the row of machine 2
    is compared with the timestamp of machine 1, is never sent, and is
    marked synced. *)
Theorem cache_is_shared_across_machines :
  let w' := fst (_sync_to_odoo_thread two_machine_env two_machine_world) in
  (forall t, search_read two_machine_env t "7" 2 = Ok [])
  /\ rpc w' = [RpcAuthenticate; RpcSearchRead "7" 1 true]
  /\ map (fun r => (a_id r, a_connection_id r, a_synched_time r)) (attendance w')
     = [(1, 1, Some "2024-01-10 10:00:06"%string);
        (2, 2, Some "2024-01-10 10:00:06"%string)].
Proof.
  split; [reflexivity|]. split; vm_compute; reflexivity.
Qed.

(** ** The statements of the fetch *)

Lemma try_bind_ok {A B} (m : M A) (k : A -> M B) h w w' a :
  m w = (w', Ok a) ->
  try_except (bind m k) h w = try_except (k a) h w'.
Proof. intros H. unfold try_except, bind. now rewrite H. Qed.

Lemma try_bind_raise {A B} (m : M A) (k : A -> M B) h w w' e :
  m w = (w', Raise e) ->
  try_except (bind m k) h w = h e w'.
Proof. intros H. unfold try_except, bind. now rewrite H. Qed.

Lemma att_query_eq conn a w :
  att_query conn a w =
    (set_attendance
       (fst (insert_row conn (attendance w, attendance_seq w) a))
       (snd (insert_row conn (attendance w, attendance_seq w) a)) w, Ok tt).
Proof.
  unfold att_query, insert_attendance, insert_row, event_att_id. simpl.
  destruct (existsb _ _); [|reflexivity].
  now destruct w.
Qed.

Lemma user_query_eq conn u w :
  user_query conn u w =
    (set_users
       (fst (upsert_row conn (users w, users_seq w) u))
       (snd (upsert_row conn (users w, users_seq w) u)) w, Ok tt).
Proof.
  unfold user_query, insert_user, upsert_row, bind, get. simpl.
  now destruct (existsb _ _).
Qed.

Lemma set_attendance_id w : set_attendance (attendance w) (attendance_seq w) w = w.
Proof. now destruct w. Qed.

Lemma set_users_id w : set_users (users w) (users_seq w) w = w.
Proof. now destruct w. Qed.

Lemma for_each_att_query conn new n w :
  for_each new (fun att n => bind (att_query conn att) (fun _ => ret (n + 1))) n w =
    (set_attendance
       (fst (fold_left (insert_row conn) new (attendance w, attendance_seq w)))
       (snd (fold_left (insert_row conn) new (attendance w, attendance_seq w)))
       w, Ok (n + len new)).
Proof.
  revert n w. induction new as [|a new IH]; intros n w.
  - simpl. unfold ret, len. simpl. rewrite set_attendance_id. f_equal. f_equal. lia.
  - simpl. unfold bind at 1. unfold bind at 1. rewrite att_query_eq.
    unfold ret at 1. rewrite IH. simpl.
    destruct (insert_row conn (attendance w, attendance_seq w) a) as [rows seq] eqn:Hi.
    simpl. f_equal. f_equal. unfold len. simpl length. lia.
Qed.

Lemma for_each_user_query conn us n w :
  for_each us (fun user n => bind (user_query conn user) (fun _ => ret (n + 1))) n w =
    (set_users
       (fst (fold_left (upsert_row conn) us (users w, users_seq w)))
       (snd (fold_left (upsert_row conn) us (users w, users_seq w)))
       w, Ok (n + len us)).
Proof.
  revert n w. induction us as [|a us IH]; intros n w.
  - simpl. unfold ret, len. simpl. rewrite set_users_id. f_equal. f_equal. lia.
  - simpl. unfold bind at 1. unfold bind at 1. rewrite user_query_eq.
    unfold ret at 1. rewrite IH. simpl.
    destruct (upsert_row conn (users w, users_seq w) a) as [rows seq] eqn:Hi.
    simpl. f_equal. f_equal. unfold len. simpl length. lia.
Qed.

Lemma try_finally_eq {A} (body : M A) (cleanup : M unit) w w1 r :
  body w = (w1, r) ->
  try_finally body cleanup w =
    match cleanup w1 with
    | (w2, Ok _) => (w2, r)
    | (w2, Raise e) => (w2, Raise e)
    end.
Proof. intros H. unfold try_finally. now rewrite H. Qed.

Lemma zk_disconnect_eq E conn w :
  zk_disconnect E conn w =
    (set_tick S w, if disconnect E (tick w) conn then Ok tt else Raise DeviceError).
Proof.
  unfold zk_disconnect, bind, next_tick. simpl.
  now destruct (disconnect E (tick w) conn).
Qed.

(** A session that is closed: the outcome of the fetch. *)
Lemma closed_session E conn (body : M fetch_report) w w1 report :
  body w = (w1, Ok report) ->
  try_finally body (zk_disconnect E conn) w
  = (set_tick S w1, closing E conn (tick w1) report).
Proof.
  intros H. rewrite (try_finally_eq _ _ _ _ _ H), zk_disconnect_eq.
  unfold closing. now destruct (disconnect E (tick w1) conn).
Qed.

Lemma fetch_delivers E conn conn_dict port w w1 date_from us atts :
  fetch_date_from E conn
    (logged E "Fetch Data" (MsgFetchStart (cd_name conn_dict)) (Some conn) w)
    = (w1, Ok date_from) ->
  builtins.int (cd_port conn_dict) = Ok port ->
  device E (S (tick w1)) conn = Delivers us atts ->
  let now := clock E (tick w1 + 7)%nat in
  let new := List.filter (is_new date_from now) atts in
  _fetch_data_for_machine E conn conn_dict w =
    (set_tick S (fetched E conn date_from us atts w1),
     closing E conn (tick w1 + 9)
       (FetchDone date_from now new (0 + len us) (0 + len new))).
Proof.
  intros Hdf Hport Hdev now new. unfold _fetch_data_for_machine.
  rewrite (bind_ok _ _ _ _ _ (log_operation_eq _ _ _ _ _)).
  rewrite (bind_ok _ _ _ _ _ Hdf).
  assert (Hconn : zk_connect E conn (logged E "Fetch Data" MsgConnecting (Some conn) w1)
                  = (set_tick S (logged E "Fetch Data" MsgConnecting (Some conn) w1),
                     Ok (Delivers us atts))).
  { unfold zk_connect, bind, next_tick. simpl. now rewrite Hdev. }
  assert (Hopen :
    try_except
      (bind (lift (builtins.int (cd_port conn_dict))) (fun _ =>
       bind (log_operation E "Fetch Data" MsgConnecting (Some conn)) (fun _ =>
       bind (zk_connect E conn) (fun c => ret (inl c)))))
      (fun e => bind (fetch_failed E conn date_from e)
                     (fun report => ret (inr report))) w1
    = (set_tick S (logged E "Fetch Data" MsgConnecting (Some conn) w1),
       Ok (inl (Delivers us atts)))).
  { assert (Hp : lift (builtins.int (cd_port conn_dict)) w1 = (w1, Ok port))
      by (unfold lift; now rewrite Hport).
    rewrite (try_bind_ok _ _ _ _ _ _ Hp).
    rewrite (try_bind_ok _ _ _ _ _ _ (log_operation_eq _ _ _ _ _)).
    rewrite (try_bind_ok _ _ _ _ _ _ Hconn). reflexivity. }
  rewrite (bind_ok _ _ _ _ _ Hopen).
  set (w1' := set_tick S (logged E "Fetch Data" MsgConnecting (Some conn) w1)).
  replace (tick w1 + 9)%nat with (tick (fetched E conn date_from us atts w1))
    by (simpl; lia).
  apply closed_session.
  rewrite (try_bind_ok _ _ _ _ _ _ (log_operation_eq _ _ _ _ _)).
  set (w2 := logged E "Fetch Data" MsgSyncUsers _ _).
  assert (Hus : get_users (Delivers us atts) w2 = (set_tick S w2, Ok us)) by reflexivity.
  rewrite (try_bind_ok _ _ _ _ _ _ Hus).
  rewrite (try_bind_ok _ _ _ _ _ _ (for_each_user_query _ _ _ _)).
  rewrite (try_bind_ok _ _ _ _ _ _ (log_operation_eq _ _ _ _ _)).
  rewrite (try_bind_ok _ _ _ _ _ _ (log_operation_eq _ _ _ _ _)).
  set (w4 := logged E "Fetch Data" MsgDownloading _ _).
  assert (Hat : get_attendance (Delivers us atts) w4 = (set_tick S w4, Ok atts)) by reflexivity.
  rewrite (try_bind_ok _ _ _ _ _ _ Hat).
  assert (Hnow : datetime_now E (set_tick S w4) = (set_tick S (set_tick S w4), Ok now)).
  { unfold datetime_now, bind, next_tick, ret. simpl. subst now.
    repeat f_equal. lia. }
  rewrite (try_bind_ok _ _ _ _ _ _ Hnow).
  fold new.
  rewrite (try_bind_ok _ _ _ _ _ _ (for_each_att_query _ _ _ _)).
  rewrite (try_bind_ok _ _ _ _ _ _ (log_operation_eq _ _ _ _ _)).
  unfold try_except, ret. unfold fetched. fold now. fold new. reflexivity.
Qed.

Lemma fetched_attendance E conn date_from us atts w :
  attendance (fetched E conn date_from us atts w) =
    fst (fold_left (insert_row conn)
           (List.filter (is_new date_from (clock E (tick w + 7)%nat)) atts)
           (attendance w, attendance_seq w)).
Proof. reflexivity. Qed.

Lemma fetched_users E conn date_from us atts w :
  users (fetched E conn date_from us atts w) =
    fst (fold_left (upsert_row conn) us (users w, users_seq w)).
Proof. reflexivity. Qed.

Lemma fetch_date_from_stored E conn w s base :
  sql_max (stored_timestamps conn (attendance w)) = Some s ->
  s <> EmptyString ->
  datetime.strptime s TS_FORMAT = Some base ->
  fetch_date_from E conn w =
    (logged E "Fetch Data" (MsgLastRecord base) (Some conn) w,
     Ok (datetime.replace_midnight base)).
Proof.
  intros Hmax Hne Hp. unfold fetch_date_from, bind, select_max_timestamp, get.
  fold (stored_timestamps conn (attendance w)). rewrite Hmax.
  apply String.eqb_neq in Hne. simpl. rewrite Hne. simpl.
  unfold lift. rewrite Hp. simpl. reflexivity.
Qed.

Lemma fetch_date_from_lookback E conn w base :
  sql_max (stored_timestamps conn (attendance w)) = None ->
  datetime.sub (clock E (tick w))
    (datetime.timedelta_days (default 31 (settings w !! "days_back"%string)))
    = Some base ->
  fetch_date_from E conn w =
    (logged E "Fetch Data"
       (MsgNoPrevious (default 31 (settings w !! "days_back"%string)))
       (Some conn) (set_tick S w),
     Ok (datetime.replace_midnight base)).
Proof.
  intros Hmax Hp. unfold fetch_date_from, bind, select_max_timestamp, get.
  fold (stored_timestamps conn (attendance w)). rewrite Hmax. simpl.
  unfold lookback_date_from, bind, get, datetime_now, bind, next_tick, ret, lift.
  simpl. rewrite Hp. simpl. reflexivity.
Qed.

(** ** Invariants of every path of the fetch *)

Section Preserves.

Variable R : world -> world -> Prop.
Hypothesis R_refl : forall w, R w w.
Hypothesis R_trans : forall a b c, R a b -> R b c -> R a c.
Hypothesis R_tick : forall f w, R w (set_tick f w).
Hypothesis R_logs : forall l w, R w (set_logs l w).
Hypothesis R_user_query : forall conn u, preserves R (user_query conn u).
Hypothesis R_att_query : forall conn a, preserves R (att_query conn a).

Lemma preserves_ret {A} (a : A) : preserves R (ret a).
Proof. intros w. apply R_refl. Qed.

Lemma preserves_raise {A} e : preserves R (@raise A e).
Proof. intros w. apply R_refl. Qed.

Lemma preserves_lift {A} (r : result A) : preserves R (lift r).
Proof. intros w. apply R_refl. Qed.

Lemma preserves_get {A} (f : world -> A) : preserves R (get f).
Proof. intros w. apply R_refl. Qed.

Lemma preserves_bind {A B} (m : M A) (k : A -> M B) :
  preserves R m -> (forall a, preserves R (k a)) -> preserves R (bind m k).
Proof.
  intros Hm Hk w. unfold bind. specialize (Hm w).
  destruct (m w) as [w1 [a|e]]; simpl in *; [|exact Hm].
  eapply R_trans; [exact Hm | apply Hk].
Qed.

Lemma preserves_try {A} (m : M A) h :
  preserves R m -> (forall e, preserves R (h e)) -> preserves R (try_except m h).
Proof.
  intros Hm Hh w. unfold try_except. specialize (Hm w).
  destruct (m w) as [w1 [a|e]]; simpl in *; [exact Hm|].
  eapply R_trans; [exact Hm | apply Hh].
Qed.

Lemma preserves_for_each {A S} (xs : list A) (body : A -> S -> M S) s :
  (forall x s, preserves R (body x s)) -> preserves R (for_each xs body s).
Proof.
  intros Hb. revert s. induction xs as [|x xs IH]; intros s; simpl.
  - apply preserves_ret.
  - apply preserves_bind; [apply Hb | exact IH].
Qed.

Lemma preserves_next_tick : preserves R next_tick.
Proof. intros w. apply R_tick. Qed.

Lemma preserves_now E : preserves R (datetime_now E).
Proof.
  apply preserves_bind; [apply preserves_next_tick | intros; apply preserves_ret].
Qed.

Lemma preserves_log E op msg c : preserves R (log_operation E op msg c).
Proof.
  intros w. rewrite log_operation_eq. simpl. unfold logged.
  eapply R_trans; [apply R_tick | apply R_logs].
Qed.

Lemma preserves_fetch_date_from E conn : preserves R (fetch_date_from E conn).
Proof.
  unfold fetch_date_from.
  apply preserves_bind; [apply preserves_get|]. intros last_ts.
  apply preserves_bind; [|intros; apply preserves_ret].
  destruct (truthy_str last_ts).
  - apply preserves_bind; [apply preserves_lift|]. intros d.
    apply preserves_bind; [apply preserves_log | intros; apply preserves_ret].
  - unfold lookback_date_from.
    apply preserves_bind; [apply preserves_get|]. intros db.
    apply preserves_bind; [apply preserves_now|]. intros now.
    apply preserves_bind; [apply preserves_lift|]. intros d.
    apply preserves_bind; [apply preserves_log | intros; apply preserves_ret].
Qed.

Lemma preserves_try_finally {A} (m : M A) (c : M unit) :
  preserves R m -> preserves R c -> preserves R (try_finally m c).
Proof.
  intros Hm Hc w. unfold try_finally. specialize (Hm w).
  destruct (m w) as [w1 r]. specialize (Hc w1). simpl in *.
  destruct (c w1) as [w2 [[]|e]]; simpl in *; eapply R_trans; eauto.
Qed.

Lemma preserves_fetch_failed E conn df e :
  preserves R (fetch_failed E conn df e).
Proof.
  unfold fetch_failed.
  apply preserves_bind; [apply preserves_log | intros; apply preserves_ret].
Qed.

Lemma preserves_fetch E conn conn_dict :
  preserves R (_fetch_data_for_machine E conn conn_dict).
Proof.
  unfold _fetch_data_for_machine.
  apply preserves_bind; [apply preserves_log|]. intros _.
  apply preserves_bind; [apply preserves_fetch_date_from|]. intros date_from.
  apply preserves_bind.
  { apply preserves_try.
    - apply preserves_bind; [apply preserves_lift|]. intros _.
      apply preserves_bind; [apply preserves_log|]. intros _.
      apply preserves_bind; [|intros; apply preserves_ret].
      unfold zk_connect. apply preserves_bind; [apply preserves_next_tick|].
      intros t. destruct (device E t conn);
        first [apply preserves_raise | apply preserves_ret].
    - intros e. apply preserves_bind; [apply preserves_fetch_failed|].
      intros; apply preserves_ret. }
  intros [dev | report]; [|apply preserves_ret].
  apply preserves_try_finally.
  - apply preserves_try; [|intros e; apply preserves_fetch_failed].
    apply preserves_bind; [apply preserves_log|]. intros _.
    apply preserves_bind.
    { unfold get_users. apply preserves_bind; [apply preserves_next_tick|].
      intros _. destruct dev; first [apply preserves_raise | apply preserves_ret]. }
    intros us.
    apply preserves_bind.
    { apply preserves_for_each. intros u n.
      apply preserves_bind; [apply R_user_query | intros; apply preserves_ret]. }
    intros uc.
    apply preserves_bind; [apply preserves_log|]. intros _.
    apply preserves_bind; [apply preserves_log|]. intros _.
    apply preserves_bind.
    { unfold get_attendance. apply preserves_bind; [apply preserves_next_tick|].
      intros _. destruct dev; first [apply preserves_raise | apply preserves_ret]. }
    intros atts.
    apply preserves_bind; [apply preserves_now|]. intros now.
    apply preserves_bind.
    { apply preserves_for_each. intros a n.
      apply preserves_bind; [apply R_att_query | intros; apply preserves_ret]. }
    intros ac.
    apply preserves_bind; [apply preserves_log | intros; apply preserves_ret].
  - unfold zk_disconnect. apply preserves_bind; [apply preserves_next_tick|].
    intros t. destruct (disconnect E t conn);
      first [apply preserves_raise | apply preserves_ret].
Qed.

End Preserves.

(** ** The attendance table *)

Lemma same_att_key_iff c u ts r :
  same_att_key c u ts r = true <-> att_key r = (c, u, ts).
Proof.
  unfold same_att_key, att_key.
  rewrite !andb_true_iff, Z.eqb_eq, !String.eqb_eq.
  split; [intros [[-> ->] ->]; reflexivity | intros [= -> -> ->]; auto].
Qed.

Lemma existsb_att_key c u ts rows :
  existsb (same_att_key c u ts) rows = true <-> In (c, u, ts) (map att_key rows).
Proof.
  rewrite existsb_exists, in_map_iff. split.
  - intros (r & Hr & Hk). exists r. split; [now apply same_att_key_iff | exact Hr].
  - intros (r & Hk & Hr). exists r. split; [exact Hr | now apply same_att_key_iff].
Qed.

Lemma insert_row_present conn tbl a :
  In (event_key conn a) (map att_key (fst tbl)) ->
  insert_row conn tbl a = (fst tbl, snd tbl + 1).
Proof.
  intros H. unfold insert_row. apply existsb_att_key in H.
  unfold event_key in H. now rewrite H.
Qed.

Lemma insert_row_shape conn tbl a :
  exists added,
    fst (insert_row conn tbl a) = fst tbl ++ added
    /\ Forall (added_from conn [a]) added
    /\ In (event_key conn a) (map att_key (fst (insert_row conn tbl a)))
    /\ (NoDup (map att_key (fst tbl)) ->
        NoDup (map att_key (fst (insert_row conn tbl a)))).
Proof.
  unfold insert_row.
  destruct (existsb _ (fst tbl)) eqn:Hex.
  - exists []. rewrite app_nil_r. split; [reflexivity|]. split; [constructor|].
    split; [now apply existsb_att_key | auto].
  - eexists [_]. simpl. split; [reflexivity|]. split.
    + constructor; [|constructor]. split; [reflexivity|]. split; [reflexivity|].
      exists a. split; [now left | reflexivity].
    + rewrite map_app. simpl. split.
      * apply in_or_app. right. now left.
      * intros Hnd. apply NoDup_app. split; [exact Hnd|]. split.
        -- intros k Hk Hin. apply list_elem_of_In in Hk.
           apply list_elem_of_In in Hin. destruct Hin as [<-|[]].
           apply existsb_att_key in Hk. unfold att_key in Hk. simpl in Hk.
           congruence.
        -- apply NoDup_singleton.
Qed.

Lemma fold_insert_shape conn evs tbl :
  exists added,
    fst (fold_left (insert_row conn) evs tbl) = fst tbl ++ added
    /\ Forall (added_from conn evs) added
    /\ (forall a, In a evs ->
          In (event_key conn a)
             (map att_key (fst (fold_left (insert_row conn) evs tbl))))
    /\ (NoDup (map att_key (fst tbl)) ->
        NoDup (map att_key (fst (fold_left (insert_row conn) evs tbl)))).
Proof.
  revert tbl. induction evs as [|a evs IH]; intros tbl; simpl.
  - exists []. rewrite app_nil_r. repeat split; auto. intros a [].
  - destruct (insert_row_shape conn tbl a) as (ad1 & H1 & F1 & K1 & N1).
    destruct (IH (insert_row conn tbl a)) as (ad2 & H2 & F2 & K2 & N2).
    exists (ad1 ++ ad2). split; [now rewrite H2, H1, app_assoc|]. split.
    + apply Forall_app. split.
      * eapply Forall_impl; [exact F1|].
        intros r (Hc & Hs & x & [<-|[]] & Hk). repeat split; auto.
        exists a. split; [now left | exact Hk].
      * eapply Forall_impl; [exact F2|].
        intros r (Hc & Hs & x & Hx & Hk). repeat split; auto.
        exists x. split; [now right | exact Hk].
    + split; [|auto].
      intros x [<-|Hx]; [|now apply K2].
      rewrite H2, map_app. apply in_or_app. now left.
Qed.

Lemma fold_insert_present conn evs tbl :
  (forall a, In a evs -> In (event_key conn a) (map att_key (fst tbl))) ->
  fold_left (insert_row conn) evs tbl = (fst tbl, snd tbl + len evs).
Proof.
  revert tbl. induction evs as [|a evs IH]; intros tbl H; simpl.
  - destruct tbl. simpl. f_equal. unfold len. simpl. lia.
  - rewrite insert_row_present by (apply H; now left).
    rewrite IH by (intros x Hx; apply H; now right).
    simpl. f_equal. unfold len. simpl length. lia.
Qed.

Lemma unique_keys_fetch E conn conn_dict :
  preserves unique_keys (_fetch_data_for_machine E conn conn_dict).
Proof.
  apply preserves_fetch; unfold unique_keys.
  - auto.
  - auto.
  - auto.
  - auto.
  - intros cn u w H. now rewrite user_query_eq.
  - intros cn a w H. rewrite att_query_eq. simpl.
    destruct (insert_row_shape cn (attendance w, attendance_seq w) a)
      as (_ & _ & _ & _ & Hn). now apply Hn.
Qed.

(** ** Fetching twice *)

Section Rendered.
Import datetime calendar datetime_facts.

Lemma strftime_same_seconds a b :
  valid a -> valid b ->
  strftime a TS_FORMAT = strftime b TS_FORMAT -> seconds a = seconds b.
Proof.
  intros Ha Hb H.
  pose proof (strptime_strftime a Ha) as Pa.
  pose proof (strptime_strftime b Hb) as Pb.
  rewrite H, Pb in Pa.
  assert (Hw : whole_second b = whole_second a) by congruence.
  rewrite <- (seconds_whole_second a), <- (seconds_whole_second b).
  now rewrite Hw.
Qed.

Lemma str_max_strftime a b :
  valid a -> valid b ->
  str_max (strftime a TS_FORMAT) (strftime b TS_FORMAT)
  = strftime (if seconds a <? seconds b then b else a) TS_FORMAT.
Proof.
  intros Ha Hb. unfold str_max. rewrite str_ltb_strftime by assumption.
  now destruct (_ <? _).
Qed.

Lemma fold_max_strftime xs dx :
  valid dx -> well_formed xs ->
  exists dm,
    valid dm
    /\ fold_left str_max xs (strftime dx TS_FORMAT) = strftime dm TS_FORMAT
    /\ (dm = dx \/ In (strftime dm TS_FORMAT) xs)
    /\ seconds dx <= seconds dm
    /\ forall d, valid d -> In (strftime d TS_FORMAT) xs ->
         seconds d <= seconds dm.
Proof.
  revert dx. induction xs as [|s xs IH]; intros dx Hdx Hwf.
  - exists dx. simpl. split; [exact Hdx|]. split; [reflexivity|].
    split; [now left|]. split; [lia|]. intros d _ [].
  - destruct (Hwf s (or_introl eq_refl)) as (ds & Hds & ->).
    assert (Hwf' : well_formed xs) by (intros x Hx; apply Hwf; now right).
    simpl fold_left. rewrite str_max_strftime by assumption.
    set (d1 := if seconds dx <? seconds ds then ds else dx).
    assert (Hd1 : valid d1) by (subst d1; now destruct (_ <? _)).
    assert (Hle : seconds dx <= seconds d1 /\ seconds ds <= seconds d1).
    { subst d1. destruct (Z.ltb_spec (seconds dx) (seconds ds)); lia. }
    destruct (IH d1 Hd1 Hwf') as (dm & Hdm & Hf & Hin & Hge & Hall).
    exists dm. split; [exact Hdm|]. split; [exact Hf|]. split; [|split; [lia|]].
    + destruct Hin as [->|Hin]; [|right; now right].
      subst d1. destruct (_ <? _); [right; now left | now left].
    + intros d Hd [Heq|Hin']; [|now apply Hall].
      pose proof (strftime_same_seconds ds d Hds Hd Heq). lia.
Qed.

(** The maximum over rendered timestamps is the rendering of the latest. *)
Lemma sql_max_strftime xs :
  well_formed xs -> xs <> [] ->
  exists dm,
    valid dm
    /\ sql_max xs = Some (strftime dm TS_FORMAT)
    /\ In (strftime dm TS_FORMAT) xs
    /\ forall d, valid d -> In (strftime d TS_FORMAT) xs ->
         seconds d <= seconds dm.
Proof.
  intros Hwf Hne. destruct xs as [|s xs]; [congruence|].
  destruct (Hwf s (or_introl eq_refl)) as (ds & Hds & ->).
  assert (Hwf' : well_formed xs) by (intros x Hx; apply Hwf; now right).
  destruct (fold_max_strftime xs ds Hds Hwf') as (dm & Hdm & Hf & Hin & Hge & Hall).
  exists dm. split; [exact Hdm|]. simpl. split; [now rewrite Hf|]. split.
  - destruct Hin as [->|Hin]; [now left | now right].
  - intros d Hd [Heq|Hin']; [|now apply Hall].
    pose proof (strftime_same_seconds ds d Hds Hd Heq). lia.
Qed.

End Rendered.

Lemma stored_timestamps_app conn rows added evs :
  Forall (added_from conn evs) added ->
  stored_timestamps conn (rows ++ added)
  = stored_timestamps conn rows ++ map a_timestamp added
  /\ forall s, In s (map a_timestamp added) ->
       exists a, In a evs /\ s = datetime.strftime (za_timestamp a) TS_FORMAT.
Proof.
  intros Hadd. unfold stored_timestamps. rewrite List.filter_app, map_app.
  split.
  - f_equal. f_equal. induction Hadd as [|r l Hr _ IH]; [reflexivity|].
    simpl. destruct Hr as (Hc & _). rewrite Hc, Z.eqb_refl. now rewrite IH.
  - intros s Hs. apply in_map_iff in Hs as (r & <- & Hr).
    rewrite Forall_forall in Hadd.
    destruct (Hadd r) as (_ & _ & a & Ha & Hk); [now apply list_elem_of_In|].
    exists a. split; [exact Ha|]. unfold att_key, event_key in Hk. congruence.
Qed.

Section TwoFetches.
Import datetime calendar datetime_facts.

Variable E : environment.
Variable conn : Z.
Variable conn_dict : conn_dict.
Variable port : Z.
Variable us : list zk_user.
Variable atts : list zk_attendance.

Hypothesis H_port : builtins.int (cd_port conn_dict) = Ok port.
Hypothesis H_dev : forall t, device E t conn = Delivers us atts.
Hypothesis H_clock : forall t, valid (clock E t) /\ 1901 <= year (clock E t).
Hypothesis H_mono :
  forall t t', (t <= t')%nat -> leb (clock E t) (clock E t') = true.
Hypothesis H_atts : forall a, In a atts -> valid (za_timestamp a).

Lemma midnight_whole_second d :
  replace_midnight (whole_second d) = replace_midnight d.
Proof. reflexivity. Qed.

Lemma date_from_runs w :
  well_formed (stored_timestamps conn (attendance w)) ->
  0 <= days_back_of w <= 36500 ->
  exists w1 df,
    fetch_date_from E conn
      (logged E "Fetch Data" (MsgFetchStart (cd_name conn_dict)) (Some conn) w)
      = (w1, Ok df)
    /\ attendance w1 = attendance w
    /\ attendance_seq w1 = attendance_seq w
    /\ settings w1 = settings w
    /\ (tick w < tick w1)%nat
    /\ valid df
    /\ watermark_of E conn w df.
Proof.
  intros Hwf Hdb.
  set (w0 := logged E "Fetch Data" (MsgFetchStart (cd_name conn_dict))
               (Some conn) w).
  destruct (stored_timestamps conn (attendance w)) as [|s0 xs] eqn:Hst.
  - destruct (H_clock (tick w0)) as [Hv Hy].
    destruct (lookback_exists (clock E (tick w0)) (days_back_of w) Hv Hy Hdb)
      as [base Hbase].
    eexists _, _. split.
    { apply fetch_date_from_lookback with (base := base).
      - change (attendance w0) with (attendance w). now rewrite Hst.
      - exact Hbase. }
    do 3 (split; [reflexivity|]). split; [simpl; lia|]. split.
    + apply valid_midnight. unfold sub in Hbase.
      now destruct (add_spec _ _ _ Hv Hbase).
    + right. split; [exact Hst|]. exists base.
      split; [exact Hbase | reflexivity].
  - destruct (sql_max_strftime (s0 :: xs)) as (dm & Hdm & Hmax & Hin & Hall);
      [exact Hwf | discriminate |].
    eexists _, _. split.
    { apply fetch_date_from_stored with (s := strftime dm TS_FORMAT)
                                        (base := whole_second dm).
      - change (attendance w0) with (attendance w). now rewrite Hst.
      - apply strftime_nonempty.
      - now apply strptime_strftime. }
    do 3 (split; [reflexivity|]). split; [simpl; lia|]. split.
    + now apply valid_midnight, valid_whole_second.
    + left. exists dm. rewrite Hst. split; [exact Hdm|]. split; [exact Hin|].
      split; [exact Hall | reflexivity].
Qed.

(** The watermark does not move back from one fetch to the next. *)
Lemma watermark_mono w w' df df' now :
  watermark_of E conn w df -> watermark_of E conn w' df' ->
  valid df -> valid df' ->
  (tick w <= tick w')%nat -> days_back_of w' = days_back_of w ->
  (exists extra,
     stored_timestamps conn (attendance w')
       = stored_timestamps conn (attendance w) ++ extra
     /\ forall s, In s extra ->
          exists a, In a atts /\ is_new df now a = true
                    /\ s = strftime (za_timestamp a) TS_FORMAT) ->
  leb df df' = true.
Proof.
  intros Hw Hw' Hv Hv' Htick Hdb (extra & Happ & Hextra).
  destruct Hw as [(dm & Hdm & Hin & Hall & ->) | (Hnil & base & Hbase & ->)];
  destruct Hw' as [(dm' & Hdm' & Hin' & Hall' & ->) | (Hnil' & base' & Hbase' & ->)].
  - apply midnight_mono; [assumption..|].
    apply Hall'; [exact Hdm|]. rewrite Happ. apply in_or_app. now left.
  - rewrite Happ, Hnil' in *. destruct (stored_timestamps conn (attendance w));
      [destruct Hin | discriminate].
  - rewrite Happ, Hnil in Hin'. simpl in Hin'.
    destruct (Hextra _ Hin') as (a & Ha & Hnew & Heq).
    pose proof (H_atts a Ha) as Hva.
    assert (Hm : replace_midnight dm' = replace_midnight (za_timestamp a)).
    { pose proof (strptime_strftime dm' Hdm') as P1.
      pose proof (strptime_strftime _ Hva) as P2.
      rewrite Heq, P2 in P1.
      rewrite <- (midnight_whole_second dm'),
              <- (midnight_whole_second (za_timestamp a)). congruence. }
    rewrite Hm. apply ltb_midnight.
    unfold is_new in Hnew. now apply andb_true_iff in Hnew.
  - rewrite Hdb in Hbase'.
    destruct (H_clock (S (tick w))) as [Hc _].
    destruct (H_clock (S (tick w'))) as [Hc' _].
    assert (Hle : leb (clock E (S (tick w))) (clock E (S (tick w'))) = true)
      by (apply H_mono; lia).
    apply (lookback_mono _ _ _ _ _ Hc Hc' Hle Hbase Hbase').
Qed.

Lemma fetched_tick df w :
  tick (fetched E conn df us atts w) = (tick w + 9)%nat.
Proof. simpl. lia. Qed.

Lemma fetched_settings df w :
  settings (fetched E conn df us atts w) = settings w.
Proof. reflexivity. Qed.

Lemma fetch_twice w :
  well_formed (stored_timestamps conn (attendance w)) ->
  0 <= days_back_of w <= 36500 ->
  exists w1 df1 now1 new1 uc1 ac1 t1 w2 df2 now2 new2 uc2 ac2 t2,
    _fetch_data_for_machine E conn conn_dict w
      = (w1, closing E conn t1 (FetchDone df1 now1 new1 uc1 ac1))
    /\ _fetch_data_for_machine E conn conn_dict w1
      = (w2, closing E conn t2 (FetchDone df2 now2 new2 uc2 ac2))
    /\ leb now1 now2 = true
    /\ ((forall a, In a atts ->
           leb (za_timestamp a) now2 = true ->
           leb (za_timestamp a) now1 = true) ->
        attendance w2 = attendance w1).
Proof.
  intros Hwf Hdb.
  destruct (date_from_runs w Hwf Hdb)
    as (wa & df1 & Hdf1 & Ha1 & Hs1 & Hset1 & Ht1 & Hv1 & Hwm1).
  pose proof (fetch_delivers E conn conn_dict port w wa df1 us atts Hdf1
                H_port (H_dev _)) as Hf1.
  cbv zeta in Hf1.
  set (now1 := clock E (tick wa + 7)%nat) in *.
  set (new1 := List.filter (is_new df1 now1) atts) in *.
  set (w1 := set_tick S (fetched E conn df1 us atts wa)) in *.
  (* the table after the first fetch *)
  destruct (fold_insert_shape conn new1 (attendance wa, attendance_seq wa))
    as (added & Hshape & Hadded & Hkeys & _).
  assert (Hatt1 : attendance w1 = attendance w ++ added).
  { subst w1. cbn [attendance set_tick]. rewrite fetched_attendance.
    fold now1. fold new1. rewrite Hshape. simpl. now rewrite Ha1. }
  destruct (stored_timestamps_app conn (attendance w) added new1 Hadded)
    as [Hst1 Hext].
  assert (Hnew1 : forall a, In a new1 -> In a atts /\ is_new df1 now1 a = true).
  { intros a Ha. subst new1. now apply filter_In in Ha. }
  assert (Hwf1 : well_formed (stored_timestamps conn (attendance w1))).
  { rewrite Hatt1, Hst1. intros s Hs. apply in_app_or in Hs as [Hs|Hs].
    - now apply Hwf.
    - destruct (Hext s Hs) as (a & Ha & ->).
      exists (za_timestamp a). split; [|reflexivity].
      apply H_atts. now apply Hnew1. }
  assert (Hdb1 : days_back_of w1 = days_back_of w).
  { unfold days_back_of. subst w1. cbn [settings set_tick].
    now rewrite fetched_settings, Hset1. }
  destruct (date_from_runs w1 Hwf1 ltac:(now rewrite Hdb1))
    as (wb & df2 & Hdf2 & Ha2 & Hs2 & Hset2 & Ht2 & Hv2 & Hwm2).
  pose proof (fetch_delivers E conn conn_dict port w1 wb df2 us atts Hdf2
                H_port (H_dev _)) as Hf2.
  cbv zeta in Hf2.
  set (now2 := clock E (tick wb + 7)%nat) in *.
  set (new2 := List.filter (is_new df2 now2) atts) in *.
  exists w1, df1, now1, new1, (0 + len us), (0 + len new1), (tick wa + 9)%nat.
  exists (set_tick S (fetched E conn df2 us atts wb)), df2, now2, new2,
         (0 + len us), (0 + len new2), (tick wb + 9)%nat.
  split; [exact Hf1|]. split; [exact Hf2|].
  assert (Htick1 : tick w1 = (tick wa + 10)%nat).
  { subst w1. cbn [tick set_tick]. rewrite fetched_tick. lia. }
  assert (Htick : (tick w <= tick w1)%nat) by lia.
  split.
  { apply H_mono. lia. }
  intros Hfuture.
  assert (Hle : leb df1 df2 = true).
  { apply (watermark_mono w w1 df1 df2 now1 Hwm1 Hwm2 Hv1 Hv2 Htick Hdb1).
    exists (map a_timestamp added). split; [now rewrite Hatt1|].
    intros s Hs. destruct (Hext s Hs) as (a & Ha & ->).
    destruct (Hnew1 a Ha). eauto. }
  cbn [attendance set_tick]. rewrite fetched_attendance. fold now2. fold new2.
  rewrite fold_insert_present; [simpl; exact Ha2|].
  intros a Ha. simpl. rewrite Ha2.
  subst new2. apply filter_In in Ha as [Ha Hnew].
  unfold is_new in Hnew. apply andb_true_iff in Hnew as [Hlt Hnow].
  assert (Hin1 : In a new1).
  { subst new1. apply filter_In. split; [exact Ha|].
    unfold is_new. apply andb_true_iff. split; [|now apply Hfuture].
    apply (leb_ltb_trans df1 df2 (za_timestamp a)); auto. }
  subst w1. cbn [attendance set_tick]. rewrite fetched_attendance.
  fold now1. fold new1.
  now apply Hkeys.
Qed.

End TwoFetches.

Lemma fetch_date_from_inv E conn w w1 df :
  fetch_date_from E conn w = (w1, Ok df) ->
  attendance w1 = attendance w
  /\ (tick w < tick w1)%nat
  /\ exists base,
       df = datetime.replace_midnight base
       /\ match sql_max (stored_timestamps conn (attendance w)) with
          | Some s =>
              if String.eqb s EmptyString
              then datetime.sub (clock E (tick w))
                     (datetime.timedelta_days (days_back_of w)) = Some base
              else datetime.strptime s TS_FORMAT = Some base
          | None =>
              datetime.sub (clock E (tick w))
                (datetime.timedelta_days (days_back_of w)) = Some base
          end.
Proof.
  unfold fetch_date_from, bind, select_max_timestamp, get.
  fold (stored_timestamps conn (attendance w)).
  assert (Hlook : forall w1 df,
    (let (w', r) := lookback_date_from E conn w in
     match r with
     | Ok a => ret (datetime.replace_midnight a) w'
     | Raise e => (w', Raise e)
     end) = (w1, Ok df) ->
    attendance w1 = attendance w /\ (tick w < tick w1)%nat
    /\ exists base, df = datetime.replace_midnight base
       /\ datetime.sub (clock E (tick w))
            (datetime.timedelta_days (days_back_of w)) = Some base).
  { intros w1' df'.
    unfold lookback_date_from, bind, get, datetime_now, bind, next_tick, ret, lift.
    simpl. fold (days_back_of w).
    destruct (datetime.sub _ _) as [base|]; simpl; [|discriminate].
    intros [= <- <-]. simpl. split; [reflexivity|]. split; [lia|].
    exists base. auto. }
  destruct (sql_max _) as [s|]; simpl.
  - destruct (String.eqb s EmptyString); simpl.
    + intros H. destruct (Hlook _ _ H) as (Ha & Ht & base & Hd & Hs). eauto.
    + unfold lift. destruct (datetime.strptime s TS_FORMAT) as [base|]; simpl;
        [|discriminate].
      unfold ret. intros [= <- <-]. simpl. split; [reflexivity|]. split; [lia|].
      exists base. auto.
  - intros H. destruct (Hlook _ _ H) as (Ha & Ht & base & Hd & Hs). eauto.
Qed.

Lemma event_key_in_fold conn evs tbl k :
  In k (map att_key (fst (fold_left (insert_row conn) evs tbl)))
  <-> In k (map att_key (fst tbl)) \/ exists a, In a evs /\ k = event_key conn a.
Proof.
  destruct (fold_insert_shape conn evs tbl) as (added & Hs & Hadd & Hk & _).
  split.
  - rewrite Hs, map_app. intros H. apply in_app_or in H as [H|H]; [now left|].
    right. apply in_map_iff in H as (r & <- & Hr).
    rewrite Forall_forall in Hadd.
    destruct (Hadd r) as (_ & _ & a & Ha & Hkey); [now apply list_elem_of_In|].
    eauto.
  - intros [H|(a & Ha & ->)]; [|now apply Hk].
    rewrite Hs, map_app. apply in_or_app. now left.
Qed.

(** C3 as stated does not hold: on [skew_world] an event stamped after
    the start of the fetch (the clock reading of its first log line) is
    retained and stored. *)
Lemma event_after_fetch_start_kept_counterexample :
  let fetch_start := clock skew_env (tick skew_world) in
  let w' := fst (_fetch_data_for_machine skew_env 1 gate skew_world) in
  exists a,
    In a skew_events
    /\ datetime.ltb fetch_start (za_timestamp a) = true
    /\ In (event_key 1 a) (map att_key (attendance w')).
Proof.
  exists (mk_zk_att "7" (datetime.mk 2024 1 10 10 0 5 0)).
  split; [now left|]. split; [reflexivity|].
  vm_compute. now left.
Qed.

(** C3, amended.  The watermark [date_from] is the midnight of the
    maximum stored timestamp of the machine, or of now minus [days_back]
    days when none is stored; the fetch retains exactly the device events
    strictly after [date_from] and no later than [now], the clock
    reading taken once the attendance list is downloaded (after the
    start of the fetch), and the keys of the table afterwards are those
    it had and those of the retained events.  (The terminal is reached:
    [int] accepts the port and the session delivers; the fetch returns
    its report unless closing the session raises.) *)
Theorem fetch_keeps_window E conn conn_dict port w w1 df us atts :
  fetch_date_from E conn
    (logged E "Fetch Data" (MsgFetchStart (cd_name conn_dict)) (Some conn) w)
    = (w1, Ok df) ->
  builtins.int (cd_port conn_dict) = Ok port ->
  device E (S (tick w1)) conn = Delivers us atts ->
  let now := clock E (tick w1 + 7)%nat in
  let new := List.filter (is_new df now) atts in
  (exists base,
     df = datetime.replace_midnight base
     /\ match sql_max (stored_timestamps conn (attendance w)) with
        | Some s =>
            if String.eqb s EmptyString
            then datetime.sub (clock E (S (tick w)))
                   (datetime.timedelta_days (days_back_of w)) = Some base
            else datetime.strptime s TS_FORMAT = Some base
        | None =>
            datetime.sub (clock E (S (tick w)))
              (datetime.timedelta_days (days_back_of w)) = Some base
        end)
  /\ (tick w < tick w1 + 7)%nat
  /\ exists w' user_count att_count,
       _fetch_data_for_machine E conn conn_dict w
         = (w', closing E conn (tick w1 + 9)
                  (FetchDone df now new user_count att_count))
       /\ (forall a, In a new <->
             In a atts /\ datetime.ltb df (za_timestamp a) = true
             /\ datetime.leb (za_timestamp a) now = true)
       /\ forall k,
            In k (map att_key (attendance w')) <->
            In k (map att_key (attendance w))
            \/ exists a, In a new /\ k = event_key conn a.
Proof.
  intros Hdf Hport Hdev now new.
  destruct (fetch_date_from_inv _ _ _ _ _ Hdf) as (Ha & Ht & base & Hbase & Hmax).
  split; [exists base; split; [exact Hbase | exact Hmax]|].
  split; [simpl in Ht; lia|].
  eexists _, _, _.
  split; [exact (fetch_delivers E conn conn_dict port w w1 df us atts
                   Hdf Hport Hdev)|].
  split.
  - intros a. subst new. rewrite filter_In. unfold is_new.
    now rewrite andb_true_iff.
  - intros k. cbn [attendance set_tick]. rewrite fetched_attendance.
    fold now. fold new.
    rewrite event_key_in_fold. simpl. now rewrite Ha.
Qed.

Lemma fetch_keeps_window_witness :
  exists w' user_count att_count,
    _fetch_data_for_machine skew_env 1 gate skew_world
    = (w', Ok (FetchDone (datetime.mk 2023 12 10 0 0 0 0)
                 (datetime.mk 2024 1 10 10 0 10 0)
                 [mk_zk_att "7" (datetime.mk 2024 1 10 10 0 5 0)]
                 user_count att_count)).
Proof.
  destruct (fetch_keeps_window skew_env 1 gate 4370 skew_world
              (logged skew_env "Fetch Data" (MsgNoPrevious 31) (Some 1)
                 (set_tick S (logged skew_env "Fetch Data" (MsgFetchStart "Gate")
                                     (Some 1) skew_world)))
              (datetime.mk 2023 12 10 0 0 0 0)
              [mk_zk_user 1 "7" "Ada"] skew_events)
    as (_ & _ & w' & uc & ac & H & _).
  - reflexivity.
  - reflexivity.
  - reflexivity.
  - exists w', uc, ac. exact H.
Defined.


Lemma unique_keys_fetch_all E ms w :
  NoDup (map att_key (attendance w)) ->
  NoDup (map att_key (attendance (fetch_all E ms w))).
Proof.
  unfold fetch_all. revert w. induction ms as [|m ms IH]; intros w H; simpl.
  - exact H.
  - apply IH. now apply unique_keys_fetch.
Qed.


(** ** The conversion to UTC *)

Section Timezones.
Import datetime calendar datetime_facts.

Lemma second_clock_seconds n :
  valid (second_clock n)
  /\ seconds (second_clock n)
     = 738895 * 86400 + 36000 + Z.min (Z.of_nat n) 3599
  /\ microsecond (second_clock n) = 0
  /\ year (second_clock n) = 2024.
Proof.
  unfold second_clock. cbv zeta.
  set (k := Z.min (Z.of_nat n) 3599).
  assert (Hk : 0 <= k <= 3599) by lia. clearbody k.
  split; [|split; [|split; reflexivity]].
  - apply valid_iff. unfold date_of, valid_date. simpl.
    change (_days_in_month 2024 1) with 31.
    repeat split; try lia; Z.div_mod_to_equations; lia.
  - unfold seconds, toordinal. simpl.
    change (_ymd2ord 2024 1 10) with 738895.
    Z.div_mod_to_equations. lia.
Qed.

Lemma second_clock_ok t :
  valid (second_clock t) /\ 1901 <= year (second_clock t).
Proof.
  destruct (second_clock_seconds t) as (Hv & _ & _ & Hy).
  split; [exact Hv | rewrite Hy; lia].
Qed.

Lemma second_clock_mono t t' :
  (t <= t')%nat -> leb (second_clock t) (second_clock t') = true.
Proof.
  intros Hle.
  destruct (second_clock_seconds t) as (Hv & Hs & Hu & _).
  destruct (second_clock_seconds t') as (Hv' & Hs' & Hu' & _).
  unfold leb. rewrite compare_seconds by assumption.
  rewrite Hu, Hu'.
  destruct (Z.compare_spec (seconds (second_clock t)) (seconds (second_clock t')));
    simpl; try reflexivity. lia.
Qed.

Lemma sub_eq d delta : sub d delta = add d (- delta).
Proof. reflexivity. Qed.

Lemma static_reads_back i dt utc :
  valid dt ->
  sub dt (pytz.utcoffset i) = Some utc ->
  valid utc /\ add utc (pytz.utcoffset i) = Some dt.
Proof.
  intros Hdt Hsub. rewrite sub_eq in Hsub.
  destruct (add_spec _ _ _ Hdt Hsub) as (Hu & _).
  pose proof (add_sub_cancel _ _ _ Hdt Hsub) as Hback.
  rewrite Z.opp_involutive in Hback. auto.
Qed.

Lemma rbind_ok {A B} (r : result A) (k : A -> result B) b :
  rbind r k = Ok b -> exists a, r = Ok a /\ k a = Ok b.
Proof. destruct r as [a|e]; simpl; [eauto | discriminate]. Qed.

Lemma of_option_ok {A} e (o : option A) a : of_option e o = Ok a -> o = Some a.
Proof. destruct o; simpl; congruence. Qed.

Lemma fromutc_dst times infos u c :
  pytz.fromutc (pytz.DstTzInfo times infos) u = Ok c ->
  add u (pytz.utcoffset (snd c)) = Some (fst c).
Proof.
  unfold pytz.fromutc. intros H.
  apply rbind_ok in H as (inf & _ & H).
  apply rbind_ok in H as (d & Hadd & H).
  apply of_option_ok in Hadd. injection H as <-. exact Hadd.
Qed.

Lemma candidate_reads_back times infos dt delta c :
  valid dt ->
  pytz.candidate times infos dt delta = Ok (Some c) ->
  fst c = dt
  /\ exists u0, valid u0
       /\ add u0 (pytz.utcoffset (snd c)) = Some dt
       /\ pytz.fromutc (pytz.DstTzInfo times infos) u0 = Ok c.
Proof.
  intros Hdt H. unfold pytz.candidate in H.
  apply rbind_ok in H as (loc & _ & H).
  apply rbind_ok in H as (inf & _ & H).
  apply rbind_ok in H as (c' & Hnorm & H).
  unfold pytz.normalize in Hnorm.
  apply rbind_ok in Hnorm as (u0 & Hsub & Hfrom).
  apply of_option_ok in Hsub. cbn [fst snd] in Hsub.
  rewrite sub_eq in Hsub.
  destruct (add_spec _ _ _ Hdt Hsub) as (Hu0 & _).
  unfold pytz.dt_eqb in H.
  destruct (compare (fst c') dt) eqn:Hc; try discriminate.
  injection H as <-. apply compare_eq in Hc.
  split; [exact Hc|]. exists u0. split; [exact Hu0|]. split; [|exact Hfrom].
  rewrite <- Hc. now apply fromutc_dst with times infos.
Qed.

Lemma possible_loc_dt_single c1 c2 a :
  pytz.possible_loc_dt c1 c2 = [a] -> c1 = Some a \/ c2 = Some a.
Proof.
  unfold pytz.possible_loc_dt.
  destruct c1 as [x|], c2 as [y|]; try discriminate.
  - destruct (_ =? _); [|discriminate]. intros [= <-]. now left.
  - intros [= <-]. now left.
  - intros [= <-]. now right.
Qed.

Lemma localize_dst_candidate times infos dt a :
  pytz.localize (pytz.DstTzInfo times infos) dt = Ok a ->
  exists delta, pytz.candidate times infos dt delta = Ok (Some a).
Proof.
  unfold pytz.localize. intros H.
  apply rbind_ok in H as (c1 & H1 & H).
  apply rbind_ok in H as (c2 & H2 & H).
  assert (Hp : pytz.possible_loc_dt c1 c2 = [a]).
  { destruct (pytz.possible_loc_dt c1 c2) as [|x [|y l]]; try discriminate.
    now injection H as <-. }
  destruct (possible_loc_dt_single _ _ _ Hp) as [-> | ->]; eauto.
Qed.

(** What [localize] returns reads as the wall clock it was given, and its
    UTC instant converts back to it. *)
Lemma localize_reads_back tz dt a utc :
  valid dt ->
  pytz.localize tz dt = Ok a ->
  pytz.astimezone_utc a = Ok utc ->
  fst a = dt /\ valid utc /\ pytz.fromutc tz utc = Ok a.
Proof.
  intros Hdt Hloc Hutc. unfold pytz.astimezone_utc in Hutc.
  apply of_option_ok in Hutc.
  destruct tz as [i | times infos].
  - unfold pytz.localize in Hloc. injection Hloc as <-. cbn [fst snd] in Hutc.
    destruct (static_reads_back i dt utc Hdt Hutc) as [Hu Hback].
    split; [reflexivity|]. split; [exact Hu|].
    unfold pytz.fromutc. rewrite Hback. reflexivity.
  - destruct (localize_dst_candidate _ _ _ _ Hloc) as [delta Hin].
    destruct (candidate_reads_back _ _ _ _ _ Hdt Hin)
      as (Hfst & u0 & Hu0 & Hadd & Hfrom).
    pose proof (add_sub_cancel _ _ _ Hu0 Hadd) as Hback.
    rewrite Hfst, sub_eq, Hback in Hutc.
    injection Hutc as <-. auto.
Qed.

End Timezones.

(** What the conversion returns when it succeeds: the rendering of a
    UTC instant that reads back, in the zone, as the stored wall-clock
    time. *)
Lemma to_utc_string_ok E tzname ts s :
  to_utc_string E tzname ts = Ok s ->
  exists tz naive local_dt utc,
    timezone E tzname = Some tz
    /\ datetime.strptime ts TS_FORMAT = Some naive
    /\ pytz.localize tz naive = Ok local_dt
    /\ datetime.valid utc
    /\ s = datetime.strftime utc TS_FORMAT
    /\ pytz.fromutc tz utc = Ok local_dt
    /\ fst local_dt = naive.
Proof.
  intros Hconv. unfold to_utc_string in Hconv.
  apply rbind_ok in Hconv as (tz & Htz & Hconv). apply of_option_ok in Htz.
  apply rbind_ok in Hconv as (naive & Hparse & Hconv).
  apply of_option_ok in Hparse.
  apply rbind_ok in Hconv as (local_dt & Hloc & Hconv).
  apply rbind_ok in Hconv as (utc & Hutc & Hconv).
  injection Hconv as <-.
  pose proof (datetime_facts.strptime_valid _ _ Hparse) as Hv.
  destruct (localize_reads_back tz naive local_dt utc Hv Hloc Hutc)
    as (Hfst & Hvu & Hback).
  exists tz, naive, local_dt, utc. auto 10.
Qed.

(** The timestamp a row is sent with, on every path of the code: the
    stored one without a configured timezone; the rendering of the UTC
    instant when the conversion returns; the stored one, with an [Error]
    row in the log, when the conversion raises. *)
Lemma timestamp_to_send_paths E att w :
  let ts := a_timestamp (aj_row att) in
  let tzname := default EmptyString (aj_machine_timezone att) in
  let w' := fst (timestamp_to_send E att w) in
  snd (timestamp_to_send E att w) = Ok (computed_timestamp E att)
  /\ (truthy_str (aj_machine_timezone att) = false ->
      computed_timestamp E att = ts /\ w' = w)
  /\ (truthy_str (aj_machine_timezone att) = true ->
      match to_utc_string E tzname ts with
      | Ok s => computed_timestamp E att = s /\ w' = w
      | Raise e =>
          computed_timestamp E att = ts
          /\ w' = logged E "Error" (MsgTimezoneFailed tzname e)
                         (Some (a_connection_id (aj_row att))) w
      end).
Proof.
  intros ts tzname w'. subst w'. rewrite timestamp_to_send_eq. simpl fst. simpl snd.
  split; [reflexivity|]. unfold computed_timestamp, after_timestamp.
  fold ts. fold tzname.
  split; [intros ->; auto|].
  intros ->. destruct (to_utc_string E tzname ts) as [s|e]; auto.
Qed.

(** C4.  The code does not resolve a wall-clock time that occurs twice.
    In America/New_York, 01:30 on 5 November 2023 is the local reading
    of 05:30 UTC and of 06:30 UTC; [localize] with [is_dst=None] raises
    [AmbiguousTimeError] for it.  The handler of the conversion then
    writes an [Error] row to the log and the stored local time is sent
    as it is, where a UTC time is expected: it is the rendering neither
    of the later instant nor of the earlier one.  A wall-clock time that
    occurs once is converted (noon of 1 July 2023 is sent as 16:00). *)
Theorem ambiguous_time_is_sent_naive :
  let wall := datetime.mk 2023 11 5 1 30 0 0 in
  let earlier := datetime.mk 2023 11 5 5 30 0 0 in
  let later := datetime.mk 2023 11 5 6 30 0 0 in
  pytz.fromutc New_York earlier = Ok (wall, EDT)
  /\ pytz.fromutc New_York later = Ok (wall, EST)
  /\ pytz.localize New_York wall = Raise AmbiguousTimeError
  /\ timestamp_to_send ny_env fall_back_row retry_world
     = (logged ny_env "Error"
          (MsgTimezoneFailed "America/New_York" AmbiguousTimeError) (Some 1)
          retry_world,
        Ok "2023-11-05 01:30:00"%string)
  /\ computed_timestamp ny_env fall_back_row = "2023-11-05 01:30:00"%string
  /\ computed_timestamp ny_env fall_back_row
     <> datetime.strftime later TS_FORMAT
  /\ computed_timestamp ny_env fall_back_row
     <> datetime.strftime earlier TS_FORMAT
  /\ computed_timestamp ny_env summer_row = "2023-07-01 16:00:00"%string.
Proof.
  repeat split; try (vm_compute; reflexivity); vm_compute; discriminate.
Qed.

(** ** String order and chronological order *)

Section StringOrder.
Import datetime calendar datetime_facts.

Lemma leb_whole a b :
  valid a -> valid b ->
  leb (whole_second a) (whole_second b) = (seconds a <=? seconds b).
Proof.
  intros Ha Hb. unfold leb.
  rewrite compare_seconds by now apply valid_whole_second.
  rewrite !seconds_whole_second. cbn [whole_second microsecond].
  destruct (Z.compare_spec (seconds a) (seconds b)); simpl;
    symmetry; first [apply Z.leb_le | apply Z.leb_gt]; lia.
Qed.

Lemma sql_max_chronological ds :
  Forall valid ds -> ds <> [] ->
  exists dm,
    In dm ds
    /\ sql_max (map (fun d => strftime d TS_FORMAT) ds)
       = Some (strftime dm TS_FORMAT)
    /\ forall d, In d ds -> leb (whole_second d) (whole_second dm) = true.
Proof.
  intros Hv Hne. rewrite Forall_forall in Hv.
  assert (Hwf : well_formed (map (fun d => strftime d TS_FORMAT) ds)).
  { intros s Hs. apply in_map_iff in Hs as (d & <- & Hd).
    exists d. split; [apply Hv; now apply list_elem_of_In | reflexivity]. }
  destruct (sql_max_strftime _ Hwf) as (dm & Hdm & Hmax & Hin & Hall).
  { destruct ds; [congruence | discriminate]. }
  apply in_map_iff in Hin as (dm' & Heq & Hin').
  assert (Hv' : valid dm') by (apply Hv; now apply list_elem_of_In).
  exists dm'. split; [exact Hin'|]. split; [now rewrite Hmax, Heq|].
  intros d Hd. assert (Hvd : valid d) by (apply Hv; now apply list_elem_of_In).
  rewrite leb_whole by assumption. apply Z.leb_le.
  rewrite (strftime_same_seconds dm' dm Hv' Hdm Heq).
  apply Hall; [exact Hvd|]. apply in_map_iff. eauto.
Qed.

End StringOrder.

(** The dedup test on a converted timestamp is the chronological test
    on the instants. *)
Lemma dedup_on_converted E att remote s :
  truthy_str (aj_machine_timezone att) = true ->
  to_utc_string E (default EmptyString (aj_machine_timezone att))
                (a_timestamp (aj_row att)) = Ok s ->
  datetime.valid remote ->
  exists tz utc local_dt,
    timezone E (default EmptyString (aj_machine_timezone att)) = Some tz
    /\ datetime.valid utc
    /\ pytz.fromutc tz utc = Ok local_dt
    /\ datetime.strptime (a_timestamp (aj_row att)) TS_FORMAT
       = Some (fst local_dt)
    /\ computed_timestamp E att = datetime.strftime utc TS_FORMAT
    /\ not_yet_remote (Some (datetime.strftime remote TS_FORMAT))
                      (computed_timestamp E att)
       = datetime.ltb (datetime.whole_second remote)
                      (datetime.whole_second utc).
Proof.
  intros Htz Hconv Hr.
  destruct (to_utc_string_ok _ _ _ _ Hconv)
    as (tz & naive & local_dt & utc & Hzone & Hparse & _ & Hvu & -> & Hback
        & Hfst).
  assert (Hsent : computed_timestamp E att = datetime.strftime utc TS_FORMAT).
  { unfold computed_timestamp, after_timestamp. now rewrite Htz, Hconv. }
  exists tz, utc, local_dt. split; [exact Hzone|]. split; [exact Hvu|].
  split; [exact Hback|]. split; [now rewrite Hfst|]. split; [exact Hsent|].
  rewrite Hsent. unfold not_yet_remote, truthy_str.
  cbn [default from_option id].
  assert (Hne : String.eqb (datetime.strftime remote TS_FORMAT) EmptyString
                = false).
  { apply String.eqb_neq, datetime_facts.strftime_nonempty. }
  rewrite Hne. cbn [negb orb].
  rewrite datetime_facts.str_ltb_strftime by assumption.
  now rewrite datetime_facts.ltb_whole_seconds.
Qed.

(** C10 as stated does not hold.  The filter of the fetch is not a
    comparison of strings: it compares datetime objects, and tells two
    timestamps of one rendering apart.  And the dedup test is not
    chronological when the conversion to UTC failed: the row of the
    repeated hour is sent as local time, [2023-11-05 01:30:00], which
    as a string is below the latest timestamp of the server,
    [2023-11-05 05:00:00] UTC, although both instants of the row are
    after it; the row is left out of every create call and is marked
    synced. *)
Lemma dedup_across_frames_counterexample :
  let date_from := datetime.mk 2024 1 10 0 0 0 0 in
  let now := datetime.mk 2024 1 10 10 0 0 500000 in
  let a1 := mk_zk_att "7" (datetime.mk 2024 1 10 10 0 0 0) in
  let a2 := mk_zk_att "7" (datetime.mk 2024 1 10 10 0 0 700000) in
  let remote := datetime.mk 2023 11 5 5 0 0 0 in
  let earlier := datetime.mk 2023 11 5 5 30 0 0 in
  let later := datetime.mk 2023 11 5 6 30 0 0 in
  let w' := fst (_sync_to_odoo_thread ny_remote_env ny_world) in
  (datetime.strftime (za_timestamp a1) TS_FORMAT
   = datetime.strftime (za_timestamp a2) TS_FORMAT
   /\ is_new date_from now a1 = true
   /\ is_new date_from now a2 = false)
  /\ (pytz.fromutc New_York earlier
      = Ok (datetime.mk 2023 11 5 1 30 0 0, EDT)
      /\ pytz.fromutc New_York later
         = Ok (datetime.mk 2023 11 5 1 30 0 0, EST)
      /\ datetime.ltb remote earlier = true
      /\ datetime.ltb remote later = true
      /\ not_yet_remote (Some (datetime.strftime remote TS_FORMAT))
                        (computed_timestamp ny_remote_env fall_back_row)
         = false
      /\ rpc w' = [RpcAuthenticate; RpcSearchRead "7" 1 true]
      /\ map a_synched_time (attendance w')
         = [Some "2024-01-10 10:00:07"%string]).
Proof.
  repeat split; vm_compute; reflexivity.
Qed.

(** C10, amended.  The dedup test and the maximum of the watermark are
    taken on strings; the filter of the fetch is taken on datetimes.
    For valid datetimes of the years 1000 to 9999, which every platform
    renders on four digits, renderings in the timestamp format compare,
    as strings, the way the datetimes compare to the second.  So the
    dedup test on two renderings is the chronological test, to the
    second; the maximum over stored renderings is the rendering of a
    latest datetime; the filter of the fetch agrees with the comparison
    of the renderings when the watermark and the timestamp of the event
    have no microseconds; and the dedup test on a timestamp that was
    converted to UTC compares instants. *)
Theorem string_order_is_chronological :
  (forall a b,
     datetime.valid a -> datetime.valid b ->
     1000 <= datetime.year a -> 1000 <= datetime.year b ->
     String.compare (datetime.strftime a TS_FORMAT)
                    (datetime.strftime b TS_FORMAT)
     = datetime.compare (datetime.whole_second a) (datetime.whole_second b))
  /\ (forall remote ts,
        datetime.valid remote -> datetime.valid ts ->
        1000 <= datetime.year remote -> 1000 <= datetime.year ts ->
        not_yet_remote (Some (datetime.strftime remote TS_FORMAT))
                       (datetime.strftime ts TS_FORMAT)
        = datetime.ltb (datetime.whole_second remote)
                       (datetime.whole_second ts))
  /\ (forall ds,
        Forall (fun d => datetime.valid d /\ 1000 <= datetime.year d) ds ->
        ds <> [] ->
        exists dm,
          In dm ds
          /\ sql_max (map (fun d => datetime.strftime d TS_FORMAT) ds)
             = Some (datetime.strftime dm TS_FORMAT)
          /\ forall d, In d ds ->
               datetime.leb (datetime.whole_second d)
                            (datetime.whole_second dm) = true)
  /\ (forall date_from now a,
        datetime.valid date_from -> datetime.valid now ->
        datetime.valid (za_timestamp a) ->
        1000 <= datetime.year date_from -> 1000 <= datetime.year now ->
        1000 <= datetime.year (za_timestamp a) ->
        datetime.microsecond date_from = 0 ->
        datetime.microsecond (za_timestamp a) = 0 ->
        is_new date_from now a
        = str_ltb (datetime.strftime date_from TS_FORMAT)
                  (datetime.strftime (za_timestamp a) TS_FORMAT)
          && negb (str_ltb (datetime.strftime now TS_FORMAT)
                           (datetime.strftime (za_timestamp a) TS_FORMAT)))
  /\ (forall E att remote s,
        truthy_str (aj_machine_timezone att) = true ->
        to_utc_string E (default EmptyString (aj_machine_timezone att))
                      (a_timestamp (aj_row att)) = Ok s ->
        datetime.valid remote -> 1000 <= datetime.year remote ->
        exists tz utc local_dt,
          timezone E (default EmptyString (aj_machine_timezone att)) = Some tz
          /\ datetime.valid utc
          /\ pytz.fromutc tz utc = Ok local_dt
          /\ datetime.strptime (a_timestamp (aj_row att)) TS_FORMAT
             = Some (fst local_dt)
          /\ computed_timestamp E att = datetime.strftime utc TS_FORMAT
          /\ (1000 <= datetime.year utc ->
              not_yet_remote (Some (datetime.strftime remote TS_FORMAT))
                             (computed_timestamp E att)
              = datetime.ltb (datetime.whole_second remote)
                             (datetime.whole_second utc))).
Proof.
  split; [intros a b Ha Hb _ _; now apply datetime_facts.strftime_compare|].
  split; [|split; [|split]].
  - intros remote ts Hr Ht _ _. unfold not_yet_remote, truthy_str.
    cbn [default from_option id].
    assert (Hne : String.eqb (datetime.strftime remote TS_FORMAT) EmptyString = false).
    { apply String.eqb_neq, datetime_facts.strftime_nonempty. }
    rewrite Hne. cbn [negb orb].
    rewrite datetime_facts.str_ltb_strftime by assumption.
    now rewrite datetime_facts.ltb_whole_seconds.
  - intros ds Hds Hne. apply sql_max_chronological; [|exact Hne].
    eapply Forall_impl; [exact Hds|]. now intros d [Hd _].
  - intros df now a Hdf Hnow Ha _ _ _ Hu0 Hua. unfold is_new.
    rewrite !datetime_facts.str_ltb_strftime by assumption.
    unfold datetime.ltb, datetime.leb.
    rewrite !datetime_facts.compare_seconds by assumption.
    rewrite Hu0, Hua.
    pose proof (proj1 (datetime_facts.valid_iff now) Hnow) as (_ & _ & _ & _ & Hus).
    destruct (Z.compare_spec (calendar.seconds df) (calendar.seconds (za_timestamp a)));
    destruct (Z.compare_spec (calendar.seconds (za_timestamp a)) (calendar.seconds now));
    destruct (Z.compare_spec 0 (datetime.microsecond now));
    destruct (Z.ltb_spec (calendar.seconds df) (calendar.seconds (za_timestamp a)));
    destruct (Z.ltb_spec (calendar.seconds now) (calendar.seconds (za_timestamp a)));
    simpl; try reflexivity; exfalso; lia.
  - intros E att remote s Htz Hconv Hr _.
    destruct (dedup_on_converted E att remote s Htz Hconv Hr)
      as (tz & utc & local_dt & H1 & H2 & H3 & H4 & H5 & H6).
    exists tz, utc, local_dt. auto 10.
Qed.

Lemma string_order_is_chronological_witness :
  String.compare "2023-12-31 23:59:59" "2024-01-01 00:00:00" = Lt
  /\ not_yet_remote (Some "2024-01-01 08:00:00"%string) "2024-01-01 08:00:00"
     = false.
Proof.
  destruct string_order_is_chronological as (Hcmp & Hdedup & _).
  split.
  - apply (Hcmp (datetime.mk 2023 12 31 23 59 59 0)
                (datetime.mk 2024 1 1 0 0 0 0));
      first [reflexivity | simpl; lia].
  - apply (Hdedup (datetime.mk 2024 1 1 8 0 0 0)
                  (datetime.mk 2024 1 1 8 0 0 0));
      first [reflexivity | simpl; lia].
Defined.

(** ** Instances *)

Lemma dedup_excludes_but_marks_witness :
  let w' := fst (sync_attendance dedup_env 1000 dedup_world) in
  create_calls (rpc w')
  = [([mk_att_payload "7" "2024-01-01 08:00:01" 1 "1-7-20240101080001"], true)]
  /\ map a_id (attendance w') = [1; 2]
  /\ (forall r, In r (attendance w') -> a_synched_time r <> None).
Proof.
  apply (proj2 dedup_excludes_but_marks dedup_env dedup_world 1000 1 "7"
           "2024-01-01 08:00:00" "2024-01-01 08:00:01" 1 2
           "1-7-20240101080000" "1-7-20240101080001"
           (mk_machine 1 "Gate" (Some 1) None) 1);
    try reflexivity; try discriminate.
Defined.

Lemma batch_watermark_follows_create_witness :
  attendance (fst (flush_batch retry_env 2 one_row_batch retry_world))
  = attendance retry_world
  /\ synced_with "2024-01-10 10:00:10" [1]
       (attendance (fst (flush_batch retry_env 2 one_row_batch
                           (set_tick (fun _ => 9%nat) retry_world)))).
Proof.
  split.
  - exact (proj1 (batch_watermark_follows_create retry_env 2 one_row_batch
                    retry_world ltac:(discriminate))).
  - exact (proj1 (batch_watermark_follows_create retry_env 2 one_row_batch
                    (set_tick (fun _ => 9%nat) retry_world)
                    ltac:(discriminate))).
Defined.


(** ** Specifications of computations *)

Lemma hoare_ret {A} (a : A) (P : world -> Prop) (Q : A -> world -> Prop) X :
  (forall w, P w -> Q a w) -> hoare P (ret a) Q X.
Proof. intros H w Hw. now apply H. Qed.

Lemma hoare_raise {A} e (P : world -> Prop) (Q : A -> world -> Prop)
    (X : world -> Prop) :
  (forall w, P w -> X w) -> hoare P (raise e) Q X.
Proof. intros H w Hw. now apply H. Qed.

Lemma hoare_lift {A} (r : result A) (P : world -> Prop) Q (X : world -> Prop) :
  (forall w a, P w -> r = Ok a -> Q a w) -> (forall w, P w -> X w) ->
  hoare P (lift r) Q X.
Proof. intros H1 H2 w Hw. unfold lift. destruct r; eauto. Qed.

Lemma hoare_get {A} (f : world -> A) (P : world -> Prop) Q X :
  (forall w, P w -> Q (f w) w) -> hoare P (get f) Q X.
Proof. intros H w Hw. now apply H. Qed.

Lemma hoare_modify (f : world -> world) (P : world -> Prop) Q X :
  (forall w, P w -> Q tt (f w)) -> hoare P (modify f) Q X.
Proof. intros H w Hw. now apply H. Qed.

Lemma hoare_next_tick (P : world -> Prop) Q X :
  (forall w, P w -> Q (tick w) (set_tick S w)) -> hoare P next_tick Q X.
Proof. intros H w Hw. now apply H. Qed.

Lemma hoare_bind {A B} (m : M A) (k : A -> M B) (P : world -> Prop) Q R X :
  hoare P m Q X -> (forall a, hoare (Q a) (k a) R X) ->
  hoare P (x <- m ;; k x) R X.
Proof.
  intros Hm Hk w Hw. unfold bind. specialize (Hm w Hw).
  destruct (m w) as [w' [a|e]]; [now apply Hk | exact Hm].
Qed.

Lemma hoare_try {A} (m : M A) h (P : world -> Prop) Q X Y :
  hoare P m Q Y -> (forall e, hoare Y (h e) Q X) ->
  hoare P (try_except m h) Q X.
Proof.
  intros Hm Hh w Hw. unfold try_except. specialize (Hm w Hw).
  destruct (m w) as [w' [a|e]]; [exact Hm | now apply Hh].
Qed.

Lemma hoare_conseq {A} (m : M A) (P P' : world -> Prop)
    (Q Q' : A -> world -> Prop) (X X' : world -> Prop) :
  hoare P' m Q' X' ->
  (forall w, P w -> P' w) -> (forall a w, Q' a w -> Q a w) ->
  (forall w, X' w -> X w) ->
  hoare P m Q X.
Proof.
  intros Hm HP HQ HX w Hw. specialize (Hm w (HP w Hw)).
  destruct (m w) as [w' [a|e]]; auto.
Qed.

Lemma hoare_for_each {A S} (xs : list A) (body : A -> S -> M S)
    (I : S -> world -> Prop) X :
  (forall x s, In x xs -> hoare (I s) (body x s) I X) ->
  forall s, hoare (I s) (for_each xs body s) I X.
Proof.
  induction xs as [|x xs IH]; intros Hb s; simpl.
  - now apply hoare_ret.
  - eapply hoare_bind.
    + apply Hb. now left.
    + intros s'. apply IH. intros y s'' Hy. apply Hb. now right.
Qed.

Lemma keeps_bind {A B} (I : world -> Prop) (m : M A) (k : A -> M B) :
  keeps I m -> (forall a, keeps I (k a)) -> keeps I (x <- m ;; k x).
Proof. intros Hm Hk. eapply hoare_bind; [exact Hm | exact Hk]. Qed.

Lemma keeps_try {A} (I : world -> Prop) (m : M A) h :
  keeps I m -> (forall e, keeps I (h e)) -> keeps I (try_except m h).
Proof. intros Hm Hh. eapply hoare_try; [exact Hm | exact Hh]. Qed.

Lemma keeps_ret {A} (I : world -> Prop) (a : A) : keeps I (ret a).
Proof. now apply hoare_ret. Qed.

Lemma keeps_raise {A} (I : world -> Prop) e : keeps I (raise (A:=A) e).
Proof. now apply hoare_raise. Qed.

Lemma keeps_lift {A} (I : world -> Prop) (r : result A) : keeps I (lift r).
Proof. apply hoare_lift; auto. Qed.

Lemma keeps_get {A} (I : world -> Prop) (f : world -> A) : keeps I (get f).
Proof. now apply hoare_get. Qed.

Lemma keeps_next_tick (I : world -> Prop) :
  (forall f w, I w -> I (set_tick f w)) -> keeps I next_tick.
Proof. intros H. apply hoare_next_tick. auto. Qed.

Lemma keeps_for_each {A S} (I : world -> Prop) (xs : list A)
    (body : A -> S -> M S) s :
  (forall x s, In x xs -> keeps I (body x s)) -> keeps I (for_each xs body s).
Proof.
  intros H. apply (hoare_for_each xs body (fun _ => I) I). exact H.
Qed.

Lemma keeps_now E (I : world -> Prop) :
  (forall f w, I w -> I (set_tick f w)) -> keeps I (datetime_now E).
Proof.
  intros Ht. apply keeps_bind; [now apply keeps_next_tick|].
  intros t. apply keeps_ret.
Qed.

Lemma keeps_log E (I : world -> Prop) op msg c :
  (forall f w, I w -> I (set_tick f w)) ->
  (forall l w, I w -> I (set_logs l w)) ->
  keeps I (log_operation E op msg c).
Proof.
  intros Ht Hl. apply keeps_bind; [now apply keeps_now|].
  intros now. apply hoare_modify. intros w Hw. now apply Hl.
Qed.

Lemma keeps_record_rpc (I : world -> Prop) ev :
  (forall w, I w -> I (set_rpc (rpc w ++ [ev]) w)) -> keeps I (record_rpc ev).
Proof. intros Hr. apply hoare_modify. intros w Hw. now apply Hr. Qed.

Section Remote.

Variable E : environment.
Variable I : world -> Prop.
(** The remote calls the invariant admits. *)
Variable G : rpc_event -> Prop.
Hypothesis I_tick : forall f w, I w -> I (set_tick f w).
Hypothesis I_logs : forall l w, I w -> I (set_logs l w).
Hypothesis I_rpc : forall ev w, G ev -> I w -> I (set_rpc (rpc w ++ [ev]) w).

Lemma keeps_rpc_create_user p :
  (forall ok, G (RpcCreateUser p ok)) -> keeps I (rpc_create_user E p).
Proof.
  intros Hg. apply keeps_bind; [now apply keeps_next_tick|].
  intros t. cbv zeta. apply keeps_bind; [apply keeps_record_rpc; auto|].
  intros ?. destruct (create_user E t p); [apply keeps_ret | apply keeps_raise].
Qed.

Lemma keeps_rpc_search_read u m :
  (forall ok, G (RpcSearchRead u m ok)) -> keeps I (rpc_search_read E u m).
Proof.
  intros Hg. apply keeps_bind; [now apply keeps_next_tick|].
  intros t. destruct (search_read E t u m).
  - apply keeps_bind; [apply keeps_record_rpc; auto|]. intros ?. apply keeps_ret.
  - apply keeps_bind; [apply keeps_record_rpc; auto|]. intros ?. apply keeps_raise.
Qed.

Lemma keeps_rpc_create_attendance b :
  (forall ok, G (RpcCreateAttendance b ok)) ->
  keeps I (rpc_create_attendance E b).
Proof.
  intros Hg. apply keeps_bind; [now apply keeps_next_tick|].
  intros t. cbv zeta. apply keeps_bind; [apply keeps_record_rpc; auto|].
  intros ?. destruct (create_attendance E t b);
    [apply keeps_ret | apply keeps_raise].
Qed.

Lemma keeps_rpc_authenticate :
  G RpcAuthenticate -> keeps I (rpc_authenticate E).
Proof.
  intros Hg. apply keeps_bind; [now apply keeps_next_tick|].
  intros t. apply keeps_bind; [apply keeps_record_rpc; auto|].
  intros ?. apply keeps_lift.
Qed.

Lemma keeps_timestamp_to_send att : keeps I (timestamp_to_send E att).
Proof.
  unfold timestamp_to_send. cbv zeta.
  destruct (truthy_str (aj_machine_timezone att)).
  - apply keeps_try; [apply keeps_lift|].
    intros e. apply keeps_bind; [now apply keeps_log|].
    intros ?. apply keeps_ret.
  - apply keeps_ret.
Qed.

Hypothesis G_read : forall u m ok, G (RpcSearchRead u m ok).

Lemma keeps_remember_last att cache : keeps I (remember_last E att cache).
Proof.
  unfold remember_last. cbv zeta.
  destruct (cache !! a_user_id (aj_row att)).
  - apply keeps_ret.
  - apply keeps_bind; [apply keeps_rpc_search_read; auto|].
    intros [|r rs]; apply keeps_ret.
Qed.

(** [accumulate] appends the id of the row, and at most its payload. *)
Lemma hoare_accumulate att st :
  hoare I (accumulate E att st)
    (fun st' w => I w /\ exists cache, st' = accumulated E att st cache)
    I.
Proof.
  intros w Hw.
  assert (Hk : keeps I (accumulate E att st)).
  { unfold accumulate. apply keeps_bind; [apply keeps_timestamp_to_send|].
    intros ts. apply keeps_bind; [apply keeps_remember_last|].
    intros cache. cbv zeta. apply keeps_ret. }
  specialize (Hk w Hw).
  destruct (accumulate E att st w) as [w' [st'|e]] eqn:Hacc; [|exact Hk].
  split; [exact Hk|]. exact (accumulate_inv E att st w w' st' Hacc).
Qed.

End Remote.

Lemma keeps_const {A} (I : world -> Prop) (C : Prop) (m : M A) :
  keeps I m -> keeps (fun w => I w /\ C) m.
Proof.
  intros H w [Hw Hc]. specialize (H w Hw).
  destruct (m w) as [w' [a|e]]; now split.
Qed.

(** ** What a sync pass leaves alone *)

Lemma Forall2_refl_on {A} (R : A -> A -> Prop) (l : list A) :
  (forall x, In x l -> R x x) -> Forall2 R l l.
Proof.
  induction l as [|x l IH]; intros H; constructor.
  - apply H. now left.
  - apply IH. intros y Hy. apply H. now right.
Qed.

Lemma Forall2_map_r_in {A} (R R' : A -> A -> Prop) (f : A -> A) l l' :
  Forall2 R l l' ->
  (forall x y, In x l -> R x y -> R' x (f y)) ->
  Forall2 R' l (map f l').
Proof.
  induction 1 as [|x y l l' Hxy Hll IH]; intros H; simpl; constructor.
  - apply H; [now left | exact Hxy].
  - apply IH. intros a b Ha. apply H. now right.
Qed.

Lemma Forall2_in_r {A} (R : A -> A -> Prop) l l' y :
  Forall2 R l l' -> In y l' -> exists x, In x l /\ R x y.
Proof.
  induction 1 as [|a b l l' Hab Hll IH]; intros Hin; [destruct Hin|].
  destruct Hin as [<- | Hin].
  - exists a. split; [now left | exact Hab].
  - destruct (IH Hin) as (x & Hx & Hr). exists x. split; [now right | exact Hr].
Qed.

Lemma NoDup_map_eq {A B} (f : A -> B) (l : list A) x y :
  NoDup (map f l) -> In x l -> In y l -> f x = f y -> x = y.
Proof.
  induction l as [|a l IH]; intros Hnd Hx Hy Hf; [destruct Hx|].
  simpl in Hnd. apply NoDup_cons in Hnd as [Hn Hnd].
  destruct Hx as [<- | Hx], Hy as [<- | Hy].
  - reflexivity.
  - exfalso. apply Hn. rewrite Hf. apply list_elem_of_In. now apply in_map.
  - exfalso. apply Hn. rewrite <- Hf. apply list_elem_of_In. now apply in_map.
  - now apply IH.
Qed.

Section SyncFrame.

Variable E : environment.
Variable w0 : world.
Hypothesis ids_a : NoDup (map a_id (attendance w0)).
Hypothesis ids_u : NoDup (map u_id (users w0)).

(** The ids a pass entered in [w0] may stamp. *)
Let att_ids (ids : list Z) : Prop :=
  forall i, In i ids ->
    exists r, In r (attendance w0) /\ a_id r = i /\ a_synched_time r = None
              /\ linked_machine w0 (a_connection_id r).

Let user_ids (i : Z) : Prop :=
  exists r, In r (users w0) /\ u_id r = i /\ u_synched_time r = None
            /\ linked_machine w0 (u_connection_id r).

Lemma sync_frame_refl : sync_frame w0 w0.
Proof.
  repeat split; try reflexivity.
  - apply Forall2_refl_on. intros x _. now left.
  - apply Forall2_refl_on. intros x _. now left.
Qed.

Lemma sync_frame_tick f w : sync_frame w0 w -> sync_frame w0 (set_tick f w).
Proof. intros H. exact H. Qed.

Lemma sync_frame_logs l w : sync_frame w0 w -> sync_frame w0 (set_logs l w).
Proof. intros H. exact H. Qed.

Lemma sync_frame_rpc (ev : rpc_event) w :
  True -> sync_frame w0 w -> sync_frame w0 (set_rpc (rpc w ++ [ev]) w).
Proof. intros _ H. exact H. Qed.

Lemma att_stamped_id r r' : att_stamped w0 r r' -> a_id r' = a_id r.
Proof. intros [-> | (_ & _ & s & ->)]; reflexivity. Qed.

Lemma user_stamped_id r r' : user_stamped w0 r r' -> u_id r' = u_id r.
Proof. intros [-> | (_ & _ & s & ->)]; reflexivity. Qed.

Lemma sync_frame_mark_att now_str ids w :
  att_ids ids -> sync_frame w0 w ->
  sync_frame w0
    (set_attendance (map (mark_att now_str ids) (attendance w))
                    (attendance_seq w) w).
Proof.
  intros Hids (Hm & Hs & Ho & Hus & Has & Hu & Ha).
  repeat split; try assumption.
  simpl. eapply Forall2_map_r_in; [exact Ha|].
  intros r r' Hin Hst. unfold mark_att.
  destruct (existsb (Z.eqb (a_id r')) ids) eqn:Hex; [|exact Hst].
  apply existsb_exists in Hex as (i & Hi & Heq). apply Z.eqb_eq in Heq.
  destruct (Hids i Hi) as (r1 & Hr1 & Hid & Hnone & Hlinked).
  assert (r1 = r) as ->.
  { apply (NoDup_map_eq a_id (attendance w0)); try assumption.
    rewrite Hid, <- Heq. now apply att_stamped_id. }
  right. split; [exact Hnone|]. split; [exact Hlinked|].
  exists now_str.
  destruct Hst as [-> | (_ & _ & s & ->)]; reflexivity.
Qed.

Lemma sync_frame_mark_user now_str id w :
  user_ids id -> sync_frame w0 w ->
  sync_frame w0
    (set_users (map (mark_user now_str id) (users w)) (users_seq w) w).
Proof.
  intros (r1 & Hr1 & Hid & Hnone & Hlinked) (Hm & Hs & Ho & Hus & Has & Hu & Ha).
  repeat split; try assumption.
  simpl. eapply Forall2_map_r_in; [exact Hu|].
  intros r r' Hin Hst. unfold mark_user.
  destruct (u_id r' =? id) eqn:Heq; [|exact Hst].
  apply Z.eqb_eq in Heq.
  assert (r1 = r) as ->.
  { apply (NoDup_map_eq u_id (users w0)); try assumption.
    rewrite Hid, <- Heq. now apply user_stamped_id. }
  right. split; [exact Hnone|]. split; [exact Hlinked|].
  exists now_str.
  destruct Hst as [-> | (_ & _ & s & ->)]; reflexivity.
Qed.

Create HintDb frame.
Local Hint Resolve sync_frame_tick sync_frame_logs sync_frame_rpc : frame.

Ltac frame_log := apply keeps_log; auto with frame.

(** *** The users *)

Lemma machines_of_in c w m :
  In m (machines_of c w) -> In m (machines w) /\ m_id m = c.
Proof.
  unfold machines_of. intros H. apply filter_In in H as [H1 H2].
  split; [exact H1 | now apply Z.eqb_eq].
Qed.


Lemma in_select_unsynced_users w w' l user :
  select_unsynced_users w = (w', Ok l) -> In user l ->
  In (uj_row user) (users w) /\ u_synched_time (uj_row user) = None
  /\ exists m, In m (machines w) /\ m_id m = u_connection_id (uj_row user)
               /\ uj_odoo_machine_id user = m_odoo_machine_id m.
Proof.
  intros Hsel H. injection Hsel as _ <-. apply in_flat_map in H as (u & Hu & H).
  destruct (u_synched_time u) eqn:Hs; [destruct H|].
  apply in_map_iff in H as (m & <- & Hm). apply machines_of_in in Hm as [Hm Hid].
  simpl. split; [exact Hu|]. split; [exact Hs|]. now exists m.
Qed.

Lemma in_select_unsynced_attendance w w' l att :
  select_unsynced_attendance w = (w', Ok l) -> In att l ->
  In (aj_row att) (attendance w) /\ a_synched_time (aj_row att) = None
  /\ exists m, In m (machines w) /\ m_id m = a_connection_id (aj_row att)
               /\ aj_odoo_machine_id att = m_odoo_machine_id m.
Proof.
  intros Hsel H. injection Hsel as _ <-. apply in_flat_map in H as (a & Ha & H).
  destruct (a_synched_time a) eqn:Hs; [destruct H|].
  apply in_map_iff in H as (m & <- & Hm). apply machines_of_in in Hm as [Hm Hid].
  simpl. split; [exact Ha|]. split; [exact Hs|]. now exists m.
Qed.

Lemma keeps_sync_one_user total user n :
  (truthy_id (uj_odoo_machine_id user) = true ->
   user_ids (u_id (uj_row user))) ->
  keeps (sync_frame w0) (sync_one_user E total user n).
Proof.
  intros Hok. unfold sync_one_user.
  destruct (truthy_id (uj_odoo_machine_id user)) eqn:Ht; simpl.
  - apply keeps_try.
    + apply keeps_bind; [apply (keeps_rpc_create_user E _ (fun _ => True)); auto with frame|].
      intros ?. apply keeps_bind; [apply keeps_now; auto with frame|].
      intros now. apply keeps_bind.
      * apply hoare_modify. intros w Hw.
        apply sync_frame_mark_user; [now apply Hok | exact Hw].
      * intros ?. apply keeps_bind; [|intros ?; apply keeps_ret].
        destruct (_ =? 0); [frame_log | apply keeps_ret].
    + intros e. apply keeps_bind; [frame_log | intros ?; apply keeps_ret].
  - apply keeps_bind; [frame_log | intros ?; apply keeps_ret].
Qed.

Lemma keeps_sync_users : keeps (sync_frame w0) (sync_users E).
Proof.
  unfold sync_users.
  eapply hoare_bind with
    (Q := fun l w => sync_frame w0 w /\
            forall user, In user l ->
              truthy_id (uj_odoo_machine_id user) = true ->
              user_ids (u_id (uj_row user))).
  - intros w Hw. simpl. split; [exact Hw|].
    intros user Hin Ht.
    destruct (in_select_unsynced_users w w _ user eq_refl Hin)
      as (Hu & Hs & m & Hm & Hid & Ho).
    destruct Hw as (Hms & _ & _ & _ & _ & Hus & _).
    destruct (Forall2_in_r _ _ _ _ Hus Hu) as (r0 & Hr0 & Hst).
    destruct Hst as [Heq | (_ & _ & s & Heq)];
      [|rewrite Heq in Hs; discriminate].
    exists r0. rewrite Heq in *. split; [exact Hr0|]. split; [reflexivity|].
    split; [exact Hs|]. exists m. rewrite <- Hms. split; [exact Hm|].
    split; [exact Hid|]. now rewrite <- Ho.
  - intros l. destruct l as [|u l].
    + eapply hoare_conseq; [apply (keeps_log E (sync_frame w0)); auto with frame| | |];
        [now intros w [H _] | auto | auto].
    + set (us := u :: l).
      eapply hoare_bind with (Q := fun _ w => sync_frame w0 w /\
            forall user, In user us ->
              truthy_id (uj_odoo_machine_id user) = true ->
              user_ids (u_id (uj_row user))).
      * intros w [Hw Hl]. generalize (keeps_log E (sync_frame w0) "Odoo Sync"
          (MsgFoundUsers (len us)) None sync_frame_tick sync_frame_logs w Hw).
        destruct (log_operation _ _ _ _ w) as [w' [[]|e]]; auto.
      * intros ? w [Hw Hl]. revert w Hw.
        change (keeps (sync_frame w0)
                  (synced_count <- for_each us (sync_one_user E (len us)) 0 ;;
                   log_operation E "Odoo Sync" (MsgUsersDone synced_count) None)).
        apply keeps_bind.
        -- apply keeps_for_each. intros x s Hx.
           apply keeps_sync_one_user. now apply Hl.
        -- intros c. frame_log.
Qed.


(** *** The attendance *)

Lemma keeps_send_batch st :
  att_ids (record_id_batch st) -> keeps (sync_frame w0) (send_batch E st).
Proof.
  intros Hids. unfold send_batch. apply keeps_bind.
  - destruct (payload_batch st);
      [apply keeps_ret | apply (keeps_rpc_create_attendance E _ (fun _ => True)); auto with frame].
  - intros ?. apply keeps_bind; [apply keeps_now; auto with frame|].
    intros now. cbv zeta. apply keeps_bind; [|intros ?; apply keeps_ret].
    apply hoare_modify. intros w Hw. now apply sync_frame_mark_att.
Qed.

(** The invariant of the loop: the frame, and a batch of ids the pass
    may stamp. *)
Let loop_inv (st : sync_state) (w : world) : Prop :=
  sync_frame w0 w /\ att_ids (record_id_batch st).

Lemma att_ids_nil : att_ids [].
Proof. intros i []. Qed.

Lemma att_ids_snoc ids i :
  att_ids ids -> att_ids [i] -> att_ids (ids ++ [i]).
Proof.
  intros H1 H2 j Hj. apply in_app_or in Hj as [Hj | Hj]; auto.
Qed.

Lemma hoare_flush_batch total st :
  hoare (loop_inv st) (flush_batch E total st) loop_inv (sync_frame w0).
Proof.
  unfold flush_batch. apply hoare_try with (Y := loop_inv st).
  - eapply hoare_bind with (Q := fun _ => loop_inv st).
    + intros w [Hw Hids].
      exact (keeps_const (sync_frame w0) _ _ (keeps_send_batch st Hids) w
               (conj Hw Hids)).
    + intros ?. cbv zeta. eapply hoare_bind with (Q := fun _ => loop_inv st).
      * apply (keeps_const (sync_frame w0) (att_ids (record_id_batch st))).
        frame_log.
      * intros ?. apply hoare_ret. intros w [Hw _].
        split; [exact Hw | apply att_ids_nil].
  - intros e. eapply hoare_bind with (Q := fun _ => loop_inv st).
    + eapply hoare_conseq;
        [apply (keeps_const (sync_frame w0) (att_ids (record_id_batch st)));
         frame_log| | |];
        [intros w H; exact H | intros a w H; exact H | now intros w [H _]].
    + intros ?. apply hoare_ret. auto.
Qed.

Lemma hoare_flush_final st :
  hoare (loop_inv st) (flush_final E st) (fun _ => sync_frame w0) (sync_frame w0).
Proof.
  intros w [Hw Hids]. unfold flush_final.
  destruct (record_id_batch st) as [|i ids] eqn:Hrec; [exact Hw|].
  rewrite <- Hrec in *.
  refine (keeps_try (sync_frame w0) _ _ _ _ w Hw).
  - apply keeps_bind; [now apply keeps_send_batch|]. intros ?. apply keeps_ret.
  - intros e. apply keeps_bind; [frame_log | intros ?; apply keeps_ret].
Qed.

Lemma hoare_sync_one_attendance bs total att st :
  (truthy_id (aj_odoo_machine_id att) = true ->
   att_ids [a_id (aj_row att)]) ->
  hoare (loop_inv st) (sync_one_attendance E bs total att st)
        loop_inv (sync_frame w0).
Proof.
  intros Hok. unfold sync_one_attendance.
  destruct (truthy_id (aj_odoo_machine_id att)) eqn:Ht; simpl.
  - eapply hoare_bind with (Q := loop_inv).
    + intros w [Hw Hids].
      generalize (hoare_accumulate E (sync_frame w0) (fun _ => True)
                    sync_frame_tick sync_frame_logs sync_frame_rpc
                    (fun _ _ _ => Logic.I) att st w Hw).
      destruct (accumulate E att st w) as [w1 [st1|e]]; [|auto].
      intros [H1 [cache H2]]. split; [exact H1|]. rewrite H2.
      apply att_ids_snoc; [exact Hids | now apply Hok].
    + intros st'. destruct (bs <=? len (record_id_batch st')).
      * apply hoare_flush_batch.
      * apply hoare_ret. auto.
  - eapply hoare_bind with (Q := fun _ => loop_inv st).
    + eapply hoare_conseq;
        [apply (keeps_const (sync_frame w0) (att_ids (record_id_batch st)));
         frame_log| | |];
        [intros w H; exact H | intros a w H; exact H | now intros w [H _]].
    + intros ?. apply hoare_ret. auto.
Qed.

Lemma keeps_sync_attendance bs : keeps (sync_frame w0) (sync_attendance E bs).
Proof.
  unfold sync_attendance.
  eapply hoare_bind with
    (Q := fun l w => sync_frame w0 w /\
            forall att, In att l ->
              truthy_id (aj_odoo_machine_id att) = true ->
              att_ids [a_id (aj_row att)]).
  - intros w Hw. simpl. split; [exact Hw|].
    intros att Hin Ht i [<- | []].
    destruct (in_select_unsynced_attendance w w _ att eq_refl Hin)
      as (Ha & Hs & m & Hm & Hid & Ho).
    destruct Hw as (Hms & _ & _ & _ & _ & _ & Has).
    destruct (Forall2_in_r _ _ _ _ Has Ha) as (r0 & Hr0 & Hst).
    destruct Hst as [Heq | (_ & _ & s & Heq)];
      [|rewrite Heq in Hs; discriminate].
    exists r0. rewrite Heq in *. split; [exact Hr0|]. split; [reflexivity|].
    split; [exact Hs|]. exists m. rewrite <- Hms. split; [exact Hm|].
    split; [exact Hid|]. now rewrite <- Ho.
  - intros l. destruct l as [|a l].
    + eapply hoare_conseq; [apply (keeps_log E (sync_frame w0)); auto with frame| | |];
        [now intros w [H _] | auto | auto].
    + set (atts := a :: l).
      intros w [Hw Hl]. revert w Hw.
      change (keeps (sync_frame w0)
        (log_operation E "Odoo Sync" (MsgFoundAttendance (len atts)) None ;;;
         st <- sync_rows E bs atts ;;
         log_operation E "Odoo Sync" (MsgAttendanceDone (synced_count st)) None)).
      apply keeps_bind; [frame_log|]. intros ?.
      apply keeps_bind; [|intros st; frame_log].
      unfold sync_rows. cbv zeta.
      eapply hoare_bind with (Q := loop_inv).
      * eapply hoare_conseq;
          [apply (hoare_for_each atts
                    (sync_one_attendance E bs (len atts)) loop_inv
                    (sync_frame w0))| | |].
        -- intros x s Hx. apply hoare_sync_one_attendance. now apply Hl.
        -- intros w Hw. split; [exact Hw | apply att_ids_nil].
        -- auto.
        -- auto.
      * intros st. apply hoare_flush_final.
Qed.

Lemma keeps_sync_pass : keeps (sync_frame w0) (sync_pass E).
Proof.
  unfold sync_pass. apply keeps_bind;
    [apply (keeps_rpc_authenticate E _ (fun _ => True)); auto with frame|].
  intros uid. destruct (negb (truthy_id uid)); [frame_log|].
  apply keeps_bind; [frame_log|]. intros ?.
  apply keeps_bind; [apply keeps_get|]. intros bs.
  apply keeps_bind; [apply keeps_sync_users|]. intros ?.
  apply keeps_bind; [apply keeps_sync_attendance|]. intros ?.
  frame_log.
Qed.

Lemma keeps_sync_thread : keeps (sync_frame w0) (_sync_to_odoo_thread E).
Proof.
  unfold _sync_to_odoo_thread. apply keeps_bind; [frame_log|]. intros ?.
  apply keeps_bind; [apply keeps_get|]. intros details.
  destruct (negb (configured details)); [frame_log|].
  apply keeps_try; [apply keeps_sync_pass|]. intros e. frame_log.
Qed.

End SyncFrame.

(** The sync pass never raises: whatever fails inside ends in the log. *)
Lemma sync_thread_returns E w : snd (_sync_to_odoo_thread E w) = Ok tt.
Proof.
  unfold _sync_to_odoo_thread, bind. rewrite log_operation_eq. simpl.
  destruct (negb (configured _)); [now rewrite log_operation_eq|].
  unfold try_except. destruct (sync_pass E _) as [w1 [[]|e]]; [reflexivity|].
  now rewrite log_operation_eq.
Qed.

(** X1.  When the ids of the stored users and of the stored attendance rows
    are distinct, a sync pass returns normally whatever the server
    answers, and the only thing it changes in the tables is watermarks:
    machines, settings, connection details and the two id counters are
    as before, and every user row and attendance row is either as before
    or had no [synched_time], belongs to a linked machine and now has
    one. *)
Theorem sync_changes_only_watermarks E w :
  NoDup (map a_id (attendance w)) ->
  NoDup (map u_id (users w)) ->
  snd (_sync_to_odoo_thread E w) = Ok tt
  /\ sync_frame w (fst (_sync_to_odoo_thread E w)).
Proof.
  intros Ha Hu. split; [apply sync_thread_returns|].
  generalize (keeps_sync_thread E w Ha Hu w (sync_frame_refl w)).
  destruct (_sync_to_odoo_thread E w) as [w' [[]|e]]; auto.
Qed.

Lemma sync_changes_only_watermarks_witness :
  snd (_sync_to_odoo_thread retry_env enrolled_world) = Ok tt
  /\ sync_frame enrolled_world (fst (_sync_to_odoo_thread retry_env enrolled_world)).
Proof.
  apply (sync_changes_only_watermarks retry_env enrolled_world).
  - compute_done.
  - compute_done.
Defined.

(** ** The outcomes of a fetch *)

Lemma fetch_date_from_raises E conn w w1 e :
  fetch_date_from E conn w = (w1, Raise e) ->
  (e = ValueError \/ e = OverflowError)
  /\ users w1 = users w /\ users_seq w1 = users_seq w
  /\ attendance w1 = attendance w /\ attendance_seq w1 = attendance_seq w
  /\ machines w1 = machines w.
Proof.
  unfold fetch_date_from, bind, select_max_timestamp, get.
  destruct (truthy_str _).
  - unfold lift. destruct (datetime.strptime _ _); cbn -[log_operation].
    + rewrite log_operation_eq. discriminate.
    + intros H. injection H as <- <-. auto 10.
  - unfold lookback_date_from, bind, get, datetime_now, bind, next_tick, ret, lift.
    destruct (datetime.sub _ _); cbn -[log_operation].
    + rewrite log_operation_eq. discriminate.
    + intros H. injection H as <- <-. auto 10.
Qed.

Lemma fetch_date_from_tables E conn w w1 r :
  fetch_date_from E conn w = (w1, r) ->
  users w1 = users w /\ users_seq w1 = users_seq w
  /\ attendance w1 = attendance w /\ attendance_seq w1 = attendance_seq w
  /\ machines w1 = machines w.
Proof.
  unfold fetch_date_from, bind, select_max_timestamp, get.
  destruct (truthy_str _).
  - unfold lift. destruct (datetime.strptime _ _); cbn -[log_operation].
    + rewrite log_operation_eq. intros H. injection H as <- <-. auto 10.
    + intros H. injection H as <- <-. auto 10.
  - unfold lookback_date_from, bind, get, datetime_now, bind, next_tick, ret, lift.
    destruct (datetime.sub _ _); cbn -[log_operation].
    + rewrite log_operation_eq. intros H. injection H as <- <-. auto 10.
    + intros H. injection H as <- <-. auto 10.
Qed.

Lemma int_raises s e : builtins.int s = Raise e -> e = ValueError.
Proof.
  unfold builtins.int.
  destruct (match builtins.rstrip (builtins.lstrip s) with
            | String "-" r => (true, r)
            | String "+" r => (false, r)
            | _ => (false, builtins.rstrip (builtins.lstrip s))
            end)%char as [negative literal].
  destruct (builtins.digits literal false 0 0) as [[v n]|]; [|congruence].
  destruct (n <=? builtins.int_max_str_digits); congruence.
Qed.

Lemma fetch_failed_eq E conn df e w :
  fetch_failed E conn df e w
  = (logged E "Error" (MsgFetchFailed e) (Some conn) w, Ok (FetchFailed df e)).
Proof.
  unfold fetch_failed.
  now rewrite (bind_ok _ _ _ _ _ (log_operation_eq _ _ _ _ _)).
Qed.

Lemma opens_port_refused E conn conn_dict df e w :
  builtins.int (cd_port conn_dict) = Raise e ->
  opens E conn conn_dict df w
  = (logged E "Error" (MsgFetchFailed e) (Some conn) w,
     Ok (inr (FetchFailed df e))).
Proof.
  intros Hp. unfold opens.
  assert (H : lift (builtins.int (cd_port conn_dict)) w = (w, Raise e))
    by (unfold lift; now rewrite Hp).
  rewrite (try_bind_raise _ _ _ _ _ _ H).
  now rewrite (bind_ok _ _ _ _ _ (fetch_failed_eq _ _ _ _ _)).
Qed.

Lemma opens_port_ok E conn conn_dict df port w :
  builtins.int (cd_port conn_dict) = Ok port ->
  opens E conn conn_dict df w
  = match device E (S (tick w)) conn with
    | ConnectFails =>
        (logged E "Error" (MsgFetchFailed DeviceError) (Some conn)
           (set_tick S (logged E "Fetch Data" MsgConnecting (Some conn) w)),
         Ok (inr (FetchFailed df DeviceError)))
    | r => (set_tick S (logged E "Fetch Data" MsgConnecting (Some conn) w),
            Ok (inl r))
    end.
Proof.
  intros Hp. unfold opens.
  assert (H : lift (builtins.int (cd_port conn_dict)) w = (w, Ok port))
    by (unfold lift; now rewrite Hp).
  rewrite (try_bind_ok _ _ _ _ _ _ H).
  rewrite (try_bind_ok _ _ _ _ _ _ (log_operation_eq _ _ _ _ _)).
  assert (Hc : zk_connect E conn (logged E "Fetch Data" MsgConnecting (Some conn) w)
               = (set_tick S (logged E "Fetch Data" MsgConnecting (Some conn) w),
                  match device E (S (tick w)) conn with
                  | ConnectFails => Raise DeviceError
                  | r => Ok r
                  end)).
  { unfold zk_connect, bind, next_tick. simpl.
    now destruct (device E (S (tick w)) conn). }
  destruct (device E (S (tick w)) conn) eqn:Hdev.
  - rewrite (try_bind_raise _ _ _ _ _ _ Hc).
    now rewrite (bind_ok _ _ _ _ _ (fetch_failed_eq _ _ _ _ _)).
  - now rewrite (try_bind_ok _ _ _ _ _ _ Hc).
  - now rewrite (try_bind_ok _ _ _ _ _ _ Hc).
  - now rewrite (try_bind_ok _ _ _ _ _ _ Hc).
Qed.

(** A fetch that does not reach the terminal. *)
Lemma fetch_no_session E conn conn_dict w w1 df w2 report :
  fetch_date_from E conn
    (logged E "Fetch Data" (MsgFetchStart (cd_name conn_dict)) (Some conn) w)
    = (w1, Ok df) ->
  opens E conn conn_dict df w1 = (w2, Ok (inr report)) ->
  _fetch_data_for_machine E conn conn_dict w = (w2, Ok report).
Proof.
  intros Hdf Ho. unfold _fetch_data_for_machine.
  rewrite (bind_ok _ _ _ _ _ (log_operation_eq _ _ _ _ _)).
  rewrite (bind_ok _ _ _ _ _ Hdf).
  fold (opens E conn conn_dict df). now rewrite (bind_ok _ _ _ _ _ Ho).
Qed.

Lemma fetch_raises E conn conn_dict w w1 e :
  fetch_date_from E conn
    (logged E "Fetch Data" (MsgFetchStart (cd_name conn_dict)) (Some conn) w)
    = (w1, Raise e) ->
  _fetch_data_for_machine E conn conn_dict w = (w1, Raise e).
Proof.
  intros Hdf. unfold _fetch_data_for_machine.
  rewrite (bind_ok _ _ _ _ _ (log_operation_eq _ _ _ _ _)).
  now rewrite (bind_raise _ _ _ _ _ Hdf).
Qed.

Lemma fetch_port_refused E conn conn_dict w w1 date_from e :
  fetch_date_from E conn
    (logged E "Fetch Data" (MsgFetchStart (cd_name conn_dict)) (Some conn) w)
    = (w1, Ok date_from) ->
  builtins.int (cd_port conn_dict) = Raise e ->
  _fetch_data_for_machine E conn conn_dict w =
    (logged E "Error" (MsgFetchFailed e) (Some conn) w1,
     Ok (FetchFailed date_from e)).
Proof.
  intros Hdf Hp. apply (fetch_no_session _ _ _ _ _ _ _ _ Hdf).
  now apply opens_port_refused.
Qed.

Lemma fetch_connect_fails E conn conn_dict port w w1 date_from :
  fetch_date_from E conn
    (logged E "Fetch Data" (MsgFetchStart (cd_name conn_dict)) (Some conn) w)
    = (w1, Ok date_from) ->
  builtins.int (cd_port conn_dict) = Ok port ->
  device E (S (tick w1)) conn = ConnectFails ->
  _fetch_data_for_machine E conn conn_dict w =
    (logged E "Error" (MsgFetchFailed DeviceError) (Some conn)
       (set_tick S (logged E "Fetch Data" MsgConnecting (Some conn) w1)),
     Ok (FetchFailed date_from DeviceError)).
Proof.
  intros Hdf Hp Hdev. apply (fetch_no_session _ _ _ _ _ _ _ _ Hdf).
  now rewrite (opens_port_ok _ _ _ _ _ _ Hp), Hdev.
Qed.

(** A session in which the handler of the fetch ran. *)
Lemma failed_session E conn df (body : M fetch_report) w w1 :
  body w = (w1, Raise DeviceError) ->
  try_finally (try_except body (fetch_failed E conn df)) (zk_disconnect E conn) w
  = (set_tick S (logged E "Error" (MsgFetchFailed DeviceError) (Some conn) w1),
     closing E conn (S (tick w1)) (FetchFailed df DeviceError)).
Proof.
  intros H.
  assert (Ht : try_except body (fetch_failed E conn df) w
               = (logged E "Error" (MsgFetchFailed DeviceError) (Some conn) w1,
                  Ok (FetchFailed df DeviceError))).
  { unfold try_except. rewrite H. apply fetch_failed_eq. }
  now rewrite (closed_session _ _ _ _ _ _ Ht).
Qed.

Lemma fetch_users_fail E conn conn_dict port w w1 date_from :
  fetch_date_from E conn
    (logged E "Fetch Data" (MsgFetchStart (cd_name conn_dict)) (Some conn) w)
    = (w1, Ok date_from) ->
  builtins.int (cd_port conn_dict) = Ok port ->
  device E (S (tick w1)) conn = GetUsersFails ->
  _fetch_data_for_machine E conn conn_dict w =
    (set_tick S
       (logged E "Error" (MsgFetchFailed DeviceError) (Some conn)
          (set_tick S
             (logged E "Fetch Data" MsgSyncUsers (Some conn)
                (set_tick S
                   (logged E "Fetch Data" MsgConnecting (Some conn) w1))))),
     closing E conn (tick w1 + 5) (FetchFailed date_from DeviceError)).
Proof.
  intros Hdf Hp Hdev. unfold _fetch_data_for_machine.
  rewrite (bind_ok _ _ _ _ _ (log_operation_eq _ _ _ _ _)).
  rewrite (bind_ok _ _ _ _ _ Hdf).
  fold (opens E conn conn_dict date_from).
  pose proof (opens_port_ok E conn conn_dict date_from port w1 Hp) as Ho.
  rewrite Hdev in Ho. rewrite (bind_ok _ _ _ _ _ Ho).
  replace (tick w1 + 5)%nat with
    (S (tick (set_tick S
               (logged E "Fetch Data" MsgSyncUsers (Some conn)
                  (set_tick S
                     (logged E "Fetch Data" MsgConnecting (Some conn) w1))))))
    by (simpl; lia).
  apply failed_session.
  rewrite (bind_ok _ _ _ _ _ (log_operation_eq _ _ _ _ _)).
  set (w2 := logged E "Fetch Data" MsgSyncUsers _ _).
  assert (Hus : get_users GetUsersFails w2 = (set_tick S w2, Raise DeviceError))
    by reflexivity.
  now rewrite (bind_raise _ _ _ _ _ Hus).
Qed.

Lemma fetch_attendance_fails E conn conn_dict port w w1 date_from us :
  fetch_date_from E conn
    (logged E "Fetch Data" (MsgFetchStart (cd_name conn_dict)) (Some conn) w)
    = (w1, Ok date_from) ->
  builtins.int (cd_port conn_dict) = Ok port ->
  device E (S (tick w1)) conn = GetAttendanceFails us ->
  _fetch_data_for_machine E conn conn_dict w =
    (set_tick S
       (logged E "Error" (MsgFetchFailed DeviceError) (Some conn)
          (set_tick S (before_download E conn us w1))),
     closing E conn (tick w1 + 8) (FetchFailed date_from DeviceError)).
Proof.
  intros Hdf Hp Hdev. unfold _fetch_data_for_machine.
  rewrite (bind_ok _ _ _ _ _ (log_operation_eq _ _ _ _ _)).
  rewrite (bind_ok _ _ _ _ _ Hdf).
  fold (opens E conn conn_dict date_from).
  pose proof (opens_port_ok E conn conn_dict date_from port w1 Hp) as Ho.
  rewrite Hdev in Ho. rewrite (bind_ok _ _ _ _ _ Ho).
  replace (tick w1 + 8)%nat with
    (S (tick (set_tick S (before_download E conn us w1))))
    by (simpl; lia).
  apply failed_session.
  rewrite (bind_ok _ _ _ _ _ (log_operation_eq _ _ _ _ _)).
  set (w2 := logged E "Fetch Data" MsgSyncUsers _ _).
  assert (Hus : get_users (GetAttendanceFails us) w2 = (set_tick S w2, Ok us))
    by reflexivity.
  rewrite (bind_ok _ _ _ _ _ Hus).
  rewrite (bind_ok _ _ _ _ _ (for_each_user_query _ _ _ _)).
  rewrite (bind_ok _ _ _ _ _ (log_operation_eq _ _ _ _ _)).
  rewrite (bind_ok _ _ _ _ _ (log_operation_eq _ _ _ _ _)).
  set (w4 := logged E "Fetch Data" MsgDownloading _ _).
  assert (Hat : get_attendance (GetAttendanceFails us) w4
                = (set_tick S w4, Raise DeviceError)) by reflexivity.
  now rewrite (bind_raise _ _ _ _ _ Hat).
Qed.

Lemma closing_ok E conn t report report' :
  closing E conn t report = Ok report' ->
  report' = report /\ disconnect E t conn = true.
Proof.
  unfold closing. destruct (disconnect E t conn); [|discriminate].
  intros H. injection H as <-. now split.
Qed.

Lemma closing_raises E conn t report e :
  closing E conn t report = Raise e ->
  e = DeviceError /\ disconnect E t conn = false.
Proof.
  unfold closing. destruct (disconnect E t conn); [discriminate|].
  intros H. injection H as <-. now split.
Qed.

Lemma tick_of_fetched E conn df us atts w :
  tick (fetched E conn df us atts w) = (tick w + 9)%nat.
Proof. unfold fetched. simpl. lia. Qed.

(** Every path of a fetch: the watermark cannot be computed; the
    terminal is not reached; the session fails; the session delivers. *)
Lemma fetch_cases E conn conn_dict w :
  let w0 := logged E "Fetch Data" (MsgFetchStart (cd_name conn_dict))
                   (Some conn) w in
  (exists w1 e,
     fetch_date_from E conn w0 = (w1, Raise e)
     /\ _fetch_data_for_machine E conn conn_dict w = (w1, Raise e))
  \/ (exists w1 df w' e,
        fetch_date_from E conn w0 = (w1, Ok df)
        /\ (builtins.int (cd_port conn_dict) = Raise ValueError
               /\ e = ValueError /\ w' = w1
            \/ (exists port, builtins.int (cd_port conn_dict) = Ok port)
               /\ device E (S (tick w1)) conn = ConnectFails
               /\ e = DeviceError
               /\ w' = set_tick S
                         (logged E "Fetch Data" MsgConnecting (Some conn) w1))
        /\ _fetch_data_for_machine E conn conn_dict w
           = (logged E "Error" (MsgFetchFailed e) (Some conn) w',
              Ok (FetchFailed df e)))
  \/ (exists w1 df w' t port,
        fetch_date_from E conn w0 = (w1, Ok df)
        /\ builtins.int (cd_port conn_dict) = Ok port
        /\ (device E (S (tick w1)) conn = GetUsersFails
            \/ exists us, device E (S (tick w1)) conn = GetAttendanceFails us)
        /\ _fetch_data_for_machine E conn conn_dict w
           = (set_tick S
                (logged E "Error" (MsgFetchFailed DeviceError) (Some conn) w'),
              closing E conn t (FetchFailed df DeviceError))
        /\ t = S (tick w')
        /\ attendance w' = attendance w1
        /\ attendance_seq w' = attendance_seq w1
        /\ machines w' = machines w1)
  \/ (exists w1 df us atts port,
        fetch_date_from E conn w0 = (w1, Ok df)
        /\ builtins.int (cd_port conn_dict) = Ok port
        /\ device E (S (tick w1)) conn = Delivers us atts
        /\ _fetch_data_for_machine E conn conn_dict w =
           (set_tick S (fetched E conn df us atts w1),
            closing E conn (tick w1 + 9)
              (FetchDone df (clock E (tick w1 + 7)%nat)
                 (List.filter (is_new df (clock E (tick w1 + 7)%nat)) atts)
                 (0 + len us)
                 (0 + len (List.filter
                             (is_new df (clock E (tick w1 + 7)%nat)) atts))))).
Proof.
  intros w0.
  destruct (fetch_date_from E conn w0) as [w1 [df|e]] eqn:Hdf.
  2:{ left. exists w1, e. split; [reflexivity|].
      exact (fetch_raises E conn conn_dict w w1 e Hdf). }
  right.
  destruct (builtins.int (cd_port conn_dict)) as [port|e] eqn:Hp.
  2:{ left. pose proof (int_raises _ _ Hp) as ->.
      exists w1, df, w1, ValueError. split; [reflexivity|].
      split; [left; auto|].
      exact (fetch_port_refused E conn conn_dict w w1 df _ Hdf Hp). }
  destruct (device E (S (tick w1)) conn) as [| |us|us atts] eqn:Hdev.
  - left. eexists w1, df, _, DeviceError. split; [reflexivity|].
    split; [right; split; [now exists port|]; auto|].
    exact (fetch_connect_fails E conn conn_dict port w w1 df Hdf Hp Hdev).
  - right. left. eexists w1, df, _, _, port. split; [reflexivity|].
    split; [reflexivity|]. split; [now left|].
    split; [exact (fetch_users_fail E conn conn_dict port w w1 df Hdf Hp Hdev)|].
    split; [simpl; lia|]. now repeat split.
  - right. left. eexists w1, df, _, _, port. split; [reflexivity|].
    split; [reflexivity|]. split; [right; now exists us|].
    split; [exact (fetch_attendance_fails E conn conn_dict port w w1 df us
                     Hdf Hp Hdev)|].
    split; [simpl; lia|]. now repeat split.
  - right. right. exists w1, df, us, atts, port. split; [reflexivity|].
    split; [reflexivity|]. split; [exact Hdev|].
    exact (fetch_delivers E conn conn_dict port w w1 df us atts Hdf Hp Hdev).
Qed.

Lemma logged_tables E op msg c w :
  users (logged E op msg c w) = users w
  /\ users_seq (logged E op msg c w) = users_seq w
  /\ attendance (logged E op msg c w) = attendance w
  /\ attendance_seq (logged E op msg c w) = attendance_seq w
  /\ machines (logged E op msg c w) = machines w
  /\ settings (logged E op msg c w) = settings w
  /\ tick (logged E op msg c w) = S (tick w).
Proof. now repeat split. Qed.

Lemma fetch_date_from_outcome E conn w :
  match fetch_date_from E conn w with
  | (w1, Ok _) =>
      match sql_max (stored_timestamps conn (attendance w)) with
      | Some s =>
          if String.eqb s EmptyString
          then datetime.sub (clock E (tick w))
                 (datetime.timedelta_days (days_back_of w)) <> None
          else datetime.strptime s TS_FORMAT <> None
      | None =>
          datetime.sub (clock E (tick w))
            (datetime.timedelta_days (days_back_of w)) <> None
      end
  | (w1, Raise e) =>
      match sql_max (stored_timestamps conn (attendance w)) with
      | Some s =>
          if String.eqb s EmptyString
          then e = OverflowError
               /\ datetime.sub (clock E (tick w))
                    (datetime.timedelta_days (days_back_of w)) = None
          else e = ValueError /\ datetime.strptime s TS_FORMAT = None
      | None =>
          e = OverflowError
          /\ datetime.sub (clock E (tick w))
               (datetime.timedelta_days (days_back_of w)) = None
      end
  end.
Proof.
  unfold fetch_date_from, bind, select_max_timestamp, get.
  fold (stored_timestamps conn (attendance w)).
  destruct (sql_max (stored_timestamps conn (attendance w))) as [s|];
    unfold truthy_str, default.
  - destruct (String.eqb s EmptyString) eqn:Hs; unfold negb.
    + unfold lookback_date_from, bind, get, datetime_now, bind, next_tick, ret, lift.
      unfold days_back_of.
      destruct (datetime.sub _ _); cbn -[log_operation].
      * now rewrite log_operation_eq.
      * now split.
    + unfold lift, id.
      destruct (datetime.strptime s TS_FORMAT); cbn -[log_operation].
      * now rewrite log_operation_eq.
      * now split.
  - unfold lookback_date_from, bind, get, datetime_now, bind, next_tick, ret, lift.
    unfold days_back_of.
    destruct (datetime.sub _ _); cbn -[log_operation].
    + now rewrite log_operation_eq.
    + now split.
Qed.

(** The watermark of a fetch is computed exactly when it is computable. *)
Lemma watermark_computed E conn msg w w1 df :
  fetch_date_from E conn (logged E "Fetch Data" msg (Some conn) w) = (w1, Ok df) ->
  watermark_computable E conn w.
Proof.
  intros Hdf.
  generalize (fetch_date_from_outcome E conn
                (logged E "Fetch Data" msg (Some conn) w)).
  rewrite Hdf. unfold watermark_computable. simpl. auto.
Qed.

Lemma watermark_refused E conn msg w w1 e :
  fetch_date_from E conn (logged E "Fetch Data" msg (Some conn) w) = (w1, Raise e) ->
  ~ watermark_computable E conn w
  /\ (e = ValueError \/ e = OverflowError)
  /\ (e = ValueError <->
      exists s, sql_max (stored_timestamps conn (attendance w)) = Some s
                /\ s <> EmptyString).
Proof.
  intros Hdf.
  generalize (fetch_date_from_outcome E conn
                (logged E "Fetch Data" msg (Some conn) w)).
  rewrite Hdf. unfold watermark_computable. simpl.
  destruct (sql_max (stored_timestamps conn (attendance w))) as [s|].
  - destruct (String.eqb s EmptyString) eqn:Hs.
    + intros [-> Hnone]. split; [now intros H|]. split; [now right|].
      split; [discriminate|].
      intros (s' & Heq & Hne). injection Heq as <-.
      apply String.eqb_eq in Hs. contradiction.
    + intros [-> Hnone]. split; [now intros H|]. split; [now left|].
      split; [|reflexivity].
      intros _. exists s. split; [reflexivity|]. now apply String.eqb_neq.
  - intros [-> Hnone]. split; [now intros H|]. split; [now right|].
    split; [discriminate|].
    intros (s' & Heq & _). discriminate.
Qed.

(** X2.  An exception escapes a fetch on two paths only.  Either its
    watermark cannot be computed: the exception is then a [ValueError]
    (the newest stored timestamp of the machine is a non-empty text that
    [strptime] rejects) or an [OverflowError] (from the subtraction of
    [days_back]), and the users and the attendance are as before.  Or
    the watermark was computed, [int] accepted the port, the connection
    was opened, and [zk.disconnect()] of the [finally] block raised,
    after the body or after the handler: the exception is the one of the
    terminal, and it replaces the report.  Conversely a fetch raises
    whenever its watermark cannot be computed, and whenever the session
    is opened and cannot be closed; it returns, with a report, when the
    watermark can be computed and the session, if any, can be closed. *)
Theorem fetch_raises_on_watermark_or_disconnect :
  (forall E conn conn_dict w w' e,
     _fetch_data_for_machine E conn conn_dict w = (w', Raise e) ->
     (~ watermark_computable E conn w
      /\ (e = ValueError \/ e = OverflowError)
      /\ (e = ValueError <->
          exists s, sql_max (stored_timestamps conn (attendance w)) = Some s
                    /\ s <> EmptyString)
      /\ users w' = users w /\ attendance w' = attendance w)
     \/ (watermark_computable E conn w
         /\ e = DeviceError
         /\ (exists port, builtins.int (cd_port conn_dict) = Ok port)
         /\ (exists t, tick w' = S t /\ disconnect E t conn = false)
         /\ exists w1 df,
              fetch_date_from E conn
                (logged E "Fetch Data" (MsgFetchStart (cd_name conn_dict))
                        (Some conn) w) = (w1, Ok df)
              /\ device E (S (tick w1)) conn <> ConnectFails))
  /\ (forall E conn conn_dict w,
        ~ watermark_computable E conn w ->
        exists w' e, _fetch_data_for_machine E conn conn_dict w = (w', Raise e))
  /\ (forall E conn conn_dict w port,
        watermark_computable E conn w ->
        builtins.int (cd_port conn_dict) = Ok port ->
        (forall t, device E t conn <> ConnectFails) ->
        (forall t, disconnect E t conn = false) ->
        exists w', _fetch_data_for_machine E conn conn_dict w
                   = (w', Raise DeviceError))
  /\ (forall E conn conn_dict w,
        watermark_computable E conn w ->
        (forall t, disconnect E t conn = true) ->
        exists w' report,
          _fetch_data_for_machine E conn conn_dict w = (w', Ok report)).
Proof.
  split; [|split; [|split]].
  - intros E conn conn_dict w w' e Hrun.
    destruct (fetch_cases E conn conn_dict w)
      as [(w1 & e1 & Hdf & Hf)
         | [(w1 & df & w2 & e1 & _ & _ & Hf)
           | [(w1 & df & w2 & t & port & Hdf & Hp & Hdev & Hf & Ht & _)
             | (w1 & df & us & atts & port & Hdf & Hp & Hdev & Hf)]]];
      rewrite Hf in Hrun; try discriminate.
    + injection Hrun as -> ->. left.
      destruct (fetch_date_from_tables _ _ _ _ _ Hdf) as (Hu & _ & Ha & _).
      destruct (watermark_refused _ _ _ _ _ _ Hdf) as (H1 & H2 & H3).
      auto.
    + injection Hrun as Hw Hc. right.
      apply closing_raises in Hc as [-> Hd].
      split; [exact (watermark_computed _ _ _ _ _ _ Hdf)|].
      split; [reflexivity|]. split; [now exists port|].
      split; [exists t; subst w' t; now split|].
      exists w1, df. split; [exact Hdf|].
      destruct Hdev as [-> | [us ->]]; discriminate.
    + injection Hrun as Hw Hc. right.
      apply closing_raises in Hc as [-> Hd].
      split; [exact (watermark_computed _ _ _ _ _ _ Hdf)|].
      split; [reflexivity|]. split; [now exists port|].
      split.
      { exists (tick w1 + 9)%nat. subst w'. split; [|exact Hd].
        now rewrite <- (tick_of_fetched E conn df us atts w1). }
      exists w1, df. split; [exact Hdf|]. rewrite Hdev. discriminate.
  - intros E conn conn_dict w Hc.
    destruct (fetch_cases E conn conn_dict w)
      as [(w1 & e1 & Hdf & Hf)
         | [(w1 & df & w2 & e1 & Hdf & _)
           | [(w1 & df & w2 & t & port & Hdf & _)
             | (w1 & df & us & atts & port & Hdf & _)]]];
      [eauto | | | ]; exfalso; exact (Hc (watermark_computed _ _ _ _ _ _ Hdf)).
  - intros E conn conn_dict w port Hc Hp Hdev Hd.
    destruct (fetch_cases E conn conn_dict w)
      as [(w1 & e1 & Hdf & Hf)
         | [(w1 & df & w2 & e1 & Hdf & [(Hp' & _) | (_ & Hdev' & _)] & Hf)
           | [(w1 & df & w2 & t & port' & Hdf & _ & _ & Hf & _)
             | (w1 & df & us & atts & port' & Hdf & _ & _ & Hf)]]].
    + exfalso. exact (proj1 (watermark_refused _ _ _ _ _ _ Hdf) Hc).
    + rewrite Hp in Hp'. discriminate.
    + exfalso. exact (Hdev _ Hdev').
    + rewrite Hf. unfold closing. rewrite Hd. eauto.
    + rewrite Hf. unfold closing. rewrite Hd. eauto.
  - intros E conn conn_dict w Hc Hd.
    destruct (fetch_cases E conn conn_dict w)
      as [(w1 & e1 & Hdf & Hf)
         | [(w1 & df & w2 & e1 & _ & _ & Hf)
           | [(w1 & df & w2 & t & port & _ & _ & _ & Hf & _)
             | (w1 & df & us & atts & port & _ & _ & _ & Hf)]]].
    + exfalso. exact (proj1 (watermark_refused _ _ _ _ _ _ Hdf) Hc).
    + eauto.
    + rewrite Hf. unfold closing. rewrite Hd. eauto.
    + rewrite Hf. unfold closing. rewrite Hd. eauto.
Qed.

Lemma fetch_raises_on_watermark_or_disconnect_witness :
  (snd (_fetch_data_for_machine retry_env 1 gate garbled_world)
   = Raise ValueError
   /\ ~ watermark_computable retry_env 1 garbled_world)
  /\ (exists w', _fetch_data_for_machine hung_env 1 gate skew_world
                 = (w', Raise DeviceError)).
Proof.
  split.
  - destruct (_fetch_data_for_machine retry_env 1 gate garbled_world)
      as [w' r] eqn:Hrun.
    assert (r = Raise ValueError) as ->.
    { vm_compute in Hrun. now injection Hrun as _ <-. }
    split; [reflexivity|].
    destruct (proj1 fetch_raises_on_watermark_or_disconnect _ _ _ _ _ _ Hrun)
      as [(H & _) | (_ & H & _)]; [exact H | discriminate].
  - apply (proj1 (proj2 (proj2 fetch_raises_on_watermark_or_disconnect))
             hung_env 1 gate skew_world 4370).
    + vm_compute. discriminate.
    + reflexivity.
    + intros t. discriminate.
    + reflexivity.
Defined.


(** ** The rows a fetch adds *)

Lemma insert_row_added conn tbl a :
  exists added,
    fst (insert_row conn tbl a) = fst tbl ++ added
    /\ snd (insert_row conn tbl a) = snd tbl + 1
    /\ Forall (fun r => a_id r = snd tbl + 1) added
    /\ Forall (fun r => a_connection_id r = conn /\ a_synched_time r = None) added
    /\ (len added <= 1)
    /\ (In (event_key conn a) (map att_key (fst tbl)) -> added = []).
Proof.
  unfold insert_row.
  destruct (existsb _ _) eqn:Hex.
  - exists []. rewrite app_nil_r.
    split; [reflexivity|]. split; [reflexivity|].
    split; [constructor|]. split; [constructor|].
    split; [unfold len; simpl; lia | reflexivity].
  - eexists [_].
    split; [reflexivity|]. split; [reflexivity|].
    split; [repeat constructor|]. split; [repeat constructor|].
    split; [unfold len; simpl; lia|].
    intros Hin. apply existsb_att_key in Hin. unfold event_key in Hin.
      rewrite Hin in Hex. discriminate.
Qed.

Lemma fold_insert_added conn evs tbl :
  exists added,
    fst (fold_left (insert_row conn) evs tbl) = fst tbl ++ added
    /\ snd (fold_left (insert_row conn) evs tbl) = snd tbl + len evs
    /\ StronglySorted Z.lt (map a_id added)
    /\ Forall (fun r => snd tbl < a_id r <= snd tbl + len evs) added
    /\ Forall (fun r => a_connection_id r = conn /\ a_synched_time r = None) added
    /\ (len added <= len evs)
    /\ ((forall a, In a evs -> In (event_key conn a) (map att_key (fst tbl)))
        -> added = []).
Proof.
  revert tbl. induction evs as [|a evs IH]; intros tbl.
  - exists []. rewrite app_nil_r.
    split; [reflexivity|]. split; [unfold len; simpl; lia|].
    split; [constructor|]. split; [constructor|]. split; [constructor|].
    split; [unfold len; simpl; lia | reflexivity].
  - simpl fold_left.
    destruct (insert_row_added conn tbl a) as (ad1 & H1 & H2 & H3 & H4 & H5 & H6).
    destruct (IH (insert_row conn tbl a))
      as (ad2 & G1 & G2 & G3 & G4 & G5 & G6 & G7).
    exists (ad1 ++ ad2). rewrite G1, H1, G2, H2.
    assert (Hlen : len (a :: evs) = 1 + len evs)
      by (unfold len; simpl length; lia).
    rewrite H2 in G4.
    split; [now rewrite app_assoc|]. split; [lia|].
    split.
    { rewrite map_app.
      destruct ad1 as [|r [|r2 ad1]].
      - exact G3.
      - simpl. inversion H3 as [|? ? Hr _]. constructor; [exact G3|].
        apply List.Forall_forall. intros i Hi.
        apply in_map_iff in Hi as (r' & <- & Hr').
        apply (proj1 (List.Forall_forall _ _) G4) in Hr'. lia.
      - exfalso. unfold len in H5. simpl in H5. lia. }
    split.
    { apply Forall_app. split.
      - eapply Forall_impl; [exact H3|]. simpl. intros r Hr.
        rewrite Hlen. unfold len. lia.
      - eapply Forall_impl; [exact G4|]. simpl. intros r Hr. lia. }
    split; [apply Forall_app; split; assumption|].
    split.
    { unfold len in *. rewrite length_app. simpl length in *. lia. }
    intros Hall.
    assert (ad1 = []) as -> by (apply H6, Hall; now left).
    simpl. apply G7. intros b Hb. rewrite H1, app_nil_r.
    apply Hall. now right.
Qed.

Lemma increasing_NoDup (l : list Z) : StronglySorted Z.lt l -> NoDup l.
Proof.
  induction 1 as [|x l Hs IH Hall]; constructor; [|exact IH].
  intros Hin. rewrite Forall_forall in Hall. apply Hall in Hin. lia.
Qed.

(** X4.  On every path, a fetch only appends to the attendance table: the
    stored rows stay, in their order; the ids of the added rows increase
    strictly, from above the old value of the counter to at most its new
    value; the added rows belong to the machine fetched and have no
    [synched_time]; the machines are as before.  The counter never
    decreases: when the terminal delivers, it advances by the number of
    events in the window of the fetch, inserted or ignored, so that the
    ids of the rows added need not be consecutive.  Ids that were
    distinct and at most the counter still are. *)
Theorem fetch_keeps_stored_rows E conn conn_dict w :
  let w' := fst (_fetch_data_for_machine E conn conn_dict w) in
  (exists added,
     attendance w' = attendance w ++ added
     /\ StronglySorted Z.lt (map a_id added)
     /\ Forall (fun r => attendance_seq w < a_id r <= attendance_seq w') added
     /\ Forall (fun r => a_connection_id r = conn /\ a_synched_time r = None)
               added)
  /\ attendance_seq w <= attendance_seq w'
  /\ (forall w1 df us atts port,
        fetch_date_from E conn
          (logged E "Fetch Data" (MsgFetchStart (cd_name conn_dict))
                  (Some conn) w) = (w1, Ok df) ->
        builtins.int (cd_port conn_dict) = Ok port ->
        device E (S (tick w1)) conn = Delivers us atts ->
        attendance_seq w'
        = attendance_seq w
          + len (List.filter (is_new df (clock E (tick w1 + 7)%nat)) atts))
  /\ (forall df now new uc ac,
        snd (_fetch_data_for_machine E conn conn_dict w)
        = Ok (FetchDone df now new uc ac) ->
        attendance_seq w' = attendance_seq w + len new)
  /\ (forall df e,
        snd (_fetch_data_for_machine E conn conn_dict w)
        = Ok (FetchFailed df e) ->
        attendance_seq w' = attendance_seq w)
  /\ machines w' = machines w
  /\ (att_ids_fresh w -> att_ids_fresh w').
Proof.
  intros w'.
  assert (H : (exists added,
     attendance w' = attendance w ++ added
     /\ StronglySorted Z.lt (map a_id added)
     /\ Forall (fun r => attendance_seq w < a_id r <= attendance_seq w') added
     /\ Forall (fun r => a_connection_id r = conn /\ a_synched_time r = None)
               added)
     /\ attendance_seq w <= attendance_seq w'
     /\ (forall w1 df us atts port,
        fetch_date_from E conn
          (logged E "Fetch Data" (MsgFetchStart (cd_name conn_dict))
                  (Some conn) w) = (w1, Ok df) ->
        builtins.int (cd_port conn_dict) = Ok port ->
        device E (S (tick w1)) conn = Delivers us atts ->
        attendance_seq w'
        = attendance_seq w
          + len (List.filter (is_new df (clock E (tick w1 + 7)%nat)) atts))
     /\ (forall df now new uc ac,
        snd (_fetch_data_for_machine E conn conn_dict w)
        = Ok (FetchDone df now new uc ac) ->
        attendance_seq w' = attendance_seq w + len new)
     /\ (forall df e,
        snd (_fetch_data_for_machine E conn conn_dict w)
        = Ok (FetchFailed df e) ->
        attendance_seq w' = attendance_seq w)
     /\ machines w' = machines w).
  { subst w'.
    destruct (fetch_cases E conn conn_dict w)
      as [(w1 & e1 & Hdf & Hf)
         | [(w1 & df1 & w2 & e1 & Hdf & Hwhy & Hf)
           | [(w1 & df1 & w2 & t & port & Hdf & Hp & Hdev & Hf & Ht
               & Ha & Hs & Hm)
             | (w1 & df1 & us & atts & port & Hdf & Hp & Hdev & Hf)]]];
      rewrite Hf; cbn [fst snd];
      destruct (fetch_date_from_tables _ _ _ _ _ Hdf) as (_ & _ & Ha1 & Hs1 & Hm1);
      simpl in Ha1, Hs1, Hm1.
    - split.
      { exists []. rewrite app_nil_r.
        split; [exact Ha1|]. split; [constructor|]. split; constructor. }
      split; [lia|].
      split; [intros w1' df us atts port Hdf'; rewrite Hdf in Hdf'; discriminate|].
      split; [discriminate|]. split; [discriminate | exact Hm1].
    - assert (Hw2 : attendance w2 = attendance w1
                    /\ attendance_seq w2 = attendance_seq w1
                    /\ machines w2 = machines w1).
      { destruct Hwhy as [(_ & _ & ->) | (_ & _ & _ & ->)]; now repeat split. }
      destruct Hw2 as (Ha & Hs & Hm). simpl.
      split.
      { exists []. rewrite app_nil_r.
        split; [now rewrite Ha, Ha1|]. split; [constructor|].
        split; constructor. }
      split; [lia|].
      split.
      { intros w1' df us atts port Hdf' Hp Hdev. rewrite Hdf in Hdf'.
        injection Hdf' as <- <-.
        destruct Hwhy as [(Hp' & _) | (_ & Hdev' & _)]; congruence. }
      split; [discriminate|]. split; [intros; lia | now rewrite Hm, Hm1].
    - simpl.
      split.
      { exists []. rewrite app_nil_r.
        split; [now rewrite Ha, Ha1|]. split; [constructor|].
        split; constructor. }
      split; [lia|].
      split.
      { intros w1' df us atts port' Hdf' _ Hdev'. rewrite Hdf in Hdf'.
        injection Hdf' as <- <-.
        destruct Hdev as [Hdev | [us' Hdev]]; congruence. }
      split.
      { intros df now new uc ac Hc. apply closing_ok in Hc as [Hc _].
        discriminate. }
      split; [intros; lia | now rewrite Hm, Hm1].
    - destruct (fold_insert_added conn
                  (List.filter (is_new df1 (clock E (tick w1 + 7)%nat)) atts)
                  (attendance w1, attendance_seq w1))
        as (added & G1 & G2 & G3 & G4 & G5 & _).
      simpl in G1, G2, G4.
      assert (Hseq : attendance_seq (set_tick S (fetched E conn df1 us atts w1))
                     = attendance_seq w
                       + len (List.filter
                                (is_new df1 (clock E (tick w1 + 7)%nat)) atts)).
      { rewrite <- Hs1. exact G2. }
      assert (Hatt : attendance (set_tick S (fetched E conn df1 us atts w1))
                     = attendance w ++ added).
      { rewrite <- Ha1. exact G1. }
      rewrite Hseq, Hatt.
      split.
      { exists added. split; [reflexivity|]. split; [exact G3|].
        split; [now rewrite <- Hs1 | exact G5]. }
      split; [unfold len; lia|].
      split.
      { intros w1' df us' atts' port' Hdf' _ Hdev'. rewrite Hdf in Hdf'.
        injection Hdf' as <- <-. rewrite Hdev in Hdev'.
        now injection Hdev' as <- <-. }
      split.
      { intros df now new uc ac Hc. apply closing_ok in Hc as [Hc _].
        injection Hc as _ _ Hnew _ _. now rewrite <- Hnew. }
      split; [|exact Hm1].
      intros df e Hc. apply closing_ok in Hc as [Hc _]. discriminate. }
  destruct H as ((added & H1 & H2 & H3 & H4) & Hle' & Hdel & Hdone & Hfail & Hm).
  split; [now exists added|]. split; [exact Hle'|]. split; [exact Hdel|].
  split; [exact Hdone|]. split; [exact Hfail|]. split; [exact Hm|].
  intros [Hnd Hle]. unfold att_ids_fresh. rewrite H1, map_app.
  split.
  - apply NoDup_app. split; [exact Hnd|].
    split; [|now apply increasing_NoDup].
    intros i Hi Hs. apply list_elem_of_In in Hi, Hs.
    apply in_map_iff in Hi as (r & <- & Hr).
    apply in_map_iff in Hs as (r' & Heq & Hr').
    rewrite Forall_forall in Hle, H3.
    apply list_elem_of_In in Hr, Hr'.
    specialize (Hle r Hr). specialize (H3 r' Hr'). simpl in Hle, H3. lia.
  - apply Forall_app. split.
    + eapply Forall_impl; [exact Hle|]. simpl. intros r Hr. lia.
    + eapply Forall_impl; [exact H3|]. simpl. intros r Hr. lia.
Qed.

Lemma fetch_keeps_stored_rows_witness :
  att_ids_fresh (fst (_fetch_data_for_machine calm_env 1 gate refetch_world))
  /\ map a_id
       (attendance (fst (_fetch_data_for_machine calm_env 1 gate refetch_world)))
     = [1; 3].
Proof.
  split; [|reflexivity].
  apply (fetch_keeps_stored_rows calm_env 1 gate refetch_world).
  split; [compute_done|].
  repeat constructor; discriminate.
Defined.

(** X5.  The count a successful fetch reports is the number of events in
    its window, not the number of rows inserted: the table grows by at
    most that count, and not at all when the key of every event of the
    window is stored already. *)
Theorem fetch_reports_window_size E conn conn_dict w w' df now new uc ac :
  _fetch_data_for_machine E conn conn_dict w
    = (w', Ok (FetchDone df now new uc ac)) ->
  ac = len new
  /\ len (attendance w') <= len (attendance w) + ac
  /\ ((forall a, In a new -> In (event_key conn a) (map att_key (attendance w)))
      -> attendance w' = attendance w).
Proof.
  intros Hrun.
  destruct (fetch_cases E conn conn_dict w)
    as [(w1 & e1 & Hdf & Hf)
       | [(w1 & df1 & w2 & e1 & Hdf & _ & Hf)
         | [(w1 & df1 & w2 & t & port & Hdf & _ & _ & Hf & _)
           | (w1 & df1 & us & atts & port & Hdf & _ & _ & Hf)]]];
    rewrite Hf in Hrun; try discriminate.
  { injection Hrun as _ Hc. apply closing_ok in Hc as [Hc _]. discriminate. }
  injection Hrun as Hw Hc. apply closing_ok in Hc as [Hc _].
  injection Hc as Hdf' Hnow Hnew Huc Hac. subst w' df now new uc ac.
  destruct (fetch_date_from_tables _ _ _ _ _ Hdf) as (_ & _ & Ha1 & Hs1 & Hm1).
  simpl in Ha1.
  destruct (fold_insert_added conn
              (List.filter (is_new df1 (clock E (tick w1 + 7)%nat)) atts)
              (attendance w1, attendance_seq w1))
    as (added & G1 & G2 & G3 & G4 & G5 & G6 & G7).
  change (attendance (set_tick S (fetched E conn df1 us atts w1)))
    with (attendance (fetched E conn df1 us atts w1)).
  rewrite fetched_attendance, G1. simpl fst in *. rewrite Ha1 in *.
  split; [lia|]. split.
  - unfold len in *. rewrite length_app. lia.
  - intros Hall. rewrite (G7 Hall). apply app_nil_r.
Qed.

Lemma fetch_reports_window_size_witness :
  exists df now new uc ac,
    snd (_fetch_data_for_machine calm_env 1 gate skew_world)
    = Ok (FetchDone df now new uc ac)
    /\ ac = len new
    /\ len (attendance (fst (_fetch_data_for_machine calm_env 1 gate
                               skew_world)))
       <= len (attendance skew_world) + ac.
Proof.
  destruct (_fetch_data_for_machine calm_env 1 gate skew_world)
    as [w' r] eqn:Hrun.
  assert (exists df now new uc ac, r = Ok (FetchDone df now new uc ac))
    as (df & now & new & uc & ac & ->).
  { vm_compute in Hrun. injection Hrun as _ <-. eexists _, _, _, _, _.
    reflexivity. }
  exists df, now, new, uc, ac. split; [reflexivity|].
  destruct (fetch_reports_window_size _ _ _ _ _ _ _ _ _ _ Hrun)
    as (H1 & H2 & _).
  split; assumption.
Defined.

(** ** What a sync pass sends *)

Section SyncTrace.

Variable E : environment.
Variable w0 : world.

Let trace_ok (w : world) : Prop :=
  exists evs, rpc w = rpc w0 ++ evs /\ Forall (sends_selected E w0) evs.

(** Until the users are selected; until the attendance is selected. *)
Let untouched (w : world) : Prop :=
  trace_ok w /\ machines w = machines w0 /\ attendance w = attendance w0
  /\ users w = users w0.

Let users_touched (w : world) : Prop :=
  trace_ok w /\ machines w = machines w0 /\ attendance w = attendance w0.

Lemma trace_ok_append ev w :
  sends_selected E w0 ev -> trace_ok w -> trace_ok (set_rpc (rpc w ++ [ev]) w).
Proof.
  intros Hev (evs & Hr & Hg). exists (evs ++ [ev]). simpl.
  split; [now rewrite Hr, app_assoc|].
  apply Forall_app. split; [exact Hg | now constructor].
Qed.

Lemma untouched_append ev w :
  sends_selected E w0 ev -> untouched w -> untouched (set_rpc (rpc w ++ [ev]) w).
Proof. intros Hev (Ht & H). split; [now apply trace_ok_append | exact H]. Qed.

Lemma users_touched_append ev w :
  sends_selected E w0 ev -> users_touched w ->
  users_touched (set_rpc (rpc w ++ [ev]) w).
Proof. intros Hev (Ht & H). split; [now apply trace_ok_append | exact H]. Qed.

Lemma keeps_sync_one_user_trace total user n :
  In user (unsynced_users w0) ->
  keeps users_touched (sync_one_user E total user n).
Proof.
  intros Hin. unfold sync_one_user.
  destruct (truthy_id (uj_odoo_machine_id user)) eqn:Ht; simpl.
  - apply keeps_try.
    + apply keeps_bind.
      * apply (keeps_rpc_create_user E users_touched (sends_selected E w0));
          [auto | exact users_touched_append |].
        intros ok. now exists user.
      * intros ?. apply keeps_bind; [now apply keeps_now|].
        intros now. apply keeps_bind; [now apply hoare_modify|].
        intros ?. apply keeps_bind; [|intros ?; apply keeps_ret].
        destruct (_ =? 0); [now apply keeps_log | apply keeps_ret].
    + intros e. apply keeps_bind; [now apply keeps_log | intros ?; apply keeps_ret].
  - apply keeps_bind; [now apply keeps_log | intros ?; apply keeps_ret].
Qed.

Lemma hoare_sync_users_trace :
  hoare untouched (sync_users E) (fun _ => users_touched) users_touched.
Proof.
  unfold sync_users.
  eapply hoare_bind with
    (Q := fun l w => users_touched w /\ l = unsynced_users w0).
  - intros w (Ht & Hm & Ha & Hu). simpl. split; [now split|].
    unfold unsynced_users, select_unsynced_users, get, machines_of. simpl.
    now rewrite Hu, Hm.
  - intros l. destruct l as [|u l].
    + intros w [Hw _]. revert w Hw.
      change (keeps users_touched (log_operation E "Odoo Sync" MsgNoNewUsers None)).
      now apply keeps_log.
    + set (us := u :: l). intros w [Hw Hl]. revert w Hw.
      change (keeps users_touched
        (log_operation E "Odoo Sync" (MsgFoundUsers (len us)) None ;;;
         synced_count <- for_each us (sync_one_user E (len us)) 0 ;;
         log_operation E "Odoo Sync" (MsgUsersDone synced_count) None)).
      apply keeps_bind; [now apply keeps_log|]. intros ?.
      apply keeps_bind; [|intros c; now apply keeps_log].
      apply keeps_for_each. intros x s Hx.
      apply keeps_sync_one_user_trace. now rewrite <- Hl.
Qed.

(** The invariant of the attendance loop. *)
Let batch_ok (st : sync_state) (w : world) : Prop :=
  trace_ok w
  /\ forall p, In p (payload_batch st) ->
       exists att, In att (unsynced_attendance w0)
                   /\ truthy_id (aj_odoo_machine_id att) = true
                   /\ p = payload_of E att.

Lemma keeps_send_batch_trace st :
  (forall p, In p (payload_batch st) ->
     exists att, In att (unsynced_attendance w0)
                 /\ truthy_id (aj_odoo_machine_id att) = true
                 /\ p = payload_of E att) ->
  keeps trace_ok (send_batch E st).
Proof.
  intros Hb. unfold send_batch. apply keeps_bind.
  - destruct (payload_batch st) eqn:Hp; [apply keeps_ret|].
    apply (keeps_rpc_create_attendance E trace_ok (sends_selected E w0));
      [auto | exact trace_ok_append | intros ok; exact Hb].
  - intros ?. apply keeps_bind; [now apply keeps_now|].
    intros now. cbv zeta. apply keeps_bind; [|intros ?; apply keeps_ret].
    now apply hoare_modify.
Qed.

Lemma hoare_flush_batch_trace total st :
  hoare (batch_ok st) (flush_batch E total st) batch_ok trace_ok.
Proof.
  unfold flush_batch. apply hoare_try with (Y := batch_ok st).
  - eapply hoare_bind with (Q := fun _ => batch_ok st).
    + intros w [Hw Hb].
      exact (keeps_const trace_ok _ _ (keeps_send_batch_trace st Hb) w
               (conj Hw Hb)).
    + intros ?. cbv zeta. eapply hoare_bind with (Q := fun _ => batch_ok st).
      * apply (keeps_const trace_ok). now apply keeps_log.
      * intros ?. apply hoare_ret. intros w [Hw _].
        split; [exact Hw | intros p []].
  - intros e. eapply hoare_bind with (Q := fun _ => batch_ok st).
    + eapply hoare_conseq;
        [apply (keeps_const trace_ok); now apply keeps_log| | |];
        [intros w H; exact H | intros a w H; exact H | now intros w [H _]].
    + intros ?. apply hoare_ret. auto.
Qed.

Lemma hoare_flush_final_trace st :
  hoare (batch_ok st) (flush_final E st) (fun _ => trace_ok) trace_ok.
Proof.
  intros w [Hw Hb]. unfold flush_final.
  destruct (record_id_batch st) as [|i ids] eqn:Hrec; [exact Hw|].
  refine (keeps_try trace_ok _ _ _ _ w Hw).
  - apply keeps_bind; [now apply keeps_send_batch_trace|].
    intros ?. apply keeps_ret.
  - intros e. apply keeps_bind; [now apply keeps_log | intros ?; apply keeps_ret].
Qed.

Lemma hoare_sync_one_attendance_trace bs total att st :
  In att (unsynced_attendance w0) ->
  hoare (batch_ok st) (sync_one_attendance E bs total att st)
        batch_ok trace_ok.
Proof.
  intros Hin. unfold sync_one_attendance.
  destruct (truthy_id (aj_odoo_machine_id att)) eqn:Ht; simpl.
  - eapply hoare_bind with (Q := batch_ok).
    + intros w [Hw Hb].
      generalize (hoare_accumulate E trace_ok (sends_selected E w0)
                    (fun _ _ H => H) (fun _ _ H => H) trace_ok_append
                    (fun _ _ _ => Logic.I) att st w Hw).
      destruct (accumulate E att st w) as [w1 [st1|e]]; [|auto].
      intros [H1 [cache H2]]. split; [exact H1|]. rewrite H2.
      unfold accumulated. simpl. intros p Hp.
      destruct (already_remote _ _); [now apply Hb|].
      apply in_app_or in Hp as [Hp | [<- | []]]; [now apply Hb|].
      now exists att.
    + intros st'. destruct (bs <=? len (record_id_batch st')).
      * apply hoare_flush_batch_trace.
      * apply hoare_ret. auto.
  - eapply hoare_bind with (Q := fun _ => batch_ok st).
    + eapply hoare_conseq;
        [apply (keeps_const trace_ok); now apply keeps_log| | |];
        [intros w H; exact H | intros a w H; exact H | now intros w [H _]].
    + intros ?. apply hoare_ret. auto.
Qed.

Lemma hoare_sync_attendance_trace bs :
  hoare users_touched (sync_attendance E bs) (fun _ => trace_ok) trace_ok.
Proof.
  unfold sync_attendance.
  eapply hoare_bind with
    (Q := fun l w => trace_ok w /\ l = unsynced_attendance w0).
  - intros w (Ht & Hm & Ha). simpl. split; [exact Ht|].
    unfold unsynced_attendance, select_unsynced_attendance, get, machines_of.
    simpl. now rewrite Ha, Hm.
  - intros l. destruct l as [|a l].
    + intros w [Hw _]. revert w Hw.
      change (keeps trace_ok
                (log_operation E "Odoo Sync" MsgNoNewAttendance None)).
      now apply keeps_log.
    + set (atts := a :: l). intros w [Hw Hl]. revert w Hw.
      change (keeps trace_ok
        (log_operation E "Odoo Sync" (MsgFoundAttendance (len atts)) None ;;;
         st <- sync_rows E bs atts ;;
         log_operation E "Odoo Sync" (MsgAttendanceDone (synced_count st)) None)).
      apply keeps_bind; [now apply keeps_log|]. intros ?.
      apply keeps_bind; [|intros st; now apply keeps_log].
      unfold sync_rows. cbv zeta.
      eapply hoare_bind with (Q := batch_ok).
      * eapply hoare_conseq;
          [apply (hoare_for_each atts
                    (sync_one_attendance E bs (len atts)) batch_ok trace_ok)| | |].
        -- intros x s Hx. apply hoare_sync_one_attendance_trace.
           now rewrite <- Hl.
        -- intros w Hw. split; [exact Hw | intros p []].
        -- intros st w H; exact H.
        -- auto.
      * intros st. apply hoare_flush_final_trace.
Qed.

Lemma hoare_sync_thread_trace :
  hoare untouched (_sync_to_odoo_thread E) (fun _ => trace_ok) trace_ok.
Proof.
  assert (Hut : forall w, untouched w -> trace_ok w) by (now intros w [H _]).
  assert (Hutk : forall A (m : M A), keeps untouched m ->
            hoare untouched m (fun _ => untouched) trace_ok).
  { intros A m Hm. eapply hoare_conseq; [exact Hm| | |]; auto. }
  assert (Hlog : forall op msg c, keeps trace_ok (log_operation E op msg c))
    by (intros; now apply keeps_log).
  assert (Hlogu : forall op msg c,
            hoare untouched (log_operation E op msg c) (fun _ => trace_ok) trace_ok).
  { intros. eapply hoare_conseq; [apply Hlog| | |]; auto. }
  unfold _sync_to_odoo_thread.
  eapply hoare_bind; [apply Hutk; now apply keeps_log|]. intros ?.
  eapply hoare_bind; [apply Hutk; apply keeps_get|]. intros details.
  destruct (negb (configured details)); [apply Hlogu|].
  apply hoare_try with (Y := trace_ok); [|intros e; apply Hlog].
  unfold sync_pass.
  eapply hoare_bind.
  { apply Hutk.
    apply (keeps_rpc_authenticate E untouched (sends_selected E w0));
      [auto | exact untouched_append | exact Logic.I]. }
  intros uid. destruct (negb (truthy_id uid)); [apply Hlogu|].
  eapply hoare_bind; [apply Hutk; now apply keeps_log|]. intros ?.
  eapply hoare_bind; [apply Hutk; apply keeps_get|]. intros bs.
  eapply hoare_bind.
  { eapply hoare_conseq; [apply hoare_sync_users_trace| | |];
      [auto | intros ? ? H; exact H | now intros ? [H _]]. }
  intros ?.
  eapply hoare_bind; [apply hoare_sync_attendance_trace|]. intros ?.
  apply Hlog.
Qed.

End SyncTrace.

(** X6.  Every user record and every attendance record that a sync pass
    sends is built from a row that had no [synched_time] when the pass
    began and whose machine is linked to a remote machine. *)
Theorem sync_sends_only_selected_rows E w :
  exists evs,
    rpc (fst (_sync_to_odoo_thread E w)) = rpc w ++ evs
    /\ (forall p ok, In (RpcCreateUser p ok) evs ->
          exists user, In user (unsynced_users w)
                       /\ truthy_id (uj_odoo_machine_id user) = true
                       /\ p = user_payload_of user)
    /\ (forall b ok p, In (RpcCreateAttendance b ok) evs -> In p b ->
          exists att, In att (unsynced_attendance w)
                      /\ truthy_id (aj_odoo_machine_id att) = true
                      /\ p = payload_of E att).
Proof.
  assert (H0 : exists evs, rpc w = rpc w ++ evs
                           /\ Forall (sends_selected E w) evs).
  { exists []. split; [now rewrite app_nil_r | constructor]. }
  generalize (hoare_sync_thread_trace E w w
                (conj H0 (conj eq_refl (conj eq_refl eq_refl)))).
  destruct (_sync_to_odoo_thread E w) as [w' [[]|e]]; simpl;
    intros (evs & Hr & Hg); exists evs; (split; [exact Hr|]);
    rewrite Forall_forall in Hg; split.
  - intros p ok Hin. apply list_elem_of_In in Hin. exact (Hg _ Hin).
  - intros b ok p Hin. apply list_elem_of_In in Hin. exact (Hg _ Hin p).
  - intros p ok Hin. apply list_elem_of_In in Hin. exact (Hg _ Hin).
  - intros b ok p Hin. apply list_elem_of_In in Hin. exact (Hg _ Hin p).
Qed.

(** ** The users of a sync pass *)

Lemma rpc_create_user_eq E p w :
  rpc_create_user E p w =
    (set_rpc (rpc w ++ [RpcCreateUser p (create_user E (tick w) p)])
             (set_tick S w),
     if create_user E (tick w) p then Ok tt else Raise Fault).
Proof.
  unfold rpc_create_user, bind, next_tick, record_rpc, modify. simpl.
  now destruct (create_user E (tick w) p).
Qed.

Lemma datetime_now_eq E w :
  datetime_now E w = (set_tick S w, Ok (clock E (tick w))).
Proof. reflexivity. Qed.

Lemma sync_one_user_step E total user n w :
  exists w' n',
    sync_one_user E total user n w = (w', Ok n')
    /\ machines w' = machines w /\ attendance w' = attendance w
    /\ users_seq w' = users_seq w
    /\ if truthy_id (uj_odoo_machine_id user) then
         exists ok s,
           rpc w' = rpc w ++ [RpcCreateUser (user_payload_of user) ok]
           /\ users w' = (if ok : bool
                          then map (mark_user s (u_id (uj_row user))) (users w)
                          else users w)
       else rpc w' = rpc w /\ users w' = users w.
Proof.
  unfold sync_one_user, user_payload_of.
  destruct (truthy_id (uj_odoo_machine_id user)) eqn:Ht; cbn [negb].
  - cbv zeta.
    match goal with |- context [rpc_create_user E ?p] =>
      assert (Hc := rpc_create_user_eq E p w);
      destruct (create_user E (tick w) p) eqn:Hok
    end.
    + set (w1 := set_rpc _ _) in Hc.
      set (s := datetime.strftime (clock E (tick w1)) TS_FORMAT).
      assert (Hu : update_user_synched s (u_id (uj_row user)) (set_tick S w1)
                   = (set_users (map (mark_user s (u_id (uj_row user))) (users w1))
                                (users_seq w1) (set_tick S w1), Ok tt)) by reflexivity.
      destruct (_ =? 0) eqn:Hmod.
      * eexists _, _. split.
        { rewrite (try_bind_ok _ _ _ _ _ _ Hc).
          rewrite (try_bind_ok _ _ _ _ _ _ (datetime_now_eq _ _)).
          fold s. rewrite (try_bind_ok _ _ _ _ _ _ Hu).
          cbv zeta iota.
          rewrite (try_bind_ok _ _ _ _ _ _ (log_operation_eq _ _ _ _ _)).
          reflexivity. }
        simpl. repeat split. exists true, s. split; reflexivity.
      * eexists _, _. split.
        { rewrite (try_bind_ok _ _ _ _ _ _ Hc).
          rewrite (try_bind_ok _ _ _ _ _ _ (datetime_now_eq _ _)).
          fold s. rewrite (try_bind_ok _ _ _ _ _ _ Hu).
          cbv zeta iota. reflexivity. }
        simpl. repeat split. exists true, s. split; reflexivity.
    + eexists _, _. split.
      { rewrite (try_bind_raise _ _ _ _ _ _ Hc).
        rewrite (bind_ok _ _ _ _ _ (log_operation_eq _ _ _ _ _)).
        reflexivity. }
      simpl. repeat split. exists false, EmptyString. split; reflexivity.
  - eexists _, _. split.
    { rewrite (bind_ok _ _ _ _ _ (log_operation_eq _ _ _ _ _)). reflexivity. }
    now repeat split.
Qed.

Lemma user_marked_mono xs ys evs evs' r r' :
  user_marked xs evs r r' -> user_marked (ys ++ xs) (evs' ++ evs) r r'.
Proof.
  intros [-> | (s & user & Hin & Hl & Hid & -> & Hev)]; [now left|].
  right. exists s, user. split; [apply in_or_app; now right|].
  split; [exact Hl|].
  split; [exact Hid|]. split; [reflexivity|]. apply in_or_app. now right.
Qed.

Lemma user_marked_mono_r xs evs evs' r r' :
  user_marked xs evs r r' -> user_marked xs (evs ++ evs') r r'.
Proof.
  intros [-> | (s & user & Hin & Hl & Hid & -> & Hev)]; [now left|].
  right. exists s, user. split; [exact Hin|]. split; [exact Hl|].
  split; [exact Hid|]. split; [reflexivity|]. apply in_or_app. now left.
Qed.

Lemma users_loop E total xs : forall n w,
  exists w' n' evs,
    for_each xs (sync_one_user E total) n w = (w', Ok n')
    /\ rpc w' = rpc w ++ evs
    /\ machines w' = machines w /\ attendance w' = attendance w
    /\ users_seq w' = users_seq w
    /\ evs = map (fun c => RpcCreateUser (fst c) (snd c)) (user_create_calls evs)
    /\ map fst (user_create_calls evs)
       = map user_payload_of
           (List.filter (fun u => truthy_id (uj_odoo_machine_id u)) xs)
    /\ Forall2 (user_marked xs evs) (users w) (users w').
Proof.
  induction xs as [|x xs IH]; intros n w.
  - exists w, n, []. simpl. rewrite app_nil_r. repeat split; try reflexivity.
    apply Forall2_refl_on. intros r _. now left.
  - destruct (sync_one_user_step E total x n w)
      as (w1 & n1 & Hstep & Hm1 & Ha1 & Hs1 & Hcase).
    destruct (IH n1 w1) as (w' & n' & evs & Hrun & Hr & Hm & Ha & Hs & Hev & Hcalls & Hrel).
    simpl for_each. rewrite (bind_ok _ _ _ _ _ Hstep). rewrite Hrun.
    destruct (truthy_id (uj_odoo_machine_id x)) eqn:Ht.
    + destruct Hcase as (ok & s & Hr1 & Hu1).
      exists w', n', (RpcCreateUser (user_payload_of x) ok :: evs).
      split; [reflexivity|].
      split; [rewrite Hr, Hr1, <- app_assoc; reflexivity|].
      split; [congruence|]. split; [congruence|]. split; [congruence|].
      split; [simpl; now rewrite <- Hev|].
      split; [simpl; rewrite Ht; simpl; now rewrite Hcalls|].
      clear Hrun Hstep IH.
      assert (H1 : Forall2 (user_marked (x :: xs)
                              (RpcCreateUser (user_payload_of x) ok :: evs))
                     (users w) (users w1)).
      { rewrite Hu1. destruct ok.
        - apply (Forall2_map_r_in eq); [apply Forall2_refl_on; intros r _; reflexivity|].
          intros r r' _ <-. unfold mark_user.
          destruct (u_id r =? u_id (uj_row x)) eqn:Heq; [|now left].
          right. exists s, x. split; [now left|]. split; [exact Ht|].
          split; [symmetry; now apply Z.eqb_eq|].
          split; [reflexivity | now left].
        - apply Forall2_refl_on. intros r _. now left. }
      revert H1 Hrel. generalize (users w) (users w1) (users w').
      intros l1 l2 l3 H12. revert l3.
      induction H12 as [|a b l1 l2 Hab _ IH2]; intros l3 H23;
        inversion H23; subst; constructor.
      * destruct H1 as [-> | (s2 & u2 & Hin2 & Hl2 & Hid2 & -> & Hev2)];
          [exact Hab|].
        destruct Hab as [-> | (s1 & u1 & Hin1 & Hl1 & Hid1 & -> & Hev1)].
        -- right. exists s2, u2. split; [now right|]. split; [exact Hl2|].
           split; [exact Hid2|]. split; [reflexivity | now right].
        -- right. exists s2, u2. split; [now right|]. split; [exact Hl2|].
           split; [exact Hid2|]. split; [reflexivity | now right].
      * now apply IH2.
    + destruct Hcase as (Hr1 & Hu1).
      exists w', n', evs. split; [reflexivity|].
      split; [now rewrite Hr, Hr1|].
      split; [congruence|]. split; [congruence|]. split; [congruence|].
      split; [exact Hev|].
      split; [simpl; now rewrite Ht|].
      rewrite <- Hu1.
      eapply Forall2_impl; [exact Hrel|].
      intros r r' H. apply (user_marked_mono xs [x] evs [] r r' H).
Qed.

Lemma Forall2_impl_in {A B} (R R' : A -> B -> Prop) l l' :
  Forall2 R l l' -> (forall x y, In x l -> R x y -> R' x y) -> Forall2 R' l l'.
Proof.
  induction 1 as [|x y l l' Hxy Hll IH]; intros H; constructor.
  - apply H; [now left | exact Hxy].
  - apply IH. intros a b Ha. apply H. now right.
Qed.

Lemma in_unsynced_users w user :
  In user (unsynced_users w) ->
  In (uj_row user) (users w) /\ u_synched_time (uj_row user) = None
  /\ exists m, In m (machines w) /\ m_id m = u_connection_id (uj_row user)
               /\ uj_odoo_machine_id user = m_odoo_machine_id m.
Proof. apply (in_select_unsynced_users w w). reflexivity. Qed.

(** X7.  With distinct user ids, the users loop of a sync pass returns
    normally and makes one create call for each selected user of a
    linked machine, in the order of the selection, and no other remote
    call.  A user row changes only by getting a [synched_time], and only
    when the create call for it succeeded; the attendance and the
    machines are not touched. *)
Theorem users_sent_once_and_stamped_after_create E w :
  NoDup (map u_id (users w)) ->
  exists w' evs,
    sync_users E w = (w', Ok tt)
    /\ rpc w' = rpc w ++ evs
    /\ evs = map (fun c => RpcCreateUser (fst c) (snd c)) (user_create_calls evs)
    /\ map fst (user_create_calls evs)
       = map user_payload_of
           (List.filter (fun u => truthy_id (uj_odoo_machine_id u))
                        (unsynced_users w))
    /\ Forall2
         (fun r r' =>
            r' = r
            \/ exists s user,
                 In user (unsynced_users w) /\ uj_row user = r
                 /\ truthy_id (uj_odoo_machine_id user) = true
                 /\ r' = user_set_synched (Some s) r
                 /\ In (RpcCreateUser (user_payload_of user) true) evs)
         (users w) (users w')
    /\ attendance w' = attendance w /\ machines w' = machines w.
Proof.
  intros Hnd. unfold sync_users.
  assert (Hsel : select_unsynced_users w = (w, Ok (unsynced_users w)))
    by reflexivity.
  destruct (unsynced_users w) as [|u l] eqn:Hl.
  - eexists _, []. split.
    { rewrite (bind_ok _ _ _ _ _ Hsel). apply log_operation_eq. }
    simpl. rewrite app_nil_r. repeat split.
    apply Forall2_refl_on. intros r _. now left.
  - set (xs := u :: l) in *.
    set (w1 := logged E "Odoo Sync" (MsgFoundUsers (len xs)) None w).
    destruct (users_loop E (len xs) xs 0 w1)
      as (w2 & n2 & evs & Hrun & Hr & Hm & Ha & Hs & Hev & Hcalls & Hrel).
    exists (logged E "Odoo Sync" (MsgUsersDone n2) None w2), evs. split.
    { rewrite (bind_ok _ _ _ _ _ Hsel). subst xs. cbv iota.
      rewrite (bind_ok _ _ _ _ _ (log_operation_eq _ _ _ _ _)).
      fold w1. rewrite (bind_ok _ _ _ _ _ Hrun). apply log_operation_eq. }
    simpl. split; [exact Hr|]. split; [exact Hev|]. split; [exact Hcalls|].
    split; [|split; [exact Ha | exact Hm]].
    eapply Forall2_impl_in; [exact Hrel|]. simpl.
    intros r r' Hr0 [-> | (s & user & Hin & Hlk & Hid & -> & Hevd)]; [now left|].
    right. exists s, user. split; [exact Hin|].
    split; [|auto].
    rewrite <- Hl in Hin. apply in_unsynced_users in Hin as (Hu & _).
    now apply (NoDup_map_eq u_id (users w)).
Qed.

Lemma users_sent_once_and_stamped_after_create_witness :
  exists w' evs,
    sync_users retry_env enrolled_world = (w', Ok tt)
    /\ rpc w' = rpc enrolled_world ++ evs
    /\ map fst (user_create_calls evs) = [mk_user_payload 1 "7" "Ada" 1].
Proof.
  destruct (users_sent_once_and_stamped_after_create retry_env enrolled_world
              ltac:(compute_done))
    as (w' & evs & Hrun & Hrpc & _ & Hcalls & _).
  exists w', evs. split; [exact Hrun|]. split; [exact Hrpc|].
  rewrite Hcalls. reflexivity.
Defined.

(** ** The users table of a fetch *)

Lemma same_user_key_iff c x r :
  same_user_key c x r = true <-> user_key r = (c, x).
Proof.
  unfold same_user_key, user_key.
  rewrite andb_true_iff, Z.eqb_eq, String.eqb_eq.
  split; [intros [-> ->]; reflexivity | intros [= -> ->]; now split].
Qed.

Lemma same_user_key_false c x r :
  same_user_key c x r = false <-> user_key r <> (c, x).
Proof.
  rewrite <- same_user_key_iff.
  destruct (same_user_key c x r); intuition congruence.
Qed.

Lemma filter_none_matching c x (l : list user_row) :
  existsb (same_user_key c x) l = false ->
  List.filter (fun r => negb (same_user_key c x r)) l = l.
Proof.
  induction l as [|a l IH]; simpl; [reflexivity|].
  destruct (same_user_key c x a); simpl; [discriminate|].
  intros H. now rewrite IH.
Qed.

Lemma upsert_row_rows conn tbl u :
  fst (upsert_row conn tbl u)
  = List.filter (fun r => negb (same_user_key conn (zu_user_id u) r)) (fst tbl)
    ++ [upserted conn tbl u].
Proof.
  unfold upsert_row, upserted. destruct (existsb _ _) eqn:H; simpl; [reflexivity|].
  now rewrite filter_none_matching.
Qed.

Lemma upserted_key conn tbl u :
  user_key (upserted conn tbl u) = (conn, zu_user_id u).
Proof. reflexivity. Qed.

Lemma upsert_row_in conn tbl u r :
  In r (fst (upsert_row conn tbl u))
  <-> (In r (fst tbl) /\ user_key r <> (conn, zu_user_id u))
      \/ r = upserted conn tbl u.
Proof.
  rewrite upsert_row_rows, in_app_iff, filter_In, negb_true_iff,
    same_user_key_false.
  simpl. intuition congruence.
Qed.

Lemma select_user_synched_time_of c x l r :
  NoDup (map user_key l) -> In r l -> user_key r = (c, x) ->
  select_user_synched_time c x l = u_synched_time r.
Proof.
  intros Hnd Hin Hk. unfold select_user_synched_time.
  destruct (List.find _ l) as [r0|] eqn:Hf.
  - apply find_some in Hf as [Hin0 Hk0]. apply same_user_key_iff in Hk0.
    f_equal. apply (NoDup_map_eq user_key l); congruence.
  - exfalso. apply (find_none _ _ Hf) in Hin.
    apply same_user_key_false in Hin. contradiction.
Qed.

Lemma select_user_synched_time_none c x l :
  (forall r, In r l -> user_key r <> (c, x)) ->
  select_user_synched_time c x l = None.
Proof.
  intros H. unfold select_user_synched_time.
  destruct (List.find _ l) as [r0|] eqn:Hf; [|reflexivity].
  apply find_some in Hf as [Hin0 Hk0]. apply same_user_key_iff in Hk0.
  now apply H in Hin0.
Qed.

Lemma NoDup_filter_keys (f : user_row -> bool) (l : list user_row) :
  NoDup (map user_key l) -> NoDup (map user_key (List.filter f l)).
Proof.
  induction l as [|a l IH]; simpl; [constructor|].
  intros Hnd. apply NoDup_cons in Hnd as [Hn Hnd].
  destruct (f a); simpl; [|now apply IH].
  apply NoDup_cons. split; [|now apply IH].
  intros Hin. apply Hn. apply list_elem_of_In. apply list_elem_of_In in Hin.
  apply in_map_iff in Hin as (r & Hr & Hin). apply filter_In in Hin as [Hin _].
  apply in_map_iff. eauto.
Qed.

Lemma upsert_row_NoDup conn tbl u :
  NoDup (map user_key (fst tbl)) ->
  NoDup (map user_key (fst (upsert_row conn tbl u))).
Proof.
  intros Hnd. rewrite upsert_row_rows, map_app.
  apply NoDup_app. split; [now apply NoDup_filter_keys|]. split.
  - intros k Hk Hk'. apply list_elem_of_In in Hk, Hk'.
    simpl in Hk'. destruct Hk' as [<- | []].
    apply in_map_iff in Hk as (r & Hr & Hin).
    apply filter_In in Hin as [_ Hneg].
    apply negb_true_iff, same_user_key_false in Hneg. now apply Hneg.
  - simpl. apply NoDup_singleton.
Qed.

(** The watermark of the row stored by an upsert. *)
Lemma upserted_watermark conn tbl u :
  NoDup (map user_key (fst tbl)) ->
  (forall r, In r (fst tbl) -> user_key r = (conn, zu_user_id u) ->
     u_synched_time (upserted conn tbl u) = u_synched_time r)
  /\ ((forall r, In r (fst tbl) -> user_key r <> (conn, zu_user_id u)) ->
      u_synched_time (upserted conn tbl u) = None).
Proof.
  intros Hnd. split.
  - intros r Hin Hk. now apply select_user_synched_time_of.
  - intros Hno. now apply select_user_synched_time_none.
Qed.

Lemma keeps_watermarks_same_users w w' :
  users w' = users w -> keeps_watermarks w w'.
Proof.
  intros Hu Hnd. rewrite Hu. split; [exact Hnd|]. split.
  - intros r Hin. exists r. now repeat split.
  - intros r Hin. left. exists r. now repeat split.
Qed.

Lemma keeps_watermarks_trans a b c :
  keeps_watermarks a b -> keeps_watermarks b c -> keeps_watermarks a c.
Proof.
  intros Hab Hbc Hnd.
  destruct (Hab Hnd) as (Hndb & Hab1 & Hab2).
  destruct (Hbc Hndb) as (Hndc & Hbc1 & Hbc2).
  split; [exact Hndc|]. split.
  - intros r Hin.
    destruct (Hab1 r Hin) as (r1 & Hin1 & Hk1 & Hs1).
    destruct (Hbc1 r1 Hin1) as (r2 & Hin2 & Hk2 & Hs2).
    exists r2. split; [exact Hin2|]. split; congruence.
  - intros r2 Hin2.
    destruct (Hbc2 r2 Hin2) as [(r1 & Hin1 & Hk2 & Hs2) | (Hno & Hs)].
    + destruct (Hab2 r1 Hin1) as [(r & Hin & Hk1 & Hs1) | (Hno & Hs)].
      * left. exists r. split; [exact Hin|]. split; congruence.
      * right. split; [|congruence].
        intros r Hin. rewrite Hk2. now apply Hno.
    + right. split; [|exact Hs].
      intros r Hin Hk.
      destruct (Hab1 r Hin) as (r1 & Hin1 & Hk1 & _).
      apply (Hno r1 Hin1). congruence.
Qed.

Lemma keeps_watermarks_user_query conn u :
  preserves keeps_watermarks (user_query conn u).
Proof.
  intros w Hnd. rewrite user_query_eq. cbn [fst]. simpl users.
  set (tbl := (users w, users_seq w)).
  destruct (upserted_watermark conn tbl u Hnd) as [Hsame Hnone].
  split; [exact (upsert_row_NoDup conn tbl u Hnd)|]. split.
  - intros r Hin.
    destruct (decide (user_key r = (conn, zu_user_id u))) as [Hk|Hk].
    + exists (upserted conn tbl u).
      split; [apply upsert_row_in; now right|].
      split; [now rewrite Hk | now apply Hsame].
    + exists r. split; [apply upsert_row_in; left; now split | now split].
  - intros r' Hin. apply upsert_row_in in Hin as [[Hin Hk] | ->].
    + left. exists r'. now repeat split.
    + destruct (existsb (same_user_key conn (zu_user_id u)) (users w)) eqn:Hex.
      * apply existsb_exists in Hex as (r & Hin & Hk).
        apply same_user_key_iff in Hk. left. exists r.
        split; [exact Hin|]. split; [now rewrite Hk | now apply Hsame].
      * assert (Hno : forall r, In r (users w) ->
                        user_key r <> (conn, zu_user_id u)).
        { intros r Hin. apply same_user_key_false.
          destruct (same_user_key conn (zu_user_id u) r) eqn:Hr; [|reflexivity].
          assert (existsb (same_user_key conn (zu_user_id u)) (users w) = true)
            by (apply existsb_exists; eauto).
          congruence. }
        right. split; [exact Hno | now apply Hnone].
Qed.

Lemma keeps_watermarks_fetch E conn conn_dict :
  preserves keeps_watermarks (_fetch_data_for_machine E conn conn_dict).
Proof.
  apply preserves_fetch.
  - intros w. now apply keeps_watermarks_same_users.
  - apply keeps_watermarks_trans.
  - intros f w. now apply keeps_watermarks_same_users.
  - intros l w. now apply keeps_watermarks_same_users.
  - apply keeps_watermarks_user_query.
  - intros c a w. apply keeps_watermarks_same_users.
    rewrite att_query_eq. reflexivity.
Qed.

(** A user selected after a fetch had no watermark before it. *)
Lemma selected_after_fetch E conn conn_dict w user :
  NoDup (map user_key (users w)) ->
  In user (unsynced_users (fst (_fetch_data_for_machine E conn conn_dict w))) ->
  forall r, In r (users w) -> user_key r = user_key (uj_row user) ->
            u_synched_time r = None.
Proof.
  intros Hnd Hsel r Hin Hk.
  destruct (keeps_watermarks_fetch E conn conn_dict w Hnd) as (Hnd' & Hkept & _).
  apply in_unsynced_users in Hsel as (Hin' & Hnone & _).
  destruct (Hkept r Hin) as (r' & Hr' & Hk' & Hs').
  assert (r' = uj_row user)
    by (apply (NoDup_map_eq user_key _ _ _ Hnd' Hr' Hin'); congruence).
  congruence.
Qed.

(** The create calls for users of a sync pass. *)
Lemma sync_creates_selected_users E w evs p ok :
  rpc (fst (_sync_to_odoo_thread E w)) = rpc w ++ evs ->
  In (RpcCreateUser p ok) evs ->
  exists user, In user (unsynced_users w)
               /\ truthy_id (uj_odoo_machine_id user) = true
               /\ p = user_payload_of user.
Proof.
  intros Hrpc Hin.
  assert (H0 : exists evs, rpc w = rpc w ++ evs
                           /\ Forall (sends_selected E w) evs).
  { exists []. split; [now rewrite app_nil_r | constructor]. }
  assert (Hall : Forall (sends_selected E w) evs).
  { generalize (hoare_sync_thread_trace E w w
                  (conj H0 (conj eq_refl (conj eq_refl eq_refl)))).
    destruct (_sync_to_odoo_thread E w) as [w' [[]|e]]; simpl in *;
      intros (evs' & Hr & Hg); rewrite Hr in Hrpc;
      apply app_inv_head in Hrpc; now subst evs'. }
  rewrite Forall_forall in Hall. apply list_elem_of_In in Hin.
  exact (Hall _ Hin).
Qed.

(** C8.  The table [users] holds one row for a key (machine, user id).
    The upsert of a device user returns normally and leaves one row for
    the key of the user, with the uid and the name reported and with the
    [synched_time] of the row stored before under that key, whatever it
    was, and none if there was no such row; the rows of the other keys
    are the stored ones.  Over a whole fetch, on every path, every stored
    user is still stored with its [synched_time], and a user that was
    not stored has none.  So a user that a sync pass selects, or sends,
    after a fetch had no [synched_time] before the fetch, or was not
    stored: a user already sent is not sent again for having been read
    again. *)
Theorem upsert_keeps_user_watermark :
  (forall conn u w,
     NoDup (map user_key (users w)) ->
     let w' := fst (user_query conn u w) in
     snd (user_query conn u w) = Ok tt
     /\ NoDup (map user_key (users w'))
     /\ (exists r',
           In r' (users w')
           /\ user_key r' = (conn, zu_user_id u)
           /\ u_uid r' = zu_uid u /\ u_name r' = zu_name u
           /\ (forall r, In r (users w) ->
                 user_key r = (conn, zu_user_id u) ->
                 u_synched_time r' = u_synched_time r)
           /\ ((forall r, In r (users w) ->
                  user_key r <> (conn, zu_user_id u)) ->
               u_synched_time r' = None))
     /\ (forall r, user_key r <> (conn, zu_user_id u) ->
           (In r (users w') <-> In r (users w))))
  /\ (forall E conn conn_dict w,
        NoDup (map user_key (users w)) ->
        let w' := fst (_fetch_data_for_machine E conn conn_dict w) in
        NoDup (map user_key (users w'))
        /\ (forall r, In r (users w) ->
              exists r', In r' (users w')
                         /\ user_key r' = user_key r
                         /\ u_synched_time r' = u_synched_time r)
        /\ (forall r', In r' (users w') ->
              (exists r, In r (users w)
                         /\ user_key r' = user_key r
                         /\ u_synched_time r' = u_synched_time r)
              \/ ((forall r, In r (users w) -> user_key r <> user_key r')
                  /\ u_synched_time r' = None)))
  /\ (forall E conn conn_dict w,
        NoDup (map user_key (users w)) ->
        let w' := fst (_fetch_data_for_machine E conn conn_dict w) in
        (forall user, In user (unsynced_users w') ->
           forall r, In r (users w) -> user_key r = user_key (uj_row user) ->
                     u_synched_time r = None)
        /\ (forall E' evs p ok,
              rpc (fst (_sync_to_odoo_thread E' w')) = rpc w' ++ evs ->
              In (RpcCreateUser p ok) evs ->
              exists user,
                In user (unsynced_users w')
                /\ p = user_payload_of user
                /\ forall r, In r (users w) ->
                     user_key r = user_key (uj_row user) ->
                     u_synched_time r = None)).
Proof.
  split; [|split].
  - intros conn u w Hnd w'. subst w'. rewrite user_query_eq. cbn [fst snd].
    simpl users. set (tbl := (users w, users_seq w)).
    destruct (upserted_watermark conn tbl u Hnd) as [Hsame Hnone].
    split; [reflexivity|].
    split; [exact (upsert_row_NoDup conn tbl u Hnd)|]. split.
    + exists (upserted conn tbl u).
      split; [apply upsert_row_in; now right|].
      split; [reflexivity|]. split; [reflexivity|]. split; [reflexivity|].
      split; assumption.
    + intros r Hk. rewrite upsert_row_in. split.
      * intros [[Hin _] | ->]; [exact Hin|]. now contradiction Hk.
      * intros Hin. left. now split.
  - intros E conn conn_dict w Hnd w'.
    exact (keeps_watermarks_fetch E conn conn_dict w Hnd).
  - intros E conn conn_dict w Hnd w'. split.
    + intros user Hsel. exact (selected_after_fetch E conn conn_dict w user Hnd Hsel).
    + intros E' evs p ok Hrpc Hin.
      destruct (sync_creates_selected_users E' w' evs p ok Hrpc Hin)
        as (user & Hsel & _ & Hp).
      exists user. split; [exact Hsel|]. split; [exact Hp|].
      exact (selected_after_fetch E conn conn_dict w user Hnd Hsel).
Qed.

Lemma upsert_keeps_user_watermark_witness :
  NoDup (map user_key (users enrolled_world))
  /\ exists r',
       In r' (users (fst (user_query 1 (mk_zk_user 5 "8" "Robert")
                            enrolled_world)))
       /\ u_name r' = "Robert"%string
       /\ u_synched_time r' = Some "2024-01-01 00:00:00"%string.
Proof.
  assert (Hnd : NoDup (map user_key (users enrolled_world))) by compute_done.
  split; [exact Hnd|].
  destruct (proj1 upsert_keeps_user_watermark 1 (mk_zk_user 5 "8" "Robert")
              enrolled_world Hnd)
    as (_ & _ & (r' & Hin & _ & _ & Hname & Hsame & _) & _).
  exists r'. split; [exact Hin|]. split; [exact Hname|].
  apply (Hsame (mk_user 2 1 2 "8" "Bob" (Some "2024-01-01 00:00:00"%string))).
  - right. left. reflexivity.
  - reflexivity.
Defined.

(** ** The timestamps a fetch stores *)

Lemma well_formed_app xs ys :
  well_formed xs -> well_formed ys -> well_formed (xs ++ ys).
Proof.
  intros Hx Hy s Hs. apply in_app_or in Hs as [Hs | Hs]; auto.
Qed.

Lemma stored_timestamps_in conn rows s :
  In s (stored_timestamps conn rows) -> In s (map a_timestamp rows).
Proof.
  unfold stored_timestamps. intros H. apply in_map_iff in H as (r & <- & Hr).
  apply filter_In in Hr as [Hr _]. now apply in_map.
Qed.

Lemma fetch_well_formed E conn conn_dict w :
  (forall t us atts, device E t conn = Delivers us atts ->
     forall a, In a atts -> datetime.valid (za_timestamp a)) ->
  well_formed (map a_timestamp (attendance w)) ->
  well_formed
    (map a_timestamp
       (attendance (fst (_fetch_data_for_machine E conn conn_dict w)))).
Proof.
  intros Hdev Hwf.
  destruct (fetch_cases E conn conn_dict w)
    as [(w1 & e1 & Hdf & Hf)
       | [(w1 & df1 & w2 & e1 & Hdf & Hwhy & Hf)
         | [(w1 & df1 & w2 & t & port & Hdf & _ & _ & Hf & _ & Ha & _)
           | (w1 & df1 & us & atts & port & Hdf & _ & Hd & Hf)]]];
    rewrite Hf; simpl fst;
    destruct (fetch_date_from_tables _ _ _ _ _ Hdf) as (_ & _ & Ha1 & _);
    simpl in Ha1.
  - now rewrite Ha1.
  - destruct Hwhy as [(_ & _ & ->) | (_ & _ & _ & ->)]; simpl; now rewrite Ha1.
  - simpl. now rewrite Ha, Ha1.
  - change (attendance (set_tick S (fetched E conn df1 us atts w1)))
      with (attendance (fetched E conn df1 us atts w1)).
    rewrite fetched_attendance.
    destruct (fold_insert_shape conn
                (List.filter (is_new df1 (clock E (tick w1 + 7)%nat)) atts)
                (attendance w1, attendance_seq w1))
      as (added & G1 & G2 & _).
    rewrite G1. simpl fst. rewrite Ha1, map_app.
    apply well_formed_app; [exact Hwf|].
    intros s Hs. apply in_map_iff in Hs as (r & <- & Hr).
    rewrite Forall_forall in G2.
    destruct (G2 r) as (_ & _ & a & Hin & Hk); [now apply list_elem_of_In|].
    apply filter_In in Hin as [Hin _].
    exists (za_timestamp a). split; [exact (Hdev _ _ _ Hd a Hin)|].
    unfold att_key, event_key in Hk. congruence.
Qed.

(** X8.  If the terminal delivers valid datetimes and every stored
    timestamp is the rendering of a valid datetime, this still holds
    after a fetch: the newest stored timestamp of every machine parses,
    and no later fetch, of any machine and in any environment, raises
    [ValueError]. *)
Theorem fetch_keeps_watermarks_parseable E conn conn_dict w :
  (forall t us atts, device E t conn = Delivers us atts ->
     forall a, In a atts -> datetime.valid (za_timestamp a)) ->
  well_formed (map a_timestamp (attendance w)) ->
  let w' := fst (_fetch_data_for_machine E conn conn_dict w) in
  well_formed (map a_timestamp (attendance w'))
  /\ (forall c s,
        sql_max (stored_timestamps c (attendance w')) = Some s ->
        exists d, datetime.strptime s TS_FORMAT = Some d)
  /\ forall E' c conn_dict',
       snd (_fetch_data_for_machine E' c conn_dict' w') <> Raise ValueError.
Proof.
  intros Hdev Hwf w'.
  assert (Hwf' : well_formed (map a_timestamp (attendance w')))
    by exact (fetch_well_formed E conn conn_dict w Hdev Hwf).
  assert (Hmax : forall c s,
            sql_max (stored_timestamps c (attendance w')) = Some s ->
            exists d, datetime.strptime s TS_FORMAT = Some d).
  { intros c s Hs.
    assert (Hwfc : well_formed (stored_timestamps c (attendance w'))).
    { intros x Hx. apply Hwf'. exact (stored_timestamps_in c _ x Hx). }
    assert (Hne : stored_timestamps c (attendance w') <> []).
    { intros Hnil. rewrite Hnil in Hs. discriminate. }
    destruct (sql_max_strftime _ Hwfc Hne) as (dm & Hv & Hm & _).
    rewrite Hm in Hs. injection Hs as <-.
    exists (datetime.whole_second dm).
    now apply datetime_facts.strptime_strftime. }
  split; [exact Hwf'|]. split; [exact Hmax|].
  intros E' c conn_dict' Hraise.
  destruct (fetch_cases E' c conn_dict' w')
    as [(w1 & e1 & Hdf & Hf)
       | [(w1 & df1 & w2 & e1 & Hdf & _ & Hf)
         | [(w1 & df1 & w2 & t & port & Hdf & _ & _ & Hf & _)
           | (w1 & df1 & us & atts & port & Hdf & _ & _ & Hf)]]];
    rewrite Hf in Hraise; try discriminate;
    try (simpl in Hraise; apply closing_raises in Hraise as [Hraise _];
         discriminate).
  simpl in Hraise. injection Hraise as ->.
  generalize (fetch_date_from_outcome E' c
                (logged E' "Fetch Data" (MsgFetchStart (cd_name conn_dict'))
                        (Some c) w')).
  rewrite Hdf. simpl attendance.
  destruct (sql_max (stored_timestamps c (attendance w'))) as [s|] eqn:Hs.
  - destruct (String.eqb s EmptyString); intros [He Hn]; [discriminate|].
    destruct (Hmax c s Hs) as (d & Hd). congruence.
  - intros [He _]. discriminate.
Qed.

Lemma fetch_keeps_watermarks_parseable_witness :
  snd (_fetch_data_for_machine retry_env 1 gate
         (fst (_fetch_data_for_machine skew_env 1 gate dedup_world)))
  <> Raise ValueError.
Proof.
  apply (fetch_keeps_watermarks_parseable skew_env 1 gate dedup_world).
  - intros t us atts H. injection H as _ <-.
    intros a [<- | [<- | []]]; reflexivity.
  - intros s [<- | [<- | []]].
    + exists (datetime.mk 2024 1 1 8 0 0 0). now split.
    + exists (datetime.mk 2024 1 1 8 0 1 0). now split.
Defined.

(** ** The gate of a sync pass *)

Lemma rpc_authenticate_eq E w :
  rpc_authenticate E w =
    (set_rpc (rpc w ++ [RpcAuthenticate]) (set_tick S w), authenticate E (tick w)).
Proof. reflexivity. Qed.

(** X: no data leaves without configuration and login. *)
(** X9.  Without complete connection details a sync pass makes no remote
    call, changes no user row and no attendance row, and logs an error
    right after its first line.  With them, when the authentication
    gives no uid, the authentication is the only remote call, no row
    changes, and the last row of the log is an error. *)
Theorem sync_needs_configuration_and_login E w :
  let w' := fst (_sync_to_odoo_thread E w) in
  (configured (odoo_details w) = false ->
   rpc w' = rpc w /\ users w' = users w /\ attendance w' = attendance w
   /\ exists ts1 ts2,
        logs w' = logs w ++ [mk_log None ts1 "Odoo Sync" MsgSyncStart;
                             mk_log None ts2 "Error" MsgNotConfigured])
  /\ (configured (odoo_details w) = true ->
      (forall uid, authenticate E (S (tick w)) = Ok uid ->
                   truthy_id uid = false) ->
      rpc w' = rpc w ++ [RpcAuthenticate]
      /\ users w' = users w /\ attendance w' = attendance w
      /\ exists rows ts msg,
           logs w' = rows ++ [mk_log None ts "Error" msg]
           /\ (msg = MsgAuthFailed \/ exists e, msg = MsgSyncFailed e)).
Proof.
  intros w'. subst w'. unfold _sync_to_odoo_thread.
  rewrite (bind_ok _ _ _ _ _ (log_operation_eq _ _ _ _ _)).
  set (w1 := logged E "Odoo Sync" MsgSyncStart None w).
  assert (Hg : get odoo_details w1 = (w1, Ok (odoo_details w))) by reflexivity.
  rewrite (bind_ok _ _ _ _ _ Hg).
  split.
  - intros Hc. rewrite Hc. cbn [negb]. rewrite log_operation_eq. simpl.
    repeat split. eexists _, _. rewrite <- app_assoc. reflexivity.
  - intros Hc Hauth. rewrite Hc. cbn [negb].
    unfold sync_pass.
    assert (Ha := rpc_authenticate_eq E w1).
    change (tick w1) with (S (tick w)) in Ha.
    destruct (authenticate E (S (tick w))) as [uid|e] eqn:Hau.
    + rewrite (try_bind_ok _ _ _ _ _ _ Ha).
      rewrite (Hauth uid eq_refl). cbn [negb].
      unfold try_except. rewrite log_operation_eq. simpl.
      repeat split. eexists _, _, _. split; [reflexivity|]. now left.
    + rewrite (try_bind_raise _ _ _ _ _ _ Ha). rewrite log_operation_eq. simpl.
      repeat split. eexists _, _, _. split; [reflexivity|]. right. now exists e.
Qed.

Lemma sync_needs_configuration_and_login_witness :
  rpc (fst (_sync_to_odoo_thread retry_env unconfigured_world)) = []
  /\ attendance (fst (_sync_to_odoo_thread retry_env unconfigured_world))
     = attendance unconfigured_world.
Proof.
  destruct (proj1 (sync_needs_configuration_and_login retry_env
                     unconfigured_world) ltac:(reflexivity))
    as (Hrpc & _ & Hatt & _).
  split; [exact Hrpc | exact Hatt].
Defined.

(** ** The identifier of an attendance row *)

Lemma str_app_cons c (s t : string) :
  (String c s +:+ t)%string = String c (s +:+ t).
Proof. reflexivity. Qed.

Lemma str_app_nil (t : string) : (EmptyString +:+ t)%string = t.
Proof. reflexivity. Qed.

Lemma uint_dash_split d1 : forall d2 r1 r2,
  (NilEmpty.string_of_uint d1 +:+ String "-" r1
   = NilEmpty.string_of_uint d2 +:+ String "-" r2)%string ->
  NilEmpty.string_of_uint d1 = NilEmpty.string_of_uint d2 /\ r1 = r2.
Proof.
  induction d1 as [|d1 IH|d1 IH|d1 IH|d1 IH|d1 IH|d1 IH|d1 IH|d1 IH|d1 IH|d1 IH];
    intros [|d2|d2|d2|d2|d2|d2|d2|d2|d2|d2] r1 r2 H; simpl in H;
    rewrite ?str_app_cons, ?str_app_nil in H;
    try discriminate;
    try (injection H as H; destruct (IH _ _ _ H) as [Hd ->]; simpl;
         now rewrite Hd).
  injection H as ->. now split.
Qed.

Lemma str_of_Z_inj z1 z2 : str_of_Z z1 = str_of_Z z2 -> z1 = z2.
Proof.
  unfold str_of_Z. intros H.
  assert (H' : Some (Z.to_int z1) = Some (Z.to_int z2)).
  { rewrite <- !NilEmpty.isi. now rewrite H. }
  injection H' as H'. rewrite <- (DecimalZ.of_to z1), <- (DecimalZ.of_to z2).
  now rewrite H'.
Qed.

Lemma str_of_Z_dash_split z1 z2 r1 r2 :
  0 <= z1 -> 0 <= z2 ->
  (str_of_Z z1 +:+ String "-" r1 = str_of_Z z2 +:+ String "-" r2)%string ->
  z1 = z2 /\ r1 = r2.
Proof.
  intros H1 H2 H. unfold str_of_Z in H.
  assert (Hp : forall z, 0 <= z -> exists d, Z.to_int z = Decimal.Pos d).
  { intros [|p|p] Hz; simpl; eauto. lia. }
  destruct (Hp z1 H1) as (d1 & Hd1). destruct (Hp z2 H2) as (d2 & Hd2).
  assert (Hs : str_of_Z z1 = str_of_Z z2 /\ r1 = r2).
  { unfold str_of_Z. rewrite Hd1, Hd2 in *. simpl in *.
    now apply uint_dash_split. }
  destruct Hs as [Hs ->]. split; [now apply str_of_Z_inj | reflexivity].
Qed.

Lemma str_length_app (s t : string) :
  String.length (s +:+ t) = (String.length s + String.length t)%nat.
Proof.
  induction s as [|c s IH]; [reflexivity|].
  rewrite str_app_cons. simpl. now rewrite IH.
Qed.

Lemma str_app_inj_r (u1 u2 t1 t2 : string) :
  String.length t1 = String.length t2 ->
  (u1 +:+ t1 = u2 +:+ t2)%string -> u1 = u2 /\ t1 = t2.
Proof.
  revert u2. induction u1 as [|c u1 IH]; intros [|c2 u2] Hl H;
    rewrite ?str_app_cons, ?str_app_nil in H.
  - now split.
  - exfalso. rewrite H in Hl. simpl in Hl. rewrite str_length_app in Hl. lia.
  - exfalso. rewrite <- H in Hl. simpl in Hl. rewrite str_length_app in Hl. lia.
  - injection H as -> H. destruct (IH _ Hl H) as [-> ->]. now split.
Qed.

Lemma strftime_id d :
  datetime.strftime d ID_FORMAT =
    String (datetime.digit (datetime.year d / 1000))
   (String (datetime.digit (datetime.year d / 100))
   (String (datetime.digit (datetime.year d / 10))
   (String (datetime.digit (datetime.year d))
   (String (datetime.digit (datetime.month d / 10))
   (String (datetime.digit (datetime.month d))
   (String (datetime.digit (datetime.day d / 10))
   (String (datetime.digit (datetime.day d))
   (String (datetime.digit (datetime.hour d / 10))
   (String (datetime.digit (datetime.hour d))
   (String (datetime.digit (datetime.minute d / 10))
   (String (datetime.digit (datetime.minute d))
   (String (datetime.digit (datetime.second d / 10))
   (String (datetime.digit (datetime.second d)) EmptyString))))))))))))).
Proof. reflexivity. Qed.

Lemma id_ts_same a b :
  datetime.strftime a ID_FORMAT = datetime.strftime b ID_FORMAT
  <-> datetime.strftime a TS_FORMAT = datetime.strftime b TS_FORMAT.
Proof.
  rewrite !strftime_id, !datetime_facts.strftime_ts. split; intros H;
    injection H as H1 H2 H3 H4 H5 H6 H7 H8 H9 H10 H11 H12 H13 H14;
    now rewrite H1, H2, H3, H4, H5, H6, H7, H8, H9, H10, H11, H12, H13, H14.
Qed.

Lemma str_cons_inj c c' (s t : string) : String c s = String c' t -> s = t.
Proof. now intros [= _ ->]. Qed.

(** X10.  For machine ids that are not negative, two device events get the
    same [att_id] exactly when they have the same key in the store
    (machine, user id, timestamp to the second): the identifier sent to
    the server separates any two rows of the attendance table, also when
    user ids contain dashes. *)
Theorem att_id_names_the_key conn conn' a a' :
  0 <= conn -> 0 <= conn' ->
  (event_att_id conn a = event_att_id conn' a'
   <-> event_key conn a = event_key conn' a').
Proof.
  intros Hc Hc'. unfold event_att_id, event_key. split.
  - intros H.
    change ("-" +:+ ?x)%string with (String "-" x) in H.
    apply str_of_Z_dash_split in H as [-> H]; try assumption.
    change (String "-" ?x) with ("-" +:+ x)%string in H.
    apply str_app_inj_r in H as [Hu Ht].
    + apply str_cons_inj in Ht. apply id_ts_same in Ht. now rewrite Hu, Ht.
    + rewrite !strftime_id. reflexivity.
  - intros H.
    assert (H1 := f_equal (fun k => fst (fst k)) H).
    assert (H2 := f_equal (fun k => snd (fst k)) H).
    assert (H3 := f_equal snd H). cbn [fst snd] in H1, H2, H3.
    apply id_ts_same in H3. now rewrite H1, H2, H3.
Qed.

Lemma att_id_names_the_key_witness :
  event_att_id 1 (mk_zk_att "7-1" (datetime.mk 2024 1 10 10 0 5 0))
  <> event_att_id 1 (mk_zk_att "7" (datetime.mk 2024 1 10 10 0 5 0)).
Proof.
  intros H.
  apply (att_id_names_the_key 1 1) in H; [discriminate | lia | lia].
Defined.

(** ** The application: retention *)

Import App.
Local Open Scope app_scope.

Lemma abind_ok {A B} (m : AM A) (k : A -> AM B) a a' x :
  m a = (a', Ok x) -> abind m k a = k x a'.
Proof. intros H. unfold abind. now rewrite H. Qed.

Lemma abind_raise {A B} (m : AM A) (k : A -> AM B) a a' e :
  m a = (a', Raise e) -> abind m k a = (a', Raise e).
Proof. intros H. unfold abind. now rewrite H. Qed.

Lemma atry_ok {A} (m : AM A) h a a' x :
  m a = (a', Ok x) -> atry m h a = (a', Ok x).
Proof. intros H. unfold atry. now rewrite H. Qed.

Lemma atry_raise {A} (m : AM A) h a a' e :
  m a = (a', Raise e) -> atry m h a = h e a'.
Proof. intros H. unfold atry. now rewrite H. Qed.

Lemma atry_bind_ok {A B} (m : AM A) (k : A -> AM B) h a a' x :
  m a = (a', Ok x) -> atry (abind m k) h a = atry (k x) h a'.
Proof. intros H. unfold atry, abind. now rewrite H. Qed.

Lemma atry_bind_raise {A B} (m : AM A) (k : A -> AM B) h a a' e :
  m a = (a', Raise e) -> atry (abind m k) h a = h e a'.
Proof. intros H. unfold atry, abind. now rewrite H. Qed.

Lemma app_now_eq E a :
  in_store (datetime_now E) a
  = (set_store (set_tick S (store a)) a, Ok (clock E (tick (store a)))).
Proof. reflexivity. Qed.

Lemma app_get_eq {A} (f : world -> A) a :
  in_store (get f) a = (set_store (store a) a, Ok (f (store a))).
Proof. reflexivity. Qed.

Lemma set_store_id a : set_store (store a) a = a.
Proof. now destruct a. Qed.

Lemma app_log_eq E op n c a :
  App.log_operation E op n c a = (app_logged E op n c a, Ok tt).
Proof. reflexivity. Qed.

Lemma delete_attendance_where_eq cutoff conn_id a :
  delete_attendance_where cutoff conn_id a =
    (set_store (set_attendance (kept_attendance cutoff conn_id
                                  (attendance (store a)))
                               (attendance_seq (store a)) (store a)) a, Ok tt).
Proof. reflexivity. Qed.

Lemma delete_logs_where_eq cutoff conn_id a :
  delete_logs_where cutoff conn_id a =
    (set_notices (kept_notices cutoff conn_id (notices a))
       (set_store (set_logs (kept_logs cutoff conn_id (logs (store a)))
                            (store a)) a), Ok tt).
Proof. reflexivity. Qed.

Lemma app_logged_store E op n c a :
  store (app_logged E op n c a) = set_tick S (store a).
Proof. reflexivity. Qed.

Lemma app_logged_notices E op n c a :
  notices (app_logged E op n c a)
  = notices a ++ [mk_notice c
      (datetime.strftime (clock E (tick (store a))) TS_FORMAT) op n].
Proof. reflexivity. Qed.

Lemma app_logged_attrs E op n c a :
  connections_list (app_logged E op n c a) = connections_list a
  /\ scheduler_running (app_logged E op n c a) = scheduler_running a
  /\ scheduler_status_var (app_logged E op n c a) = scheduler_status_var a
  /\ last_run_var (app_logged E op n c a) = last_run_var a
  /\ next_run_var (app_logged E op n c a) = next_run_var a
  /\ threads (app_logged E op n c a) = threads a.
Proof. now repeat split. Qed.

(** Rows stamped with renderings: the comparison with a rendered
    cut-off is the comparison of the instants, to the second. *)
Lemma is_old_rendered cutoff d c :
  datetime.valid cutoff -> datetime.valid d ->
  is_old (datetime.strftime cutoff TS_FORMAT) None
         (datetime.strftime d TS_FORMAT) c
  = (calendar.seconds d <? calendar.seconds cutoff).
Proof.
  intros Hc Hd. unfold is_old. rewrite andb_true_r.
  now apply datetime_facts.str_ltb_strftime.
Qed.

Lemma clean_old_attendance_run E a days cutoff :
  default 180 (settings (store a) !! "delete_attendance_days"%string) = days ->
  datetime.sub (clock E (tick (store a))) (datetime.timedelta_days days)
    = Some cutoff ->
  _clean_old_attendance_from_settings E a =
    (app_logged E "Scheduler" (NoteCleanedAttendance days) None
       (set_store
          (set_attendance
             (kept_attendance (datetime.strftime cutoff TS_FORMAT) None
                (attendance (store a)))
             (attendance_seq (store a)) (set_tick S (store a)))
          a), Ok tt).
Proof.
  intros Hdays Hsub. unfold _clean_old_attendance_from_settings.
  rewrite (abind_ok _ _ _ _ _ (app_get_eq _ _)). rewrite set_store_id, Hdays.
  rewrite (abind_ok _ _ _ _ _ (app_now_eq _ _)).
  assert (Hl : alift (of_option OverflowError
                 (datetime.sub (clock E (tick (store a)))
                    (datetime.timedelta_days days)))
                 (set_store (set_tick S (store a)) a)
               = (set_store (set_tick S (store a)) a, Ok cutoff)).
  { unfold alift. now rewrite Hsub. }
  rewrite (abind_ok _ _ _ _ _ Hl). cbv zeta.
  rewrite (abind_ok _ _ _ _ _ (delete_attendance_where_eq _ _ _)).
  rewrite app_log_eq. reflexivity.
Qed.

Lemma cutoff_seconds d days cutoff :
  datetime.valid d ->
  datetime.sub d (datetime.timedelta_days days) = Some cutoff ->
  datetime.valid cutoff
  /\ calendar.seconds cutoff = calendar.seconds d - 86400 * days.
Proof.
  intros Hv Hsub. rewrite sub_eq in Hsub.
  destruct (datetime_facts.add_spec _ _ _ Hv Hsub) as (H1 & H2 & _).
  split; [exact H1|]. rewrite H2. unfold datetime.timedelta_days. lia.
Qed.

(** X11.  With a valid clock reading from which the retention period can be
    subtracted, the retention of the attendance run by the scheduler
    returns normally and deletes exactly the rows whose timestamp, as
    text, is below the rendered cut-off.  A row stamped with a valid
    datetime stays exactly when it is at most [delete_attendance_days]
    (180 by default) days older than the clock reading.  Users,
    machines, the counter and the log of the engine are untouched, and
    one row is logged. *)
Theorem scheduled_retention_deletes_by_age E a cutoff :
  let w := store a in
  let days := default 180 (settings w !! "delete_attendance_days"%string) in
  datetime.valid (clock E (tick w)) ->
  datetime.sub (clock E (tick w)) (datetime.timedelta_days days) = Some cutoff ->
  exists a',
    _clean_old_attendance_from_settings E a = (a', Ok tt)
    /\ attendance (store a')
       = List.filter
           (fun r => negb (str_ltb (a_timestamp r)
                                   (datetime.strftime cutoff TS_FORMAT)))
           (attendance w)
    /\ (forall r d,
          In r (attendance w) -> datetime.valid d ->
          a_timestamp r = datetime.strftime d TS_FORMAT ->
          (In r (attendance (store a'))
           <-> calendar.seconds (clock E (tick w)) - 86400 * days
               <= calendar.seconds d))
    /\ users (store a') = users w /\ machines (store a') = machines w
    /\ attendance_seq (store a') = attendance_seq w
    /\ logs (store a') = logs w
    /\ exists ts,
         notices a' = notices a ++ [mk_notice None ts "Scheduler"
                                      (NoteCleanedAttendance days)].
Proof.
  intros w days. generalize (eq_refl days). generalize days at 2 3 4 5.
  intros n Hdays Hv Hsub. subst w. 
  rewrite (clean_old_attendance_run E a n cutoff Hdays Hsub).
  destruct (cutoff_seconds _ _ _ Hv Hsub) as [Hvc Hsec].
  eexists. split; [reflexivity|].
  rewrite app_logged_store, app_logged_notices.
  change (attendance (set_tick S (store (set_store ?w a)))) with (attendance w).
  cbn [attendance set_attendance].
  split.
  { unfold kept_attendance, is_old.
    apply List.filter_ext. intros r. now rewrite andb_true_r. }
  split.
  { intros r d Hin Hvd Hts. unfold kept_attendance.
    rewrite filter_In, Hts, is_old_rendered by assumption.
    rewrite negb_true_iff, Z.ltb_ge, Hsec. tauto. }
  split; [reflexivity|]. split; [reflexivity|]. split; [reflexivity|].
  split; [reflexivity|]. eexists. reflexivity.
Qed.

Lemma scheduled_retention_deletes_by_age_witness :
  exists a',
    _clean_old_attendance_from_settings retry_env office = (a', Ok tt)
    /\ map a_id (attendance (store a')) = [2; 4].
Proof.
  destruct (scheduled_retention_deletes_by_age retry_env office
              (datetime.mk 2023 7 14 10 0 0 0) eq_refl eq_refl)
    as (a' & Hrun & Hatt & _).
  exists a'. split; [exact Hrun|]. rewrite Hatt. reflexivity.
Defined.

(** ** The application: cleanup from the buttons *)

Lemma str_app_empty_r (s : string) : (s +:+ EmptyString)%string = s.
Proof.
  induction s as [|c s IH]; [reflexivity|].
  rewrite str_app_cons. now rewrite IH.
Qed.

(** A string against a string of the same length followed by more. *)
Lemma str_compare_longer (a b s : string) :
  String.length a = String.length b -> s <> EmptyString ->
  String.compare a (b +:+ s)
  = match String.compare a b with Eq => Lt | c => c end.
Proof.
  revert b. induction a as [|x a IH]; intros [|y b] Hl Hs; try discriminate.
  - rewrite str_app_nil. destruct s; [contradiction | reflexivity].
  - rewrite str_app_cons, !datetime_facts.str_compare_cons.
    injection Hl as Hl. rewrite (IH b Hl Hs).
    destruct (Ascii.compare x y); reflexivity.
Qed.

Lemma adapt_datetime_eq d :
  adapt_datetime d
  = (datetime.strftime d TS_FORMAT
     +:+ (if Z.eqb (datetime.microsecond d) 0 then EmptyString
          else "." +:+ pad6 (datetime.microsecond d)))%string.
Proof. reflexivity. Qed.

Lemma strftime_ts_length d :
  String.length (datetime.strftime d TS_FORMAT) = 19%nat.
Proof. now rewrite datetime_facts.strftime_ts. Qed.

(** X12.  The cut-off of the buttons is a datetime bound to the statement,
    which [sqlite3] renders with [isoformat(" ")].  A stored timestamp
    of the format of the program is below it, as text, exactly when its
    instant (at microsecond 0) is before the datetime: the comparison by
    text is the comparison by time, and a row of the very second of the
    cut-off is deleted when the cut-off has microseconds. *)
Theorem bound_datetime_compares_by_instant d c :
  datetime.valid d -> datetime.valid c ->
  str_ltb (datetime.strftime d TS_FORMAT) (adapt_datetime c)
  = datetime.ltb (datetime.whole_second d) c.
Proof.
  intros Hd Hc. rewrite adapt_datetime_eq.
  assert (Hwd := datetime_facts.valid_whole_second d Hd).
  unfold datetime.ltb.
  rewrite (datetime_facts.compare_seconds _ _ Hwd Hc).
  rewrite datetime_facts.seconds_whole_second.
  change (datetime.microsecond (datetime.whole_second d)) with 0.
  destruct (datetime.microsecond c =? 0) eqn:Hm.
  - apply Z.eqb_eq in Hm. rewrite Hm, str_app_empty_r.
    rewrite (datetime_facts.str_ltb_strftime _ _ Hd Hc).
    unfold Z.ltb. now destruct (calendar.seconds d ?= calendar.seconds c).
  - apply Z.eqb_neq in Hm.
    assert (Hpos : 0 < datetime.microsecond c).
    { apply datetime_facts.valid_iff in Hc. lia. }
    unfold str_ltb, String.ltb.
    rewrite str_compare_longer;
      [|now rewrite !strftime_ts_length | discriminate].
    rewrite (datetime_facts.strftime_compare _ _ Hd Hc).
    assert (Hwc := datetime_facts.valid_whole_second c Hc).
    rewrite (datetime_facts.compare_seconds _ _ Hwd Hwc).
    rewrite !datetime_facts.seconds_whole_second.
    change (datetime.microsecond (datetime.whole_second d)) with 0.
    change (datetime.microsecond (datetime.whole_second c)) with 0.
    apply Z.compare_lt_iff in Hpos. rewrite Hpos.
    now destruct (calendar.seconds d ?= calendar.seconds c).
Qed.

Lemma bound_datetime_compares_by_instant_witness :
  str_ltb "2024-01-10 10:00:00"
          (adapt_datetime (datetime.mk 2024 1 10 10 0 0 500000)) = true.
Proof.
  exact (bound_datetime_compares_by_instant
           (datetime.mk 2024 1 10 10 0 0 0)
           (datetime.mk 2024 1 10 10 0 0 500000) eq_refl eq_refl).
Defined.

Lemma filter_machine_eq name a :
  filter_machine name a = (a, Ok (cleanup_scope name a)).
Proof.
  unfold filter_machine, cleanup_scope.
  destruct (String.eqb name "All"); [reflexivity|].
  unfold abind, aget.
  now destruct (truthy_id (get_connection_id_from_name name a)).
Qed.

Lemma cleanup_scope_tick name f a :
  cleanup_scope name (set_store (set_tick f (store a)) a) = cleanup_scope name a.
Proof. reflexivity. Qed.

Lemma delete_old_attendance_run E period name askyesno a days cutoff :
  attendance_days_map period = Some days ->
  datetime.sub (clock E (tick (store a))) (datetime.timedelta_days days)
    = Some cutoff ->
  delete_old_attendance E period name askyesno a =
    if askyesno then
      (app_logged E "Data Cleanup" (NoteDeletedOld days name) None
         (set_store
            (set_attendance
               (kept_attendance (adapt_datetime cutoff) (cleanup_scope name a)
                  (attendance (store a)))
               (attendance_seq (store a)) (set_tick S (store a)))
            a), Ok Confirmed)
    else (set_store (set_tick S (store a)) a, Ok Declined).
Proof.
  intros Hdays Hsub. unfold delete_old_attendance. rewrite Hdays.
  rewrite (abind_ok _ _ _ _ _ (app_now_eq _ _)).
  assert (Hl : alift (of_option OverflowError
                 (datetime.sub (clock E (tick (store a)))
                    (datetime.timedelta_days days)))
                 (set_store (set_tick S (store a)) a)
               = (set_store (set_tick S (store a)) a, Ok cutoff)).
  { unfold alift. now rewrite Hsub. }
  rewrite (abind_ok _ _ _ _ _ Hl).
  rewrite (abind_ok _ _ _ _ _ (filter_machine_eq _ _)).
  rewrite cleanup_scope_tick.
  destruct askyesno; [|reflexivity].
  rewrite (abind_ok _ _ _ _ _ (delete_attendance_where_eq _ _ _)).
  rewrite (abind_ok _ _ _ _ _ (app_log_eq _ _ _ _ _)). reflexivity.
Qed.

Lemma kept_attendance_in cutoff scope rows r :
  In r (kept_attendance cutoff scope rows) <->
  In r rows
  /\ (str_ltb (a_timestamp r) cutoff = false
      \/ exists c, scope = Some c /\ a_connection_id r <> c).
Proof.
  unfold kept_attendance. rewrite filter_In, negb_true_iff. unfold is_old.
  rewrite andb_false_iff. destruct scope as [c|].
  - rewrite Z.eqb_neq. split; intros [Hin [H | H]]; (split; [exact Hin|]); auto.
    + right. now exists c.
    + destruct H as (c' & [= <-] & H). now right.
  - split; intros [Hin [H | H]]; (split; [exact Hin|]); auto.
    + discriminate.
    + now destruct H as (c' & [=] & _).
Qed.

(** X13.  The cleanup of the attendance from the button does nothing for a
    period outside its list, and nothing when the operator declines.
    Confirmed, it deletes the rows below the cut-off of all machines
    when the filter is ["All"] or names no machine of
    [connections_list], and those of the named machine alone
    otherwise. *)
Theorem manual_retention_scope E period name a :
  (attendance_days_map period = None ->
   forall askyesno,
     delete_old_attendance E period name askyesno a = (a, Ok Warned))
  /\ (forall days cutoff,
        attendance_days_map period = Some days ->
        datetime.sub (clock E (tick (store a))) (datetime.timedelta_days days)
          = Some cutoff ->
        (exists a',
           delete_old_attendance E period name false a = (a', Ok Declined)
           /\ attendance (store a') = attendance (store a)
           /\ notices a' = notices a)
        /\ exists a',
             delete_old_attendance E period name true a = (a', Ok Confirmed)
             /\ (name = "All"%string
                 \/ get_connection_id_from_name name a = None
                 \/ get_connection_id_from_name name a = Some 0 ->
                 forall r,
                   In r (attendance (store a')) <->
                   In r (attendance (store a))
                   /\ str_ltb (a_timestamp r) (adapt_datetime cutoff) = false)
             /\ (forall c,
                   name <> "All"%string ->
                   get_connection_id_from_name name a = Some c -> c <> 0 ->
                   forall r,
                     In r (attendance (store a')) <->
                     In r (attendance (store a))
                     /\ (str_ltb (a_timestamp r) (adapt_datetime cutoff) = false
                         \/ a_connection_id r <> c))).
Proof.
  split.
  - intros Hnone askyesno. unfold delete_old_attendance. now rewrite Hnone.
  - intros days cutoff Hdays Hsub. split.
    + eexists. split;
        [exact (delete_old_attendance_run E period name false a days cutoff
                  Hdays Hsub)|].
      now split.
    + eexists. split;
        [exact (delete_old_attendance_run E period name true a days cutoff
                  Hdays Hsub)|].
      rewrite app_logged_store.
      change (attendance (set_tick S (store (set_store ?w a))))
        with (attendance w).
      cbn [attendance set_attendance].
      split.
      * intros Hcase r.
        assert (Hscope : cleanup_scope name a = None).
        { unfold cleanup_scope. destruct Hcase as [-> | [-> | ->]];
            [reflexivity | |]; now destruct (String.eqb name "All"). }
        rewrite kept_attendance_in, Hscope.
        split; intros [Hin H]; (split; [exact Hin|]); [|now left].
        destruct H as [H | (c & [=] & _)]; exact H.
      * intros c Hname Hget Hc r.
        assert (Hscope : cleanup_scope name a = Some c).
        { unfold cleanup_scope. apply String.eqb_neq in Hname.
          rewrite Hname, Hget. simpl. apply Z.eqb_neq in Hc. now rewrite Hc. }
        rewrite kept_attendance_in, Hscope.
        split; intros [Hin H]; (split; [exact Hin|]).
        -- destruct H as [H | (c' & [= <-] & H)]; auto.
        -- destruct H as [H | H]; [now left | right; now exists c].
Qed.

Lemma manual_retention_scope_witness :
  exists a',
    delete_old_attendance retry_env "365 Days" "Gate" true office
    = (a', Ok Confirmed)
    /\ forall r, In r (attendance (store a')) <->
                 In r (attendance office_world)
                 /\ (str_ltb (a_timestamp r) "2023-01-10 10:00:00" = false
                     \/ a_connection_id r <> 1).
Proof.
  destruct (proj2 (manual_retention_scope retry_env "365 Days" "Gate" office)
              365 (datetime.mk 2023 1 10 10 0 0 0) eq_refl eq_refl)
    as (_ & a' & Hrun & _ & Hone).
  exists a'. split; [exact Hrun|].
  apply (Hone 1); [discriminate | reflexivity | discriminate].
Defined.

Lemma is_old_false cutoff scope ts c :
  is_old cutoff scope ts c = false <->
  str_ltb ts cutoff = false
  \/ exists m, scope = Some m /\ c <> Some m.
Proof.
  unfold is_old. rewrite andb_false_iff.
  destruct scope as [m|]; [destruct c as [c|]|].
  - rewrite Z.eqb_neq. split; (intros [H | H]; [now left|]); right.
    + exists m. split; [reflexivity | congruence].
    + destruct H as (m' & [= <-] & H). congruence.
  - split; (intros [H | H]; [now left|]); right; [|reflexivity].
    now exists m.
  - split; (intros [H | H]; [now left|]); [discriminate|].
    now destruct H as (m & [=] & _).
Qed.

Lemma kept_logs_in cutoff scope rows r :
  In r (kept_logs cutoff scope rows) <->
  In r rows
  /\ (str_ltb (l_timestamp r) cutoff = false
      \/ exists m, scope = Some m /\ l_connection_id r <> Some m).
Proof.
  unfold kept_logs. now rewrite filter_In, negb_true_iff, is_old_false.
Qed.

Lemma kept_notices_in cutoff scope rows r :
  In r (kept_notices cutoff scope rows) <->
  In r rows
  /\ (str_ltb (n_timestamp r) cutoff = false
      \/ exists m, scope = Some m /\ n_connection_id r <> Some m).
Proof.
  unfold kept_notices. now rewrite filter_In, negb_true_iff, is_old_false.
Qed.

Lemma clean_old_logs_run E a days cutoff :
  default 30 (settings (store a) !! "clean_logs_days"%string) = days ->
  datetime.sub (clock E (tick (store a))) (datetime.timedelta_days days)
    = Some cutoff ->
  _clean_old_logs E a =
    (app_logged E "Scheduler" (NoteCleanedLogs days) None
       (set_notices
          (kept_notices (datetime.strftime cutoff TS_FORMAT) None (notices a))
          (set_store
             (set_logs
                (kept_logs (datetime.strftime cutoff TS_FORMAT) None
                           (logs (store a)))
                (set_tick S (store a)))
             a)), Ok tt).
Proof.
  intros Hdays Hsub. unfold _clean_old_logs.
  rewrite (abind_ok _ _ _ _ _ (app_get_eq _ _)). rewrite set_store_id, Hdays.
  rewrite (abind_ok _ _ _ _ _ (app_now_eq _ _)).
  assert (Hl : alift (of_option OverflowError
                 (datetime.sub (clock E (tick (store a)))
                    (datetime.timedelta_days days)))
                 (set_store (set_tick S (store a)) a)
               = (set_store (set_tick S (store a)) a, Ok cutoff)).
  { unfold alift. now rewrite Hsub. }
  rewrite (abind_ok _ _ _ _ _ Hl). cbv zeta.
  rewrite (abind_ok _ _ _ _ _ (delete_logs_where_eq _ _ _)).
  rewrite app_log_eq. reflexivity.
Qed.

(** X14.  With a valid clock reading from which the retention period can be
    subtracted, the retention of the log run by the scheduler returns
    normally and deletes from the log exactly the rows whose timestamp
    is below the rendered cut-off, then logs one row.  A row stamped
    with a valid datetime stays exactly when it is at most
    [clean_logs_days] (30 by default) days older than the clock reading.
    Attendance, users and machines are untouched. *)
Theorem scheduled_log_retention E a cutoff :
  let w := store a in
  let days := default 30 (settings w !! "clean_logs_days"%string) in
  datetime.valid (clock E (tick w)) ->
  datetime.sub (clock E (tick w)) (datetime.timedelta_days days) = Some cutoff ->
  exists a' ts,
    _clean_old_logs E a = (a', Ok tt)
    /\ logs (store a')
       = kept_logs (datetime.strftime cutoff TS_FORMAT) None (logs w)
    /\ notices a'
       = kept_notices (datetime.strftime cutoff TS_FORMAT) None (notices a)
         ++ [mk_notice None ts "Scheduler" (NoteCleanedLogs days)]
    /\ (forall r d,
          In r (logs w) -> datetime.valid d ->
          l_timestamp r = datetime.strftime d TS_FORMAT ->
          (In r (logs (store a'))
           <-> calendar.seconds (clock E (tick w)) - 86400 * days
               <= calendar.seconds d))
    /\ (forall r d,
          In r (notices a) -> datetime.valid d ->
          n_timestamp r = datetime.strftime d TS_FORMAT ->
          (In r (kept_notices (datetime.strftime cutoff TS_FORMAT) None
                              (notices a))
           <-> calendar.seconds (clock E (tick w)) - 86400 * days
               <= calendar.seconds d))
    /\ attendance (store a') = attendance w /\ users (store a') = users w
    /\ machines (store a') = machines w.
Proof.
  intros w days. generalize (eq_refl days). generalize days at 2 3 4 5 6.
  intros n Hdays Hv Hsub. subst w.
  rewrite (clean_old_logs_run E a n cutoff Hdays Hsub).
  destruct (cutoff_seconds _ _ _ Hv Hsub) as [Hvc Hsec].
  eexists _, _. split; [reflexivity|].
  rewrite app_logged_store, app_logged_notices.
  split; [reflexivity|]. split; [reflexivity|].
  split; [|split].
  - intros r d Hin Hvd Hts.
    change (logs (set_tick S (store (set_notices ?x (set_store ?w a)))))
      with (logs w). cbn [logs set_logs].
    rewrite kept_logs_in, Hts.
    rewrite (datetime_facts.str_ltb_strftime _ _ Hvd Hvc), Z.ltb_ge, Hsec.
    split; [intros [_ [H | (m & [=] & _)]]; exact H | intros H; now split; [|left]].
  - intros r d Hin Hvd Hts.
    rewrite kept_notices_in, Hts.
    rewrite (datetime_facts.str_ltb_strftime _ _ Hvd Hvc), Z.ltb_ge, Hsec.
    split; [intros [_ [H | (m & [=] & _)]]; exact H | intros H; now split; [|left]].
  - now repeat split.
Qed.

Lemma scheduled_log_retention_witness :
  exists a',
    _clean_old_logs retry_env office = (a', Ok tt)
    /\ map l_timestamp (logs (store a')) = ["2024-01-10 09:00:00"%string]
    /\ map n_message (notices a') = [NoteLinkMultiple; NoteCleanedLogs 30].
Proof.
  destruct (scheduled_log_retention retry_env office
              (datetime.mk 2023 12 11 10 0 0 0) eq_refl eq_refl)
    as (a' & ts & Hrun & Hlogs & Hnotes & _).
  exists a'. split; [exact Hrun|]. rewrite Hlogs, Hnotes.
  split; [reflexivity|]. rewrite map_app. reflexivity.
Defined.

Lemma delete_old_logs_run E period name askyesno a days cutoff :
  log_days_map period = Some days ->
  datetime.sub (clock E (tick (store a))) (datetime.timedelta_days days)
    = Some cutoff ->
  delete_old_logs E period name askyesno a =
    if askyesno then
      (set_notices
         (kept_notices (adapt_datetime cutoff) (cleanup_scope name a)
                       (notices a))
         (set_store
            (set_logs
               (kept_logs (adapt_datetime cutoff) (cleanup_scope name a)
                          (logs (store a)))
               (set_tick S (store a)))
            a), Ok Confirmed)
    else (set_store (set_tick S (store a)) a, Ok Declined).
Proof.
  intros Hdays Hsub. unfold delete_old_logs. rewrite Hdays.
  rewrite (abind_ok _ _ _ _ _ (app_now_eq _ _)).
  assert (Hl : alift (of_option OverflowError
                 (datetime.sub (clock E (tick (store a)))
                    (datetime.timedelta_days days)))
                 (set_store (set_tick S (store a)) a)
               = (set_store (set_tick S (store a)) a, Ok cutoff)).
  { unfold alift. now rewrite Hsub. }
  rewrite (abind_ok _ _ _ _ _ Hl).
  rewrite (abind_ok _ _ _ _ _ (filter_machine_eq _ _)).
  rewrite cleanup_scope_tick.
  destruct askyesno; [|reflexivity].
  rewrite (abind_ok _ _ _ _ _ (delete_logs_where_eq _ _ _)). reflexivity.
Qed.

(** X15.  The cleanup of the log from the button does nothing for a period
    outside its list.  Confirmed, it leaves the attendance alone and
    deletes the log rows below the cut-off: of every machine and of no
    machine when the filter is ["All"] or names no machine of
    [connections_list]; otherwise those of the named machine alone, so
    that the rows of no machine (the scheduler's, the sync pass's) stay
    whatever their age. *)
Theorem manual_log_cleanup_scope E period name a :
  (log_days_map period = None ->
   forall askyesno, delete_old_logs E period name askyesno a = (a, Ok Warned))
  /\ (forall days cutoff,
        log_days_map period = Some days ->
        datetime.sub (clock E (tick (store a))) (datetime.timedelta_days days)
          = Some cutoff ->
        exists a',
          delete_old_logs E period name true a = (a', Ok Confirmed)
          /\ attendance (store a') = attendance (store a)
          /\ (name = "All"%string
              \/ get_connection_id_from_name name a = None
              \/ get_connection_id_from_name name a = Some 0 ->
              (forall r,
                 In r (logs (store a')) <->
                 In r (logs (store a))
                 /\ str_ltb (l_timestamp r) (adapt_datetime cutoff) = false)
              /\ forall r,
                   In r (notices a') <->
                   In r (notices a)
                   /\ str_ltb (n_timestamp r) (adapt_datetime cutoff) = false)
          /\ (forall c,
                name <> "All"%string ->
                get_connection_id_from_name name a = Some c -> c <> 0 ->
                (forall r,
                   In r (logs (store a')) <->
                   In r (logs (store a))
                   /\ (str_ltb (l_timestamp r) (adapt_datetime cutoff) = false
                       \/ l_connection_id r <> Some c))
                /\ forall r,
                     In r (notices a') <->
                     In r (notices a)
                     /\ (str_ltb (n_timestamp r) (adapt_datetime cutoff) = false
                         \/ n_connection_id r <> Some c))).
Proof.
  split.
  - intros Hnone askyesno. unfold delete_old_logs. now rewrite Hnone.
  - intros days cutoff Hdays Hsub.
    eexists. split;
      [exact (delete_old_logs_run E period name true a days cutoff Hdays Hsub)|].
    split; [reflexivity|].
    change (logs (store (set_notices ?x (set_store ?w a)))) with (logs w).
    cbn [logs set_logs notices set_notices].
    split.
    + intros Hcase.
      assert (Hscope : cleanup_scope name a = None).
      { unfold cleanup_scope. destruct Hcase as [-> | [-> | ->]];
          [reflexivity | |]; now destruct (String.eqb name "All"). }
      rewrite Hscope. split; intros r.
      * rewrite kept_logs_in.
        split; intros [Hin H]; (split; [exact Hin|]); [|now left].
        destruct H as [H | (c & [=] & _)]; exact H.
      * rewrite kept_notices_in.
        split; intros [Hin H]; (split; [exact Hin|]); [|now left].
        destruct H as [H | (c & [=] & _)]; exact H.
    + intros c Hname Hget Hc.
      assert (Hscope : cleanup_scope name a = Some c).
      { unfold cleanup_scope. apply String.eqb_neq in Hname.
        rewrite Hname, Hget. simpl. apply Z.eqb_neq in Hc. now rewrite Hc. }
      rewrite Hscope. split; intros r.
      * rewrite kept_logs_in.
        split; intros [Hin H]; (split; [exact Hin|]).
        -- destruct H as [H | (c' & [= <-] & H)]; auto.
        -- destruct H as [H | H]; [now left | right; now exists c].
      * rewrite kept_notices_in.
        split; intros [Hin H]; (split; [exact Hin|]).
        -- destruct H as [H | (c' & [= <-] & H)]; auto.
        -- destruct H as [H | H]; [now left | right; now exists c].
Qed.

Lemma manual_log_cleanup_scope_witness :
  exists a',
    delete_old_logs retry_env "7 Days" "All" true office = (a', Ok Confirmed)
    /\ forall r, In r (logs (store a')) <->
                 In r (logs office_world)
                 /\ str_ltb (l_timestamp r) "2024-01-03 10:00:00" = false.
Proof.
  destruct (proj2 (manual_log_cleanup_scope retry_env "7 Days" "All" office)
              7 (datetime.mk 2024 1 3 10 0 0 0) eq_refl eq_refl)
    as (a' & Hrun & _ & Hall & _).
  exists a'. split; [exact Hrun|].
  apply (proj1 (Hall (or_introl eq_refl))).
Defined.

(** ** The application: machines *)

Lemma insert_by_name_in m l x :
  In x (insert_by_name m l) <-> x = m \/ In x l.
Proof.
  induction l as [|y l IH]; simpl.
  - split; [intros [<- | []]; now left | intros [-> | []]; now left].
  - destruct (str_ltb (m_name m) (m_name y)); simpl.
    + split; [intros [<- | H]; auto | intros [-> | H]; auto].
    + rewrite IH. split; [intros [<- | [-> | H]] | intros [-> | [<- | H]]]; auto.
Qed.

Lemma order_by_name_in l x : In x (order_by_name l) <-> In x l.
Proof.
  unfold order_by_name.
  assert (H : forall acc,
            In x (fold_left (fun acc m => insert_by_name m acc) l acc)
            <-> In x acc \/ In x l).
  { induction l as [|m l IH]; intros acc; simpl.
    - tauto.
    - rewrite IH, insert_by_name_in. split; [intros [[-> | H] | H] | intros [H | [-> | H]]]; auto. }
  rewrite H. simpl. tauto.
Qed.

Lemma str_ltb_asym a b : str_ltb a b = true -> str_ltb b a = false.
Proof.
  unfold str_ltb, String.ltb. rewrite (String.compare_antisym b a).
  now destruct (String.compare a b).
Qed.

Lemma insert_by_name_sorted m l :
  names_sorted l -> names_sorted (insert_by_name m l).
Proof.
  induction l as [|x l IH]; intros Hs; [exact Logic.I|].
  simpl insert_by_name. destruct (str_ltb (m_name m) (m_name x)) eqn:Hlt.
  - split; [now apply str_ltb_asym | exact Hs].
  - destruct l as [|y l].
    + simpl. now split.
    + destruct Hs as [Hxy Hs]. specialize (IH Hs).
      simpl insert_by_name in *.
      destruct (str_ltb (m_name m) (m_name y)).
      * split; [exact Hlt|]. exact IH.
      * split; [exact Hxy | exact IH].
Qed.

Lemma order_by_name_sorted l : names_sorted (order_by_name l).
Proof.
  unfold order_by_name.
  assert (H : forall acc, names_sorted acc ->
            names_sorted (fold_left (fun acc m => insert_by_name m acc) l acc)).
  { induction l as [|m l IH]; intros acc Hacc; simpl; [exact Hacc|].
    apply IH. now apply insert_by_name_sorted. }
  apply H. exact Logic.I.
Qed.

Lemma delete_connection_run id a :
  delete_connection (Some id) true a =
    (let a1 := fst (delete_machine id a) in
     set_connections_list (order_by_name (machines (store a1))) a1, Ok Confirmed).
Proof. reflexivity. Qed.

(** X16.  The deletion of a machine does nothing without a row in focus and
    nothing when the operator declines.  Confirmed, it removes the
    machine of that id and, with it, exactly the users, the attendance
    and the log rows that refer to it; the store is as before when no
    machine has the id.  [connections_list] is then reloaded: it holds
    the machines left, in the order of their names. *)
Theorem deleting_a_machine_cascades id a :
  (forall askyesno, delete_connection None askyesno a = (a, Ok Warned))
  /\ delete_connection (Some id) false a = (a, Ok Declined)
  /\ exists a',
       delete_connection (Some id) true a = (a', Ok Confirmed)
       /\ (forall m, In m (machines (store a')) <->
                     In m (machines (store a)) /\ m_id m <> id)
       /\ (In id (map m_id (machines (store a))) ->
           (forall r, In r (users (store a')) <->
                      In r (users (store a)) /\ u_connection_id r <> id)
           /\ (forall r, In r (attendance (store a')) <->
                         In r (attendance (store a)) /\ a_connection_id r <> id)
           /\ (forall r, In r (logs (store a')) <->
                         In r (logs (store a)) /\ l_connection_id r <> Some id)
           /\ (forall r, In r (notices a') <->
                         In r (notices a) /\ n_connection_id r <> Some id))
       /\ (~ In id (map m_id (machines (store a))) ->
           store a' = store a /\ notices a' = notices a)
       /\ (forall m, In m (connections_list a') <-> In m (machines (store a')))
       /\ names_sorted (connections_list a').
Proof.
  split; [reflexivity|]. split; [reflexivity|].
  eexists. split; [apply delete_connection_run|]. cbv zeta.
  cbn [store connections_list set_connections_list notices].
  assert (Hex : existsb (fun m => m_id m =? id) (machines (store a)) = true
                <-> In id (map m_id (machines (store a)))).
  { rewrite existsb_exists, in_map_iff. split.
    - intros (m & Hm & Heq). exists m. apply Z.eqb_eq in Heq. now split.
    - intros (m & Heq & Hm). exists m. split; [exact Hm | now apply Z.eqb_eq]. }
  assert (Hrefers : forall c, refers_to id c = false <-> c <> Some id).
  { intros [c|]; simpl; [|split; [discriminate | reflexivity]].
    rewrite Z.eqb_neq. split; congruence. }
  unfold delete_machine, amodify. cbn [fst]. cbv zeta.
  destruct (existsb (fun m => m_id m =? id) (machines (store a))) eqn:Hb.
  - cbn [store set_store set_notices notices machines set_machines set_users
         set_attendance set_logs users attendance logs].
    split.
    { intros m. rewrite filter_In, negb_true_iff, Z.eqb_neq. tauto. }
    split.
    { intros _. split; [|split; [|split]]; intros r;
        rewrite filter_In, negb_true_iff.
      - rewrite Z.eqb_neq. tauto.
      - rewrite Z.eqb_neq. tauto.
      - rewrite Hrefers. tauto.
      - rewrite Hrefers. tauto. }
    split.
    { intros Hn. exfalso. apply Hn, Hex. reflexivity. }
    split; [intros m; apply order_by_name_in | apply order_by_name_sorted].
  - split.
    { intros m. split; [|tauto]. intros Hm. split; [exact Hm|].
      intros Heq. assert (Hin : In id (map m_id (machines (store a)))).
      { rewrite <- Heq. now apply in_map. }
      apply Hex in Hin. congruence. }
    split.
    { intros Hin. apply Hex in Hin. congruence. }
    split; [now split|].
    split; [intros m; apply order_by_name_in | apply order_by_name_sorted].
Qed.

Lemma deleting_a_machine_cascades_witness :
  exists a',
    delete_connection (Some 1) true office = (a', Ok Confirmed)
    /\ (forall r, In r (attendance (store a')) <->
                  In r (attendance office_world) /\ a_connection_id r <> 1)
    /\ names_sorted (connections_list a').
Proof.
  destruct (proj2 (proj2 (deleting_a_machine_cascades 1 office)))
    as (a' & Hrun & _ & Hcascade & _ & _ & Hsorted).
  exists a'. split; [exact Hrun|]. split; [|exact Hsorted].
  apply Hcascade. now left.
Defined.

Lemma app_authenticate_eq E a :
  in_store (rpc_authenticate E) a =
    (set_store (set_rpc (rpc (store a) ++ [RpcAuthenticate])
                        (set_tick S (store a))) a,
     authenticate E (tick (store a))).
Proof. reflexivity. Qed.

Lemma rpc_search_machine_eq search name a :
  rpc_search_machine search name a =
    (set_store (set_tick S (store a)) a, search (tick (store a)) name).
Proof.
  unfold rpc_search_machine, abind, in_store, next_tick, alift. reflexivity.
Qed.

Lemma update_machine_link_eq oid tz id a :
  update_machine_link oid tz id a =
    (set_store
       (set_machines
          (map (fun m => if m_id m =? id
                         then mk_machine (m_id m) (m_name m) (Some oid) tz
                         else m) (machines (store a)))
          (store a)) a, Ok tt).
Proof. reflexivity. Qed.

(** X17.  The link of a machine never raises, and changes nothing in the
    tables but the link of that machine: users, attendance, settings and
    connection details are as before.  Without a remote name or without
    complete connection details nothing at all changes.  Only when the
    search gives exactly one record are the remote id and the timezone
    of the machine of this id set, from that record (an empty timezone
    as NULL, never as the empty text); in every other case the machines
    are as before. *)
Theorem link_sets_one_machine E search conn_id odoo_machine_name a :
  exists a' res,
    _link_machine_thread E search conn_id odoo_machine_name a = (a', Ok res)
    /\ link_frame a a'
    /\ (truthy_str odoo_machine_name = false
        \/ configured (odoo_details (store a)) = false ->
        a' = a /\ (res = LinkNoName \/ res = LinkNotConfigured))
    /\ match res with
       | Linked oid tz =>
           machines (store a')
           = map (fun m => if m_id m =? conn_id
                           then mk_machine (m_id m) (m_name m) (Some oid) tz
                           else m) (machines (store a))
           /\ tz <> Some EmptyString
           /\ exists t tz0,
                search t (default EmptyString odoo_machine_name)
                = Ok [mk_odoo_machine oid tz0]
                /\ tz = (if truthy_str tz0 then tz0 else None)
       | _ => machines (store a') = machines (store a)
       end.
Proof.
  unfold _link_machine_thread.
  destruct (truthy_str odoo_machine_name) eqn:Hname; cbn [negb].
  2:{ exists a, LinkNoName. split; [reflexivity|]. split; [now repeat split|].
      split; [intros _; split; [reflexivity | now left] | reflexivity]. }
  cbv zeta. rewrite (abind_ok _ _ _ _ _ (app_get_eq _ _)), set_store_id.
  destruct (configured (odoo_details (store a))) eqn:Hconf; cbn [negb].
  2:{ exists a, LinkNotConfigured. split; [reflexivity|].
      split; [now repeat split|].
      split; [intros _; split; [reflexivity | now right] | reflexivity]. }
  assert (Ha := app_authenticate_eq E a).
  set (a1 := set_store _ a) in Ha.
  destruct (authenticate E (tick (store a))) as [uid|e] eqn:Hauth.
  2:{ rewrite (atry_bind_raise _ _ _ _ _ _ Ha).
      rewrite (abind_ok _ _ _ _ _ (app_log_eq _ _ _ _ _)).
      eexists _, (LinkFailed e). split; [reflexivity|].
      split; [now repeat split|]. split; [intros [H | H]; discriminate|].
      reflexivity. }
  rewrite (atry_bind_ok _ _ _ _ _ _ Ha).
  destruct (truthy_id uid) eqn:Huid; cbn [negb].
  2:{ eexists _, LinkAuthFailed. split; [reflexivity|].
      split; [now repeat split|]. split; [intros [H | H]; discriminate|].
      reflexivity. }
  rewrite (atry_bind_ok _ _ _ _ _ _ (app_log_eq _ _ _ _ _)).
  set (a2 := app_logged _ _ _ _ a1).
  assert (Hs := rpc_search_machine_eq search
                  (default EmptyString odoo_machine_name) a2).
  set (a3 := set_store _ a2) in Hs.
  destruct (search (tick (store a2)) (default EmptyString odoo_machine_name))
    as [[|odoo_data [|x l]]|e] eqn:Hsearch.
  - rewrite (atry_bind_ok _ _ _ _ _ _ Hs).
    rewrite (atry_bind_ok _ _ _ _ _ _ (app_log_eq _ _ _ _ _)).
    eexists _, LinkNotFound. split; [reflexivity|].
    split; [now repeat split|]. split; [intros [H | H]; discriminate|].
    reflexivity.
  - rewrite (atry_bind_ok _ _ _ _ _ _ Hs). cbv zeta.
    rewrite (atry_bind_ok _ _ _ _ _ _ (update_machine_link_eq _ _ _ _)).
    rewrite (atry_bind_ok _ _ _ _ _ _ (app_log_eq _ _ _ _ _)).
    eexists _, (Linked _ _). split; [reflexivity|].
    split; [now repeat split|]. split; [intros [H | H]; discriminate|].
    split; [reflexivity|]. split.
    + destruct (om_timezone odoo_data) as [tz0|]; [|discriminate].
      simpl. destruct (String.eqb tz0 EmptyString) eqn:Htz; simpl;
        [discriminate|].
      apply String.eqb_neq in Htz. congruence.
    + exists (tick (store a2)), (om_timezone odoo_data).
      split; [now destruct odoo_data | reflexivity].
  - rewrite (atry_bind_ok _ _ _ _ _ _ Hs).
    rewrite (atry_bind_ok _ _ _ _ _ _ (app_log_eq _ _ _ _ _)).
    eexists _, LinkMultiple. split; [reflexivity|].
    split; [now repeat split|]. split; [intros [H | H]; discriminate|].
    reflexivity.
  - rewrite (atry_bind_raise _ _ _ _ _ _ Hs).
    rewrite (abind_ok _ _ _ _ _ (app_log_eq _ _ _ _ _)).
    eexists _, (LinkFailed e). split; [reflexivity|].
    split; [now repeat split|]. split; [intros [H | H]; discriminate|].
    reflexivity.
Qed.

Lemma link_sets_one_machine_witness :
  exists a',
    _link_machine_thread retry_env one_machine_server 2
      (Some "Main gate"%string) office
    = (a', Ok (Linked 41 (Some "Europe/Paris"%string)))
    /\ machines (store a')
       = [mk_machine 1 "Gate" (Some 1) None;
          mk_machine 2 "Dock" (Some 41) (Some "Europe/Paris"%string)].
Proof.
  destruct (link_sets_one_machine retry_env one_machine_server 2
              (Some "Main gate"%string) office)
    as (a' & res & Hrun & _ & _ & Hres).
  assert (res = Linked 41 (Some "Europe/Paris"%string)) as ->.
  { vm_compute in Hrun. now injection Hrun as _ <-. }
  exists a'. split; [exact Hrun|].
  destruct Hres as (Hm & _). rewrite Hm. reflexivity.
Defined.

(** ** The application: the scheduler *)

Lemma clean_old_logs_frame E a :
  cleanup_frame a (fst (_clean_old_logs E a)) (snd (_clean_old_logs E a)).
Proof.
  destruct (datetime.sub (clock E (tick (store a)))
              (datetime.timedelta_days
                 (default 30 (settings (store a) !! "clean_logs_days"%string))))
    as [cutoff|] eqn:Hsub.
  - rewrite (clean_old_logs_run E a _ cutoff eq_refl Hsub).
    unfold cleanup_frame, same_attributes. cbn [fst snd].
    rewrite app_logged_store.
    split; [now repeat split|]. split; [now left|].
    split; [reflexivity|]. split; [reflexivity|].
    split; [now intros x Hx|]. simpl. lia.
  - unfold _clean_old_logs.
    rewrite (abind_ok _ _ _ _ _ (app_get_eq _ _)), set_store_id.
    rewrite (abind_ok _ _ _ _ _ (app_now_eq _ _)).
    assert (Hl : alift (of_option OverflowError
                   (datetime.sub (clock E (tick (store a)))
                      (datetime.timedelta_days
                         (default 30 (settings (store a)
                                        !! "clean_logs_days"%string)))))
                   (set_store (set_tick S (store a)) a)
                 = (set_store (set_tick S (store a)) a, Raise OverflowError)).
    { unfold alift. now rewrite Hsub. }
    rewrite (abind_raise _ _ _ _ _ Hl).
    unfold cleanup_frame, same_attributes. cbn [fst snd].
    split; [now repeat split|]. split; [now right|].
    split; [reflexivity|]. split; [reflexivity|].
    split; [now intros x Hx|]. simpl. lia.
Qed.

Lemma clean_old_attendance_frame E a :
  cleanup_frame a (fst (_clean_old_attendance_from_settings E a))
                (snd (_clean_old_attendance_from_settings E a)).
Proof.
  destruct (datetime.sub (clock E (tick (store a)))
              (datetime.timedelta_days
                 (default 180 (settings (store a)
                                 !! "delete_attendance_days"%string))))
    as [cutoff|] eqn:Hsub.
  - rewrite (clean_old_attendance_run E a _ cutoff eq_refl Hsub).
    unfold cleanup_frame, same_attributes. cbn [fst snd].
    rewrite app_logged_store.
    split; [now repeat split|]. split; [now left|].
    split; [reflexivity|]. split; [reflexivity|].
    split; [|simpl; lia].
    intros x Hx.
    change (attendance (set_tick S (store (set_store ?w a)))) with (attendance w) in Hx.
    cbn [attendance set_attendance] in Hx. unfold kept_attendance in Hx.
    now apply filter_In in Hx as [Hx _].
  - unfold _clean_old_attendance_from_settings.
    rewrite (abind_ok _ _ _ _ _ (app_get_eq _ _)), set_store_id.
    rewrite (abind_ok _ _ _ _ _ (app_now_eq _ _)).
    assert (Hl : alift (of_option OverflowError
                   (datetime.sub (clock E (tick (store a)))
                      (datetime.timedelta_days
                         (default 180 (settings (store a)
                                        !! "delete_attendance_days"%string)))))
                   (set_store (set_tick S (store a)) a)
                 = (set_store (set_tick S (store a)) a, Raise OverflowError)).
    { unfold alift. now rewrite Hsub. }
    rewrite (abind_raise _ _ _ _ _ Hl).
    unfold cleanup_frame, same_attributes. cbn [fst snd].
    split; [now repeat split|]. split; [now right|].
    split; [reflexivity|]. split; [reflexivity|].
    split; [now intros x Hx|]. simpl. lia.
Qed.

Lemma start_fetch_threads ms : forall a,
  afor_each ms (fun machine =>
      amodify (start_thread (FetchThread (m_id machine) (m_name machine)))) a
  = (mk_app (store a) (notices a) (connections_list a) (scheduler_running a)
            (scheduler_status_var a) (last_run_var a) (next_run_var a)
            (threads a ++ map (fun m => FetchThread (m_id m) (m_name m)) ms),
     Ok tt).
Proof.
  induction ms as [|m ms IH]; intros a; simpl.
  - rewrite app_nil_r. now destruct a.
  - unfold abind, amodify. rewrite IH. simpl. now rewrite <- app_assoc.
Qed.

Lemma scheduled_run_eq E a :
  scheduler_running a = true ->
  _execute_scheduled_run E a =
    (_clean_old_logs E ;;;
     _clean_old_attendance_from_settings E ;;;
     log_operation E "Scheduler" NoteRunFinished None) (threads_started E a).
Proof.
  intros Hr. unfold _execute_scheduled_run.
  unfold abind at 1, aget at 1. rewrite Hr. cbn [negb].
  rewrite (abind_ok _ _ _ _ _ (app_now_eq _ _)).
  set (a1 := set_store (set_tick S (store a)) a).
  set (now := datetime.strftime (clock E (tick (store a))) TS_FORMAT).
  assert (H1 : amodify (set_last_run_var now) a1
               = (set_last_run_var now a1, Ok tt)) by reflexivity.
  rewrite (abind_ok _ _ _ _ _ H1).
  rewrite (abind_ok _ _ _ _ _ (app_log_eq _ _ _ _ _)).
  set (a2 := app_logged E "Scheduler" NoteRunStarting None _).
  assert (H2 : aget (fun a => machines (store a)) a2
               = (a2, Ok (machines (store a)))) by reflexivity.
  rewrite (abind_ok _ _ _ _ _ H2).
  rewrite (abind_ok _ _ _ _ _ (start_fetch_threads _ _)).
  set (a3 := mk_app _ _ _ _ _ _ _ _).
  assert (H3 : amodify (start_thread SyncThread) a3
               = (start_thread SyncThread a3, Ok tt)) by reflexivity.
  rewrite (abind_ok _ _ _ _ _ H3).
  f_equal. unfold threads_started. fold now. fold a1. fold a2.
  subst a3. unfold start_thread. cbn [store notices connections_list
    scheduler_running scheduler_status_var last_run_var next_run_var threads].
  now rewrite <- app_assoc.
Qed.

(** X18.  A run of the scheduler does nothing when the scheduler was stopped
    in the meantime.  Otherwise, on every path, it starts one fetch
    thread per machine of the table and then one sync thread, sets
    [last_run_var] to the rendering of the clock reading, leaves the
    machines and the users alone and only removes attendance rows; it
    returns normally or with the [OverflowError] of a retention period
    that cannot be subtracted, and after a normal return the last row
    logged is that of the finished run. *)
Theorem scheduled_run_starts_threads_then_cleans E a :
  (scheduler_running a = false -> _execute_scheduled_run E a = (a, Ok tt))
  /\ (scheduler_running a = true ->
      let a' := fst (_execute_scheduled_run E a) in
      let r := snd (_execute_scheduled_run E a) in
      threads a'
      = threads a
        ++ map (fun m => FetchThread (m_id m) (m_name m)) (machines (store a))
        ++ [SyncThread]
      /\ last_run_var a'
         = datetime.strftime (clock E (tick (store a))) TS_FORMAT
      /\ (r = Ok tt \/ r = Raise OverflowError)
      /\ machines (store a') = machines (store a)
      /\ users (store a') = users (store a)
      /\ (forall x, In x (attendance (store a')) -> In x (attendance (store a)))
      /\ (r = Ok tt ->
          exists rows ts,
            notices a' = rows ++ [mk_notice None ts "Scheduler" NoteRunFinished])).
Proof.
  split.
  - intros Hr. unfold _execute_scheduled_run, abind, aget. now rewrite Hr.
  - intros Hr a' r. subst a' r. rewrite (scheduled_run_eq E a Hr).
    assert (Hthreads : threads (threads_started E a) = threads a
        ++ map (fun m => FetchThread (m_id m) (m_name m)) (machines (store a))
        ++ [SyncThread]) by reflexivity.
    assert (Hlast : last_run_var (threads_started E a)
                    = datetime.strftime (clock E (tick (store a))) TS_FORMAT)
      by reflexivity.
    assert (Hm4 : machines (store (threads_started E a)) = machines (store a))
      by reflexivity.
    assert (Hu4 : users (store (threads_started E a)) = users (store a))
      by reflexivity.
    assert (Ha4 : attendance (store (threads_started E a))
                  = attendance (store a)) by reflexivity.
    generalize dependent (threads_started E a). intros a4 Hthreads Hlast Hm4 Hu4 Ha4.
    generalize (clean_old_logs_frame E a4).
    destruct (_clean_old_logs E a4) as [a5 [[]|e5]] eqn:Hc1; cbn [fst snd];
      intros (Hat5 & Hr5 & Hm5 & Hu5 & Hin5 & _).
    + rewrite (abind_ok _ _ _ _ _ Hc1).
      generalize (clean_old_attendance_frame E a5).
      destruct (_clean_old_attendance_from_settings E a5) as [a6 [[]|e6]] eqn:Hc2;
        cbn [fst snd]; intros (Hat6 & Hr6 & Hm6 & Hu6 & Hin6 & _).
      * rewrite (abind_ok _ _ _ _ _ Hc2), app_log_eq. cbn [fst snd].
        destruct (app_logged_attrs E "Scheduler" NoteRunFinished None a6)
          as (_ & _ & _ & Hl & _ & Ht).
        rewrite Ht, Hl, app_logged_store, app_logged_notices.
        destruct Hat5 as (_ & _ & _ & Hl5 & _ & Ht5).
        destruct Hat6 as (_ & _ & _ & Hl6 & _ & Ht6).
        split; [congruence|]. split; [congruence|]. split; [now left|].
        split; [simpl; congruence|]. split; [simpl; congruence|].
        split; [intros x Hx; rewrite <- Ha4; apply Hin5, Hin6, Hx|].
        intros _. eauto.
      * rewrite (abind_raise _ _ _ _ _ Hc2). cbn [fst snd].
        destruct Hat5 as (_ & _ & _ & Hl5 & _ & Ht5).
        destruct Hat6 as (_ & _ & _ & Hl6 & _ & Ht6).
        destruct Hr6 as [Hr6 | Hr6]; [discriminate|]. injection Hr6 as ->.
        split; [congruence|]. split; [congruence|]. split; [now right|].
        split; [congruence|]. split; [congruence|].
        split; [intros x Hx; rewrite <- Ha4; apply Hin5, Hin6, Hx|].
        discriminate.
    + rewrite (abind_raise _ _ _ _ _ Hc1). cbn [fst snd].
      destruct Hat5 as (_ & _ & _ & Hl5 & _ & Ht5).
      destruct Hr5 as [Hr5 | Hr5]; [discriminate|]. injection Hr5 as ->.
      split; [congruence|]. split; [congruence|]. split; [now right|].
      split; [congruence|]. split; [congruence|].
      split; [intros x Hx; rewrite <- Ha4; apply Hin5, Hx|].
      discriminate.
Qed.

Lemma scheduled_run_starts_threads_then_cleans_witness :
  threads (fst (_execute_scheduled_run retry_env office))
  = [SchedulerThread; FetchThread 1 "Gate"; FetchThread 2 "Dock"; SyncThread]
  /\ last_run_var (fst (_execute_scheduled_run retry_env office))
     = "2024-01-10 10:00:00"%string.
Proof.
  destruct (proj2 (scheduled_run_starts_threads_then_cleans retry_env office)
              eq_refl) as (Hthreads & Hlast & _).
  split; [exact Hthreads | exact Hlast].
Defined.
